(** * meshmapPoller: a shallow embedding of the AREDN mesh polling daemon

    The development embeds the parts of [backend/meshmapPoller.py] that
    carry the behaviour of the polling coordinator: the firmware
    classifier, the sysinfo parser, the topology discoverer, the cycle
    coordinator, the persistence adapter, the geodesic helper, the
    artifact emitter, the configuration manager and the node poller
    with its band table.

    Conventions of the embedding.
    - Python [str] is [string]; the model is exact on ASCII text, and a
      character above 127 is an opaque character that is neither a digit,
      nor white space, nor cased.
    - Python [int] is [Z]; a Python [float] is an exact rational [Q] in
      the data-carrying code and a real number in the trigonometric code.
    - A dynamically typed value (what [json.loads] returns) is a [pyval].
    - A [dict] is an association list in insertion order.
    - A call that may raise is a computation in the [result] monad.  *)

From Stdlib Require Import Reals Lra.
From Stdlib Require Import Bool Arith ZArith QArith Qround Lia Lqa List.
From Stdlib Require Import Ascii String DecimalString DecimalZ.
Import ListNotations.

Close Scope Q_scope.

Set Implicit Arguments.

(* ================================================================== *)
(** * Part I: the embedding                                            *)
(* ================================================================== *)

(** ** Python strings *)

Module PyStr.

Local Open Scope string_scope.
Local Open Scope nat_scope.

Definition code (c : ascii) : nat := nat_of_ascii c.

(** [str.isspace] on one character (ASCII part of the table). *)
Definition is_space (c : ascii) : bool :=
  ((9 <=? code c) && (code c <=? 13)) || ((28 <=? code c) && (code c <=? 32)).

Definition not_space (c : ascii) : bool := negb (is_space c).

(** A decimal digit, as [\d] and [int] see it. *)
Definition is_digit (c : ascii) : bool :=
  (48 <=? code c) && (code c <=? 57).

Definition digit_val (c : ascii) : Z := Z.of_nat (code c - 48).

(** [[0-9a-fA-F]] *)
Definition is_hex (c : ascii) : bool :=
  is_digit c
  || ((97 <=? code c) && (code c <=? 102))
  || ((65 <=? code c) && (code c <=? 70)).

Definition is_upper (c : ascii) : bool := (65 <=? code c) && (code c <=? 90).
Definition is_lower (c : ascii) : bool := (97 <=? code c) && (code c <=? 122).

Definition to_lower (c : ascii) : ascii :=
  if is_upper c then ascii_of_nat (code c + 32) else c.
Definition to_upper (c : ascii) : ascii :=
  if is_lower c then ascii_of_nat (code c - 32) else c.

Fixpoint map_chars (f : ascii -> ascii) (s : string) : string :=
  match s with
  | EmptyString => EmptyString
  | String c r => String (f c) (map_chars f r)
  end.

(** [s.lower()] and [s.upper()] *)
Definition lower (s : string) : string := map_chars to_lower s.
Definition upper (s : string) : string := map_chars to_upper s.

Fixpoint rev_onto (s acc : string) : string :=
  match s with
  | EmptyString => acc
  | String c r => rev_onto r (String c acc)
  end.

Definition reverse (s : string) : string := rev_onto s EmptyString.

Fixpoint lstrip (s : string) : string :=
  match s with
  | EmptyString => EmptyString
  | String c r => if is_space c then lstrip r else s
  end.

Definition rstrip (s : string) : string := reverse (lstrip (reverse s)).

(** [s.strip()] *)
Definition strip (s : string) : string := rstrip (lstrip s).

(** [s.startswith(p)] *)
Definition startswith (s p : string) : bool := String.prefix p s.

(** [s.split(sep)] for a one-character separator: never empty. *)
Fixpoint split (sep : ascii) (s : string) : list string :=
  match s with
  | EmptyString => [EmptyString]
  | String c r =>
      if Ascii.eqb c sep then EmptyString :: split sep r
      else match split sep r with
           | [] => [String c EmptyString]
           | h :: t => String c h :: t
           end
  end.

Fixpoint forallb_chars (p : ascii -> bool) (s : string) : bool :=
  match s with
  | EmptyString => true
  | String c r => p c && forallb_chars p r
  end.

(** [s.isdigit()]: at least one character, all of them digits. *)
Definition isdigit (s : string) : bool :=
  match s with
  | EmptyString => false
  | _ => forallb_chars is_digit s
  end.

Fixpoint count_digits (s : string) : nat :=
  match s with
  | EmptyString => 0
  | String c r => (if is_digit c then 1 else 0) + count_digits r
  end.

(** The digits of an integer literal: digits, with single underscores
    allowed between two digits.  [prev] tells what came just before:
    [None] at the start, [Some true] after a digit, [Some false] after
    an underscore. *)
Fixpoint int_digits (s : string) (prev : option bool) (acc : Z) : option Z :=
  match s with
  | EmptyString =>
      match prev with
      | Some true => Some acc
      | _ => None
      end
  | String c r =>
      if is_digit c then int_digits r (Some true) (acc * 10 + digit_val c)
      else if Ascii.eqb c "_"%char then
        match prev with
        | Some true => int_digits r (Some false) acc
        | _ => None
        end
      else None
  end.

(** The interpreter's default bound on the digits of a decimal literal
    ([sys.get_int_max_str_digits()]); longer literals raise
    [ValueError]. *)
Definition int_max_str_digits : nat := 4300.

Definition int_unsigned (s : string) : option Z :=
  if int_max_str_digits <? count_digits s then None
  else int_digits s None 0.

(** The white space [int] skips around a literal: tab, line feed,
    vertical tab, form feed, carriage return and the space.  The
    separators 28 to 31, which [str.strip] removes, are not among
    them. *)
Definition is_int_space (c : ascii) : bool :=
  ((9 <=? code c) && (code c <=? 13)) || (code c =? 32).

Fixpoint lstrip_by (p : ascii -> bool) (s : string) : string :=
  match s with
  | EmptyString => EmptyString
  | String c r => if p c then lstrip_by p r else s
  end.

Definition int_strip (s : string) : string :=
  reverse (lstrip_by is_int_space (reverse (lstrip_by is_int_space s))).

(** [int(s)] for a string [s]; [None] stands for [ValueError]. *)
Definition int_of_str (s : string) : option Z :=
  match int_strip s with
  | String "+"%char r => int_unsigned r
  | String "-"%char r => option_map Z.opp (int_unsigned r)
  | t => int_unsigned t
  end.

End PyStr.

(** ** Regular expressions, as far as the classifier's two patterns go *)

Module Regex.

(** Patterns without repetition operators other than bounded counts,
    which [times] and [between] unfold. *)
Inductive re : Type :=
| Void : re
| Eps : re
| Cls : (ascii -> bool) -> re
| Cat : re -> re -> re
| Alt : re -> re -> re.

(** [r{n}] *)
Fixpoint times (n : nat) (r : re) : re :=
  match n with
  | O => Eps
  | S k => Cat r (times k r)
  end.

(** [r{lo,hi}] *)
Definition between (lo hi : nat) (r : re) : re :=
  Cat (times lo r) (times (hi - lo) (Alt r Eps)).

Definition lit (c : ascii) : re := Cls (Ascii.eqb c).

Fixpoint nullable (r : re) : bool :=
  match r with
  | Void => false
  | Eps => true
  | Cls _ => false
  | Cat a b => nullable a && nullable b
  | Alt a b => nullable a || nullable b
  end.

Fixpoint deriv (c : ascii) (r : re) : re :=
  match r with
  | Void => Void
  | Eps => Void
  | Cls p => if p c then Eps else Void
  | Cat a b =>
      if nullable a then Alt (Cat (deriv c a) b) (deriv c b)
      else Cat (deriv c a) b
  | Alt a b => Alt (deriv c a) (deriv c b)
  end.

(** [re.fullmatch(r, s) is not None].  Under [fullmatch] the anchors
    [^] and [$] of the source patterns hold trivially at the two ends
    of the subject, so the patterns below leave them out. *)
Fixpoint fullmatch (r : re) (s : string) : bool :=
  match s with
  | EmptyString => nullable r
  | String c t => fullmatch (deriv c r) t
  end.

End Regex.

(** ** Firmware classification helpers *)

Module Firmware.

Import PyStr Regex.
Local Open Scope string_scope.
Local Open Scope Z_scope.

(** [[int(p) for p in parts]], [None] when some [int(p)] raises. *)
Fixpoint ints_of (parts : list string) : option (list Z) :=
  match parts with
  | [] => Some []
  | p :: rest =>
      match int_of_str p with
      | None => None
      | Some z =>
          match ints_of rest with
          | None => None
          | Some zs => Some (z :: zs)
          end
      end
  end.

Definition version_to_int (version : string) : option Z :=
  match version with
  | EmptyString => None
  | _ =>
      match ints_of (split "."%char version) with
      | None => None
      | Some parts =>
          let parts := List.app parts (repeat 0 (4 - List.length parts)) in
          Some (nth 0 parts 0 * 1000000 + nth 1 parts 0 * 10000
                + nth 2 parts 0 * 100 + nth 3 parts 0)
      end
  end.

Definition nightly_to_int (nightly : string) : option Z :=
  match nightly with
  | EmptyString => None
  | _ => int_of_str (hd EmptyString (split "-"%char nightly))
  end.

(** [^\d{1,2}\.\d{1,2}\.\d{1,2}\.\d{1,2}$] *)
Definition quad_re : re :=
  let d12 := between 1 2 (Cls is_digit) in
  let dot := lit "."%char in
  Cat d12 (Cat dot (Cat d12 (Cat dot (Cat d12 (Cat dot d12))))).

(** [^\d{8}-[0-9a-fA-F]{7,8}$] *)
Definition nightly_re : re :=
  Cat (times 8 (Cls is_digit))
      (Cat (lit "-"%char) (between 7 8 (Cls is_hex))).

(** [v_int is not None and v_int < cutoff] *)
Definition below (v : option Z) (cutoff : Z) : bool :=
  match v with
  | Some n => n <? cutoff
  | None => false
  end.

(** [v_int is not None and v_int >= cutoff] *)
Definition at_least (v : option Z) (cutoff : Z) : bool :=
  match v with
  | Some n => cutoff <=? n
  | None => false
  end.

Definition _is_firmware (version fw_type : string)
           (version_cutoff nightly_cutoff : Z) : bool :=
  match version with
  | EmptyString => false
  | _ =>
      let version := strip version in
      if String.eqb fw_type "babel" then startswith version "babel-"
      else if String.eqb fw_type "olsr" then
        if fullmatch quad_re version then
          below (version_to_int version) version_cutoff
        else if fullmatch nightly_re version then
          below (nightly_to_int version) nightly_cutoff
        else false
      else if String.eqb fw_type "combo" then
        if startswith version "babel-" then false
        else if fullmatch quad_re version then
          at_least (version_to_int version) version_cutoff
        else if fullmatch nightly_re version then
          at_least (nightly_to_int version) nightly_cutoff
        else false
      else false
  end.

End Firmware.

(** ** The shapes of version strings, in the words of the specification *)

Module FirmwareSpec.

Import PyStr.
Local Open Scope string_scope.

(** The value of a string of decimal digits. *)
Fixpoint dec_acc (s : string) (acc : Z) : Z :=
  match s with
  | EmptyString => acc
  | String c r => dec_acc r (acc * 10 + digit_val c)
  end.

Definition dec_value (s : string) : Z := dec_acc s 0.

Definition all_digits (s : string) : Prop := forallb_chars is_digit s = true.
Definition all_hex (s : string) : Prop := forallb_chars is_hex s = true.

(** One component of a dotted quad: one or two digits. *)
Definition component (s : string) : Prop :=
  (String.length s = 1 \/ String.length s = 2) /\ all_digits s.

(** [s] is a dotted quad [a.b.c.d] whose order is [n]. *)
Definition dotted_quad (s : string) (n : Z) : Prop :=
  exists a b c d,
    s = a ++ "." ++ b ++ "." ++ c ++ "." ++ d
    /\ component a /\ component b /\ component c /\ component d
    /\ n = (dec_value a * 1000000 + dec_value b * 10000
            + dec_value c * 100 + dec_value d)%Z.

(** [s] is a nightly identifier [YYYYMMDD-<hex7-8>] whose order is [n]. *)
Definition nightly (s : string) (n : Z) : Prop :=
  exists d h,
    s = d ++ "-" ++ h
    /\ String.length d = 8 /\ all_digits d
    /\ (String.length h = 7 \/ String.length h = 8) /\ all_hex h
    /\ n = dec_value d.

End FirmwareSpec.

(** ** Integer literals, in the words of the language reference *)

Module IntLiteralSpec.

Import PyStr FirmwareSpec.
Local Open Scope string_scope.

(** White space that may stand around a literal. *)
Definition int_blank (s : string) : Prop :=
  forallb_chars is_int_space s = true.

Definition is_underscore (c : ascii) : bool := Ascii.eqb c "_"%char.

Definition first_is_digit (s : string) : bool :=
  match s with
  | EmptyString => false
  | String c _ => is_digit c
  end.

Fixpoint last_is_digit (s : string) : bool :=
  match s with
  | EmptyString => false
  | String c EmptyString => is_digit c
  | String _ r => last_is_digit r
  end.

Fixpoint no_double_underscore (s : string) : bool :=
  match s with
  | EmptyString => true
  | String c r =>
      match r with
      | String c' _ => negb (is_underscore c && is_underscore c')
      | EmptyString => true
      end && no_double_underscore r
  end.

(** Digits grouped by single underscores: nothing but digits and
    underscores, a digit first and a digit last, and no two underscores
    in a row. *)
Definition digit_groups (s : string) : Prop :=
  forallb_chars (fun c => is_digit c || is_underscore c) s = true
  /\ first_is_digit s = true
  /\ last_is_digit s = true
  /\ no_double_underscore s = true.

(** The digits of a text, in order. *)
Fixpoint digits_of (s : string) : string :=
  match s with
  | EmptyString => EmptyString
  | String c r => if is_digit c then String c (digits_of r) else digits_of r
  end.

(** [p] is a decimal integer literal of value [z]: optional white
    space, an optional sign, digit groups of at most 4300 digits in
    all, optional white space. *)
Definition int_literal (p : string) (z : Z) : Prop :=
  exists left sign body right,
    p = left ++ sign ++ body ++ right
    /\ int_blank left /\ int_blank right
    /\ digit_groups body
    /\ (String.length (digits_of body) <= 4300)%nat
    /\ ((sign = "" \/ sign = "+") /\ z = dec_value (digits_of body)
        \/ sign = "-" /\ z = (- dec_value (digits_of body))%Z).

(** The order of a release whose components have the values [zs]:
    missing components count as zero, components after the fourth do
    not count. *)
Definition order_of (zs : list Z) : Z :=
  (nth 0 zs 0 * 1000000 + nth 1 zs 0 * 10000
   + nth 2 zs 0 * 100 + nth 3 zs 0)%Z.

End IntLiteralSpec.

(** ** Denotation of the patterns *)

Module RegexSpec.

Import Regex.
Local Open Scope string_scope.

Inductive matches : re -> string -> Prop :=
| M_eps : matches Eps ""
| M_cls : forall (p : ascii -> bool) c,
    p c = true -> matches (Cls p) (String c "")
| M_cat : forall a b s t,
    matches a s -> matches b t -> matches (Cat a b) (s ++ t)
| M_alt_l : forall a b s, matches a s -> matches (Alt a b) s
| M_alt_r : forall a b s, matches b s -> matches (Alt a b) s.

End RegexSpec.

(** ** Dynamically typed values *)

Module PyVal.

Local Open Scope string_scope.

(** What [json.loads] returns, and what the daemon builds from it.  A
    [VDict] keeps its items in insertion order; its keys are hashable
    values ([None], numbers and strings). *)
#[warnings="-register-all"]
Inductive pyval : Type :=
| VNone : pyval
| VBool : bool -> pyval
| VInt : Z -> pyval
| VFloat : Q -> pyval
| VStr : string -> pyval
| VList : list pyval -> pyval
| VDict : list (pyval * pyval) -> pyval.

Definition items : Type := list (pyval * pyval).

Inductive exn : Type :=
| ValueError | TypeError | AttributeError | KeyError.

(** A computation that returns a value or raises. *)
Inductive result (A : Type) : Type :=
| Ok : A -> result A
| Raise : exn -> result A.
Arguments Ok {A} _.
Arguments Raise {A} _.

Definition bind {A B : Type} (c : result A) (k : A -> result B) : result B :=
  match c with
  | Ok a => k a
  | Raise e => Raise e
  end.

(** [bool(v)] *)
Definition truthy (v : pyval) : bool :=
  match v with
  | VNone => false
  | VBool b => b
  | VInt z => negb (z =? 0)%Z
  | VFloat q => negb (Qeq_bool q 0)
  | VStr s => negb (String.eqb s "")
  | VList l => match l with [] => false | _ => true end
  | VDict d => match d with [] => false | _ => true end
  end.

(** The number a value stands for in a comparison, if it is one. *)
Definition num_of (v : pyval) : option Q :=
  match v with
  | VBool b => Some (if b then 1 else 0)%Q
  | VInt z => Some (inject_Z z)
  | VFloat q => Some q
  | _ => None
  end.

(** [v == "s"] for a string literal. *)
Definition eq_str (v : pyval) (s : string) : bool :=
  match v with
  | VStr t => String.eqb t s
  | _ => false
  end.

(** [v == z] for an integer literal. *)
Definition eq_int (v : pyval) (z : Z) : bool :=
  match num_of v with
  | Some q => Qeq_bool q (inject_Z z)
  | None => false
  end.

(** [a == b] between hashable values. *)
Definition key_eqb (a b : pyval) : bool :=
  match a, b with
  | VNone, VNone => true
  | VStr s, VStr t => String.eqb s t
  | _, _ =>
      match num_of a, num_of b with
      | Some x, Some y => Qeq_bool x y
      | _, _ => false
      end
  end.

Fixpoint lookup (k : pyval) (d : items) : option pyval :=
  match d with
  | [] => None
  | (k', v) :: rest => if key_eqb k' k then Some v else lookup k rest
  end.

(** [a == b] in general: sequences item by item, mappings key by key. *)
Fixpoint py_eqb (a b : pyval) {struct a} : bool :=
  match a, b with
  | VList l, VList m =>
      (fix go (l m : list pyval) {struct l} : bool :=
         match l, m with
         | [], [] => true
         | x :: l', y :: m' => py_eqb x y && go l' m'
         | _, _ => false
         end) l m
  | VDict d, VDict e =>
      Nat.eqb (List.length d) (List.length e)
      && (fix all (d : items) {struct d} : bool :=
            match d with
            | [] => true
            | (k, v) :: d' =>
                match lookup k e with
                | Some w => py_eqb v w
                | None => false
                end && all d'
            end) d
  | _, _ => key_eqb a b
  end.

(** [d.get(k)], [d.get(k, default)], [k in d] and [d[k]] for a string
    key. *)
Definition get (d : items) (k : string) : pyval :=
  match lookup (VStr k) d with
  | Some v => v
  | None => VNone
  end.

Definition get_default (d : items) (k : string) (default : pyval) : pyval :=
  match lookup (VStr k) d with
  | Some v => v
  | None => default
  end.

Definition has_key (d : items) (k : string) : bool :=
  match lookup (VStr k) d with
  | Some _ => true
  | None => false
  end.

(** [d[k] = v]: an existing key keeps its place. *)
Fixpoint set_item (d : items) (k v : pyval) : items :=
  match d with
  | [] => [(k, v)]
  | (k', v') :: rest =>
      if key_eqb k' k then (k', v) :: rest
      else (k', v') :: set_item rest k v
  end.

(** [a or b] *)
Definition py_or (a b : pyval) : pyval := if truthy a then a else b.

(** [v in [l1, ..., ln]] for string literals. *)
Definition in_strs (v : pyval) (l : list string) : bool :=
  existsb (eq_str v) l.

(** [v.startswith(p)]: only a string has the method. *)
Definition startswith (v : pyval) (p : string) : result bool :=
  match v with
  | VStr s => Ok (PyStr.startswith s p)
  | _ => Raise AttributeError
  end.

(** [value in [1, '1', True, 'true']] *)
Definition boolish (v : pyval) : bool :=
  eq_int v 1 || eq_str v "1" || eq_str v "true".

End PyVal.

(** ** The node record *)

Module NodeInfo.

Import PyVal.
Local Open Scope string_scope.

(** The attributes of the [NodeInfo] dataclass. *)
Inductive field : Type :=
| node | wlan_ip | uptime | loadavg | model | firmware_version | ssid
| channel | chanbw | tunnel_installed | active_tunnel_count | lat | lon
| wifi_mac_address | api_version | board_id | firmware_mfg | grid_square
| lan_ip | services | description | mesh_supernode | mesh_gateway | freq
| link_info | hopsAway | meshRF | band | last_seen | response_time_ms
| antGain | antBeam | antDesc | antBuiltin.

Definition field_eq_dec (f g : field) : {f = g} + {f <> g}.
Proof. decide equality. Defined.

(** An instance is its attribute store. *)
Definition t : Type := field -> pyval.

Definition set (f : field) (v : pyval) (ni : t) : t :=
  fun g => if field_eq_dec g f then v else ni g.

(** [NodeInfo()]: the declared defaults. *)
Definition default : t :=
  fun f =>
    match f with
    | node | wifi_mac_address | description | link_info => VStr ""
    | uptime | loadavg | model | firmware_version | board_id
    | firmware_mfg | grid_square | lan_ip | services | antDesc =>
        VStr "Not Available"
    | ssid | channel | chanbw | freq => VStr "None"
    | tunnel_installed | mesh_supernode | mesh_gateway | antBuiltin =>
        VStr "false"
    | active_tunnel_count => VStr "0"
    | lat | lon | response_time_ms | antGain | antBeam => VFloat 0
    | api_version => VStr "0.0.0"
    | wlan_ip => VStr ""
    | hopsAway => VInt 0
    | meshRF => VStr "on"
    | band => VStr "Unknown"
    | last_seen => VNone
    end.

(** The value of an attribute of the record a call returns. *)
Definition attribute (f : field) (r : result t) : option pyval :=
  match r with
  | Ok ni => Some (ni f)
  | Raise _ => None
  end.

End NodeInfo.

(** ** The sysinfo parser *)

Module Sysinfo.

Import PyVal.
Import NodeInfo.
Local Open Scope string_scope.

Notation "x <- c ;; k" := (bind c (fun x => k))
  (at level 61, c at next level, right associativity).

(** One turn of the loop over the [interfaces] array. *)
Definition parse_interface (iface : pyval) (node_info : NodeInfo.t)
  : result NodeInfo.t :=
  match iface with
  | VDict d =>
      let name := get_default d "name" (VStr "") in
      let ip_addr := get_default d "ip" (VStr "") in
      if eq_str name "wlan0" || eq_str name "wlan1" then
        let node_info :=
          if has_key d "mac" then set wifi_mac_address (get d "mac") node_info
          else node_info in
        if truthy ip_addr && negb (eq_str ip_addr "none")
        then Ok (set wlan_ip ip_addr node_info)
        else Ok node_info
      else if eq_str name "br-lan" && truthy ip_addr
              && negb (eq_str ip_addr "none")
      then Ok (set lan_ip ip_addr node_info)
      else if in_strs name ["eth1.3975"; "eth0.3975"; "br-nomesh"; "br0"]
      then
        if truthy ip_addr && negb (eq_str ip_addr "none") then
          mesh <- startswith ip_addr "10." ;;
          if mesh then Ok (set wlan_ip ip_addr node_info) else Ok node_info
        else Ok node_info
      else Ok node_info
  | _ => Ok node_info
  end.

Fixpoint parse_interfaces (ifaces : list pyval) (node_info : NodeInfo.t)
  : result NodeInfo.t :=
  match ifaces with
  | [] => Ok node_info
  | iface :: rest =>
      node_info <- parse_interface iface node_info ;;
      parse_interfaces rest node_info
  end.

Definition flag (v : pyval) : pyval :=
  if boolish v then VStr "true" else VStr "false".

Section Builtins.

(** The interpreter's conversions, which the parser only calls:
    [float(v)], [str(v)] and [pickle.dumps(v).hex()]. *)
Variable py_float : pyval -> result pyval.
Variable py_str : pyval -> pyval.
Variable pickle_hex : pyval -> pyval.

(** [float(value) if value else 0.0] *)
Definition float_or_zero (value : pyval) : result pyval :=
  if truthy value then py_float value else Ok (VFloat 0).

Definition set_if_present (d : items) (k : string) (f : field)
           (conv : pyval -> pyval) (node_info : NodeInfo.t) : NodeInfo.t :=
  if has_key d k then set f (conv (get d k)) node_info else node_info.

Definition parse_nested_sysinfo (d : items) (node_info : NodeInfo.t)
  : NodeInfo.t :=
  let node_info := set_if_present d "uptime" uptime py_str node_info in
  match lookup (VStr "loads") d with
  | Some (VList l) => set loadavg (pickle_hex (VList l)) node_info
  | _ => node_info
  end.

Definition parse_node_details (d : items) (node_info : NodeInfo.t)
  : NodeInfo.t :=
  let same := fun v : pyval => v in
  let node_info := set_if_present d "model" model same node_info in
  let node_info := set_if_present d "board_id" board_id same node_info in
  let node_info :=
    set_if_present d "firmware_version" firmware_version same node_info in
  let node_info :=
    set_if_present d "firmware_mfg" firmware_mfg same node_info in
  let node_info :=
    set_if_present d "description" description same node_info in
  let node_info :=
    set_if_present d "mesh_gateway" mesh_gateway flag node_info in
  set_if_present d "mesh_supernode" mesh_supernode flag node_info.

Definition parse_meshrf (d : items) (node_info : NodeInfo.t)
  : result NodeInfo.t :=
  let node_info :=
    set meshRF (get_default d "status" (VStr "on")) node_info in
  let node_info :=
    set ssid (get_default d "ssid" (VStr "None")) node_info in
  let node_info :=
    set channel (py_str (get_default d "channel" (VStr "None")))
        node_info in
  let node_info :=
    set chanbw (py_str (get_default d "chanbw" (VStr "None")))
        node_info in
  let node_info :=
    set freq (py_str (get_default d "freq" (VStr "None"))) node_info in
  match lookup (VStr "antenna") d with
  | Some (VDict ant) =>
      gain <- py_float (get_default ant "gain" (VInt 0)) ;;
      let node_info := set antGain gain node_info in
      beam <- py_float (get_default ant "beamwidth" (VInt 0)) ;;
      let node_info := set antBeam beam node_info in
      let node_info :=
        set antDesc (get_default ant "description" (VStr "Not Available"))
            node_info in
      Ok (set antBuiltin
              (py_str (get_default ant "builtin" (VStr "false")))
              node_info)
  | _ => Ok node_info
  end.

Definition parse_tunnels (d : items) (node_info : NodeInfo.t)
  : NodeInfo.t :=
  let node_info :=
    set tunnel_installed
        (py_str (get_default d "tunnel_installed" (VStr "false")))
        node_info in
  set active_tunnel_count
      (py_str (get_default d "active_tunnel_count" (VStr "0")))
      node_info.

(** The body of the loop over [data.items()]. *)
Definition parse_item (key value : pyval) (node_info : NodeInfo.t)
  : result NodeInfo.t :=
  if eq_str key "node" then Ok (set node value node_info)
  else if eq_str key "lat" then
    x <- float_or_zero value ;; Ok (set lat x node_info)
  else if eq_str key "lon" then
    x <- float_or_zero value ;; Ok (set lon x node_info)
  else if eq_str key "api_version" then
    Ok (set api_version value node_info)
  else if eq_str key "grid_square" then
    Ok (set grid_square value node_info)
  else if eq_str key "model" then Ok (set model value node_info)
  else if eq_str key "board_id" then Ok (set board_id value node_info)
  else if eq_str key "firmware_version" then
    Ok (set firmware_version value node_info)
  else if eq_str key "firmware_mfg" then
    Ok (set firmware_mfg value node_info)
  else if eq_str key "uptime" then
    Ok (set uptime (py_str value) node_info)
  else if eq_str key "description" then
    Ok (set description value node_info)
  else
    match value with
    | VDict d =>
        if eq_str key "sysinfo" then Ok (parse_nested_sysinfo d node_info)
        else if eq_str key "node_details" then
          Ok (parse_node_details d node_info)
        else if eq_str key "meshrf" then parse_meshrf d node_info
        else if eq_str key "tunnels" then Ok (parse_tunnels d node_info)
        else if eq_str key "link_info" then
          Ok (set link_info (pickle_hex value) node_info)
        else if eq_str key "mesh_gateway" then
          Ok (set mesh_gateway (flag value) node_info)
        else if eq_str key "mesh_supernode" then
          Ok (set mesh_supernode (flag value) node_info)
        else Ok node_info
    | VList l =>
        if eq_str key "interfaces" then parse_interfaces l node_info
        else if eq_str key "services_local" then
          Ok (set services (pickle_hex value) node_info)
        else if eq_str key "loads" then
          Ok (set loadavg (pickle_hex value) node_info)
        else if eq_str key "mesh_gateway" then
          Ok (set mesh_gateway (flag value) node_info)
        else if eq_str key "mesh_supernode" then
          Ok (set mesh_supernode (flag value) node_info)
        else Ok node_info
    | _ =>
        if eq_str key "mesh_gateway" then
          Ok (set mesh_gateway (flag value) node_info)
        else if eq_str key "mesh_supernode" then
          Ok (set mesh_supernode (flag value) node_info)
        else Ok node_info
    end.

Fixpoint parse_items (data : items) (node_info : NodeInfo.t)
  : result NodeInfo.t :=
  match data with
  | [] => Ok node_info
  | (key, value) :: rest =>
      node_info <- parse_item key value node_info ;;
      parse_items rest node_info
  end.

Definition _parse_sysinfo (data : items) (ip : string) : result NodeInfo.t :=
  parse_items data (set wlan_ip (VStr ip) NodeInfo.default).

End Builtins.

End Sysinfo.

(** ** The interface selection rule, stated on the array *)

Module SysinfoSpec.

Import PyVal.
Local Open Scope string_scope.

(** An IP value that counts as present. *)
Definition usable (v : pyval) : bool :=
  truthy v && negb (eq_str v "none").

Definition is_wlan (name : pyval) : bool :=
  eq_str name "wlan0" || eq_str name "wlan1".

Definition is_mesh_bridge (name : pyval) : bool :=
  in_strs name ["eth1.3975"; "eth0.3975"; "br-nomesh"; "br0"].

Definition begins_with_10 (v : pyval) : bool :=
  match v with
  | VStr s => PyStr.startswith s "10."
  | _ => false
  end.

Definition iface_name (iface : pyval) : pyval :=
  match iface with
  | VDict d => get_default d "name" (VStr "")
  | _ => VNone
  end.

Definition iface_ip (iface : pyval) : pyval :=
  match iface with
  | VDict d => get_default d "ip" (VStr "")
  | _ => VNone
  end.

(** The interface names an address for [wlan_ip]. *)
Definition names_wlan_ip (iface : pyval) : bool :=
  match iface with
  | VDict _ =>
      (is_wlan (iface_name iface) && usable (iface_ip iface))
      || (is_mesh_bridge (iface_name iface) && usable (iface_ip iface)
          && begins_with_10 (iface_ip iface))
  | _ => false
  end.

Definition names_lan_ip (iface : pyval) : bool :=
  match iface with
  | VDict _ => eq_str (iface_name iface) "br-lan" && usable (iface_ip iface)
  | _ => false
  end.

Definition names_mac (iface : pyval) : bool :=
  match iface with
  | VDict d => is_wlan (iface_name iface) && has_key d "mac"
  | _ => false
  end.

Definition iface_mac (iface : pyval) : pyval :=
  match iface with
  | VDict d => get d "mac"
  | _ => VNone
  end.

(** The last element of the array that satisfies [p]. *)
Definition last_such (p : pyval -> bool) (ifaces : list pyval)
  : option pyval :=
  List.find p (List.rev ifaces).

(** The three attributes the interface loop writes. *)
Definition selected (f : NodeInfo.field) : Prop :=
  f = NodeInfo.wlan_ip \/ f = NodeInfo.lan_ip
  \/ f = NodeInfo.wifi_mac_address.

(** A document whose array lists a radio interface first and a mesh
    bridge second. *)
Definition radio_then_bridge : items :=
  [ (VStr "node", VStr "N0CALL-1");
    (VStr "interfaces",
     VList [ VDict [ (VStr "name", VStr "wlan0");
                     (VStr "ip", VStr "10.1.1.1");
                     (VStr "mac", VStr "AA:BB:CC:00:11:22") ];
             VDict [ (VStr "name", VStr "br-lan");
                     (VStr "ip", VStr "none") ];
             VDict [ (VStr "name", VStr "br0");
                     (VStr "ip", VStr "10.2.2.2") ] ]) ].

(** The document has exactly one item under the key [k], with value [v]. *)
Definition sole_item (k : string) (v : pyval) (data : items) : Prop :=
  exists before after,
    data = (before ++ (VStr k, v) :: after)%list
    /\ forallb (fun kv => negb (eq_str (fst kv) k)) before = true
    /\ forallb (fun kv => negb (eq_str (fst kv) k)) after = true.

End SysinfoSpec.

(** ** Effects: state and exceptions *)

Module Eff.

Import PyVal.

(** A computation over a state [S] that returns or raises; the state
    survives an exception, as the mutations of a Python object do. *)
Definition M (S A : Type) : Type := S -> result A * S.

Definition ret {S A : Type} (a : A) : M S A := fun s => (Ok a, s).

Definition raise {S A : Type} (e : exn) : M S A := fun s => (Raise e, s).

Definition mbind {S A B : Type} (c : M S A) (k : A -> M S B) : M S B :=
  fun s =>
    match c s with
    | (Ok a, s') => k a s'
    | (Raise e, s') => (Raise e, s')
    end.

Definition modify {S : Type} (f : S -> S) : M S unit :=
  fun s => (Ok tt, f s).

Definition read {S A : Type} (f : S -> A) : M S A :=
  fun s => (Ok (f s), s).

(** A pure computation that may raise, run inside the monad. *)
Definition lift {S A : Type} (r : result A) : M S A := fun s => (r, s).

(** [try: c except Exception as e: h e] *)
Definition try_except {S A : Type} (c : M S A) (h : exn -> M S A) : M S A :=
  fun s =>
    match c s with
    | (Ok a, s') => (Ok a, s')
    | (Raise e, s') => h e s'
    end.

Fixpoint for_each {S A : Type} (l : list A) (body : A -> M S unit)
  : M S unit :=
  match l with
  | [] => ret tt
  | a :: rest => mbind (body a) (fun _ => for_each rest body)
  end.

(** Every run of [c] takes a state to one related to it by [R]. *)
Definition respects {S A : Type} (R : S -> S -> Prop) (c : M S A) : Prop :=
  forall s, R s (snd (c s)).

End Eff.

Notation "'do' x <- c ; k" := (Eff.mbind c (fun x => k))
  (at level 10, x name, c at level 100, k at level 200).

(** ** Numbers *)

Module PyNum.

Import PyVal.
Local Open Scope Q_scope.

(** Rounding to the nearest integer, ties to the even one. *)
Definition round_half_even (q : Q) : Z :=
  let f := Qfloor q in
  match Qcompare (q - inject_Z f) (1 # 2) with
  | Lt => f
  | Gt => (f + 1)%Z
  | Eq => if Z.even f then f else (f + 1)%Z
  end.

Definition pow10 (n : nat) : Q := inject_Z (10 ^ Z.of_nat n).

(** [round(q, n)] for a float [q] and [n >= 0] digits. *)
Definition round_ndigits (q : Q) (n : nat) : Q :=
  inject_Z (round_half_even (q * pow10 n)) / pow10 n.

(** [round(v, n)] for any value: an integer is returned as it is, and
    what is not a number raises [TypeError]. *)
Definition py_round (v : pyval) (n : nat) : result pyval :=
  match v with
  | VFloat q => Ok (VFloat (round_ndigits q n))
  | VInt z => Ok (VInt z)
  | VBool b => Ok (VInt (if b then 1 else 0))
  | _ => Raise TypeError
  end.

Definition Qlt_bool (a b : Q) : bool := negb (Qle_bool b a).

(** [v < z] and [v > z] against an integer literal. *)
Definition lt_int (v : pyval) (z : Z) : result bool :=
  match num_of v with
  | Some q => Ok (Qlt_bool q (inject_Z z))
  | None => Raise TypeError
  end.

Definition gt_int (v : pyval) (z : Z) : result bool :=
  match num_of v with
  | Some q => Ok (Qlt_bool (inject_Z z) q)
  | None => Raise TypeError
  end.

(** [v is not None] *)
Definition is_not_none (v : pyval) : bool :=
  match v with
  | VNone => false
  | _ => true
  end.

End PyNum.

(** ** The aggregate statistics of a cycle *)

Module Stats.

Import PyVal.

(** The keys of the [stats] dictionary. *)
Inductive key : Type :=
| numParallelThreads | nodeTotal | garbageReturned | highestHops
| totalPolled | nodesWithErrors | noLocation | mappableNodes
| mappableLinks | pollingTimeSec | babelNodes | olsrNodes | comboNodes
| minResponseTimeMs | maxResponseTimeMs.

Definition key_eq_dec (a b : key) : {a = b} + {a <> b}.
Proof. decide equality. Defined.

Definition t : Type := key -> pyval.

Definition set (k : key) (v : pyval) (s : t) : t :=
  fun k' => if key_eq_dec k' k then v else s k'.

(** The dictionary [__init__] builds. *)
Definition initial (parallel_threads : Z) : t :=
  fun k =>
    match k with
    | numParallelThreads => VInt parallel_threads
    | pollingTimeSec | minResponseTimeMs | maxResponseTimeMs => VFloat 0
    | _ => VInt 0
    end.

End Stats.

(** ** The world outside the daemon *)

Module World.

Import PyVal.
Local Open Scope string_scope.

(** What stands for a column's value in a statement: a bound parameter,
    a literal of the statement's text, [NOW()], or
    [COALESCE(%s, column)]. *)
Inductive sql_expr : Type :=
| Param : pyval -> sql_expr
| Literal : string -> sql_expr
| Now : sql_expr
| Coalesce : pyval -> string -> sql_expr.

(** [INSERT INTO table (...) VALUES (...) ON DUPLICATE KEY UPDATE ...] *)
Record upsert : Type := {
  table : string;
  inserted : list (string * sql_expr);
  on_duplicate : list (string * sql_expr)
}.

Inductive statement : Type :=
| Upsert : upsert -> statement
| Update_link_info : pyval -> pyval -> statement
| Truncate : string -> statement.

(** The log lines the model keeps: the adapter's and the coordinator's
    warnings and errors. *)
Inductive log_entry : Type :=
| Warning_invalid_lat : pyval -> pyval -> pyval -> log_entry
| Warning_invalid_lon : pyval -> pyval -> pyval -> log_entry
| Error_upsert_failed : pyval -> exn -> log_entry
| Error_node_data : pyval -> pyval -> pyval -> pyval -> log_entry
| Error_no_topology : log_entry
| Error_updating_topology : pyval -> exn -> log_entry
| Error_saving_node : pyval -> exn -> log_entry
| Error_link_topology : exn -> log_entry
| Error_generating_files : exn -> log_entry.

(** A poll task as the fan-out creates it. *)
Record task : Type := {
  task_ip : pyval;
  task_hops : pyval;
  task_delay : Q
}.

(** What the daemon does to the world, in the order it does it: a
    statement handed to the store, a log line, the fan-out of a cycle (a
    semaphore of so many permits and the tasks created), a file
    written. *)
Inductive event : Type :=
| Executed : statement -> event
| Logged : log_entry -> event
| Scheduled : Z -> list task -> event
| Wrote : string -> event.

Definition journal : Type := list event.

Definition executed (j : journal) : list statement :=
  List.flat_map (fun e => match e with Executed st => [st] | _ => [] end) j.

Definition logged (j : journal) : list log_entry :=
  List.flat_map (fun e => match e with Logged l => [l] | _ => [] end) j.

End World.

(** ** The persistence adapter *)

Module Persistence.

Import PyVal PyNum Eff World.
Local Open Scope string_scope.

Definition log (e : log_entry) : M journal unit :=
  modify (fun j => j ++ [Logged e])%list.

Section Store.

(** The store either accepts a statement or raises. *)
Variable accepts : statement -> result unit.

(** [await cur.execute(sql, values)] *)
Definition execute (st : statement) : M journal unit :=
  do _ <- modify (fun j => j ++ [Executed st])%list ;
  lift (accepts st).

(** [x if x else d] *)
Definition or_else (x d : pyval) : pyval := if truthy x then x else d.

(** [node_data.f = round(node_data.f, 7)] unless it is [None]. *)
Definition round_attribute (f : NodeInfo.field) (node_data : NodeInfo.t)
  : result NodeInfo.t :=
  if is_not_none (node_data f) then
    bind (py_round (node_data f) 7)
         (fun r => Ok (NodeInfo.set f r node_data))
  else Ok node_data.

(** [v is not None and (v < lo or v > hi)] *)
Definition out_of_range (v : pyval) (lo hi : Z) : result bool :=
  if is_not_none v then
    bind (lt_int v lo)
         (fun below => if below then Ok true else gt_int v hi)
  else Ok false.

Definition node_statement (node_data : NodeInfo.t) : statement :=
  let services := or_else (node_data NodeInfo.services) (VStr "") in
  let link_info_insert := or_else (node_data NodeInfo.link_info) VNone in
  let link_info_update := or_else (node_data NodeInfo.link_info) VNone in
  let loadavg := or_else (node_data NodeInfo.loadavg) (VStr "") in
  let p := fun f => Param (node_data f) in
  Upsert {|
    table := "node_info";
    inserted :=
      [ ("node", p NodeInfo.node); ("wlan_ip", p NodeInfo.wlan_ip);
        ("uptime", p NodeInfo.uptime); ("loadavg", Param loadavg);
        ("model", p NodeInfo.model);
        ("firmware_version", p NodeInfo.firmware_version);
        ("ssid", p NodeInfo.ssid); ("channel", p NodeInfo.channel);
        ("chanbw", p NodeInfo.chanbw);
        ("tunnel_installed", p NodeInfo.tunnel_installed);
        ("active_tunnel_count", p NodeInfo.active_tunnel_count);
        ("lat", p NodeInfo.lat); ("lon", p NodeInfo.lon);
        ("wifi_mac_address", p NodeInfo.wifi_mac_address);
        ("api_version", p NodeInfo.api_version);
        ("board_id", p NodeInfo.board_id);
        ("firmware_mfg", p NodeInfo.firmware_mfg);
        ("grid_square", p NodeInfo.grid_square);
        ("lan_ip", p NodeInfo.lan_ip); ("services", Param services);
        ("description", p NodeInfo.description);
        ("mesh_supernode", p NodeInfo.mesh_supernode);
        ("mesh_gateway", p NodeInfo.mesh_gateway);
        ("freq", p NodeInfo.freq); ("link_info", Param link_info_insert);
        ("hopsAway", p NodeInfo.hopsAway); ("meshRF", p NodeInfo.meshRF);
        ("last_seen", Now);
        ("antGain", p NodeInfo.antGain); ("antBeam", p NodeInfo.antBeam);
        ("antDesc", p NodeInfo.antDesc);
        ("antBuiltin", p NodeInfo.antBuiltin);
        ("response_time_ms", p NodeInfo.response_time_ms) ];
    on_duplicate :=
      [ ("node", p NodeInfo.node);
        ("uptime", p NodeInfo.uptime); ("loadavg", Param loadavg);
        ("model", p NodeInfo.model);
        ("firmware_version", p NodeInfo.firmware_version);
        ("ssid", p NodeInfo.ssid); ("channel", p NodeInfo.channel);
        ("chanbw", p NodeInfo.chanbw);
        ("tunnel_installed", p NodeInfo.tunnel_installed);
        ("active_tunnel_count", p NodeInfo.active_tunnel_count);
        ("lat", p NodeInfo.lat); ("lon", p NodeInfo.lon);
        ("wifi_mac_address", p NodeInfo.wifi_mac_address);
        ("api_version", p NodeInfo.api_version);
        ("board_id", p NodeInfo.board_id);
        ("firmware_mfg", p NodeInfo.firmware_mfg);
        ("grid_square", p NodeInfo.grid_square);
        ("lan_ip", p NodeInfo.lan_ip); ("services", Param services);
        ("description", p NodeInfo.description);
        ("mesh_supernode", p NodeInfo.mesh_supernode);
        ("mesh_gateway", p NodeInfo.mesh_gateway);
        ("freq", p NodeInfo.freq);
        ("link_info", Coalesce link_info_update "link_info");
        ("hopsAway", p NodeInfo.hopsAway); ("meshRF", p NodeInfo.meshRF);
        ("last_seen", Now);
        ("antGain", p NodeInfo.antGain); ("antBeam", p NodeInfo.antBeam);
        ("antDesc", p NodeInfo.antDesc);
        ("antBuiltin", p NodeInfo.antBuiltin);
        ("response_time_ms", p NodeInfo.response_time_ms) ]
  |}.

(** The record handed to [upsert_node] is an object the caller keeps:
    the state of the call is that object and the journal. *)
Definition on_journal {A : Type} (c : M journal A)
  : M (NodeInfo.t * journal) A :=
  fun s => let (r, j) := c (snd s) in (r, (fst s, j)).

Definition update_object (f : NodeInfo.t -> result NodeInfo.t)
  : M (NodeInfo.t * journal) unit :=
  fun s => match f (fst s) with
           | Ok o => (Ok tt, (o, snd s))
           | Raise e => (Raise e, s)
           end.

(** [upsert_node] *)
Definition upsert_node : M (NodeInfo.t * journal) unit :=
  do _ <- update_object (round_attribute NodeInfo.lat) ;
  do _ <- update_object (round_attribute NodeInfo.lon) ;
  do node_data <- read fst ;
  do bad_lat <- lift (out_of_range (node_data NodeInfo.lat) (-90) 90) ;
  do _ <- (if bad_lat
           then on_journal
                  (log (Warning_invalid_lat (node_data NodeInfo.node)
                                            (node_data NodeInfo.lat)
                                            (node_data NodeInfo.lon)))
           else ret tt) ;
  do bad_lon <- lift (out_of_range (node_data NodeInfo.lon) (-180) 180) ;
  do _ <- (if bad_lon
           then on_journal
                  (log (Warning_invalid_lon (node_data NodeInfo.node)
                                            (node_data NodeInfo.lat)
                                            (node_data NodeInfo.lon)))
           else ret tt) ;
  try_except
    (on_journal (execute (node_statement node_data)))
    (fun e =>
       do _ <- on_journal
                 (log (Error_upsert_failed (node_data NodeInfo.node) e)) ;
       do _ <- on_journal
                 (log (Error_node_data (node_data NodeInfo.node)
                                       (node_data NodeInfo.lat)
                                       (node_data NodeInfo.lon)
                                       (node_data NodeInfo.wlan_ip))) ;
       raise e).

Definition stats_statement (stats : Stats.t) : statement :=
  let aggregates :=
    [ ("numParallelThreads", Param (stats Stats.numParallelThreads));
      ("nodeTotal", Param (stats Stats.nodeTotal));
      ("garbageReturned", Param (stats Stats.garbageReturned));
      ("highestHops", Param (stats Stats.highestHops));
      ("totalPolled", Param (stats Stats.totalPolled));
      ("noLocation", Param (stats Stats.noLocation));
      ("mappableNodes", Param (stats Stats.mappableNodes));
      ("mappableLinks", Param (stats Stats.mappableLinks));
      ("pollingTimeSec", Param (stats Stats.pollingTimeSec)) ] in
  Upsert {|
    table := "map_info";
    inserted :=
      ("id", Literal "POLLINFO") :: aggregates ++ [("lastPollingRun", Now)];
    on_duplicate := aggregates ++ [("lastPollingRun", Now)]
  |}.

Definition save_polling_stats (stats : Stats.t) : M journal unit :=
  execute (stats_statement stats).

(** [update_link_info]; [link_str] is the hex of the pickled map. *)
Definition update_link_info (wlan_ip link_str : pyval) : M journal unit :=
  execute (Update_link_info link_str wlan_ip).

End Store.

(** The parameter a statement binds to a column on insertion. *)
Definition inserted_value (st : statement) (column : string)
  : option sql_expr :=
  match st with
  | Upsert u =>
      option_map snd
        (List.find (fun cv => String.eqb (fst cv) column) (inserted u))
  | _ => None
  end.

(** The parameter a statement binds to a column on update. *)
Definition updated_value (st : statement) (column : string)
  : option sql_expr :=
  match st with
  | Upsert u =>
      option_map snd
        (List.find (fun cv => String.eqb (fst cv) column) (on_duplicate u))
  | _ => None
  end.

End Persistence.

(** ** What an upsert is expected to leave behind *)

Module PersistenceSpec.

Import PyVal PyNum World Persistence.
Local Open Scope string_scope.

(** The record with both coordinates rounded to seven digits. *)
Definition rounded (node_data : NodeInfo.t) (x y : Q) : NodeInfo.t :=
  NodeInfo.set NodeInfo.lon (VFloat (round_ndigits y 7))
    (NodeInfo.set NodeInfo.lat (VFloat (round_ndigits x 7)) node_data).

(** [q] lies outside the interval from [lo] to [hi]. *)
Definition outside (q : Q) (lo hi : Z) : bool :=
  Qlt_bool q (inject_Z lo) || Qlt_bool (inject_Z hi) q.

Definition coordinate_warnings (node_data : NodeInfo.t) : list log_entry :=
  match node_data NodeInfo.lat, node_data NodeInfo.lon with
  | VFloat rx, VFloat ry =>
      (if outside rx (-90) 90
       then [Warning_invalid_lat (node_data NodeInfo.node)
                                 (VFloat rx) (VFloat ry)]
       else [])
      ++ (if outside ry (-180) 180
          then [Warning_invalid_lon (node_data NodeInfo.node)
                                    (VFloat rx) (VFloat ry)]
          else [])
  | _, _ => []
  end%list.

(** The two error lines of a refused statement. *)
Definition failure_lines (node_data : NodeInfo.t) (r : result unit)
  : list log_entry :=
  match r with
  | Ok _ => []
  | Raise e =>
      [ Error_upsert_failed (node_data NodeInfo.node) e;
        Error_node_data (node_data NodeInfo.node)
                        (node_data NodeInfo.lat)
                        (node_data NodeInfo.lon)
                        (node_data NodeInfo.wlan_ip) ]
  end.

(** A record with coordinates outside both intervals. *)
Definition off_the_map : NodeInfo.t :=
  NodeInfo.set NodeInfo.lat (VFloat (95123456789 # 1000000000))
    (NodeInfo.set NodeInfo.lon (VFloat (-401 # 2))
       (NodeInfo.set NodeInfo.wlan_ip (VStr "10.1.1.1") NodeInfo.default)).

(** What a coordinate of a record may be: absent, an integer or a
    float. *)
Definition coordinate (v : pyval) : Prop :=
  v = VNone \/ (exists z, v = VInt z) \/ (exists q, v = VFloat q).

(** A coordinate as the upsert leaves it: a float is rounded to seven
    digits, an integer and an absent value stay. *)
Definition round7 (v : pyval) : pyval :=
  match v with
  | VFloat q => VFloat (round_ndigits q 7)
  | _ => v
  end.

(** The record as the upsert leaves it. *)
Definition settled (node_data : NodeInfo.t) : NodeInfo.t :=
  fun f =>
    if NodeInfo.field_eq_dec f NodeInfo.lat
    then round7 (node_data NodeInfo.lat)
    else if NodeInfo.field_eq_dec f NodeInfo.lon
         then round7 (node_data NodeInfo.lon)
         else node_data f.

(** The value is a number outside the interval from [lo] to [hi]. *)
Definition beyond (v : pyval) (lo hi : Z) : bool :=
  match num_of v with
  | Some q => outside q lo hi
  | None => false
  end.

(** The warnings a record draws: one for a latitude beyond 90 degrees,
    one for a longitude beyond 180. *)
Definition range_warnings (node_data : NodeInfo.t) : list log_entry :=
  ((if beyond (node_data NodeInfo.lat) (-90) 90
    then [Warning_invalid_lat (node_data NodeInfo.node)
                              (node_data NodeInfo.lat)
                              (node_data NodeInfo.lon)]
    else [])
   ++ (if beyond (node_data NodeInfo.lon) (-180) 180
       then [Warning_invalid_lon (node_data NodeInfo.node)
                                 (node_data NodeInfo.lat)
                                 (node_data NodeInfo.lon)]
       else []))%list.

(** A record whose coordinates lie outside both intervals by four
    units of the eighth digit. *)
Definition near_the_bound : NodeInfo.t :=
  NodeInfo.set NodeInfo.lat (VFloat (9000000004 # 100000000))
    (NodeInfo.set NodeInfo.lon (VFloat (-18000000004 # 100000000))
       (NodeInfo.set NodeInfo.wlan_ip (VStr "10.1.1.1") NodeInfo.default)).

End PersistenceSpec.

(** ** The daemon object *)

Module Daemon.

Import PyVal.
Local Open Scope Z_scope.

(** The attributes of [MeshPollingDaemon] that the polling cycle reads
    or writes. *)
Record t : Type := {
  nodelistNode : string;
  parallel_threads : Z;
  poller_cycle_minutes : Z;
  poller_cycle_seconds : Z;
  localnode_ip : pyval;
  initial_link_map : items;
  stats : Stats.t;
  protocol_threshold_seconds : Z;
  protocol_version_cutoff : Z;
  protocol_nightly_cutoff : Z;
  nodelistNode_ip : pyval;
  cycle_count : Z;
  base_parallel_threads : Z
}.

Definition with_parallel_threads (v : Z) (d : t) : t :=
  {| nodelistNode := nodelistNode d;
     parallel_threads := v;
     poller_cycle_minutes := poller_cycle_minutes d;
     poller_cycle_seconds := poller_cycle_seconds d;
     localnode_ip := localnode_ip d;
     initial_link_map := initial_link_map d;
     stats := stats d;
     protocol_threshold_seconds := protocol_threshold_seconds d;
     protocol_version_cutoff := protocol_version_cutoff d;
     protocol_nightly_cutoff := protocol_nightly_cutoff d;
     nodelistNode_ip := nodelistNode_ip d;
     cycle_count := cycle_count d;
     base_parallel_threads := base_parallel_threads d |}.

Definition with_localnode_ip (v : pyval) (d : t) : t :=
  {| nodelistNode := nodelistNode d;
     parallel_threads := parallel_threads d;
     poller_cycle_minutes := poller_cycle_minutes d;
     poller_cycle_seconds := poller_cycle_seconds d;
     localnode_ip := v;
     initial_link_map := initial_link_map d;
     stats := stats d;
     protocol_threshold_seconds := protocol_threshold_seconds d;
     protocol_version_cutoff := protocol_version_cutoff d;
     protocol_nightly_cutoff := protocol_nightly_cutoff d;
     nodelistNode_ip := nodelistNode_ip d;
     cycle_count := cycle_count d;
     base_parallel_threads := base_parallel_threads d |}.

Definition with_initial_link_map (v : items) (d : t) : t :=
  {| nodelistNode := nodelistNode d;
     parallel_threads := parallel_threads d;
     poller_cycle_minutes := poller_cycle_minutes d;
     poller_cycle_seconds := poller_cycle_seconds d;
     localnode_ip := localnode_ip d;
     initial_link_map := v;
     stats := stats d;
     protocol_threshold_seconds := protocol_threshold_seconds d;
     protocol_version_cutoff := protocol_version_cutoff d;
     protocol_nightly_cutoff := protocol_nightly_cutoff d;
     nodelistNode_ip := nodelistNode_ip d;
     cycle_count := cycle_count d;
     base_parallel_threads := base_parallel_threads d |}.

Definition with_stats (v : Stats.t) (d : t) : t :=
  {| nodelistNode := nodelistNode d;
     parallel_threads := parallel_threads d;
     poller_cycle_minutes := poller_cycle_minutes d;
     poller_cycle_seconds := poller_cycle_seconds d;
     localnode_ip := localnode_ip d;
     initial_link_map := initial_link_map d;
     stats := v;
     protocol_threshold_seconds := protocol_threshold_seconds d;
     protocol_version_cutoff := protocol_version_cutoff d;
     protocol_nightly_cutoff := protocol_nightly_cutoff d;
     nodelistNode_ip := nodelistNode_ip d;
     cycle_count := cycle_count d;
     base_parallel_threads := base_parallel_threads d |}.

Definition with_nodelistNode_ip (v : pyval) (d : t) : t :=
  {| nodelistNode := nodelistNode d;
     parallel_threads := parallel_threads d;
     poller_cycle_minutes := poller_cycle_minutes d;
     poller_cycle_seconds := poller_cycle_seconds d;
     localnode_ip := localnode_ip d;
     initial_link_map := initial_link_map d;
     stats := stats d;
     protocol_threshold_seconds := protocol_threshold_seconds d;
     protocol_version_cutoff := protocol_version_cutoff d;
     protocol_nightly_cutoff := protocol_nightly_cutoff d;
     nodelistNode_ip := v;
     cycle_count := cycle_count d;
     base_parallel_threads := base_parallel_threads d |}.

Definition with_cycle_count (v : Z) (d : t) : t :=
  {| nodelistNode := nodelistNode d;
     parallel_threads := parallel_threads d;
     poller_cycle_minutes := poller_cycle_minutes d;
     poller_cycle_seconds := poller_cycle_seconds d;
     localnode_ip := localnode_ip d;
     initial_link_map := initial_link_map d;
     stats := stats d;
     protocol_threshold_seconds := protocol_threshold_seconds d;
     protocol_version_cutoff := protocol_version_cutoff d;
     protocol_nightly_cutoff := protocol_nightly_cutoff d;
     nodelistNode_ip := nodelistNode_ip d;
     cycle_count := v;
     base_parallel_threads := base_parallel_threads d |}.

(** [self.stats[k] = v] *)
Definition set_stat (k : Stats.key) (v : pyval) (d : t) : t :=
  with_stats (Stats.set k v (stats d)) d.

(** The settings [__init__] reads, as the configuration manager hands
    them over (fallbacks applied). *)
Record settings : Type := {
  cfg_nodelistNode : string;
  cfg_numParallelThreads : Z;
  cfg_pollerCycleTime : Z;
  cfg_protocol_threshold_seconds : Z;
  cfg_protocol_version_cutoff : string;
  cfg_protocol_nightly_cutoff : string
}.

(** [x if x is not None else d] *)
Definition or_default (x : option Z) (d : option Z) : Z :=
  match x, d with
  | Some z, _ => z
  | None, Some z => z
  | None, None => 0
  end.

(** [MeshPollingDaemon.__init__] *)
Definition init (c : settings) : t :=
  {| nodelistNode := cfg_nodelistNode c;
     parallel_threads := cfg_numParallelThreads c;
     poller_cycle_minutes := cfg_pollerCycleTime c;
     poller_cycle_seconds := Z.max (cfg_pollerCycleTime c * 60) 1;
     localnode_ip := VNone;
     initial_link_map := [];
     stats := Stats.initial (cfg_numParallelThreads c);
     protocol_threshold_seconds := cfg_protocol_threshold_seconds c;
     protocol_version_cutoff :=
       or_default (Firmware.version_to_int (cfg_protocol_version_cutoff c))
                  (Firmware.version_to_int "3.25.5.0");
     protocol_nightly_cutoff :=
       or_default (Firmware.nightly_to_int (cfg_protocol_nightly_cutoff c))
                  (Firmware.nightly_to_int "20250507-aaaaaaaa");
     nodelistNode_ip := VNone;
     cycle_count := 0;
     base_parallel_threads := cfg_numParallelThreads c |}.

End Daemon.

(** ** The topology discoverer *)

Module Topology.

Import PyVal Eff.
Import Sysinfo.
Local Open Scope string_scope.

Definition is_dict (v : pyval) : bool :=
  match v with
  | VDict _ => true
  | _ => false
  end.

(** [v.get(k, default)]: only a mapping has the method. *)
Definition py_get (v : pyval) (k : string) (default : pyval) : result pyval :=
  match v with
  | VDict d => Ok (get_default d k default)
  | _ => Raise AttributeError
  end.

Fixpoint chars (s : string) : list pyval :=
  match s with
  | EmptyString => []
  | String c r => VStr (String c EmptyString) :: chars r
  end.

(** The elements a [for] loop over [v] visits. *)
Definition iterate (v : pyval) : result (list pyval) :=
  match v with
  | VList l => Ok l
  | VDict d => Ok (List.map fst d)
  | VStr s => Ok (chars s)
  | _ => Raise TypeError
  end.

Definition hashable (v : pyval) : bool :=
  match v with
  | VList _ | VDict _ => false
  | _ => true
  end.

(** [d[k] = v] on a local mapping. *)
Definition assign (d : items) (k v : pyval) : result items :=
  if hashable k then Ok (set_item d k v) else Raise TypeError.

(** [d.get(k, default)] for a key that is a value. *)
Definition get_key (d : items) (k default : pyval) : result pyval :=
  if hashable k then
    Ok match lookup k d with
       | Some v => v
       | None => default
       end
  else Raise TypeError.

(** [payload.get(k, []) or []] when the payload is a non-empty mapping,
    [[]] otherwise. *)
Definition payload_list (payload : pyval) (k : string) : pyval :=
  match payload with
  | VDict d =>
      if truthy payload
      then py_or (get_default d k (VList [])) (VList [])
      else VList []
  | _ => VList []
  end.

(** First loop over the interfaces: a [br-nomesh] with a [10.] address. *)
Fixpoint prefer_br_nomesh (interfaces : list pyval) : result pyval :=
  match interfaces with
  | [] => Ok VNone
  | iface :: rest =>
      match iface with
      | VDict d =>
          if eq_str (get d "name") "br-nomesh" then
            let ip_candidate := get d "ip" in
            if truthy ip_candidate then
              mesh <- startswith ip_candidate "10." ;;
              if mesh then Ok ip_candidate else prefer_br_nomesh rest
            else prefer_br_nomesh rest
          else prefer_br_nomesh rest
      | _ => prefer_br_nomesh rest
      end
  end.

(** Second loop: the first [10.] address, else the last address that is
    not ["none"]. *)
Fixpoint any_address (interfaces : list pyval) (nodelistNode_ip : pyval)
  : result pyval :=
  match interfaces with
  | [] => Ok nodelistNode_ip
  | iface :: rest =>
      match iface with
      | VDict d =>
          let iface_ip := get d "ip" in
          if truthy iface_ip && negb (eq_str iface_ip "none")
             && negb (eq_str iface_ip "None")
          then
            mesh <- startswith iface_ip "10." ;;
            if mesh then Ok iface_ip else any_address rest iface_ip
          else any_address rest nodelistNode_ip
      | _ => any_address rest nodelistNode_ip
      end
  end.

Definition resolve_seed_ip (nodes_payload : pyval) : result pyval :=
  match nodes_payload with
  | VDict d =>
      if truthy nodes_payload then
        interfaces <- iterate (payload_list nodes_payload "interfaces") ;;
        nodelistNode_ip <- prefer_br_nomesh interfaces ;;
        if truthy nodelistNode_ip then Ok nodelistNode_ip
        else any_address interfaces nodelistNode_ip
      else Ok VNone
  | _ => Ok VNone
  end.

(** [lqm_payload.get('lqm', {}).get('info', {}).get('trackers')], then
    [lqm_payload.get('lqm', {}).get('trackers')] when that is empty. *)
Definition find_trackers (lqm_payload : pyval) : result pyval :=
  if truthy lqm_payload && is_dict lqm_payload then
    lqm <- py_get lqm_payload "lqm" (VDict []) ;;
    info <- py_get lqm "info" (VDict []) ;;
    trackers <- py_get info "trackers" VNone ;;
    if truthy trackers then Ok trackers
    else
      lqm <- py_get lqm_payload "lqm" (VDict []) ;;
      py_get lqm "trackers" VNone
  else Ok VNone.

(** [s.lower()] and [s.upper()] on a value. *)
Definition py_lower (v : pyval) : result string :=
  match v with
  | VStr s => Ok (PyStr.lower s)
  | _ => Raise AttributeError
  end.

Definition py_upper (v : pyval) : result string :=
  match v with
  | VStr s => Ok (PyStr.upper s)
  | _ => Raise AttributeError
  end.

Definition in_list (s : string) (l : list string) : bool :=
  existsb (String.eqb s) l.

Definition normalise_link_type (link_type : pyval) : result pyval :=
  lt_lower <- py_lower link_type ;;
  if in_list lt_lower ["wireguard"; "tunnel"; "tun"] then Ok (VStr "TUN")
  else if in_list lt_lower ["dtd"; "dtdlink"] then Ok (VStr "DTD")
  else if String.eqb lt_lower "rf" then Ok (VStr "RF")
  else if truthy link_type then
         up <- py_upper link_type ;; Ok (VStr up)
       else Ok (VStr "UNKNOWN").

(** The body of the loop over [trackers.values()]. *)
Definition add_tracker (tracker : pyval) (link_map : items) : result items :=
  match tracker with
  | VDict t =>
      let dest_ip := py_or (get t "canonical_ip") (get t "ip") in
      if truthy dest_ip then
        let link_type := py_or (get t "type") (VStr "") in
        link_type_out <- normalise_link_type link_type ;;
        assign link_map dest_ip
          (VDict [ (VStr "destinationIP", dest_ip);
                   (VStr "linkType", link_type_out);
                   (VStr "interface", get t "device");
                   (VStr "rxcost", get t "rxcost");
                   (VStr "txcost", get t "txcost");
                   (VStr "rtt", get t "rtt");
                   (VStr "distance", get t "distance");
                   (VStr "quality", get t "quality");
                   (VStr "hostname", get t "hostname");
                   (VStr "lat", get t "lat");
                   (VStr "lon", get t "lon") ])
      else Ok link_map
  | _ => Ok link_map
  end.

Fixpoint add_trackers (trackers : list pyval) (link_map : items)
  : result items :=
  match trackers with
  | [] => Ok link_map
  | tracker :: rest =>
      link_map <- add_tracker tracker link_map ;;
      add_trackers rest link_map
  end.

Definition links_from_lqm (lqm_payload : pyval) : result items :=
  trackers <- find_trackers lqm_payload ;;
  match trackers with
  | VDict t =>
      if truthy trackers then add_trackers (List.map snd t) [] else Ok []
  | _ => Ok []
  end.

(** The body of the loop over [li.items()]. *)
Definition add_link_info (dest_ip info : pyval) (link_map : items) : items :=
  match info with
  | VDict i =>
      set_item link_map dest_ip
        (VDict [ (VStr "destinationIP", dest_ip);
                 (VStr "linkType", get i "linkType");
                 (VStr "interface", get i "interface");
                 (VStr "hostname", get i "hostname") ])
  | _ => link_map
  end.

Definition links_from_link_info (link_info_payload : pyval) (link_map : items)
  : items :=
  match link_map, link_info_payload with
  | [], VDict p =>
      if truthy link_info_payload then
        match get p "link_info" with
        | VDict li =>
            List.fold_left (fun m kv => add_link_info (fst kv) (snd kv) m)
                           li link_map
        | _ => link_map
        end
      else link_map
  | _, _ => link_map
  end.

(** [any(n.get('ip') == ip for n in nodes)] *)
Fixpoint any_has_ip (nodes : list pyval) (ip : pyval) : result bool :=
  match nodes with
  | [] => Ok false
  | n :: rest =>
      n_ip <- py_get n "ip" VNone ;;
      if py_eqb n_ip ip then Ok true else any_has_ip rest ip
  end.

(** [_fetch_topology], given what the three fetches returned ([VNone]
    for a fetch that failed).  The result is [VNone] or the bundle. *)
Definition _fetch_topology (nodes_payload lqm_payload link_info_payload : pyval)
  : M Daemon.t pyval :=
  let nodes_list := payload_list nodes_payload "nodes" in
  do nodelistNode_ip <- lift (resolve_seed_ip nodes_payload) ;
  do self <- read (fun d => d) ;
  do _ <- modify (Daemon.with_nodelistNode_ip
                    (py_or nodelistNode_ip (VStr (Daemon.nodelistNode self)))) ;
  do link_map <- lift (links_from_lqm lqm_payload) ;
  let link_map := links_from_link_info link_info_payload link_map in
  do self <- read (fun d => d) ;
  do link_map_by_source <-
     lift (if truthy (Daemon.nodelistNode_ip self)
              && truthy (VDict link_map)
           then assign [] (Daemon.localnode_ip self) (VDict link_map)
           else Ok []) ;
  do _ <-
     (if truthy (Daemon.localnode_ip self) then
        do entries <- lift (iterate nodes_list) ;
        do already_present <-
           lift (any_has_ip entries (Daemon.localnode_ip self)) ;
        if already_present then ret tt
        else
          (* The entry to append reads [self.localnode], an attribute the
             daemon does not have. *)
          raise AttributeError
      else ret tt) ;
  if truthy nodes_list then
    do _ <- modify (Daemon.with_initial_link_map link_map_by_source) ;
    ret (VDict [ (VStr "nodes", nodes_list);
                 (VStr "links", VDict link_map_by_source) ])
  else ret VNone.

(** [m.get(k, default)] for a key that is a value, on a value [m]. *)
Definition py_get_key (m k default : pyval) : result pyval :=
  match m with
  | VDict d => get_key d k default
  | _ => Raise AttributeError
  end.

(** The body of the loop of [_build_node_list]; [acc] is the pair of
    [nodes] and [max_hops]. *)
Definition add_node (link_map_by_source : pyval) (node : pyval)
           (acc : items * Z) : M Daemon.t (items * Z) :=
  match node with
  | VDict n =>
      let ip := get n "ip" in
      if truthy ip then
        let hops := 1%Z in
        let max_hops := if (snd acc <? hops)%Z then hops else snd acc in
        do _ <- (if truthy (get n "is_localnode")
                 then modify (Daemon.with_localnode_ip ip)
                 else ret tt) ;
        do links <- lift (py_get_key link_map_by_source ip (VDict [])) ;
        ret (set_item (fst acc) ip
               (VDict [ (VStr "hopsAway", VInt hops);
                        (VStr "link_info", links);
                        (VStr "lat", get n "lat");
                        (VStr "lon", get n "lon");
                        (VStr "name", get n "name");
                        (VStr "is_localnode",
                         get_default n "is_localnode" (VBool false)) ]),
             max_hops)
      else ret acc
  | _ => ret acc
  end.

Fixpoint add_nodes (link_map_by_source : pyval) (entries : list pyval)
         (acc : items * Z) : M Daemon.t (items * Z) :=
  match entries with
  | [] => ret acc
  | node :: rest =>
      do acc <- add_node link_map_by_source node acc ;
      add_nodes link_map_by_source rest acc
  end.

(** [_build_node_list] *)
Definition _build_node_list (topo_bundle : pyval) : M Daemon.t items :=
  do node_entries <-
     lift (if truthy topo_bundle
           then py_get topo_bundle "nodes" (VList [])
           else Ok (VList [])) ;
  do link_map_by_source <-
     lift (if truthy topo_bundle
           then py_get topo_bundle "links" (VDict [])
           else Ok (VDict [])) ;
  do entries <- lift (iterate node_entries) ;
  do acc <- add_nodes link_map_by_source entries ([], 0%Z) ;
  do _ <- modify (Daemon.set_stat Stats.highestHops (VInt (snd acc))) ;
  ret (fst acc).

End Topology.

(** ** A small mesh, for the examples *)

Module Example.

Import PyVal.
Local Open Scope string_scope.

Definition settings : Daemon.settings :=
  {| Daemon.cfg_nodelistNode := "localnode.local.mesh";
     Daemon.cfg_numParallelThreads := 60;
     Daemon.cfg_pollerCycleTime := 30;
     Daemon.cfg_protocol_threshold_seconds := 604800;
     Daemon.cfg_protocol_version_cutoff := "3.25.5.0";
     Daemon.cfg_protocol_nightly_cutoff := "20250507-aaaaaaaa" |}.

Definition neighbour : pyval :=
  VDict [ (VStr "name", VStr "N0CALL-2"); (VStr "ip", VStr "10.1.1.2");
          (VStr "lat", VFloat 40); (VStr "lon", VFloat (-104)) ].

(** What the seed answers to [?nodes=1]: its own description, its
    interfaces, and a node list that does not name the seed itself. *)
Definition nodes_payload : pyval :=
  VDict [ (VStr "node", VStr "N0CALL-1");
          (VStr "lat", VFloat 40); (VStr "lon", VFloat (-105));
          (VStr "interfaces",
           VList [ VDict [ (VStr "name", VStr "br-nomesh");
                           (VStr "ip", VStr "10.1.1.1") ] ]);
          (VStr "nodes", VList [ neighbour ]) ].

(** What the seed answers to [?lqm=1]: one RF neighbour. *)
Definition lqm_payload : pyval :=
  VDict [ (VStr "lqm",
           VDict [ (VStr "info",
                    VDict [ (VStr "trackers",
                             VDict [ (VStr "t1",
                                      VDict [ (VStr "ip", VStr "10.1.1.2");
                                              (VStr "type", VStr "RF");
                                              (VStr "device", VStr "wlan0")
                                      ]) ]) ]) ]) ].

Definition seed_link_map : pyval :=
  VDict [ (VStr "10.1.1.2",
           VDict [ (VStr "destinationIP", VStr "10.1.1.2");
                   (VStr "linkType", VStr "RF");
                   (VStr "interface", VStr "wlan0");
                   (VStr "rxcost", VNone); (VStr "txcost", VNone);
                   (VStr "rtt", VNone); (VStr "distance", VNone);
                   (VStr "quality", VNone); (VStr "hostname", VNone);
                   (VStr "lat", VNone); (VStr "lon", VNone) ]) ].

End Example.

(** ** The artifact emitter *)

Module Emitter.

Import PyVal PyNum Eff.
Local Open Scope string_scope.

(** The six lists of [allDevices], in the order of the dictionary:
    [noRF], [supernode], [900], [2ghz], [3ghz], [5ghz]. *)
Inductive bucket : Type :=
| noRF | supernode | band_900 | band_2ghz | band_3ghz | band_5ghz.

Definition bucket_eq_dec (a b : bucket) : {a = b} + {a <> b}.
Proof. decide equality. Defined.

Definition buckets : list bucket :=
  [noRF; supernode; band_900; band_2ghz; band_3ghz; band_5ghz].

(** [v != 0] *)
Definition ne_zero (v : pyval) : bool := negb (eq_int v 0).

(** The chain on a numeric channel. *)
Definition by_channel (ch : Z) : option bucket :=
  if (ch <=? 11)%Z then Some band_2ghz
  else if ((37 <=? ch) && (ch <=? 64))%Z
          || ((100 <=? ch) && (ch <=? 184))%Z
          || (3000 <=? ch)%Z
       then Some band_5ghz
       else if ((76 <=? ch) && (ch <=? 99))%Z then Some band_3ghz
            else None.

(** Where a row of the node table goes, if anywhere: the [if]/[elif]
    chain of the emitter.  [int(channel)] may raise. *)
Definition categorize (node : items) : result (option bucket) :=
  let lat := get_default node "lat" (VInt 0) in
  let lon := get_default node "lon" (VInt 0) in
  if ne_zero lat || ne_zero lon then
    let is_supernode :=
      eq_str (get_default node "mesh_supernode" (VStr "false")) "true" in
    let is_no_rf :=
      eq_str (get_default node "meshRF" (VStr "on")) "off"
      || eq_str (get_default node "channel" (VStr "none")) "none" in
    let channel := get_default node "channel" (VStr "none") in
    let board_id := get_default node "board_id" (VStr "") in
    if is_supernode then Ok (Some supernode)
    else if is_no_rf then Ok (Some noRF)
    else if eq_str channel "none" then Ok (Some noRF)
    else if in_strs board_id ["0xe009"; "0xe1b9"; "0xe239"]
    then Ok (Some band_900)
    else
      match channel with
      | VStr s =>
          if PyStr.isdigit s then
            match PyStr.int_of_str s with
            | Some ch => Ok (by_channel ch)
            | None => Raise ValueError
            end
          else Ok None
      | VInt ch => Ok (by_channel ch)
      | VBool b => Ok (by_channel (if b then 1 else 0))
      | _ => Ok None
      end
  else Ok None.

(** [_is_firmware] on a value: what is not a string is no firmware. *)
Definition is_firmware_value (version : pyval) (fw_type : string)
           (version_cutoff nightly_cutoff : Z) : bool :=
  match version with
  | VStr s => Firmware._is_firmware s fw_type version_cutoff nightly_cutoff
  | _ => false
  end.

Section Emit.

(** [_parse_last_seen] rests on the interpreter's date parsing, and
    [time.time()] on the clock: both are given. *)
Variable parse_last_seen : pyval -> option Q.
Variable now : Q.

Definition _determine_protocol (self : Daemon.t)
           (firmware_version last_seen_value : pyval) : string :=
  match parse_last_seen last_seen_value with
  | None => "Unknown"
  | Some last_seen_ts =>
      if Qlt_bool last_seen_ts
                  (now - inject_Z (Daemon.protocol_threshold_seconds self))
      then "Unknown"
      else
        let vc := Daemon.protocol_version_cutoff self in
        let nc := Daemon.protocol_nightly_cutoff self in
        if is_firmware_value firmware_version "babel" vc nc
        then "Babel Only"
        else if is_firmware_value firmware_version "olsr" vc nc
        then "OLSR Only"
        else if is_firmware_value firmware_version "combo" vc nc
        then "Combo"
        else "Unknown"
  end.

(** The record of a node in the artifacts.  Building it deserialises the
    blobs of the row and converts its timestamp, which may raise; the
    record type and the construction are given. *)
Variable node_data_t : Type.
Variable node_data_of : items -> string -> result node_data_t.

(** What the loop over the rows accumulates. *)
Record accumulator : Type := {
  all_devices : bucket -> list node_data_t;
  node_report : list node_data_t;
  babel_count : Z;
  olsr_count : Z;
  combo_count : Z
}.

Definition start : accumulator :=
  {| all_devices := fun _ => [];
     node_report := [];
     babel_count := 0;
     olsr_count := 0;
     combo_count := 0 |}.

(** [all_devices[b].append(node_data)] *)
Definition append_to (b : bucket) (node_data : node_data_t)
           (devices : bucket -> list node_data_t) : bucket -> list node_data_t :=
  fun b' => if bucket_eq_dec b' b
            then (devices b' ++ [node_data])%list
            else devices b'.

(** The body of the loop over [all_nodes]. *)
Definition emit_node (self : Daemon.t) (node : items) (acc : accumulator)
  : result accumulator :=
  let protocol :=
    _determine_protocol self
      (get_default node "firmware_version" (VStr ""))
      (get_default node "last_seen" (VStr "")) in
  bind (node_data_of node protocol) (fun node_data =>
  let count := fun (name : string) (n : Z) =>
    if String.eqb protocol name then (n + 1)%Z else n in
  bind (categorize node) (fun place =>
  Ok {| all_devices :=
          match place with
          | Some b => append_to b node_data (all_devices acc)
          | None => all_devices acc
          end;
        node_report := (node_report acc ++ [node_data])%list;
        babel_count := count "Babel Only" (babel_count acc);
        olsr_count := count "OLSR Only" (olsr_count acc);
        combo_count := count "Combo" (combo_count acc) |})).

Fixpoint emit_nodes (self : Daemon.t) (all_nodes : list items)
         (acc : accumulator) : result accumulator :=
  match all_nodes with
  | [] => Ok acc
  | node :: rest =>
      bind (emit_node self node acc) (emit_nodes self rest)
  end.

(** What [map_data.json] carries besides [mapInfo], which is read off
    the configuration. *)
Record map_data : Type := {
  pollingInfo : Stats.t;
  allDevices : bucket -> list node_data_t
}.

End Emit.

End Emitter.

(** ** Where a node ends up, stated on the row *)

Module EmitterSpec.

Import PyVal Emitter.

(** The row is placed in bucket [b]. *)
Definition placed (node : items) (b : bucket) : bool :=
  match categorize node with
  | Ok (Some b') => if bucket_eq_dec b' b then true else false
  | _ => false
  end.

(** Both coordinates of the row are zero. *)
Definition at_origin (node : items) : bool :=
  eq_int (get_default node "lat" (VInt 0)) 0
  && eq_int (get_default node "lon" (VInt 0)) 0.

(** The number of records in the six lists together. *)
Definition total_placed (A : Type) (devices : bucket -> list A) : nat :=
  List.list_sum (List.map (fun b => List.length (devices b)) buckets).

(** The records of the rows placed in [b], in the order of the rows. *)
Definition records_in (A : Type) (b : bucket) (records : list (items * A))
  : list A :=
  List.map snd (List.filter (fun r => placed (fst r) b) records).

(** Three rows: a supernode on channel 149 that runs a babel firmware,
    a node at the origin, and a node whose radio is off. *)
Definition sample_rows : list items :=
  [ [ (VStr "wlan_ip", VStr "10.1.1.1"); (VStr "lat", VFloat 40);
      (VStr "lon", VFloat (-105)); (VStr "mesh_supernode", VStr "true");
      (VStr "firmware_version", VStr "babel-20250601-abcdef1");
      (VStr "meshRF", VStr "on"); (VStr "channel", VStr "149");
      (VStr "board_id", VStr "0x0000") ];
    [ (VStr "wlan_ip", VStr "10.1.1.2"); (VStr "lat", VFloat 0);
      (VStr "lon", VFloat 0); (VStr "mesh_supernode", VStr "false");
      (VStr "meshRF", VStr "on"); (VStr "channel", VStr "6");
      (VStr "board_id", VStr "0x0000") ];
    [ (VStr "wlan_ip", VStr "10.1.1.3"); (VStr "lat", VFloat 40);
      (VStr "lon", VFloat (-104)); (VStr "mesh_supernode", VStr "false");
      (VStr "meshRF", VStr "off"); (VStr "channel", VStr "149");
      (VStr "board_id", VStr "0x0000") ] ].

End EmitterSpec.

(** ** The cycle coordinator *)

Module Coordinator.

Import PyVal PyNum Eff World.
Local Open Scope string_scope.

(** The daemon and the journal of what it did to the world. *)
Record state : Type := {
  self : Daemon.t;
  events : journal
}.

Definition on_self {A : Type} (c : M Daemon.t A) : M state A :=
  fun s => let (r, d) := c (self s) in
           (r, {| self := d; events := events s |}).

Definition on_events {A : Type} (c : M journal A) : M state A :=
  fun s => let (r, j) := c (events s) in
           (r, {| self := self s; events := j |}).

Definition emit (e : event) : M state unit :=
  on_events (modify (fun j => j ++ [e])%list).

Definition log (e : log_entry) : M state unit := emit (Logged e).

Definition set_stat (k : Stats.key) (v : pyval) : M state unit :=
  on_self (modify (Daemon.set_stat k v)).

(** [v[k]] for a string key. *)
Definition py_index (v : pyval) (k : string) : result pyval :=
  match v with
  | VDict d =>
      match lookup (VStr k) d with
      | Some x => Ok x
      | None => Raise KeyError
      end
  | _ => Raise TypeError
  end.

(** [v += 1] *)
Definition add_one (v : pyval) : pyval :=
  match v with
  | VInt z => VInt (z + 1)
  | VBool b => VInt ((if b then 1 else 0) + 1)
  | VFloat q => VFloat (q + 1)
  | _ => v
  end.

(** The integer a statistic holds. *)
Definition int_of (v : pyval) : Z :=
  match v with
  | VInt z => z
  | VBool b => if b then 1 else 0
  | _ => 0
  end.

(** [min(l)] and [max(l)] for a list of numbers that starts with
    [best]: the first extreme element. *)
Fixpoint extreme (better : Q -> Q -> bool) (l : list pyval) (best : pyval)
  : pyval :=
  match l with
  | [] => best
  | v :: rest =>
      match num_of v, num_of best with
      | Some x, Some b => extreme better rest (if better x b then v else best)
      | _, _ => extreme better rest best
      end
  end.

Definition py_min (l : list pyval) : pyval :=
  match l with
  | [] => VNone
  | v :: rest => extreme Qlt_bool rest v
  end.

Definition py_max (l : list pyval) : pyval :=
  match l with
  | [] => VNone
  | v :: rest => extreme (fun x b => Qlt_bool b x) rest v
  end.

(** What the world answers during one cycle: the store, the seed, the
    nodes, the clock and the file system.  [node_data_t] is the type of
    the records the emitter builds. *)
Record environment (node_data_t : Type) : Type := {
  accepts : statement -> result unit;
  pickle_hex : pyval -> pyval;
  nodes_payload : pyval;
  lqm_payload : pyval;
  link_info_payload : pyval;
  poll_node : pyval -> pyval -> option NodeInfo.t;
  enrichment : list (pyval * pyval) * result Z;
  elapsed : Q;
  prepare : result unit;
  all_nodes : list items;
  parse_last_seen : pyval -> option Q;
  now : Q;
  node_data_of : items -> string -> result node_data_t;
  map_info : result unit;
  write_text : string -> result unit
}.

Section Cycle.

Variable node_data_t : Type.
Variable env : environment node_data_t.

(** [try: await self.db.upsert_node(o) except Exception as e: log]: the
    caller keeps the object, rounded or not. *)
Definition try_upsert (node_data : NodeInfo.t) (report : exn -> log_entry)
  : M state NodeInfo.t :=
  fun s =>
    let (r, after) :=
      Persistence.upsert_node (accepts env) (node_data, events s) in
    match r with
    | Ok _ => (Ok (fst after), {| self := self s; events := snd after |})
    | Raise e =>
        (Ok (fst after),
         {| self := self s;
            events := (snd after ++ [Logged (report e)])%list |})
    end.

(** The body of the loop of [_update_topology_info]. *)
Definition update_topology_entry (entry : pyval * pyval) : M state unit :=
  let (ip, info) := entry in
  do hops <- lift (py_index info "hopsAway") ;
  if is_not_none hops then
    do hops <- lift (py_index info "hopsAway") ;
    do links <- lift (py_index info "link_info") ;
    let node_data :=
      NodeInfo.set NodeInfo.link_info (pickle_hex env links)
        (NodeInfo.set NodeInfo.hopsAway hops
           (NodeInfo.set NodeInfo.wlan_ip ip NodeInfo.default)) in
    do _ <- try_upsert node_data (Error_updating_topology ip) ;
    ret tt
  else ret tt.

Definition _update_topology_info (node_devices : items) : M state unit :=
  for_each node_devices update_topology_entry.

(** The loop that creates the poll tasks: [idx] counts every candidate,
    skipped or not. *)
Fixpoint create_tasks (entries : items) (idx : Z) (inter_poll_delay : Q)
         (rate_limited : bool) : result (list task) :=
  match entries with
  | [] => Ok []
  | (ip, info) :: rest =>
      bind (py_index info "hopsAway") (fun hops =>
      if is_not_none hops then
        bind (py_index info "hopsAway") (fun hops' =>
        bind (create_tasks rest (idx + 1) inter_poll_delay rate_limited)
             (fun tasks =>
        Ok ({| task_ip := ip;
               task_hops := hops';
               task_delay := if rate_limited
                             then (inter_poll_delay * inject_Z idx)%Q
                             else 0%Q |} :: tasks)))
      else create_tasks rest (idx + 1) inter_poll_delay rate_limited)
  end.

(** What happens when a poll task completes. *)
Definition settle (t : task) (results : list NodeInfo.t)
  : M state (list NodeInfo.t) :=
  match poll_node env (task_ip t) (task_hops t) with
  | Some result =>
      do o <- try_upsert result (Error_saving_node (result NodeInfo.wlan_ip)) ;
      ret (results ++ [o])%list
  | None =>
      do d <- read self ;
      do _ <- set_stat Stats.nodesWithErrors
                (add_one (Daemon.stats d Stats.nodesWithErrors)) ;
      ret results
  end.

Fixpoint settle_all (tasks : list task) (results : list NodeInfo.t)
  : M state (list NodeInfo.t) :=
  match tasks with
  | [] => ret results
  | t :: rest => do results <- settle t results ; settle_all rest results
  end.

(** [_poll_all_nodes], with no shutdown under way.  The tasks run
    concurrently under a semaphore of [parallel_threads] permits; the
    model records the fan-out and settles the tasks in the order of their
    creation. *)
Definition _poll_all_nodes (node_devices : items)
  : M state (list NodeInfo.t) :=
  do d <- read self ;
  let total_nodes := Z.of_nat (List.length node_devices) in
  let rate_limited := (1 <? Daemon.cycle_count d)%Z in
  let inter_poll_delay :=
    if rate_limited && (0 <? total_nodes)%Z
    then (inject_Z (Daemon.poller_cycle_seconds d) / inject_Z total_nodes)%Q
    else 0%Q in
  do tasks <- lift (create_tasks node_devices 0 inter_poll_delay
                                 rate_limited) ;
  do _ <- emit (Scheduled (Daemon.parallel_threads d) tasks) ;
  settle_all tasks [].

(** [sum(1 for info in node_devices.values()
          if info['hopsAway'] is not None)] *)
Fixpoint count_pollable (entries : items) : result Z :=
  match entries with
  | [] => Ok 0%Z
  | (_, info) :: rest =>
      bind (py_index info "hopsAway") (fun hops =>
      bind (count_pollable rest) (fun n =>
      Ok (if is_not_none hops then n + 1 else n)%Z))
  end.

Definition has_no_location (n : NodeInfo.t) : bool :=
  eq_int (n NodeInfo.lat) 0 || eq_int (n NodeInfo.lon) 0.

(** [[n.response_time_ms for n in nodes if n.response_time_ms > 0]] *)
Fixpoint positive_response_times (nodes : list NodeInfo.t)
  : result (list pyval) :=
  match nodes with
  | [] => Ok []
  | n :: rest =>
      bind (gt_int (n NodeInfo.response_time_ms) 0) (fun positive =>
      bind (positive_response_times rest) (fun times =>
      Ok (if positive then n NodeInfo.response_time_ms :: times
          else times)))
  end.

Definition _calculate_stats (nodes : list NodeInfo.t) (node_devices : items)
  : M state unit :=
  let len_nodes := Z.of_nat (List.length nodes) in
  do _ <- set_stat Stats.totalPolled (VInt len_nodes) ;
  do _ <- (match node_devices with
           | [] =>
               do d <- read self ;
               set_stat Stats.garbageReturned
                 (VInt (int_of (Daemon.stats d Stats.nodeTotal) - len_nodes))
           | _ =>
               do pollable_nodes <- lift (count_pollable node_devices) ;
               set_stat Stats.garbageReturned
                        (VInt (pollable_nodes - len_nodes))
           end) ;
  let no_location :=
    Z.of_nat (List.length (List.filter has_no_location nodes)) in
  do _ <- set_stat Stats.noLocation (VInt no_location) ;
  do _ <- set_stat Stats.mappableNodes (VInt (len_nodes - no_location)) ;
  match nodes with
  | [] => ret tt
  | _ =>
      do response_times <- lift (positive_response_times nodes) ;
      match response_times with
      | [] => ret tt
      | _ =>
          do lo <- lift (py_round (py_min response_times) 2) ;
          do _ <- set_stat Stats.minResponseTimeMs lo ;
          do hi <- lift (py_round (py_max response_times) 2) ;
          set_stat Stats.maxResponseTimeMs hi
      end
  end.

(** [_build_link_topology], by its outcome: the link maps it writes
    back, and the number of links it enriched or the exception that
    ended it.  Whatever is raised inside is logged and goes no further. *)
Definition _build_link_topology : M state unit :=
  try_except
    (do _ <- for_each (fst (enrichment env))
               (fun u => on_events
                           (Persistence.update_link_info
                              (accepts env) (fst u) (snd u))) ;
     do link_count <- lift (snd (enrichment env)) ;
     set_stat Stats.mappableLinks (VInt link_count))
    (fun e => log (Error_link_topology e)).

(** [_generate_data_files]: the map artifact it wrote, if it got that
    far.  Whatever is raised inside is logged and goes no further. *)
Definition _generate_data_files
  : M state (option (Emitter.map_data node_data_t)) :=
  try_except
    (do _ <- lift (prepare env) ;
     do d <- read self ;
     do acc <- lift (Emitter.emit_nodes (parse_last_seen env) (now env)
                       (node_data_of env) d (all_nodes env)
                       (Emitter.start node_data_t)) ;
     do _ <- lift (map_info env) ;
     do _ <- set_stat Stats.babelNodes (VInt (Emitter.babel_count acc)) ;
     do _ <- set_stat Stats.olsrNodes (VInt (Emitter.olsr_count acc)) ;
     do _ <- set_stat Stats.comboNodes (VInt (Emitter.combo_count acc)) ;
     do d <- read self ;
     let map_data :=
       {| Emitter.pollingInfo := Daemon.stats d;
          Emitter.allDevices := Emitter.all_devices acc |} in
     do _ <- lift (write_text env "map_data.json") ;
     do _ <- emit (Wrote "map_data.json") ;
     try_except
       (do _ <- lift (write_text env "node_report_data.json") ;
        do _ <- emit (Wrote "node_report_data.json") ;
        ret (Some map_data))
       (fun e => do _ <- log (Error_generating_files e) ;
                 ret (Some map_data)))
    (fun e => do _ <- log (Error_generating_files e) ; ret None).

(** The steps of a cycle once the topology is known. *)
Definition poll_known_topology (topology : pyval) : M state unit :=
  do node_devices <- on_self (Topology._build_node_list topology) ;
  do _ <- set_stat Stats.nodeTotal
            (VInt (Z.of_nat (List.length node_devices))) ;
  do _ <- _update_topology_info node_devices ;
  do d <- read self ;
  do _ <- on_self
            (modify (Daemon.with_parallel_threads
                       (if (Daemon.cycle_count d =? 1)%Z then 600%Z
                        else Daemon.base_parallel_threads d))) ;
  do polled_nodes <- _poll_all_nodes node_devices ;
  do _ <- _calculate_stats polled_nodes node_devices ;
  do _ <- _build_link_topology ;
  do _ <- set_stat Stats.pollingTimeSec
            (VFloat (round_ndigits (elapsed env) 2)) ;
  do _ <- _generate_data_files ;
  do d <- read self ;
  on_events (Persistence.save_polling_stats (accepts env) (Daemon.stats d)).

(** [_poll_cycle] *)
Definition _poll_cycle : M state unit :=
  do d <- read self ;
  do _ <- on_self (modify (Daemon.with_cycle_count
                             (Daemon.cycle_count d + 1)%Z)) ;
  do topology <- on_self (Topology._fetch_topology
                            (nodes_payload env) (lqm_payload env)
                            (link_info_payload env)) ;
  if truthy topology then poll_known_topology topology
  else log Error_no_topology.

End Cycle.

(** The state a freshly built daemon starts from. *)
Definition boot (c : Daemon.settings) : state :=
  {| self := Daemon.init c; events := [] |}.

(** [_daemon_loop] over the cycles the world lets it run: a cycle that
    raises is left behind and the next one starts. *)
Fixpoint run (node_data_t : Type) (envs : list (environment node_data_t))
         (s : state) : state :=
  match envs with
  | [] => s
  | env :: rest => run rest (snd (_poll_cycle env s))
  end.

(** The fan-outs recorded in a journal, oldest first. *)
Definition scheduled (j : journal) : list (Z * list task) :=
  List.flat_map (fun e => match e with
                          | Scheduled budget tasks => [(budget, tasks)]
                          | _ => []
                          end) j.

(** The attributes of the daemon that a cycle leaves alone once it has
    counted itself. *)
Definition config (d : Daemon.t) : Z * Z * Z :=
  (Daemon.base_parallel_threads d, Daemon.poller_cycle_seconds d,
   Daemon.cycle_count d).

Definition same_config (d d' : Daemon.t) : Prop := config d' = config d.

(** The journal grew, and by no fan-out. *)
Definition grew_quietly (j j' : journal) : Prop :=
  exists more, j' = (j ++ more)%list /\ scheduled more = [].

(** The same of a call of the adapter, whose state pairs the record
    with the journal. *)
Definition journal_grew (p p' : NodeInfo.t * journal) : Prop :=
  grew_quietly (snd p) (snd p').

(** A step that changes neither the configuration nor the fan-outs on
    record. *)
Definition calm (s s' : state) : Prop :=
  same_config (self s) (self s') /\ grew_quietly (events s) (events s').





(** Every candidate of the list has a known hop count. *)
Definition hops_known (node_devices : items) : Prop :=
  List.Forall (fun kv => exists h, py_index (snd kv) "hopsAway" = Ok h
                                   /\ is_not_none h = true)
              node_devices.

(** The journal grew. *)
Definition extends (s s' : state) : Prop :=
  exists more, events s' = (events s ++ more)%list.

(** The step ended by handing the store the statistics as they stand at
    its end. *)
Definition saves_last (s s' : state) : Prop :=
  exists earlier,
    events s'
    = (events s ++ earlier
         ++ [Executed (Persistence.stats_statement
                         (Daemon.stats (self s')))])%list.

(** A computation that, when it returns, has saved the statistics
    last. *)
Definition ends_saving (c : M state unit) : Prop :=
  forall s, fst (c s) = Ok tt -> saves_last s (snd (c s)).

(** The nine aggregates of the statistics row, by column. *)
Definition persisted_aggregates : list (string * Stats.key) :=
  [ ("numParallelThreads", Stats.numParallelThreads);
    ("nodeTotal", Stats.nodeTotal);
    ("garbageReturned", Stats.garbageReturned);
    ("highestHops", Stats.highestHops);
    ("totalPolled", Stats.totalPolled);
    ("noLocation", Stats.noLocation);
    ("mappableNodes", Stats.mappableNodes);
    ("mappableLinks", Stats.mappableLinks);
    ("pollingTimeSec", Stats.pollingTimeSec) ].

(** The statistics that stay in memory and in the artifact. *)
Definition unpersisted_aggregates : list string :=
  [ "nodesWithErrors"; "babelNodes"; "olsrNodes"; "comboNodes";
    "minResponseTimeMs"; "maxResponseTimeMs" ].

(** The fan-outs a cycle adds to the journal. *)
Definition fan_out (node_data_t : Type) (env : environment node_data_t)
           (s : state) : list (Z * list task) :=
  List.skipn (List.length (scheduled (events s)))
             (scheduled (events (snd (_poll_cycle env s)))).

(** The topology a cycle retrieves, the cycle counted. *)
Definition topology_of (node_data_t : Type) (env : environment node_data_t)
           (s : state) : result pyval :=
  fst (Topology._fetch_topology
         (nodes_payload env) (lqm_payload env) (link_info_payload env)
         (Daemon.with_cycle_count (Daemon.cycle_count (self s) + 1)
                                  (self s))).

End Coordinator.

(** ** Two worlds, for the examples *)

Module Scenario.

Import PyVal World Coordinator.
Local Open Scope string_scope.

(** What a polled node answers: a record at (40, -105). *)
Definition polled (ip : pyval) : NodeInfo.t :=
  NodeInfo.set NodeInfo.wlan_ip ip
    (NodeInfo.set NodeInfo.lat (VFloat 40)
       (NodeInfo.set NodeInfo.lon (VFloat (-105))
          (NodeInfo.set NodeInfo.response_time_ms (VFloat (1234 # 100))
             NodeInfo.default))).

(** A world in which everything answers; the records of the artifacts
    are the rows themselves. *)
Definition online : environment items :=
  {| accepts := fun _ => Ok tt;
     pickle_hex := fun v => v;
     nodes_payload := Example.nodes_payload;
     lqm_payload := Example.lqm_payload;
     link_info_payload := VNone;
     poll_node := fun ip _ => Some (polled ip);
     enrichment := ([], Ok 1%Z);
     elapsed := 12345 # 1000;
     prepare := Ok tt;
     all_nodes := EmitterSpec.sample_rows;
     parse_last_seen := fun _ => Some 1000%Q;
     now := 1000%Q;
     node_data_of := fun row _ => Ok row;
     map_info := Ok tt;
     write_text := fun _ => Ok tt |}.

(** The same world with a seed that lists three nodes. *)
Definition three_nodes : environment items :=
  {| accepts := fun _ => Ok tt;
     pickle_hex := fun v => v;
     nodes_payload :=
       VDict [ (VStr "nodes",
                VList [ VDict [ (VStr "ip", VStr "10.1.1.1") ];
                        VDict [ (VStr "ip", VStr "10.1.1.2") ];
                        VDict [ (VStr "ip", VStr "10.1.1.3") ] ]) ];
     lqm_payload := VNone;
     link_info_payload := VNone;
     poll_node := fun ip _ => Some (polled ip);
     enrichment := ([], Ok 1%Z);
     elapsed := 12345 # 1000;
     prepare := Ok tt;
     all_nodes := EmitterSpec.sample_rows;
     parse_last_seen := fun _ => Some 1000%Q;
     now := 1000%Q;
     node_data_of := fun row _ => Ok row;
     map_info := Ok tt;
     write_text := fun _ => Ok tt |}.

(** The same world with a seed that does not answer. *)
Definition offline : environment items :=
  {| accepts := fun _ => Ok tt;
     pickle_hex := fun v => v;
     nodes_payload := VNone;
     lqm_payload := VNone;
     link_info_payload := VNone;
     poll_node := fun ip _ => Some (polled ip);
     enrichment := ([], Ok 1%Z);
     elapsed := 12345 # 1000;
     prepare := Ok tt;
     all_nodes := EmitterSpec.sample_rows;
     parse_last_seen := fun _ => Some 1000%Q;
     now := 1000%Q;
     node_data_of := fun row _ => Ok row;
     map_info := Ok tt;
     write_text := fun _ => Ok tt |}.

End Scenario.

(* ------------------------------------------------------------------ *)
(** * The geodesic helper

    [_calculate_distance_bearing] is floating-point code over Python's
    [math] module.  It is embedded over the real numbers: [math.sin],
    [math.cos] and [math.atan2] are the real functions, [math.sqrt] is
    the real square root and raises [ValueError] below zero, [%] is
    Python's floored remainder and [round(x, n)] rounds half to even at
    [n] decimal places.  The rounding error of the individual float
    operations and the signed zeros are outside the model.  In
    particular the haversine term, which lies in [[0, 1]] over the
    reals, can come out a rounding error above 1 in floats for
    antipodal points, where the code raises [ValueError] at the second
    square root: what is proved here of the results of the helper is
    proved of the calls that return. *)

Module Geo.
Import PyVal.
Local Open Scope R_scope.

(** [math.radians] and [math.degrees]. *)
Definition radians (x : R) : R := x * (PI / 180).
Definition degrees (x : R) : R := x * (180 / PI).

(** [math.atan2(y, x)]: the angle of the point [(x, y)], by quadrant. *)
Definition atan2 (y x : R) : R :=
if Rlt_dec 0 x then atan (y / x)
else if Rlt_dec x 0 then
  if Rle_dec 0 y then atan (y / x) + PI else atan (y / x) - PI
else if Rlt_dec 0 y then PI / 2
else if Rlt_dec y 0 then - (PI / 2)
else 0.

(** [math.sqrt(x)]. *)
Definition py_sqrt (x : R) : result R :=
if Rlt_dec x 0 then Raise ValueError else Ok (sqrt x).

(** [x % m] on floats, for a positive [m]: the remainder takes the sign
    of [m]. *)
Definition py_mod (x m : R) : R := x - m * IZR (Int_part (x / m)).

(** The nearest integer, a tie going to the even neighbour. *)
Definition round_half_even (r : R) : Z :=
let f := Int_part r in
let d := r - IZR f in
if Rlt_dec d (1 / 2) then f
else if Rlt_dec (1 / 2) d then (f + 1)%Z
else if Z.even f then f else (f + 1)%Z.

(** [round(x, ndigits)]. *)
Definition py_round (x : R) (ndigits : nat) : R :=
IZR (round_half_even (x * 10 ^ ndigits)) / 10 ^ ndigits.

(** The dictionary the helper returns has exactly these three keys. *)
Record distance_bearing : Type := {
  distanceKM : R;
  distanceMiles : R;
  bearing : R
}.

(** The haversine term [a] of the source. *)
Definition haversine (lat1 lon1 lat2 lon2 : R) : R :=
let lat1_rad := radians lat1 in
let lat2_rad := radians lat2 in
let delta_lat := radians (lat2 - lat1) in
let delta_lon := radians (lon2 - lon1) in
sin (delta_lat / 2) ^ 2 + cos lat1_rad * cos lat2_rad * sin (delta_lon / 2) ^ 2.

(** The bearing before the final [round], [(degrees(atan2(y, x)) + 360) % 360]. *)
Definition raw_bearing (lat1 lon1 lat2 lon2 : R) : R :=
let lat1_rad := radians lat1 in
let lat2_rad := radians lat2 in
let delta_lon := radians (lon2 - lon1) in
let y := sin delta_lon * cos lat2_rad in
let x := cos lat1_rad * sin lat2_rad
         - sin lat1_rad * cos lat2_rad * cos delta_lon in
py_mod (degrees (atan2 y x) + 360) 360.

Definition _calculate_distance_bearing (lat1 lon1 lat2 lon2 : R)
  : result distance_bearing :=
let a := haversine lat1 lon1 lat2 lon2 in
bind (py_sqrt a) (fun root_a =>
bind (py_sqrt (1 - a)) (fun root_b =>
let c := 2 * atan2 root_a root_b in
let distance_km := 6371 * c in
let distance_miles := distance_km * (621371 / 1000000) in
let bearing := raw_bearing lat1 lon1 lat2 lon2 in
Ok {| distanceKM := py_round distance_km 2;
      distanceMiles := py_round distance_miles 2;
      bearing := py_round bearing 1 |})).

End Geo.

(* ------------------------------------------------------------------ *)
(** * Integers as text, and the band of a channel *)

Module PyInt.

(** [str(n)] for an integer: the decimal digits, a minus sign first for
    a negative number, no leading zero. *)
Definition str (n : Z) : string :=
  DecimalString.NilZero.string_of_int (Z.to_int n).

End PyInt.

Module Band.

Import PyVal.
Local Open Scope string_scope.

(** The class constants of [NodePoller]. *)
Definition NODE_TIMEOUT : Z := 10.
Definition NODE_RETRY_DELAY : Z := 5.
Definition MAX_RETRIES : Z := 1.

Definition BAND_900_BOARD_IDS : list string :=
  ["0xe009"; "0xe1b9"; "0xe239"].

Definition BAND_2GHZ_CHANNELS : list string :=
  ["-1"; "-2"; "1"; "2"; "3"; "4"; "5"; "6"; "7"; "8"; "9"; "10"; "11"].

Definition BAND_3GHZ_CHANNELS : list string :=
  ["76"; "77"; "78"; "79"; "80"; "81"; "82"; "83"; "84"; "85"; "86"; "87";
   "88"; "89"; "90"; "91"; "92"; "93"; "94"; "95"; "96"; "97"; "98"; "99"].

Definition BAND_5GHZ_CHANNELS : list string :=
  ["37"; "40"; "44"; "48"; "52"; "56"; "60"; "64"; "100"; "104"; "108";
   "112"; "116"; "120"; "124"; "128"; "132"; "133"; "134"; "135"; "136";
   "137"; "138"; "139"; "140"; "141"; "142"; "143"; "144"; "145"; "146";
   "147"; "148"; "149"; "150"; "151"; "152"; "153"; "154"; "155"; "156";
   "157"; "158"; "159"; "160"; "161"; "162"; "163"; "164"; "165"; "166";
   "167"; "168"; "169"; "170"; "171"; "172"; "173"; "174"; "175"; "176";
   "177"; "178"; "179"; "180"; "181"; "182"; "183"; "184"].

(** [NodePoller.check_band(channel, board_id)] *)
Definition check_band (channel board_id : pyval) : string :=
  if truthy board_id && in_strs board_id BAND_900_BOARD_IDS then "900MHz"
  else if in_strs channel BAND_2GHZ_CHANNELS then "2GHz"
  else if in_strs channel BAND_3GHZ_CHANNELS then "3GHz"
  else if in_strs channel BAND_5GHZ_CHANNELS then "5GHz"
  else "Unknown".

End Band.

(** ** The band of a channel number, by ranges *)

Module BandSpec.

Import PyVal.
Local Open Scope string_scope.
Local Open Scope Z_scope.

(** A row of the node table: a located node with its radio on, on the
    channel [c], no supernode and no 900 MHz board. *)
Definition located_row (c : string) : items :=
  [ (VStr "wlan_ip", VStr "10.1.1.4"); (VStr "lat", VFloat 40);
    (VStr "lon", VFloat (-105)); (VStr "mesh_supernode", VStr "false");
    (VStr "meshRF", VStr "on"); (VStr "channel", VStr c);
    (VStr "board_id", VStr "0x0000") ].

Definition between (lo n hi : Z) : bool := (lo <=? n) && (n <=? hi).

(** The channel numbers of the 5 GHz table: 37, every fourth number
    from 40 to 64 and from 100 to 128, and every number from 132 to
    184. *)
Definition is_5ghz (n : Z) : bool :=
  (n =? 37)
  || (between 40 n 64 && (n mod 4 =? 0))
  || (between 100 n 128 && (n mod 4 =? 0))
  || between 132 n 184.

Definition band_of_number (n : Z) : string :=
  if between (-2) n (-1) || between 1 n 11 then "2GHz"
  else if between 76 n 99 then "3GHz"
  else if is_5ghz n then "5GHz"
  else "Unknown".

(** The list of the map artifact a channel number goes to, by
    ranges. *)
Definition list_of_number (n : Z) : option Emitter.bucket :=
  if between 0 n 11 then Some Emitter.band_2ghz
  else if between 37 n 64 || between 100 n 184 || (3000 <=? n)
       then Some Emitter.band_5ghz
       else if between 76 n 99 then Some Emitter.band_3ghz
            else None.

(** The list that goes by the name of a band. *)
Definition list_of_band (band : string) : option Emitter.bucket :=
  if String.eqb band "900MHz" then Some Emitter.band_900
  else if String.eqb band "2GHz" then Some Emitter.band_2ghz
  else if String.eqb band "3GHz" then Some Emitter.band_3ghz
  else if String.eqb band "5GHz" then Some Emitter.band_5ghz
  else None.

(** The channel numbers on which the band table and the lists of the
    map part: -2 and -1, 0, the numbers between 37 and 64 and between
    100 and 132 that the 5 GHz table skips, and 3000 and up. *)
Definition odd_channel (n : Z) : bool :=
  between (-2) n 0
  || (between 38 n 63 && negb (n mod 4 =? 0))
  || (between 101 n 131 && negb (n mod 4 =? 0))
  || (3000 <=? n).

End BandSpec.

(* ------------------------------------------------------------------ *)
(** * The configuration manager

    [ConfigManager] wraps a [configparser.ConfigParser].  The parser's
    own [get(section, key)] is the library's: it is given as a table
    that answers with the stored text or raises. *)

Module Config.

Import PyVal.
Local Open Scope string_scope.

(** What [self.config.get(section, key)] does. *)
Inductive raw : Type :=
| Found (value : string)
| NoSectionError
| NoOptionError
| OtherError.

Definition store : Type := string -> string -> raw.

(** A call of the manager returns, or lets the parser's exception
    through. *)
Inductive outcome (A : Type) : Type :=
| Returns (a : A)
| Propagates.
Arguments Returns {A} _.
Arguments Propagates {A}.

Definition double_quote : ascii := ascii_of_nat 34.
Definition single_quote : ascii := ascii_of_nat 39.

(** [s.startswith(c)] and [s.endswith(c)] for a one-character [c]. *)
Definition starts_with_char (s : string) (c : ascii) : bool :=
  match s with
  | String d _ => Ascii.eqb d c
  | EmptyString => false
  end.

Definition ends_with_char (s : string) (c : ascii) : bool :=
  starts_with_char (PyStr.reverse s) c.

Definition tail (s : string) : string :=
  match s with
  | String _ r => r
  | EmptyString => EmptyString
  end.

(** [s[1:-1]] *)
Definition inner (s : string) : string :=
  PyStr.reverse (tail (PyStr.reverse (tail s))).

(** [ConfigManager._strip_quotes] on a string. *)
Definition _strip_quotes (value : string) : string :=
  let value := PyStr.strip value in
  if (starts_with_char value double_quote
      && ends_with_char value double_quote)
     || (starts_with_char value single_quote
         && ends_with_char value single_quote)
  then inner value
  else value.

(** [ConfigManager.get] *)
Definition get (config : store) (section key : string) (fallback : pyval)
  : outcome pyval :=
  match config section key with
  | Found value =>
      let value := _strip_quotes value in
      if Topology.in_list (PyStr.lower value) ["true"; "false"]
      then Returns (VBool (String.eqb (PyStr.lower value) "true"))
      else Returns (VStr value)
  | NoSectionError | NoOptionError => Returns fallback
  | OtherError => Propagates
  end.

(** [ConfigManager.getint] *)
Definition getint (config : store) (section key : string) (fallback : Z)
  : outcome Z :=
  match config section key with
  | Found value =>
      match PyStr.int_of_str (_strip_quotes value) with
      | Some n => Returns n
      | None => Returns fallback
      end
  | NoSectionError | NoOptionError => Returns fallback
  | OtherError => Propagates
  end.

End Config.

(** ** A setting as it may stand in the file *)

Module ConfigSpec.

Local Open Scope string_scope.

(** Text made of white space only. *)
Definition blank (s : string) : Prop :=
  PyStr.forallb_chars PyStr.is_space s = true.

(** [s] between two copies of the quote character [q]. *)
Definition quoted (q : ascii) (s : string) : string :=
  String q (s ++ String q EmptyString).

(** A settings file with one option, written between apostrophes with
    white space around them. *)
Definition one_option (name value : string) : Config.store :=
  fun section key =>
    if String.eqb section "user-settings"
    then if String.eqb key name
         then Config.Found (" " ++ quoted Config.single_quote value ++ " ")
         else Config.NoOptionError
    else Config.NoSectionError.

End ConfigSpec.

(* ------------------------------------------------------------------ *)
(** * The node poller

    [NodePoller.fetch_json] and [NodePoller.poll_node] talk to a node
    over HTTP.  The network is what answers the requests, one answer per
    request in the order they are made; the model keeps the trace of the
    requests, of the retry delays slept and of the errors logged. *)

Module Poller.

Import PyVal PyNum Eff.
Local Open Scope string_scope.

(** What comes of one [session.get(url)]: the exchange timed out, it
    failed otherwise, or a response with a status and a body came back. *)
Inductive reply : Type :=
| TimedOut
| Failed
| Status (code : Z) (text : string).

Inductive action : Type :=
| Requested (url : string)
| Slept (seconds : Z)
| Error_parsing (ip : string) (e : exn).

Record network : Type := {
  answers : nat -> reply;
  served : nat;
  trace : list action
}.

Definition record (a : action) (w : network) : network :=
  {| answers := answers w; served := served w;
     trace := (trace w ++ [a])%list |}.

(** [session.get(url, ...)] and the reading of the response. *)
Definition request (url : string) : M network reply :=
  fun w => (Ok (answers w (served w)),
            record (Requested url)
                   {| answers := answers w; served := S (served w);
                      trace := trace w |}).

(** [await asyncio.sleep(seconds)] *)
Definition sleep (seconds : Z) : M network unit :=
  modify (record (Slept seconds)).

(** The requests and the seconds slept in a trace. *)
Definition requests (t : list action) : list string :=
  List.flat_map (fun a => match a with Requested u => [u] | _ => [] end) t.

Definition slept (t : list action) : Z :=
  List.fold_right (fun a n => match a with
                              | Slept s => (s + n)%Z
                              | _ => n
                              end) 0%Z t.

Section Fetch.

(** [json.loads], [None] when it raises, and [str.isprintable] beyond
    ASCII are the interpreter's. *)
Variable json_loads : string -> option pyval.
Variable printable_high : ascii -> bool.

Definition isprintable (c : ascii) : bool :=
  if (PyStr.code c <? 128)%nat
  then ((32 <=? PyStr.code c) && (PyStr.code c <=? 126))%nat
  else printable_high c.

(** [char.isprintable() or char in '\n\r\t'] *)
Definition kept (c : ascii) : bool :=
  isprintable c
  || Nat.eqb (PyStr.code c) 10 || Nat.eqb (PyStr.code c) 13
  || Nat.eqb (PyStr.code c) 9.

Fixpoint clean (text : string) : string :=
  match text with
  | EmptyString => EmptyString
  | String c r => if kept c then String c (clean r) else clean r
  end.

(** The [for attempt in range(retries + 1)] loop of [fetch_json], with
    [left] turns to go. *)
Fixpoint fetch_loop (url : string) (retries attempt : Z) (left : nat)
  : M network pyval :=
  match left with
  | O => ret VNone
  | S left' =>
      do r <- request url ;
      match r with
      | Status code text =>
          if (code =? 200)%Z
          then match json_loads (clean text) with
               | Some v => ret v
               | None => ret VNone
               end
          else ret VNone
      | TimedOut =>
          if (attempt <? retries)%Z
          then do _ <- sleep Band.NODE_RETRY_DELAY ;
               fetch_loop url retries (attempt + 1)%Z left'
          else ret VNone
      | Failed => ret VNone
      end
  end.

(** [NodePoller.fetch_json] *)
Definition fetch_json (url : string) (retries : Z) : M network pyval :=
  fetch_loop url retries 0 (Z.to_nat (retries + 1)).

(** [for url in candidates: data = await self.fetch_json(url);
     if data: break] *)
Fixpoint first_answer (candidates : list string) (data : pyval)
  : M network pyval :=
  match candidates with
  | [] => ret data
  | url :: rest =>
      do data <- fetch_json url Band.MAX_RETRIES ;
      if truthy data then ret data else first_answer rest data
  end.

Definition candidates (ip query : string) : list string :=
  [ "http://" ++ ip ++ "/a/sysinfo" ++ query;
    "http://" ++ ip ++ ":8080/a/sysinfo" ++ query;
    "http://" ++ ip ++ "/cgi-bin/sysinfo.json" ++ query;
    "http://" ++ ip ++ ":8080/cgi-bin/sysinfo.json" ++ query ].

(** The interpreter's conversions the parser calls, and the two readings
    of the clock. *)
Variable py_float : pyval -> result pyval.
Variable py_str : pyval -> pyval.
Variable pickle_hex : pyval -> pyval.
Variable start_time end_time : Q.

(** [data.items()] is there for a mapping only. *)
Definition parse (data : pyval) (ip : string) : result NodeInfo.t :=
  match data with
  | VDict d => Sysinfo._parse_sysinfo py_float py_str pickle_hex d ip
  | _ => Raise AttributeError
  end.

Definition with_link_info (link_info_data : pyval) (node_info : NodeInfo.t)
  : NodeInfo.t :=
  match link_info_data with
  | VDict d =>
      if truthy link_info_data then
        match get d "link_info" with
        | VDict li =>
            if truthy (VDict li)
            then NodeInfo.set NodeInfo.link_info (pickle_hex (VDict li))
                              node_info
            else node_info
        | _ => node_info
        end
      else node_info
  | _ => node_info
  end.

Definition with_services (services_data : pyval) (node_info : NodeInfo.t)
  : NodeInfo.t :=
  match services_data with
  | VDict d =>
      if truthy services_data then
        let services_list :=
          py_or (get d "services_local") (get d "services") in
        let services_list :=
          match services_list with
          | VNone => VList []
          | v => v
          end in
        match services_list with
        | VList l =>
            NodeInfo.set NodeInfo.services (pickle_hex (VList l)) node_info
        | _ => node_info
        end
      else node_info
  | _ => node_info
  end.

(** [NodePoller.poll_node] *)
Definition poll_node (ip : string) (hops : pyval)
  : M network (option NodeInfo.t) :=
  do data <- first_answer (candidates ip "") VNone ;
  if negb (truthy data) then ret None
  else
    try_except
      (do node_info <- lift (parse data ip) ;
       let node_info := NodeInfo.set NodeInfo.hopsAway hops node_info in
       let node_info :=
         NodeInfo.set NodeInfo.band
           (VStr (Band.check_band (node_info NodeInfo.channel)
                                  (node_info NodeInfo.board_id)))
           node_info in
       let node_info :=
         NodeInfo.set NodeInfo.response_time_ms
           (VFloat (round_ndigits ((end_time - start_time) * 1000) 2))
           node_info in
       do link_info_data <-
          first_answer (candidates ip "?link_info=1") VNone ;
       let node_info := with_link_info link_info_data node_info in
       do services_data <-
          first_answer (candidates ip "?services_local=1") VNone ;
       let node_info := with_services services_data node_info in
       ret (Some node_info))
      (fun e => do _ <- modify (record (Error_parsing ip e)) ; ret None).

End Fetch.

(** A network that has served nothing yet. *)
Definition fresh (answers : nat -> reply) : network :=
  {| answers := answers; served := 0; trace := [] |}.

End Poller.

(** ** Traces of the poller *)

Module PollerSpec.

Import Poller.

(** [k] requests for [url] with a retry delay between two of them. *)
Fixpoint retried (url : string) (k : nat) : list action :=
  match k with
  | O => []
  | 1%nat => [Requested url]
  | S k' => Requested url :: Slept Band.NODE_RETRY_DELAY :: retried url k'
  end.

(** The replies served from [first] on, [n] of them. *)
Definition served_from (w : network) (first n : nat) : list reply :=
  List.map (answers w) (List.seq first n).

(** The network after [k] more requests that left [new] in the trace. *)
Definition advanced (w : network) (k : nat) (new : list action) : network :=
  {| answers := answers w; served := served w + k;
     trace := (trace w ++ new)%list |}.

(** What a reply decides when it ends the loop of [fetch_json]: the
    parsed body of a response with status 200, and [None] for anything
    else. *)
Definition settled (json_loads : string -> option PyVal.pyval)
           (printable_high : ascii -> bool) (r : reply) (v : PyVal.pyval)
  : Prop :=
  match r with
  | Status code text =>
      if (code =? 200)%Z
      then match json_loads (clean printable_high text) with
           | Some data => v = data
           | None => v = PyVal.VNone
           end
      else v = PyVal.VNone
  | _ => v = PyVal.VNone
  end.

(** From [w] to [w']: at most [n] more requests, all of them for URLs
    of [urls], and at most [s] more seconds slept; the network answers as
    before. *)
Definition within (n : nat) (s : Z) (urls : list string) (w w' : network)
  : Prop :=
  answers w' = answers w
  /\ exists new,
       trace w' = (trace w ++ new)%list
       /\ served w' = served w + List.length (requests new)
       /\ List.length (requests new) <= n
       /\ (0 <= slept new <= s)%Z
       /\ List.Forall (fun u => List.In u urls) (requests new).

(** The URLs [poll_node] may ask for. *)
Definition all_candidates (ip : string) : list string :=
  (candidates ip "" ++ candidates ip "?link_info=1"
   ++ candidates ip "?services_local=1")%list.

(** The attributes [poll_node] sets after parsing. *)
Definition set_after_parsing (f : NodeInfo.field) : bool :=
  match f with
  | NodeInfo.hopsAway | NodeInfo.band | NodeInfo.response_time_ms
  | NodeInfo.link_info | NodeInfo.services => true
  | _ => false
  end.

(** A node that answers the first request with a document and nothing
    after that, and interpreter functions to go with it: every body
    parses to the same document, [float] and [pickle] leave a value as it
    is, and [str] writes an integer in decimal. *)
Definition document : PyVal.pyval :=
  PyVal.VDict
    [ (PyVal.VStr "node", PyVal.VStr "N0CALL-7");
      (PyVal.VStr "meshrf",
       PyVal.VDict [ (PyVal.VStr "channel", PyVal.VInt 149) ]) ].

Definition answers_once (n : nat) : reply :=
  match n with
  | O => Status 200 "{}"
  | _ => TimedOut
  end.

Definition loads (text : string) : option PyVal.pyval := Some document.

Definition str_of (v : PyVal.pyval) : PyVal.pyval :=
  match v with
  | PyVal.VInt n => PyVal.VStr (PyInt.str n)
  | _ => v
  end.

End PollerSpec.

(* ------------------------------------------------------------------ *)
(** * The counters of a cycle *)

Module Accounting.

Import PyVal Coordinator.

(** [self.stats[k]] in a state of the coordinator. *)
Definition stat (s : state) (k : Stats.key) : pyval :=
  Daemon.stats (self s) k.

(** From [s] to [s'] the statistics of [ks] keep their values. *)
Definition keeps (ks : list Stats.key) (s s' : state) : Prop :=
  forall k, List.In k ks -> stat s' k = stat s k.

(** The same on the daemon alone. *)
Definition daemon_keeps (ks : list Stats.key) (d d' : Daemon.t) : Prop :=
  forall k, List.In k ks -> Daemon.stats d' k = Daemon.stats d k.

(** The counters of the candidates and of the polled nodes. *)
Definition counters : list Stats.key :=
  [ Stats.nodeTotal; Stats.totalPolled; Stats.garbageReturned;
    Stats.noLocation; Stats.mappableNodes; Stats.nodesWithErrors ].

(** A computation that, when it returns, relates the state before, the
    value returned and the state after by [post]. *)
Definition ensures {A : Type} (c : Eff.M state A)
           (post : state -> A -> state -> Prop) : Prop :=
  forall s a s', c s = (Ok a, s') -> post s a s'.

End Accounting.

(* ------------------------------------------------------------------ *)
(** * The protocol of a row of the node table *)

Module ProtocolSpec.

Import PyVal Emitter.
Local Open Scope string_scope.

Section Rows.

Variable parse_last_seen : pyval -> option Q.
Variable now : Q.

(** The protocol the emitter determines for a row. *)
Definition protocol_of (self : Daemon.t) (row : items) : string :=
  _determine_protocol parse_last_seen now self
    (get_default row "firmware_version" (VStr ""))
    (get_default row "last_seen" (VStr "")).

(** The number of rows with the protocol [name]. *)
Definition count_protocol (self : Daemon.t) (name : string)
           (rows : list items) : Z :=
  Z.of_nat (List.length
              (List.filter (fun row => String.eqb (protocol_of self row) name)
                           rows)).

End Rows.

End ProtocolSpec.

(* ------------------------------------------------------------------ *)
(** * The table of candidates, as the cycle uses it *)

Module TopologySpec.

Import PyVal Topology.
Local Open Scope string_scope.

(** An entry of the table [_build_node_list] returns: a truthy address
    and the six keys the loop writes, the hop count being the literal
    [1]. *)
Definition one_hop_entry (kv : pyval * pyval) : Prop :=
  truthy (fst kv) = true
  /\ exists links lat lon name flag,
       snd kv = VDict [ (VStr "hopsAway", VInt 1);
                        (VStr "link_info", links);
                        (VStr "lat", lat); (VStr "lon", lon);
                        (VStr "name", name);
                        (VStr "is_localnode", flag) ].

(** [max_hops] once the loop has run over a table. *)
Definition highest_hops (nodes : items) : Z :=
  match nodes with
  | [] => 0
  | _ :: _ => 1
  end.

(** What the loop of [_build_node_list] keeps true of its two
    variables. *)
Definition table_ok (acc : items * Z) : Prop :=
  List.Forall one_hop_entry (fst acc) /\ snd acc = highest_hops (fst acc).

(** A bundle whose node list names three nodes, the second flagged as
    the local node. *)
Definition three_entries : pyval :=
  VDict [ (VStr "nodes",
           VList [ VDict [ (VStr "ip", VStr "10.1.1.1") ];
                   VDict [ (VStr "ip", VStr "10.1.1.2");
                           (VStr "is_localnode", VBool true) ];
                   VDict [ (VStr "name", VStr "no address") ];
                   VDict [ (VStr "ip", VStr "10.1.1.1");
                           (VStr "name", VStr "again") ] ]);
          (VStr "links", VDict []) ].

End TopologySpec.

(* ------------------------------------------------------------------ *)
(** * The rows the cycle writes before it polls *)

Module PrefillSpec.

Import PyVal PyNum World.
Local Open Scope string_scope.

(** The record [_update_topology_info] builds for an entry of the
    table, as [upsert_node] leaves it: the address, the hop count and
    the link map are the entry's, every other attribute is the default
    of [NodeInfo]. *)
Definition prefill_record (pickle_hex : pyval -> pyval)
           (kv : pyval * pyval) : NodeInfo.t :=
  let links := match snd kv with
               | VDict d => get d "link_info"
               | _ => VNone
               end in
  PersistenceSpec.rounded
    (NodeInfo.set NodeInfo.link_info (pickle_hex links)
       (NodeInfo.set NodeInfo.hopsAway (VInt 1)
          (NodeInfo.set NodeInfo.wlan_ip (fst kv) NodeInfo.default)))
    0 0.

(** The columns such a row sets back when the address is already in the
    table, and what it sets them to. *)
Definition reset_columns : list (string * sql_expr) :=
  [ ("node", Param (VStr ""));
    ("uptime", Param (VStr "Not Available"));
    ("loadavg", Param (VStr "Not Available"));
    ("model", Param (VStr "Not Available"));
    ("firmware_version", Param (VStr "Not Available"));
    ("ssid", Param (VStr "None"));
    ("channel", Param (VStr "None"));
    ("chanbw", Param (VStr "None"));
    ("tunnel_installed", Param (VStr "false"));
    ("active_tunnel_count", Param (VStr "0"));
    ("lat", Param (VFloat (round_ndigits 0 7)));
    ("lon", Param (VFloat (round_ndigits 0 7)));
    ("wifi_mac_address", Param (VStr ""));
    ("api_version", Param (VStr "0.0.0"));
    ("board_id", Param (VStr "Not Available"));
    ("firmware_mfg", Param (VStr "Not Available"));
    ("grid_square", Param (VStr "Not Available"));
    ("lan_ip", Param (VStr "Not Available"));
    ("services", Param (VStr "Not Available"));
    ("description", Param (VStr ""));
    ("mesh_supernode", Param (VStr "false"));
    ("mesh_gateway", Param (VStr "false"));
    ("freq", Param (VStr "None"));
    ("hopsAway", Param (VInt 1));
    ("meshRF", Param (VStr "on"));
    ("last_seen", Now);
    ("antGain", Param (VFloat 0));
    ("antBeam", Param (VFloat 0));
    ("antDesc", Param (VStr "Not Available"));
    ("antBuiltin", Param (VStr "false"));
    ("response_time_ms", Param (VFloat 0)) ].

(** A table of two entries. *)
Definition two_entries : items :=
  [ (VStr "10.1.1.1",
     VDict [ (VStr "hopsAway", VInt 1); (VStr "link_info", VDict []);
             (VStr "lat", VFloat 40); (VStr "lon", VFloat (-105));
             (VStr "name", VStr "N0CALL-1");
             (VStr "is_localnode", VBool false) ]);
    (VStr "10.1.1.2",
     VDict [ (VStr "hopsAway", VInt 1); (VStr "link_info", VDict []);
             (VStr "lat", VNone); (VStr "lon", VNone);
             (VStr "name", VNone);
             (VStr "is_localnode", VBool false) ]) ].

End PrefillSpec.

(* ------------------------------------------------------------------ *)
(** * What every parsed record has in common *)

Module SysinfoInvariant.

Import PyVal NodeInfo.
Local Open Scope string_scope.

(** The two spellings the parser writes for a flag. *)
Definition is_flag (v : pyval) : Prop := v = VStr "true" \/ v = VStr "false".

(** The attributes no branch of the parser assigns. *)
Definition unparsed : list field :=
  [ hopsAway; band; last_seen; response_time_ms ].

Definition well_flagged (ni : NodeInfo.t) : Prop :=
  is_flag (ni mesh_gateway) /\ is_flag (ni mesh_supernode)
  /\ forall f, List.In f unparsed -> ni f = NodeInfo.default f.

(** A document that spells its flags in three ways and carries keys the
    parser does not know. *)
Definition odd_flags : items :=
  [ (VStr "mesh_gateway", VInt 1);
    (VStr "node_details",
     VDict [ (VStr "mesh_supernode", VStr "yes");
             (VStr "hopsAway", VInt 7) ]);
    (VStr "hopsAway", VInt 3);
    (VStr "last_seen", VStr "2024-01-01 00:00:00") ].

End SysinfoInvariant.

(* ------------------------------------------------------------------ *)
(** * The order of release numbers *)

Module VersionOrder.

Import PyStr FirmwareSpec.
Local Open Scope string_scope.

(** The text of a release number with the four components given. *)
Definition quad (a b c d : string) : string :=
  a ++ "." ++ b ++ "." ++ c ++ "." ++ d.

(** The order of Python's tuples of integers. *)
Fixpoint lex_lt (l m : list Z) : Prop :=
  match l, m with
  | x :: l', y :: m' => (x < y)%Z \/ (x = y /\ lex_lt l' m')
  | [], _ :: _ => True
  | _, [] => False
  end.

(** The four numbers of a release. *)
Definition numbers (a b c d : string) : list Z :=
  [ dec_value a; dec_value b; dec_value c; dec_value d ].

End VersionOrder.

(* ------------------------------------------------------------------ *)
(** * Link types *)

Module LinkTypeSpec.

Import PyStr.
Local Open Scope string_scope.

(** Text the embedding is exact on: every character is below 128. *)
Definition ascii_text (s : string) : Prop :=
  forallb_chars (fun c => (code c <? 128)%nat) s = true.

End LinkTypeSpec.

(* ================================================================== *)
(** * Part II: properties                                               *)
(* ================================================================== *)

Section FirmwareExamples.
Import PyStr Regex Firmware.
Local Open Scope string_scope.
Local Open Scope Z_scope.

Example version_to_int_release :
  version_to_int "3.25.5.0" = Some 3250500.
Proof. vm_compute. reflexivity. Qed.

Example is_firmware_babel :
  _is_firmware "babel-20250601-abcdef1" "babel" 0 0 = true.
Proof. vm_compute. reflexivity. Qed.

Example is_firmware_olsr_at_cutoff :
  _is_firmware "3.25.5.0" "olsr" 3250500 0 = false.
Proof. vm_compute. reflexivity. Qed.

Example is_firmware_olsr_below_cutoff :
  _is_firmware "3.25.4.0" "olsr" 3250500 0 = true.
Proof. vm_compute. reflexivity. Qed.

Example is_firmware_combo_at_cutoff :
  _is_firmware "3.25.5.0" "combo" 3250500 0 = true.
Proof. vm_compute. reflexivity. Qed.

Example is_firmware_nightly :
  _is_firmware "20250507-aaaaaaaa" "combo" 0 20250507 = true.
Proof. vm_compute. reflexivity. Qed.

End FirmwareExamples.

(** ** Facts about the string helpers *)

Section PyStrFacts.
Import PyStr.
Local Open Scope string_scope.

Lemma append_empty_r (s : string) : s ++ "" = s.
Proof. induction s as [|c r IH]; simpl; [reflexivity | now rewrite IH]. Qed.

Lemma append_assoc (s t u : string) : (s ++ t) ++ u = s ++ (t ++ u).
Proof. induction s as [|c r IH]; simpl; [reflexivity | now rewrite IH]. Qed.

Lemma rev_onto_append (s acc : string) :
  rev_onto s acc = reverse s ++ acc.
Proof.
  unfold reverse. revert acc.
  induction s as [|c r IH]; intro acc; simpl; [reflexivity|].
  rewrite IH, (IH (String c "")), append_assoc. reflexivity.
Qed.

Lemma reverse_append (s t : string) :
  reverse (s ++ t) = reverse t ++ reverse s.
Proof.
  induction s as [|c r IH]; simpl.
  - now rewrite append_empty_r.
  - unfold reverse at 1 3. simpl.
    rewrite !rev_onto_append, IH, append_assoc. reflexivity.
Qed.

Lemma reverse_involutive (s : string) : reverse (reverse s) = s.
Proof.
  induction s as [|c r IH]; [reflexivity|].
  unfold reverse at 2. simpl.
  rewrite rev_onto_append, reverse_append, IH. reflexivity.
Qed.

Lemma forallb_chars_append p (s t : string) :
  forallb_chars p (s ++ t) = forallb_chars p s && forallb_chars p t.
Proof.
  induction s as [|c r IH]; simpl; [reflexivity|].
  now rewrite IH, andb_assoc.
Qed.

Lemma forallb_chars_reverse p (s : string) :
  forallb_chars p (reverse s) = forallb_chars p s.
Proof.
  induction s as [|c r IH]; [reflexivity|].
  unfold reverse. simpl.
  rewrite rev_onto_append, forallb_chars_append, IH. simpl.
  rewrite andb_true_r. apply andb_comm.
Qed.

Lemma forallb_chars_impl (p q : ascii -> bool) (s : string) :
  (forall c, p c = true -> q c = true) ->
  forallb_chars p s = true -> forallb_chars q s = true.
Proof.
  intro Hpq. induction s as [|c r IH]; simpl; [reflexivity|].
  intro H. apply andb_prop in H. destruct H as [Hc Hr].
  now rewrite (Hpq _ Hc), IH.
Qed.

Lemma lstrip_no_space (s : string) :
  forallb_chars not_space s = true -> lstrip s = s.
Proof.
  destruct s as [|c r]; simpl; [reflexivity|].
  unfold not_space at 1. intro H. apply andb_prop in H.
  destruct H as [Hc _]. now destruct (is_space c).
Qed.

Lemma strip_no_space (s : string) :
  forallb_chars not_space s = true -> strip s = s.
Proof.
  intro H. unfold strip, rstrip.
  rewrite (lstrip_no_space _ H), lstrip_no_space.
  - apply reverse_involutive.
  - now rewrite forallb_chars_reverse.
Qed.

Lemma is_digit_bounds (c : ascii) :
  is_digit c = true <-> (48 <= code c <= 57)%nat.
Proof.
  unfold is_digit. rewrite andb_true_iff, !Nat.leb_le. reflexivity.
Qed.

Lemma digit_not_space (c : ascii) : is_digit c = true -> not_space c = true.
Proof.
  rewrite is_digit_bounds. intro H. unfold not_space, is_space.
  apply negb_true_iff, orb_false_iff. split; apply andb_false_iff.
  - right. apply Nat.leb_gt. lia.
  - right. apply Nat.leb_gt. lia.
Qed.

Lemma digit_neq (c d : ascii) :
  is_digit c = true -> is_digit d = false -> Ascii.eqb c d = false.
Proof.
  intros Hc Hd. destruct (Ascii.eqb_spec c d) as [->|]; congruence.
Qed.

End PyStrFacts.

(** ** Integer literals and splitting *)

Section IntLiteralFacts.
Import PyStr FirmwareSpec.
Local Open Scope string_scope.

Lemma split_no_sep (sep : ascii) (s : string) :
  forallb_chars (fun c => negb (Ascii.eqb c sep)) s = true ->
  split sep s = [s].
Proof.
  induction s as [|c r IH]; simpl; [reflexivity|].
  intro H. apply andb_prop in H. destruct H as [Hc Hr].
  apply negb_true_iff in Hc. rewrite Hc, (IH Hr). reflexivity.
Qed.

Lemma split_append_sep (sep : ascii) (s t : string) :
  forallb_chars (fun c => negb (Ascii.eqb c sep)) s = true ->
  split sep (s ++ String sep t) = s :: split sep t.
Proof.
  induction s as [|c r IH]; simpl.
  - intros _. now rewrite Ascii.eqb_refl.
  - intro H. apply andb_prop in H. destruct H as [Hc Hr].
    apply negb_true_iff in Hc. rewrite Hc, (IH Hr). reflexivity.
Qed.

Lemma split_nonempty (sep : ascii) (s : string) : split sep s <> [].
Proof.
  destruct s as [|c r]; simpl; [discriminate|].
  destruct (Ascii.eqb c sep); [discriminate|].
  destruct (split sep r); discriminate.
Qed.

Lemma digits_no_sep (sep : ascii) (s : string) :
  is_digit sep = false -> all_digits s ->
  forallb_chars (fun c => negb (Ascii.eqb c sep)) s = true.
Proof.
  intros Hsep. apply forallb_chars_impl.
  intros c Hc. apply negb_true_iff. now apply digit_neq.
Qed.

Lemma count_digits_le (s : string) : (count_digits s <= String.length s)%nat.
Proof.
  induction s as [|c r IH]; simpl; [lia|].
  destruct (is_digit c); lia.
Qed.

Lemma int_digits_all_digits (s : string) :
  all_digits s -> forall prev acc,
  s <> "" -> int_digits s prev acc = Some (dec_acc s acc).
Proof.
  unfold all_digits.
  induction s as [|c r IH]; intros H prev acc Hne; [congruence|].
  simpl in H |- *. apply andb_prop in H. destruct H as [Hc Hr].
  rewrite Hc. destruct r as [|c' r'].
  - reflexivity.
  - apply IH; [exact Hr | discriminate].
Qed.

Lemma int_unsigned_all_digits (s : string) :
  all_digits s -> s <> "" -> (String.length s <= int_max_str_digits)%nat ->
  int_unsigned s = Some (dec_value s).
Proof.
  intros Hd Hne Hlen. unfold int_unsigned.
  assert (Hc : (int_max_str_digits <? count_digits s)%nat = false).
  { apply Nat.ltb_ge. pose proof (count_digits_le s). lia. }
  rewrite Hc. now apply int_digits_all_digits.
Qed.

Lemma lstrip_by_kept (p : ascii -> bool) (s : string) :
  match s with
  | EmptyString => True
  | String c _ => p c = false
  end ->
  lstrip_by p s = s.
Proof.
  destruct s as [|c r]; simpl; [reflexivity|]. intros ->. reflexivity.
Qed.

Lemma lstrip_by_blank (p : ascii -> bool) (left t : string) :
  forallb_chars p left = true -> lstrip_by p (left ++ t) = lstrip_by p t.
Proof.
  induction left as [|c r IH]; simpl; [reflexivity|].
  intro H. apply andb_prop in H. destruct H as [Hc Hr].
  rewrite Hc. exact (IH Hr).
Qed.

Lemma lstrip_by_split (p : ascii -> bool) (s : string) :
  exists left, s = left ++ lstrip_by p s /\ forallb_chars p left = true.
Proof.
  induction s as [|c r IH]; simpl.
  - exists "". split; reflexivity.
  - destruct (p c) eqn:Hc.
    + destruct IH as (left & Hs & Hl). exists (String c left). split.
      * simpl. now rewrite <- Hs.
      * simpl. now rewrite Hc.
    + exists "". split; reflexivity.
Qed.

Lemma digit_not_int_space (c : ascii) :
  is_digit c = true -> is_int_space c = false.
Proof.
  rewrite is_digit_bounds. intro H. unfold is_int_space.
  apply orb_false_iff. split.
  - apply andb_false_iff. right. apply Nat.leb_gt. lia.
  - apply Nat.eqb_neq. lia.
Qed.


(** A text between white space, beginning and ending with characters
    that are none, is what [int] looks at. *)
Lemma int_strip_padded (left core right : string) :
  forallb_chars is_int_space left = true ->
  forallb_chars is_int_space right = true ->
  match core with
  | EmptyString => True
  | String c _ => is_int_space c = false
  end ->
  match reverse core with
  | EmptyString => True
  | String c _ => is_int_space c = false
  end ->
  int_strip (left ++ core ++ right) = core.
Proof.
  intros Hl Hr Hfirst Hlast. unfold int_strip.
  rewrite (lstrip_by_blank _ _ _ Hl).
  destruct core as [|c r].
  - simpl append.
    assert (Hblank : lstrip_by is_int_space right = "").
    { clear - Hr. induction right as [|c r IH]; simpl; [reflexivity|].
      simpl in Hr. apply andb_prop in Hr. destruct Hr as [Hc Hr'].
      rewrite Hc. exact (IH Hr'). }
    rewrite Hblank. reflexivity.
  - rewrite (lstrip_by_kept is_int_space (String c r ++ right))
      by exact Hfirst.
    rewrite reverse_append.
    rewrite lstrip_by_blank by (now rewrite forallb_chars_reverse).
    rewrite lstrip_by_kept by exact Hlast.
    apply reverse_involutive.
Qed.

(** Conversely, what [int] looks at stands between white space and
    neither begins nor ends with any. *)
Lemma int_strip_split (s : string) :
  exists left right,
    s = left ++ int_strip s ++ right
    /\ forallb_chars is_int_space left = true
    /\ forallb_chars is_int_space right = true.
Proof.
  unfold int_strip.
  destruct (lstrip_by_split is_int_space s) as (left & Hs & Hl).
  set (s1 := lstrip_by is_int_space s) in *.
  destruct (lstrip_by_split is_int_space (reverse s1)) as (r' & Hr & Hr').
  set (s2 := lstrip_by is_int_space (reverse s1)) in *.
  exists left, (reverse r'). split; [|split].
  - rewrite Hs at 1. f_equal.
    rewrite <- (reverse_involutive s1), Hr, reverse_append. reflexivity.
  - exact Hl.
  - now rewrite forallb_chars_reverse.
Qed.

Lemma int_strip_digits (s : string) :
  all_digits s -> int_strip s = s.
Proof.
  intro Hd.
  assert (H : forall t, all_digits t ->
                        match t with
                        | EmptyString => True
                        | String c _ => is_int_space c = false
                        end).
  { intros [|c r] Ht; [exact I|]. apply digit_not_int_space.
    unfold all_digits in Ht. simpl in Ht. now apply andb_prop in Ht. }
  rewrite <- (int_strip_padded "" s "") at 2;
    [now rewrite append_empty_r | reflexivity | reflexivity | now apply H |].
  apply H. unfold all_digits. now rewrite forallb_chars_reverse.
Qed.

Lemma int_of_str_all_digits (s : string) :
  all_digits s -> s <> "" -> (String.length s <= int_max_str_digits)%nat ->
  int_of_str s = Some (dec_value s).
Proof.
  intros Hd Hne Hlen. unfold int_of_str.
  rewrite (int_strip_digits Hd).
  destruct s as [|c r]; [congruence|].
  assert (Hc : is_digit c = true).
  { unfold all_digits in Hd. simpl in Hd. now apply andb_prop in Hd. }
  destruct (Ascii.eqb_spec c "+"%char) as [->|Hp]; [discriminate|].
  destruct (Ascii.eqb_spec c "-"%char) as [->|Hm]; [discriminate|].
  transitivity (int_unsigned (String c r)).
  - destruct c as [[] [] [] [] [] [] [] []]; try reflexivity; congruence.
  - now apply int_unsigned_all_digits.
Qed.

Lemma component_int (s : string) :
  component s -> int_of_str s = Some (dec_value s).
Proof.
  intros [Hlen Hd]. apply int_of_str_all_digits; [exact Hd | |].
  - destruct s; [|discriminate]. simpl in Hlen. lia.
  - unfold int_max_str_digits. lia.
Qed.

End IntLiteralFacts.

Section IntLiteralParser.
Import PyStr Firmware FirmwareSpec IntLiteralSpec.
Local Open Scope string_scope.

Lemma count_digits_digits_of (s : string) :
  count_digits s = String.length (digits_of s).
Proof.
induction s as [|c r IH]; simpl; [reflexivity|].
destruct (is_digit c); simpl; now rewrite IH.
Qed.

Lemma underscore_no_digit (c : ascii) :
  is_underscore c = true -> is_digit c = false.
Proof.
unfold is_underscore. intro H. apply Ascii.eqb_eq in H. now subst.
Qed.

Lemma digit_no_underscore (c : ascii) :
  is_digit c = true -> is_underscore c = false.
Proof.
intro H. destruct (is_underscore c) eqn:E; [|reflexivity].
apply underscore_no_digit in E. congruence.
Qed.

(** The digit scanner accepts the digit groups, and nothing else. *)
Lemma int_digits_spec (s : string) :
  forall (prev : option bool) (acc z : Z),
  int_digits s prev acc = Some z <->
  forallb_chars (fun c => is_digit c || is_underscore c) s = true
  /\ no_double_underscore s = true
  /\ match s with
     | EmptyString => prev = Some true
     | String _ _ => last_is_digit s = true
     end
  /\ (prev = Some true \/ match s with
                          | EmptyString => True
                          | String c _ => is_digit c = true
                          end)
  /\ z = dec_acc (digits_of s) acc.
Proof.
induction s as [|c r IH]; intros prev acc z.
- simpl. destruct prev as [[]|]; split.
  + intros [= <-]. repeat split; auto.
  + intros (_ & _ & _ & _ & ->). reflexivity.
  + discriminate.
  + intros (_ & _ & H & _). discriminate.
  + discriminate.
  + intros (_ & _ & H & _). discriminate.
- cbn [int_digits forallb_chars digits_of].
  fold (is_underscore c).
  destruct (is_digit c) eqn:Hd.
  + pose proof (digit_no_underscore _ Hd) as Hu.
    rewrite IH. cbn [orb andb dec_acc].
    destruct r as [|c' r'].
    * cbn. rewrite Hd. intuition congruence.
    * change (no_double_underscore (String c (String c' r')))
        with (negb (is_underscore c && is_underscore c')
              && no_double_underscore (String c' r')).
      change (last_is_digit (String c (String c' r')))
        with (last_is_digit (String c' r')).
      rewrite Hu. cbn [andb negb]. intuition congruence.
  + destruct (is_underscore c) eqn:Hu; cbn [orb andb].
    * destruct prev as [[]|].
      -- rewrite IH.
         destruct r as [|c' r'].
         ++ cbn. rewrite Hd. intuition congruence.
         ++ change (no_double_underscore (String c (String c' r')))
              with (negb (is_underscore c && is_underscore c')
                    && no_double_underscore (String c' r')).
            change (last_is_digit (String c (String c' r')))
              with (last_is_digit (String c' r')).
            rewrite Hu. cbn [andb].
            split.
            ** intros (Hall & Hnd & Hlast & [Hp|Hc'] & ->); [discriminate|].
               rewrite (digit_no_underscore _ Hc'). cbn [negb andb].
               repeat split; auto.
            ** intros (Hall & Hnd & Hlast & _ & ->).
               apply andb_prop in Hnd. destruct Hnd as [Hn1 Hn2].
               apply negb_true_iff in Hn1.
               pose proof Hall as Hall0.
               cbn [forallb_chars] in Hall0. apply andb_prop in Hall0.
               destruct Hall0 as [Hc' _].
               rewrite Hn1, orb_false_r in Hc'.
               repeat split; auto.
      -- split; [discriminate|].
         intros (_ & _ & _ & [H|H] & _); discriminate.
      -- split; [discriminate|].
         intros (_ & _ & _ & [H|H] & _); discriminate.
    * split; [discriminate|]. intros (H & _). discriminate.
Qed.

Lemma int_unsigned_spec (s : string) (z : Z) :
  int_unsigned s = Some z <->
  digit_groups s /\ (String.length (digits_of s) <= 4300)%nat
  /\ z = dec_value (digits_of s).
Proof.
unfold int_unsigned, digit_groups, dec_value.
rewrite count_digits_digits_of.
change int_max_str_digits with 4300%nat.
destruct (4300 <? String.length (digits_of s))%nat eqn:E.
- apply Nat.ltb_lt in E. split; [discriminate|]. intros (_ & H & _). lia.
- apply Nat.ltb_ge in E. rewrite int_digits_spec.
  destruct s as [|c r].
  + cbn. intuition congruence.
  + cbn [first_is_digit]. intuition congruence.
Qed.

(** The first and the last character of a digit group are no white
    space. *)
Lemma digit_groups_ends (s : string) :
  digit_groups s ->
  (exists c r, s = String c r /\ is_digit c = true)
  /\ (exists c r, reverse s = String c r /\ is_digit c = true).
Proof.
intros (_ & Hf & Hl & _). split.
- destruct s as [|c r]; [discriminate|]. eauto.
- clear Hf. induction s as [|c r IH]; [discriminate|].
  destruct r as [|c' r'].
  + cbn in Hl. exists c, "". split; [reflexivity | exact Hl].
  + change (last_is_digit (String c (String c' r')))
      with (last_is_digit (String c' r')) in Hl.
    destruct (IH Hl) as (d & t & Hrev & Hd).
    exists d, (t ++ String c ""). split; [|exact Hd].
    change (String c (String c' r')) with (String c "" ++ String c' r').
    rewrite reverse_append, Hrev. reflexivity.
Qed.

Lemma sign_not_int_space (c : ascii) :
  c = "+"%char \/ c = "-"%char -> is_int_space c = false.
Proof. intros [->| ->]; reflexivity. Qed.

(** [int] accepts the integer literals, with their values, and
    nothing else. *)
Lemma int_of_str_spec (p : string) (z : Z) :
  int_of_str p = Some z <-> int_literal p z.
Proof.
split.
- intro H. unfold int_of_str in H.
  destruct (int_strip_split p) as (left & right & Hp & Hl & Hr).
  destruct (int_strip p) as [|c t] eqn:Ht.
  { cbn in H. discriminate. }
  destruct (Ascii.eqb_spec c "+"%char) as [->|Hplus].
  { apply int_unsigned_spec in H. destruct H as (Hg & Hlen & ->).
    exists left, "+", t, right. repeat split; auto; try apply Hg. }
  destruct (Ascii.eqb_spec c "-"%char) as [->|Hminus].
  { destruct (int_unsigned t) as [u|] eqn:Hu; [|discriminate].
    cbn in H. injection H as <-.
    apply int_unsigned_spec in Hu. destruct Hu as (Hg & Hlen & ->).
    exists left, "-", t, right. repeat split; auto; try apply Hg. }
  assert (Hu : int_unsigned (String c t) = Some z).
  { rewrite <- H.
    destruct c as [[] [] [] [] [] [] [] []]; try reflexivity; congruence. }
  apply int_unsigned_spec in Hu. destruct Hu as (Hg & Hlen & ->).
  exists left, "", (String c t), right. repeat split; auto; try apply Hg.
- intros (left & sign & body & right & -> & Hl & Hr & Hg & Hlen & Hz).
  destruct (digit_groups_ends Hg) as [(c & r & Hb & Hc) (d & t & Hrev & Hd)].
  assert (Hstrip : int_strip (left ++ (sign ++ body) ++ right)
                   = sign ++ body).
  { apply int_strip_padded; try assumption.
    - destruct Hz as [[[->| ->] _] | [-> _]]; cbn.
      + rewrite Hb. now apply digit_not_int_space.
      + reflexivity.
      + reflexivity.
    - rewrite reverse_append, Hrev. cbn. now apply digit_not_int_space. }
  unfold int_of_str.
  replace (left ++ sign ++ body ++ right)
    with (left ++ (sign ++ body) ++ right)
    by (now rewrite !append_assoc).
  rewrite Hstrip.
  assert (Hu : forall z', z' = dec_value (digits_of body) ->
                          int_unsigned body = Some z').
  { intros z' ->. apply int_unsigned_spec. auto. }
  destruct Hz as [[[->| ->] ->] | [-> ->]]; cbn [append].
  + rewrite Hb in *.
    transitivity (int_unsigned (String c r)); [|now apply Hu].
    destruct c as [[] [] [] [] [] [] [] []]; try reflexivity; discriminate.
  + now apply Hu.
  + rewrite (Hu _ eq_refl). reflexivity.
Qed.

End IntLiteralParser.

(** ** The matcher decides the denotation of a pattern *)

Section RegexFacts.
Import Regex RegexSpec.
Local Open Scope string_scope.

Lemma append_eq_empty (s t : string) : s ++ t = "" -> s = "" /\ t = "".
Proof. destruct s; simpl; [auto | discriminate]. Qed.

Lemma nullable_matches (r : re) : nullable r = true <-> matches r "".
Proof.
  induction r as [| |p|a IHa b IHb|a IHa b IHb]; simpl.
  - split; [discriminate | inversion 1].
  - split; [constructor | reflexivity].
  - split; [discriminate | inversion 1].
  - rewrite andb_true_iff, IHa, IHb. split.
    + intros [Ha Hb]. change "" with ("" ++ ""). now constructor.
    + inversion 1 as [| |a' b' s t Hs Ht Hab Hst| |]; subst.
      apply append_eq_empty in Hst. destruct Hst; subst. auto.
  - rewrite orb_true_iff, IHa, IHb. split.
    + intros [H|H]; [now apply M_alt_l | now apply M_alt_r].
    + inversion 1; subst; auto.
Qed.

Lemma deriv_matches (r : re) :
  forall c s, matches (deriv c r) s <-> matches r (String c s).
Proof.
  induction r as [| |p|a IHa b IHb|a IHa b IHb]; intros c s; simpl.
  - split; inversion 1.
  - split; inversion 1.
  - destruct (p c) eqn:Hp; split.
    + inversion 1; subst. now constructor.
    + inversion 1; subst. constructor.
    + inversion 1.
    + inversion 1; subst. congruence.
  - assert (Hcat : matches (Cat (deriv c a) b) s ->
                   matches (Cat a b) (String c s)).
    { inversion 1 as [| |a' b' u v Hu Hv Hab Huv| |]; subst.
      apply IHa in Hu. change (String c (u ++ v)) with (String c u ++ v).
      now constructor. }
    assert (Hsplit : matches (Cat a b) (String c s) ->
                     matches (Cat (deriv c a) b) s
                     \/ (matches a "" /\ matches b (String c s))).
    { inversion 1 as [| |a' b' u v Hu Hv Hab Huv| |]; subst.
      destruct u as [|c' u'].
      - right. simpl in Huv. subst. auto.
      - left. simpl in Huv. injection Huv as -> <-.
        constructor; [now apply IHa | assumption]. }
    destruct (nullable a) eqn:Hn; split.
    + inversion 1; subst; [now apply Hcat|].
      change (String c s) with ("" ++ String c s). constructor.
      * now apply nullable_matches.
      * now apply IHb.
    + intro H. destruct (Hsplit H) as [H1|[_ H2]].
      * now apply M_alt_l.
      * apply M_alt_r. now apply IHb.
    + apply Hcat.
    + intro H. destruct (Hsplit H) as [H1|[H2 _]]; [assumption|].
      apply nullable_matches in H2. congruence.
  - split.
    + inversion 1; subst; [apply M_alt_l | apply M_alt_r];
        [now apply IHa | now apply IHb].
    + inversion 1; subst; [apply M_alt_l | apply M_alt_r];
        [now apply IHa | now apply IHb].
Qed.

Lemma fullmatch_matches (s : string) :
  forall r, fullmatch r s = true <-> matches r s.
Proof.
  induction s as [|c t IH]; intro r; simpl.
  - apply nullable_matches.
  - rewrite IH. apply deriv_matches.
Qed.

(** Inversion principles, one per constructor of a pattern. *)

Lemma matches_cat (a b : re) (s : string) :
  matches (Cat a b) s <->
  exists u v, s = u ++ v /\ matches a u /\ matches b v.
Proof.
  split.
  - inversion 1; subst. eauto.
  - intros (u & v & -> & Hu & Hv). now constructor.
Qed.

Lemma matches_cls (p : ascii -> bool) (s : string) :
  matches (Cls p) s <-> exists c, s = String c "" /\ p c = true.
Proof.
  split.
  - inversion 1; subst. eauto.
  - intros (c & -> & Hc). now constructor.
Qed.

Lemma matches_lit (c : ascii) (s : string) :
  matches (lit c) s <-> s = String c "".
Proof.
  unfold lit. rewrite matches_cls. split.
  - intros (d & -> & Hd). apply Ascii.eqb_eq in Hd. now subst.
  - intros ->. exists c. split; [reflexivity | apply Ascii.eqb_refl].
Qed.

Lemma matches_eps (s : string) : matches Eps s <-> s = "".
Proof. split; [inversion 1; reflexivity | intros ->; constructor]. Qed.

Lemma matches_alt (a b : re) (s : string) :
  matches (Alt a b) s <-> matches a s \/ matches b s.
Proof.
  split.
  - inversion 1; subst; auto.
  - intros [H|H]; [now apply M_alt_l | now apply M_alt_r].
Qed.

(** [r{n}] over a character class: exactly [n] characters of the class. *)
Lemma matches_times_cls (p : ascii -> bool) (n : nat) :
  forall s, matches (times n (Cls p)) s <->
            String.length s = n /\ PyStr.forallb_chars p s = true.
Proof.
  induction n as [|n IH]; intro s; simpl.
  - rewrite matches_eps. split.
    + intros ->. auto.
    + intros [H _]. now destruct s.
  - rewrite matches_cat. split.
    + intros (u & v & -> & Hu & Hv).
      apply matches_cls in Hu. destruct Hu as (c & -> & Hc).
      apply IH in Hv. destruct Hv as [Hl Hv]. simpl.
      now rewrite Hl, Hc, Hv.
    + intros [Hl Hs]. destruct s as [|c t]; [discriminate|].
      simpl in Hl, Hs. apply andb_prop in Hs. destruct Hs as [Hc Ht].
      exists (String c ""), t. split; [reflexivity|]. split.
      * apply matches_cls. eauto.
      * apply IH. split; [lia | assumption].
Qed.

(** [r?{k}] over a character class: at most [k] characters of the class. *)
Lemma matches_upto_cls (p : ascii -> bool) (k : nat) :
  forall s, matches (times k (Alt (Cls p) Eps)) s <->
            (String.length s <= k)%nat /\ PyStr.forallb_chars p s = true.
Proof.
  induction k as [|k IH]; intro s; simpl.
  - rewrite matches_eps. split.
    + intros ->. auto.
    + intros [H _]. destruct s; [reflexivity | simpl in H; lia].
  - rewrite matches_cat. split.
    + intros (u & v & -> & Hu & Hv).
      apply IH in Hv. destruct Hv as [Hl Hv].
      apply matches_alt in Hu. destruct Hu as [Hu|Hu].
      * apply matches_cls in Hu. destruct Hu as (c & -> & Hc). simpl.
        rewrite Hc, Hv. split; [lia | reflexivity].
      * apply matches_eps in Hu. subst. simpl. split; [lia | assumption].
    + intros [Hl Hs]. destruct s as [|c t].
      * exists "", "". split; [reflexivity|]. split.
        -- apply matches_alt. right. constructor.
        -- apply IH. simpl. split; [lia | reflexivity].
      * simpl in Hl, Hs. apply andb_prop in Hs. destruct Hs as [Hc Ht].
        exists (String c ""), t. split; [reflexivity|]. split.
        -- apply matches_alt. left. apply matches_cls. eauto.
        -- apply IH. split; [lia | assumption].
Qed.

Lemma length_append (s t : string) :
  String.length (s ++ t) = (String.length s + String.length t)%nat.
Proof. induction s as [|c r IH]; simpl; [reflexivity | now rewrite IH]. Qed.

(** [r{lo,hi}] over a character class. *)
Lemma matches_between_cls (p : ascii -> bool) (lo hi : nat) (s : string) :
  (lo <= hi)%nat ->
  matches (between lo hi (Cls p)) s <->
  (lo <= String.length s <= hi)%nat /\ PyStr.forallb_chars p s = true.
Proof.
  intro Hle. unfold between. rewrite matches_cat. split.
  - intros (u & v & -> & Hu & Hv).
    apply matches_times_cls in Hu. apply matches_upto_cls in Hv.
    destruct Hu as [Hlu Hu], Hv as [Hlv Hv].
    rewrite length_append, forallb_chars_append, Hu, Hv.
    split; [lia | reflexivity].
  - intros [Hl Hs].
    exists (substring 0 lo s), (substring lo (String.length s - lo) s).
    assert (Hcut : forall n t, (n <= String.length t)%nat ->
              t = substring 0 n t ++ substring n (String.length t - n) t
              /\ String.length (substring 0 n t) = n).
    { induction n as [|n IHn]; intros t Hn.
      - simpl. destruct t as [|c t']; simpl.
        + auto.
        + split; [|reflexivity]. f_equal.
          clear. induction t' as [|c' t'' IH']; simpl; [reflexivity|].
          now rewrite <- IH'.
      - destruct t as [|c t']; [simpl in Hn; lia|].
        simpl in Hn |- *. destruct (IHn t') as [E L]; [lia|].
        split; [now rewrite <- E | now rewrite L]. }
    destruct (Hcut lo s) as [E L]; [lia|].
    split; [exact E|].
    rewrite E, forallb_chars_append in Hs. apply andb_prop in Hs.
    destruct Hs as [Hu Hv]. split.
    + apply matches_times_cls. auto.
    + apply matches_upto_cls. split; [|exact Hv].
      assert (String.length s
              = (lo + String.length (substring lo (String.length s - lo) s))%nat).
      { rewrite E at 1. now rewrite length_append, L. }
      lia.
Qed.

End RegexFacts.

(** ** The two shapes of version strings *)

Section ShapeFacts.
Import PyStr Regex RegexSpec Firmware FirmwareSpec.
Local Open Scope string_scope.

Lemma matches_component (s : string) :
  matches (between 1 2 (Cls is_digit)) s <-> component s.
Proof.
  rewrite matches_between_cls by lia. unfold component, all_digits.
  split; intros [H1 H2]; (split; [lia | assumption]).
Qed.

Lemma quad_re_shape (s : string) :
  fullmatch quad_re s = true <->
  exists a b c d,
    s = a ++ "." ++ b ++ "." ++ c ++ "." ++ d
    /\ component a /\ component b /\ component c /\ component d.
Proof.
  rewrite fullmatch_matches. unfold quad_re. split.
  - intro H.
    apply matches_cat in H. destruct H as (a & r1 & -> & Ha & H).
    apply matches_cat in H. destruct H as (p1 & r2 & -> & Hp1 & H).
    apply matches_cat in H. destruct H as (b & r3 & -> & Hb & H).
    apply matches_cat in H. destruct H as (p2 & r4 & -> & Hp2 & H).
    apply matches_cat in H. destruct H as (c & r5 & -> & Hc & H).
    apply matches_cat in H. destruct H as (p3 & d & -> & Hp3 & Hd).
    apply matches_lit in Hp1, Hp2, Hp3. subst.
    apply matches_component in Ha, Hb, Hc, Hd.
    exists a, b, c, d. auto.
  - intros (a & b & c & d & -> & Ha & Hb & Hc & Hd).
    apply matches_component in Ha, Hb, Hc, Hd.
    repeat (apply matches_cat; eexists; eexists;
            split; [reflexivity|]; split; [eassumption|]).
    apply matches_cat. exists ".", (b ++ "." ++ c ++ "." ++ d).
    split; [reflexivity|]. split; [now apply matches_lit|].
    apply matches_cat. exists b, ("." ++ c ++ "." ++ d).
    split; [reflexivity|]. split; [assumption|].
    apply matches_cat. exists ".", (c ++ "." ++ d).
    split; [reflexivity|]. split; [now apply matches_lit|].
    apply matches_cat. exists c, ("." ++ d).
    split; [reflexivity|]. split; [assumption|].
    apply matches_cat. exists ".", d.
    split; [reflexivity|]. split; [now apply matches_lit | assumption].
Qed.

Lemma nightly_re_shape (s : string) :
  fullmatch nightly_re s = true <->
  exists d h,
    s = d ++ "-" ++ h
    /\ String.length d = 8 /\ all_digits d
    /\ (String.length h = 7 \/ String.length h = 8) /\ all_hex h.
Proof.
  rewrite fullmatch_matches. unfold nightly_re. split.
  - intro H.
    apply matches_cat in H. destruct H as (d & r1 & -> & Hd & H).
    apply matches_cat in H. destruct H as (p & h & -> & Hp & Hh).
    apply matches_lit in Hp. subst.
    apply matches_times_cls in Hd. destruct Hd as [Hld Hd].
    apply matches_between_cls in Hh; [|lia]. destruct Hh as [Hlh Hh].
    exists d, h. repeat split; try assumption. lia.
  - intros (d & h & -> & Hld & Hd & Hlh & Hh).
    apply matches_cat. exists d, ("-" ++ h).
    split; [reflexivity|]. split; [now apply matches_times_cls|].
    apply matches_cat. exists "-", h.
    split; [reflexivity|]. split; [now apply matches_lit|].
    apply matches_between_cls; [lia|]. split; [lia | assumption].
Qed.

Lemma fullmatch_quad_iff (s : string) :
  fullmatch quad_re s = true <-> exists n, dotted_quad s n.
Proof.
  rewrite quad_re_shape. unfold dotted_quad. split.
  - intros (a & b & c & d & H). eexists. exists a, b, c, d.
    repeat split; try apply H.
  - intros (n & a & b & c & d & H). exists a, b, c, d.
    repeat split; try apply H.
Qed.

Lemma fullmatch_nightly_iff (s : string) :
  fullmatch nightly_re s = true <-> exists n, nightly s n.
Proof.
  rewrite nightly_re_shape. unfold nightly. split.
  - intros (d & h & H). eexists. exists d, h.
    repeat split; try apply H.
  - intros (n & d & h & H). exists d, h.
    repeat split; try apply H.
Qed.

(** On a dotted quad the code computes the order of the specification. *)
Lemma version_to_int_dotted_quad (s : string) (n : Z) :
  dotted_quad s n -> version_to_int s = Some n.
Proof.
  intros (a & b & c & d & -> & Ha & Hb & Hc & Hd & ->).
  assert (Hne : a ++ "." ++ b ++ "." ++ c ++ "." ++ d <> "").
  { destruct a; [|discriminate]. destruct Ha as [[H|H] _]; discriminate. }
  unfold version_to_int.
  destruct (a ++ "." ++ b ++ "." ++ c ++ "." ++ d) eqn:E; [congruence|].
  rewrite <- E. clear E Hne.
  assert (Hdot : is_digit "."%char = false) by reflexivity.
  assert (Hsplit : split "."%char (a ++ "." ++ b ++ "." ++ c ++ "." ++ d)
                   = [a; b; c; d]).
  { change (a ++ "." ++ b ++ "." ++ c ++ "." ++ d)
      with (a ++ String "."%char (b ++ String "."%char
                                    (c ++ String "."%char d))).
    rewrite !split_append_sep, split_no_sep;
      try (apply digits_no_sep; [exact Hdot|]);
      try reflexivity;
      first [apply Ha | apply Hb | apply Hc | apply Hd]. }
  rewrite Hsplit. simpl ints_of.
  rewrite (component_int Ha), (component_int Hb),
          (component_int Hc), (component_int Hd).
  reflexivity.
Qed.

(** On a nightly identifier the code computes the date prefix. *)
Lemma nightly_to_int_nightly (s : string) (n : Z) :
  nightly s n -> nightly_to_int s = Some n.
Proof.
  intros (d & h & -> & Hld & Hd & Hlh & Hh & ->).
  unfold nightly_to_int.
  destruct (d ++ "-" ++ h) eqn:E.
  { destruct d; discriminate. }
  rewrite <- E. clear E.
  change (d ++ "-" ++ h) with (d ++ String "-"%char h).
  rewrite split_append_sep by (apply digits_no_sep; [reflexivity | exact Hd]).
  simpl hd. apply int_of_str_all_digits; [exact Hd | |].
  - destruct d; discriminate.
  - rewrite Hld. unfold int_max_str_digits. lia.
Qed.

(** No string has both shapes. *)
Lemma quad_not_nightly (s : string) :
  fullmatch quad_re s = true -> fullmatch nightly_re s = false.
Proof.
  intro Hq. destruct (fullmatch nightly_re s) eqn:Hn; [exfalso|reflexivity].
  apply quad_re_shape in Hq. apply nightly_re_shape in Hn.
  destruct Hq as (a & b & c & d & Es & [Hla Ha] & _).
  destruct Hn as (dt & h & En & Hld & Hdt & _).
  subst s.
  destruct dt as [|d1 [|d2 [|d3 dt]]]; try discriminate.
  unfold all_digits in Hdt. simpl in Hdt.
  apply andb_prop in Hdt. destruct Hdt as [_ Hdt].
  apply andb_prop in Hdt. destruct Hdt as [H2 Hdt].
  apply andb_prop in Hdt. destruct Hdt as [H3 _].
  destruct a as [|a1 [|a2 [|a3 a]]]; simpl in Hla; try lia.
  - simpl in En. injection En as _ E2 _. subst d2. discriminate.
  - simpl in En. injection En as _ _ E3 _. subst d3. discriminate.
Qed.

End ShapeFacts.

(** ** The firmware classifier *)

Section FirmwareClassifier.
Import PyStr Regex Firmware FirmwareSpec.
Local Open Scope string_scope.
Local Open Scope Z_scope.

Lemma ints_of_none (parts : list string) :
  ints_of parts = None <-> exists p, In p parts /\ int_of_str p = None.
Proof.
  induction parts as [|p rest IH]; simpl.
  - split; [discriminate | intros (p & [] & _)].
  - destruct (int_of_str p) as [z|] eqn:Hp.
    + destruct (ints_of rest) as [zs|].
      * split; [discriminate|].
        intros (q & [<-|Hq] & Hn); [congruence|].
        assert (Hno : Some zs = None) by (apply IH; eauto).
        discriminate Hno.
      * split; [|reflexivity]. intros _.
        destruct (proj1 IH eq_refl) as (q & Hq & Hn). eauto.
    + split; [|reflexivity]. intros _. eauto.
Qed.

Lemma version_to_int_none (s : string) :
  version_to_int s = None <->
  s = "" \/ exists p, In p (split "."%char s) /\ int_of_str p = None.
Proof.
  unfold version_to_int. destruct s as [|c r].
  - split; auto.
  - rewrite <- ints_of_none.
    destruct (ints_of (split "."%char (String c r))).
    + split; [discriminate | intros [H|H]; discriminate].
    + split; auto.
Qed.

(** The classifier looks at the stripped version only. *)
Lemma is_firmware_stripped (version kind : string) (vc nc : Z) :
  _is_firmware version kind vc nc =
  let v := strip version in
  if String.eqb kind "babel" then startswith v "babel-"
  else if String.eqb kind "olsr" then
    if fullmatch quad_re v then below (version_to_int v) vc
    else if fullmatch nightly_re v then below (nightly_to_int v) nc
    else false
  else if String.eqb kind "combo" then
    if startswith v "babel-" then false
    else if fullmatch quad_re v then at_least (version_to_int v) vc
    else if fullmatch nightly_re v then at_least (nightly_to_int v) nc
    else false
  else false.
Proof.
  destruct version as [|c r]; [|reflexivity].
  cbv zeta. change (strip "") with "". unfold _is_firmware.
  destruct (String.eqb kind "babel"); [reflexivity|].
  destruct (String.eqb kind "olsr"); [reflexivity|].
  destruct (String.eqb kind "combo"); reflexivity.
Qed.

Lemma below_spec (v : option Z) (cutoff : Z) :
  below v cutoff = true <-> exists n, v = Some n /\ n < cutoff.
Proof.
  destruct v as [n|]; simpl.
  - rewrite Z.ltb_lt. split; [eauto | now intros (m & [= ->] & H)].
  - split; [discriminate | now intros (m & [=] & _)].
Qed.

Lemma at_least_spec (v : option Z) (cutoff : Z) :
  at_least v cutoff = true <-> exists n, v = Some n /\ cutoff <= n.
Proof.
  destruct v as [n|]; simpl.
  - rewrite Z.leb_le. split; [eauto | now intros (m & [= ->] & H)].
  - split; [discriminate | now intros (m & [=] & _)].
Qed.

(** What the two numeric branches decide, for a comparison [cmp] on
    the order of the version. *)
Lemma shape_branches (test : option Z -> Z -> bool) (R : Z -> Z -> Prop)
      (v : string) (vc nc : Z) :
  (forall o k, test o k = true <-> exists n, o = Some n /\ R n k) ->
  (if fullmatch quad_re v then test (version_to_int v) vc
   else if fullmatch nightly_re v then test (nightly_to_int v) nc
   else false) = true <->
  (exists n, dotted_quad v n /\ R n vc) \/ (exists n, nightly v n /\ R n nc).
Proof.
  intro Htest.
  destruct (fullmatch quad_re v) eqn:Hq.
  - pose proof (quad_not_nightly _ Hq) as Hn.
    apply fullmatch_quad_iff in Hq. destruct Hq as (n & Hq).
    rewrite Htest, (version_to_int_dotted_quad Hq). split.
    + intros (m & [= <-] & H). left. eauto.
    + intros [(m & Hm & H)|(m & Hm & _)].
      * apply version_to_int_dotted_quad in Hm.
        rewrite (version_to_int_dotted_quad Hq) in Hm.
        injection Hm as <-. eauto.
      * assert (fullmatch nightly_re v = true)
          by (apply fullmatch_nightly_iff; eauto).
        congruence.
  - destruct (fullmatch nightly_re v) eqn:Hn.
    + apply fullmatch_nightly_iff in Hn. destruct Hn as (n & Hn).
      rewrite Htest, (nightly_to_int_nightly Hn). split.
      * intros (m & [= <-] & H). right. eauto.
      * intros [(m & Hm & _)|(m & Hm & H)].
        -- assert (fullmatch quad_re v = true)
             by (apply fullmatch_quad_iff; eauto).
           congruence.
        -- apply nightly_to_int_nightly in Hm.
           rewrite (nightly_to_int_nightly Hn) in Hm.
           injection Hm as <-. eauto.
    + split; [discriminate|].
      intros [(m & Hm & _)|(m & Hm & _)].
      * assert (fullmatch quad_re v = true)
          by (apply fullmatch_quad_iff; eauto).
        congruence.
      * assert (fullmatch nightly_re v = true)
          by (apply fullmatch_nightly_iff; eauto).
        congruence.
Qed.

(** C6, as the specification words it, fails on a version with leading
    white space: the classifier strips the version first, so the text
    [" babel-1"] is classified as babel although it does not begin with
    the literal [babel-]. *)
Lemma is_firmware_babel_leading_space :
  _is_firmware " babel-1" "babel" 0 0 = true
  /\ startswith " babel-1" "babel-" = false.
Proof. split; vm_compute; reflexivity. Qed.

(** C6 (amended): the classification is decided on the version with its
    surrounding white space stripped.  For kind [babel] the result is
    true iff the stripped version begins with [babel-]; for [olsr], iff
    it is a dotted quad strictly below [vc] or a nightly strictly below
    [nc]; for [combo], iff it is not a babel version and is a dotted
    quad at or above [vc] or a nightly at or above [nc]; every other
    kind gives false. *)
Theorem is_firmware_classifies_stripped (version : string) (vc nc : Z) :
  let v := strip version in
  (_is_firmware version "babel" vc nc = true <->
     startswith v "babel-" = true)
  /\ (_is_firmware version "olsr" vc nc = true <->
        (exists n, dotted_quad v n /\ n < vc)
        \/ (exists n, nightly v n /\ n < nc))
  /\ (_is_firmware version "combo" vc nc = true <->
        startswith v "babel-" = false
        /\ ((exists n, dotted_quad v n /\ vc <= n)
            \/ (exists n, nightly v n /\ nc <= n)))
  /\ (forall kind, kind <> "babel" -> kind <> "olsr" -> kind <> "combo" ->
        _is_firmware version kind vc nc = false).
Proof.
  intro v. repeat split.
  - now rewrite is_firmware_stripped.
  - now rewrite is_firmware_stripped.
  - rewrite is_firmware_stripped. cbv zeta. fold v.
    change (String.eqb "olsr" "babel") with false.
    change (String.eqb "olsr" "olsr") with true. cbv iota.
    apply (shape_branches below (fun n k => n < k) v vc nc below_spec).
  - rewrite is_firmware_stripped. cbv zeta. fold v.
    change (String.eqb "olsr" "babel") with false.
    change (String.eqb "olsr" "olsr") with true. cbv iota.
    apply (shape_branches below (fun n k => n < k) v vc nc below_spec).
  - rewrite is_firmware_stripped in H. cbv zeta in H. fold v in H.
    change (String.eqb "combo" "babel") with false in H.
    change (String.eqb "combo" "olsr") with false in H.
    change (String.eqb "combo" "combo") with true in H. cbv iota in H.
    now destruct (startswith v "babel-").
  - rewrite is_firmware_stripped in H. cbv zeta in H. fold v in H.
    change (String.eqb "combo" "babel") with false in H.
    change (String.eqb "combo" "olsr") with false in H.
    change (String.eqb "combo" "combo") with true in H. cbv iota in H.
    destruct (startswith v "babel-"); [discriminate|].
    exact (proj1 (shape_branches at_least (fun n k => k <= n)
                                 v vc nc at_least_spec) H).
  - intros [Hb Hs]. rewrite is_firmware_stripped. cbv zeta. fold v.
    change (String.eqb "combo" "babel") with false.
    change (String.eqb "combo" "olsr") with false.
    change (String.eqb "combo" "combo") with true. cbv iota.
    rewrite Hb.
    exact (proj2 (shape_branches at_least (fun n k => k <= n)
                                 v vc nc at_least_spec) Hs).
  - intros kind Hb Ho Hc. rewrite is_firmware_stripped. cbv zeta.
    apply String.eqb_neq in Hb, Ho, Hc. now rewrite Hb, Ho, Hc.
Qed.

Lemma is_firmware_classifies_stripped_witness :
  strip "  3.25.4.0 " = "3.25.4.0"
  /\ dotted_quad "3.25.4.0" 3250400
  /\ _is_firmware "  3.25.4.0 " "olsr" 3250500 20250507 = true
  /\ _is_firmware "  3.25.4.0 " "unknown" 3250500 20250507 = false.
Proof.
  assert (Hq : dotted_quad "3.25.4.0" 3250400).
  { exists "3", "25", "4", "0". unfold component, all_digits.
    repeat split; auto. }
  split; [reflexivity|]. split; [exact Hq|].
  destruct (is_firmware_classifies_stripped "  3.25.4.0 " 3250500 20250507)
    as (_ & Ho & _ & Hk).
  split.
  - apply Ho. left. exists 3250400. split; [exact Hq | reflexivity].
  - apply Hk; discriminate.
Defined.

(** C9: no version is classified both as olsr and as combo, whatever the
    cutoffs; and no string has both the dotted-quad and the nightly
    shape. *)
Theorem is_firmware_olsr_combo_exclusive (version : string) (vc nc : Z) :
  _is_firmware version "olsr" vc nc
    && _is_firmware version "combo" vc nc = false
  /\ fullmatch quad_re (strip version)
       && fullmatch nightly_re (strip version) = false.
Proof.
  split.
  - rewrite !is_firmware_stripped. cbv zeta.
    change (String.eqb "olsr" "babel") with false.
    change (String.eqb "olsr" "olsr") with true.
    change (String.eqb "combo" "babel") with false.
    change (String.eqb "combo" "olsr") with false.
    change (String.eqb "combo" "combo") with true. cbv iota.
    destruct (startswith (strip version) "babel-");
      [apply andb_false_r|].
    destruct (fullmatch quad_re (strip version)).
    + destruct (version_to_int (strip version)) as [n|]; simpl;
        [|reflexivity].
      destruct (Z.ltb_spec n vc), (Z.leb_spec vc n); simpl;
        try reflexivity; lia.
    + destruct (fullmatch nightly_re (strip version)); [|reflexivity].
      destruct (nightly_to_int (strip version)) as [n|]; simpl;
        [|reflexivity].
      destruct (Z.ltb_spec n nc), (Z.leb_spec nc n); simpl;
        try reflexivity; lia.
  - destruct (fullmatch quad_re (strip version)) eqn:Hq; [|reflexivity].
    now rewrite (quad_not_nightly _ Hq).
Qed.

End FirmwareClassifier.

Section VersionValue.
Import PyStr Firmware FirmwareSpec IntLiteralSpec.
Local Open Scope string_scope.
Local Open Scope Z_scope.

Lemma ints_of_spec (parts : list string) :
  forall zs, ints_of parts = Some zs <-> List.Forall2 int_literal parts zs.
Proof.
induction parts as [|p rest IH]; intro zs; simpl.
- split.
  + intros [= <-]. constructor.
  + intro H. inversion H. reflexivity.
- destruct (int_of_str p) as [z|] eqn:Hp.
  + apply int_of_str_spec in Hp.
    destruct (ints_of rest) as [zs'|] eqn:Hrest.
    * split.
      -- intros [= <-]. constructor; [exact Hp | now apply IH].
      -- intro H. inversion H as [|? z' ? zs'' Hz Hzs]; subst.
         apply int_of_str_spec in Hp, Hz.
         apply IH in Hzs. congruence.
    * split; [discriminate|].
      intro H. inversion H as [|? z' ? zs'' Hz Hzs]; subst.
      apply IH in Hzs. discriminate.
  + split; [discriminate|].
    intro H. inversion H as [|? z' ? zs'' Hz Hzs]; subst.
    apply int_of_str_spec in Hz. congruence.
Qed.

Lemma ints_of_no_literal (parts : list string) :
  ints_of parts = None <->
  exists p, In p parts /\ ~ (exists z, int_literal p z).
Proof.
rewrite ints_of_none. split; intros (p & Hin & H); exists p; (split; [exact Hin|]).
- intros (z & Hz). apply int_of_str_spec in Hz. congruence.
- destruct (int_of_str p) as [z|] eqn:E; [|reflexivity].
  exfalso. apply H. exists z. now apply int_of_str_spec.
Qed.

Lemma nth_padded (zs : list Z) (k i : nat) :
  nth i (zs ++ repeat 0 k)%list 0 = nth i zs 0.
Proof.
destruct (Nat.lt_ge_cases i (List.length zs)) as [Hlt|Hge].
- now apply app_nth1.
- rewrite app_nth2 by exact Hge. rewrite (nth_overflow zs) by exact Hge.
  apply nth_repeat.
Qed.

Lemma version_to_int_value (s : string) (zs : list Z) :
  s <> "" -> List.Forall2 int_literal (split "."%char s) zs ->
  version_to_int s = Some (order_of zs).
Proof.
intros Hne H. apply ints_of_spec in H. unfold version_to_int.
destruct s as [|c r]; [congruence|]. rewrite H.
unfold order_of. now rewrite !nth_padded.
Qed.

Lemma version_to_int_no_literal (s : string) :
  version_to_int s = None <->
  s = "" \/ exists p, In p (split "."%char s)
                      /\ ~ (exists z, int_literal p z).
Proof.
rewrite version_to_int_none, <- ints_of_no_literal, <- ints_of_none.
reflexivity.
Qed.


(** C7, as the specification words it, fails on a version with a
    component of three digits: it is not a dotted quad of one- or
    two-digit components, and yet it is given an order. *)
Lemma version_to_int_long_component :
  version_to_int "3.250.5.0" = Some 5500500
  /\ ~ (exists n, dotted_quad "3.250.5.0" n).
Proof.
  split; [vm_compute; reflexivity|].
  intro H. apply fullmatch_quad_iff in H. vm_compute in H. discriminate.
Qed.

(** A separator the interpreter's [strip] removes is no white space
    for [int]: the component is no literal and the order is absent. *)
Example version_to_int_separator_not_skipped :
  version_to_int ("3.25" ++ String (ascii_of_nat 31) "") = None.
Proof. vm_compute. reflexivity. Qed.

(** C7 (amended): on a dotted quad [a.b.c.d] of one- or two-digit
    components the result is [a*10^6 + b*10^4 + c*10^2 + d]; the result
    is absent exactly when the text is empty or one of its
    dot-separated components is not an integer literal (optional white
    space, an optional sign, digits grouped by single underscores);
    when every component is a literal the result is the weighted sum of
    the first four values, missing components counting as zero, so
    longer components are accepted; and the three examples of the
    specification hold. *)
Theorem version_to_int_spec :
  (forall s n, dotted_quad s n -> version_to_int s = Some n)
  /\ (forall s, version_to_int s = None <->
                s = "" \/ exists p, In p (split "."%char s)
                                    /\ ~ (exists z, int_literal p z))
  /\ (forall s zs, s <> "" ->
                   List.Forall2 int_literal (split "."%char s) zs ->
                   version_to_int s = Some (order_of zs))
  /\ version_to_int "3.25.5.0" = Some 3250500
  /\ version_to_int "3.25.5" = version_to_int "3.25.5.0"
  /\ version_to_int "garbage" = None.
Proof.
  split; [exact version_to_int_dotted_quad|].
  split; [exact version_to_int_no_literal|].
  split; [exact version_to_int_value|].
  repeat split; vm_compute; reflexivity.
Qed.

Lemma version_to_int_spec_witness :
  dotted_quad "3.25.5.0" 3250500
  /\ version_to_int "3.25.5.0" = Some 3250500.
Proof.
  assert (Hq : dotted_quad "3.25.5.0" 3250500).
  { exists "3", "25", "5", "0". unfold component, all_digits.
    repeat split; auto. }
  split; [exact Hq|].
  exact (proj1 version_to_int_spec "3.25.5.0" 3250500 Hq).
Defined.

End VersionValue.

(** ** The sysinfo parser: interface selection *)

Section SysinfoFacts.
Import PyVal NodeInfo Sysinfo SysinfoSpec.
Local Open Scope string_scope.

Variable py_float : pyval -> result pyval.
Variable py_str : pyval -> pyval.
Variable pickle_hex : pyval -> pyval.

Lemma find_rev_cons (A : Type) (p : A -> bool) (a : A) (l : list A) :
  List.find p (List.rev (a :: l)) =
  match List.find p (List.rev l) with
  | Some x => Some x
  | None => if p a then Some a else None
  end.
Proof.
  simpl. generalize (List.rev l) as m. intro m.
  induction m as [|x m IH]; simpl; [reflexivity|].
  destruct (p x); [reflexivity | exact IH].
Qed.

Lemma set_same (f : field) (v : pyval) (ni : NodeInfo.t) : set f v ni f = v.
Proof. unfold set. destruct (field_eq_dec f f); congruence. Qed.

Lemma set_other (f g : field) (v : pyval) (ni : NodeInfo.t) :
  g <> f -> set f v ni g = ni g.
Proof. intro H. unfold set. destruct (field_eq_dec g f); congruence. Qed.

(** One turn of the loop, read off the three attributes. *)
Lemma parse_interface_effect (iface : pyval) (ni ni' : NodeInfo.t) :
  parse_interface iface ni = Ok ni' ->
  ni' wlan_ip = (if names_wlan_ip iface then iface_ip iface else ni wlan_ip)
  /\ ni' lan_ip = (if names_lan_ip iface then iface_ip iface else ni lan_ip)
  /\ ni' wifi_mac_address
     = (if names_mac iface then iface_mac iface else ni wifi_mac_address).
Proof.
  destruct iface as [| | | | | |d];
    try (simpl; intros [= <-]; auto).
  unfold parse_interface, names_wlan_ip, names_lan_ip, names_mac,
    is_wlan, usable, is_mesh_bridge, iface_name, iface_ip, iface_mac.
  set (name := get_default d "name" (VStr "")).
  set (ip_addr := get_default d "ip" (VStr "")).
  assert (Hwl : eq_str name "wlan0" || eq_str name "wlan1" = true ->
                eq_str name "br-lan" = false).
  { destruct name; try reflexivity. simpl. intro Hw.
    apply orb_prop in Hw.
    destruct Hw as [Hw|Hw]; apply String.eqb_eq in Hw; now subst. }
  assert (Hlb : eq_str name "br-lan" = true ->
                in_strs name ["eth1.3975"; "eth0.3975"; "br-nomesh"; "br0"]
                = false).
  { destruct name; try discriminate. simpl. intro Hl.
    apply String.eqb_eq in Hl. now subst. }
  assert (Hs : forall r : result bool,
             startswith ip_addr "10." = r ->
             r = Raise AttributeError \/ r = Ok (begins_with_10 ip_addr)).
  { intros r <-. destruct ip_addr; simpl; auto. }
  specialize (Hs _ eq_refl).
  rewrite <- (andb_assoc (eq_str name "br-lan")).
  revert Hwl Hlb Hs.
  generalize (startswith ip_addr "10.") as r.
  generalize (begins_with_10 ip_addr) as t10.
  generalize (in_strs name ["eth1.3975"; "eth0.3975"; "br-nomesh"; "br0"])
    as b.
  generalize (eq_str name "br-lan") as l.
  generalize (eq_str name "wlan0" || eq_str name "wlan1") as w.
  generalize (truthy ip_addr && negb (eq_str ip_addr "none")) as u.
  generalize (has_key d "mac") as m.
  intros m u w l b t10 r Hwl Hlb Hs.
  destruct w.
  - rewrite (Hwl eq_refl).
    destruct m, u, b, t10; simpl; intros [= <-]; unfold set; simpl; auto.
  - destruct l.
    + rewrite (Hlb eq_refl).
      destruct u; simpl; intros [= <-]; unfold set; simpl; auto.
    + destruct b, u; simpl; try (intros [= <-]; unfold set; simpl; auto).
      destruct Hs as [->| ->]; simpl; [discriminate|].
      destruct t10; intros [= <-]; unfold set; simpl; auto.
Qed.

Lemma parse_interface_frame (iface : pyval) (ni ni' : NodeInfo.t) (f : field) :
  parse_interface iface ni = Ok ni' -> ~ selected f -> ni' f = ni f.
Proof.
  unfold selected. intros H Hf.
  assert (f <> wlan_ip /\ f <> lan_ip /\ f <> wifi_mac_address)
    as (H1 & H2 & H3) by tauto.
  revert H. unfold parse_interface.
  destruct iface; try (intros [= <-]; reflexivity).
  repeat match goal with
         | |- context [if ?b then _ else _] => destruct b
         end;
    try (intros [= <-]; rewrite ?set_other by assumption; reflexivity).
  all: destruct (startswith _ _) as [[]|]; simpl;
    try discriminate; intros [= <-];
    rewrite ?set_other by assumption; reflexivity.
Qed.

(** The whole loop: the last interface that names a value wins. *)
Lemma parse_interfaces_effect (ifaces : list pyval) :
  forall ni ni',
  parse_interfaces ifaces ni = Ok ni' ->
  ni' wlan_ip = match last_such names_wlan_ip ifaces with
                | Some i => iface_ip i
                | None => ni wlan_ip
                end
  /\ ni' lan_ip = match last_such names_lan_ip ifaces with
                  | Some i => iface_ip i
                  | None => ni lan_ip
                  end
  /\ ni' wifi_mac_address = match last_such names_mac ifaces with
                            | Some i => iface_mac i
                            | None => ni wifi_mac_address
                            end.
Proof.
  unfold last_such.
  induction ifaces as [|iface rest IH]; intros ni ni'.
  - simpl. intros [= <-]. auto.
  - simpl parse_interfaces. unfold bind.
    destruct (parse_interface iface ni) as [ni1|e] eqn:H1; [|discriminate].
    intro H. apply IH in H. destruct H as (Hw & Hl & Hm).
    apply parse_interface_effect in H1. destruct H1 as (Hw1 & Hl1 & Hm1).
    rewrite !find_rev_cons.
    rewrite Hw, Hl, Hm, Hw1, Hl1, Hm1.
    repeat split.
    + destruct (List.find names_wlan_ip (List.rev rest)); [reflexivity|].
      now destruct (names_wlan_ip iface).
    + destruct (List.find names_lan_ip (List.rev rest)); [reflexivity|].
      now destruct (names_lan_ip iface).
    + destruct (List.find names_mac (List.rev rest)); [reflexivity|].
      now destruct (names_mac iface).
Qed.


(** The other keys of the document leave the three attributes alone. *)

Ltac frame_of Hf :=
  destruct Hf as [->|[->| ->]]; reflexivity.

Lemma set_if_present_frame d k g conv (ni : NodeInfo.t) (f : field) :
  selected f -> ~ selected g -> set_if_present d k g conv ni f = ni f.
Proof.
  intros Hf Hg. unfold set_if_present.
  destruct (has_key d k); [|reflexivity].
  apply set_other. intros ->. contradiction.
Qed.

Lemma parse_nested_sysinfo_frame d (ni : NodeInfo.t) (f : field) :
  selected f -> parse_nested_sysinfo py_str pickle_hex d ni f = ni f.
Proof.
  intro Hf. unfold parse_nested_sysinfo.
  assert (Hu : set_if_present d "uptime" uptime py_str ni f = ni f).
  { apply set_if_present_frame; [exact Hf|].
    unfold selected. intuition discriminate. }
  destruct (lookup (VStr "loads") d) as [[| | | | |l|]|]; try exact Hu.
  rewrite <- Hu. frame_of Hf.
Qed.

Lemma parse_node_details_frame d (ni : NodeInfo.t) (f : field) :
  selected f -> parse_node_details d ni f = ni f.
Proof.
  intro Hf. unfold parse_node_details.
  rewrite !set_if_present_frame;
    try assumption; try reflexivity;
    unfold selected; intuition discriminate.
Qed.

Lemma parse_tunnels_frame d (ni : NodeInfo.t) (f : field) :
  selected f -> parse_tunnels py_str d ni f = ni f.
Proof. intro Hf. unfold parse_tunnels. frame_of Hf. Qed.

Lemma parse_meshrf_frame d (ni ni' : NodeInfo.t) (f : field) :
  selected f -> parse_meshrf py_float py_str d ni = Ok ni' -> ni' f = ni f.
Proof.
  intros Hf. unfold parse_meshrf, bind.
  destruct (lookup (VStr "antenna") d) as [[| | | | | |ant]|];
    try (intros [= <-]; frame_of Hf).
  destruct (py_float (get_default ant "gain" (VInt 0))); [|discriminate].
  destruct (py_float (get_default ant "beamwidth" (VInt 0))); [|discriminate].
  intros [= <-]. frame_of Hf.
Qed.

Lemma parse_item_frame key value (ni ni' : NodeInfo.t) (f : field) :
  eq_str key "interfaces" = false ->
  parse_item py_float py_str pickle_hex key value ni = Ok ni' ->
  selected f -> ni' f = ni f.
Proof.
  intros Hk H Hf. revert H. unfold parse_item, float_or_zero, bind.
  rewrite Hk.
  assert (Hfloat : forall g, ~ selected g ->
            match (if truthy value then py_float value else Ok (VFloat 0)) with
            | Ok x => Ok (set g x ni)
            | Raise e => Raise e
            end = Ok ni' -> ni' f = ni f).
  { intros g Hg.
    destruct (if truthy value then py_float value else Ok (VFloat 0));
      [|discriminate].
    intros [= <-]. apply set_other. intros ->. contradiction. }
  assert (Hlat : ~ selected lat) by (unfold selected; intuition discriminate).
  assert (Hlon : ~ selected lon) by (unfold selected; intuition discriminate).
  repeat match goal with
         | |- (if eq_str key ?k then _ else _) = _ -> _ =>
             destruct (eq_str key k);
             [ first [ intros [= <-]; frame_of Hf
                     | now apply Hfloat ] | ]
         end.
  destruct value as [| | | | |l|d];
    repeat match goal with
           | |- (if eq_str key ?k then _ else _) = _ -> _ =>
               destruct (eq_str key k);
               [ first [ intros [= <-]; frame_of Hf
                       | intros [= <-]; now apply parse_nested_sysinfo_frame
                       | intros [= <-]; now apply parse_node_details_frame
                       | now apply parse_meshrf_frame
                       | intros [= <-]; now apply parse_tunnels_frame ] | ]
           end;
    intros [= <-]; reflexivity.
Qed.

Lemma parse_item_interfaces (l : list pyval) (ni : NodeInfo.t) :
  parse_item py_float py_str pickle_hex (VStr "interfaces") (VList l) ni
  = parse_interfaces l ni.
Proof. reflexivity. Qed.

Lemma parse_items_frame (data : items) :
  forall (ni ni' : NodeInfo.t) (f : field),
  forallb (fun kv => negb (eq_str (fst kv) "interfaces")) data = true ->
  parse_items py_float py_str pickle_hex data ni = Ok ni' ->
  selected f -> ni' f = ni f.
Proof.
  induction data as [|[key value] rest IH]; intros ni ni' f Hall.
  - simpl. intros [= <-]. reflexivity.
  - simpl in Hall. apply andb_prop in Hall. destruct Hall as [Hk Hrest].
    apply negb_true_iff in Hk.
    simpl. unfold bind.
    destruct (parse_item py_float py_str pickle_hex key value ni)
      as [ni1|e] eqn:H1; [|discriminate].
    intros H Hf. rewrite (IH _ _ _ Hrest H Hf).
    eapply parse_item_frame; eassumption.
Qed.

Lemma parse_items_app (a b : items) :
  forall ni : NodeInfo.t,
  parse_items py_float py_str pickle_hex (a ++ b)%list ni
  = bind (parse_items py_float py_str pickle_hex a ni)
         (parse_items py_float py_str pickle_hex b).
Proof.
  induction a as [|[key value] rest IH]; intro ni; simpl; [reflexivity|].
  unfold bind at 1 3.
  destruct (parse_item py_float py_str pickle_hex key value ni);
    [apply IH | reflexivity].
Qed.

(** C4 (amended): in a document with an [interfaces] array, [wlan_ip] is
    the address of the last interface of the array, in order, that is
    either a [wlan0]/[wlan1] with a usable address or one of
    [eth1.3975], [eth0.3975], [br-nomesh], [br0] with a usable address
    beginning with [10.]; when there is none, it is the address the
    caller gave.  The last [br-lan] with a usable address gives [lan_ip],
    the last [wlan0]/[wlan1] carrying a [mac] gives [wifi_mac_address],
    and an address that is empty or ["none"] is never taken. *)
Theorem parse_sysinfo_interface_selection
        (data : items) (ip : string) (ifaces : list pyval) (ni : NodeInfo.t) :
  sole_item "interfaces" (VList ifaces) data ->
  _parse_sysinfo py_float py_str pickle_hex data ip = Ok ni ->
  ni wlan_ip = match last_such names_wlan_ip ifaces with
               | Some i => iface_ip i
               | None => VStr ip
               end
  /\ ni lan_ip = match last_such names_lan_ip ifaces with
                 | Some i => iface_ip i
                 | None => VStr "Not Available"
                 end
  /\ ni wifi_mac_address = match last_such names_mac ifaces with
                           | Some i => iface_mac i
                           | None => VStr ""
                           end
  /\ (forall i, iface_ip i = VStr "none" \/ iface_ip i = VStr "" ->
                names_wlan_ip i = false /\ names_lan_ip i = false).
Proof.
  intros (before & after & -> & Hb & Ha) H.
  unfold _parse_sysinfo in H.
  rewrite parse_items_app in H. unfold bind in H.
  destruct (parse_items py_float py_str pickle_hex before
                        (set wlan_ip (VStr ip) NodeInfo.default))
    as [ni0|e] eqn:H0; [|discriminate].
  simpl parse_items in H. rewrite parse_item_interfaces in H.
  unfold bind in H.
  destruct (parse_interfaces ifaces ni0) as [ni1|e] eqn:H1; [|discriminate].
  assert (Hsel : forall f, selected f ->
                 ni f = ni1 f
                 /\ ni0 f = set wlan_ip (VStr ip) NodeInfo.default f).
  { intros f Hf. split.
    - eapply parse_items_frame; [exact Ha | exact H | exact Hf].
    - eapply parse_items_frame; [exact Hb | exact H0 | exact Hf]. }
  apply parse_interfaces_effect in H1. destruct H1 as (Hw & Hl & Hm).
  destruct (Hsel wlan_ip) as [Ew Ew0]; [unfold selected; auto|].
  destruct (Hsel lan_ip) as [El El0]; [unfold selected; auto|].
  destruct (Hsel wifi_mac_address) as [Em Em0]; [unfold selected; auto|].
  rewrite Ew, El, Em, Hw, Hl, Hm, Ew0, El0, Em0.
  split; [reflexivity|]. split; [reflexivity|]. split; [reflexivity|].
  intros i Hi.
  destruct i as [| | | | | |d]; [auto ..|].
  unfold names_wlan_ip, names_lan_ip, usable.
  destruct Hi as [-> | ->]; simpl; rewrite ?andb_false_r; auto.
Qed.

End SysinfoFacts.

Section SysinfoExamples.
Import PyVal NodeInfo Sysinfo SysinfoSpec.
Local Open Scope string_scope.

(** C4, as the specification words it, fails when a mesh bridge follows
    the radio interface in the array: a [wlan0] with a usable address is
    present, and yet [wlan_ip] is the bridge's address. *)
Lemma parse_sysinfo_bridge_after_wlan :
  attribute wlan_ip
    (_parse_sysinfo (fun v => Ok v) (fun v => v) (fun v => v)
                    radio_then_bridge "10.9.9.9")
  = Some (VStr "10.2.2.2")
  /\ existsb (fun i => is_wlan (iface_name i) && usable (iface_ip i))
             (match get radio_then_bridge "interfaces" with
              | VList l => l
              | _ => []
              end) = true.
Proof. split; vm_compute; reflexivity. Qed.

Lemma parse_sysinfo_interface_selection_witness :
  let r := _parse_sysinfo (fun v => Ok v) (fun v => v) (fun v => v)
                          radio_then_bridge "10.9.9.9" in
  attribute wlan_ip r = Some (VStr "10.2.2.2")
  /\ attribute lan_ip r = Some (VStr "Not Available")
  /\ attribute wifi_mac_address r = Some (VStr "AA:BB:CC:00:11:22").
Proof.
  intro r. subst r.
  destruct (_parse_sysinfo (fun v => Ok v) (fun v => v) (fun v => v)
                           radio_then_bridge "10.9.9.9") as [ni|e] eqn:E.
  - assert (Hsole : sole_item "interfaces"
                      (get radio_then_bridge "interfaces") radio_then_bridge).
    { exists [(VStr "node", VStr "N0CALL-1")], []. repeat split. }
    destruct (parse_sysinfo_interface_selection _ _ _ _ Hsole E)
      as (Hw & Hl & Hm & _).
    simpl attribute. rewrite Hw, Hl, Hm. repeat split.
  - vm_compute in E. discriminate E.
Defined.

End SysinfoExamples.

(** ** The persistence adapter: coordinates *)

Section RoundingFacts.
Import PyNum.
Local Open Scope Q_scope.

Lemma round_half_even_near (q : Q) :
  q - (1 # 2) <= inject_Z (round_half_even q) <= q + (1 # 2).
Proof.
  unfold round_half_even.
  pose proof (Qfloor_le q) as Hlo.
  pose proof (Qlt_floor q) as Hhi.
  rewrite inject_Z_plus in Hhi. change (inject_Z 1) with 1 in Hhi.
  destruct (Qcompare (q - inject_Z (Qfloor q)) (1 # 2)) eqn:C.
  - apply Qeq_alt in C.
    destruct (Z.even (Qfloor q)); rewrite ?inject_Z_plus;
      change (inject_Z 1) with 1; lra.
  - apply Qlt_alt in C. lra.
  - apply Qgt_alt in C. rewrite inject_Z_plus.
    change (inject_Z 1) with 1. lra.
Qed.

Lemma pow10_pos (n : nat) : 0 < pow10 n.
Proof.
  unfold pow10. change 0 with (inject_Z 0). rewrite <- Zlt_Qlt.
  apply Z.pow_pos_nonneg; lia.
Qed.

(** [round(q, n)] is a multiple of [10^-n] at most half a unit of the
    last digit away from [q]. *)
Lemma round_ndigits_near (q : Q) (n : nat) :
  q - (1 # 2) / pow10 n <= round_ndigits q n <= q + (1 # 2) / pow10 n.
Proof.
  unfold round_ndigits.
  pose proof (pow10_pos n) as Hp.
  pose proof (round_half_even_near (q * pow10 n)) as [Hlo Hhi].
  set (r := inject_Z (round_half_even (q * pow10 n))) in *.
  assert (Hq : q == q * pow10 n / pow10 n) by (field; lra).
  split.
  - rewrite Hq at 1.
    setoid_replace (q * pow10 n / pow10 n - (1 # 2) / pow10 n)
      with ((q * pow10 n - (1 # 2)) / pow10 n) by (field; lra).
    apply Qmult_le_compat_r; [exact Hlo|].
    apply Qlt_le_weak, Qinv_lt_0_compat, Hp.
  - rewrite Hq at 1.
    setoid_replace (q * pow10 n / pow10 n + (1 # 2) / pow10 n)
      with ((q * pow10 n + (1 # 2)) / pow10 n) by (field; lra).
    apply Qmult_le_compat_r; [exact Hhi|].
    apply Qlt_le_weak, Qinv_lt_0_compat, Hp.
Qed.

Lemma round_ndigits_grid (q : Q) (n : nat) :
  exists k : Z, round_ndigits q n == inject_Z k / pow10 n.
Proof. eexists. unfold round_ndigits. reflexivity. Qed.

End RoundingFacts.

Section UpsertFacts.
Import PyVal PyNum Eff NodeInfo World Persistence PersistenceSpec.
Local Open Scope string_scope.

Variable accepts : statement -> result unit.

Lemma outside_spec (q : Q) (lo hi : Z) :
  outside q lo hi = true <-> (q < inject_Z lo \/ inject_Z hi < q)%Q.
Proof.
  unfold outside, Qlt_bool.
  rewrite orb_true_iff, !negb_true_iff.
  split; intros [H|H]; [left|right|left|right].
  - apply Qnot_le_lt. intro C. apply Qle_bool_iff in C. congruence.
  - apply Qnot_le_lt. intro C. apply Qle_bool_iff in C. congruence.
  - apply not_true_is_false. intro C. apply Qle_bool_iff in C.
    exact (Qlt_not_le _ _ H C).
  - apply not_true_is_false. intro C. apply Qle_bool_iff in C.
    exact (Qlt_not_le _ _ H C).
Qed.

Lemma out_of_range_float (q : Q) (lo hi : Z) :
  out_of_range (VFloat q) lo hi = Ok (outside q lo hi).
Proof.
  unfold out_of_range, outside, lt_int, gt_int. simpl.
  now destruct (Qlt_bool q (inject_Z lo)).
Qed.

Lemma node_statement_ext (a b : NodeInfo.t) :
  (forall f, a f = b f) -> node_statement a = node_statement b.
Proof.
  intro H. unfold node_statement. rewrite !H. reflexivity.
Qed.

Lemma round7_coordinate (v : pyval) : coordinate v -> coordinate (round7 v).
Proof.
  intros [->|[[z ->]|[q ->]]]; unfold coordinate; cbn; eauto.
Qed.

Lemma out_of_range_coordinate (v : pyval) (lo hi : Z) :
  coordinate v -> out_of_range v lo hi = Ok (beyond v lo hi).
Proof.
  intros [->|[[z ->]|[q ->]]]; [reflexivity| |apply out_of_range_float].
  unfold out_of_range, beyond, outside, lt_int, gt_int. simpl.
  now destruct (Qlt_bool (inject_Z z) (inject_Z lo)).
Qed.

(** One coordinate through the rounding step. *)
Lemma round_attribute_run (f : field) (node_data : NodeInfo.t) :
  coordinate (node_data f) ->
  exists o, round_attribute f node_data = Ok o
            /\ forall g, o g = if field_eq_dec g f
                               then round7 (node_data f) else node_data g.
Proof.
  intro H. unfold round_attribute.
  destruct H as [H|[[z H]|[q H]]]; rewrite H; cbn.
  - exists node_data. split; [reflexivity|]. intro g.
    destruct (field_eq_dec g f) as [->|]; [exact H | reflexivity].
  - eexists. split; [reflexivity|]. intro g. unfold set.
    destruct (field_eq_dec g f); reflexivity.
  - eexists. split; [reflexivity|]. intro g. unfold set.
    destruct (field_eq_dec g f); reflexivity.
Qed.

(** The record and the outcome of [upsert_node] on a record whose
    coordinates are absent or numbers. *)
Lemma upsert_node_settled_run (node_data : NodeInfo.t) (j : journal) :
  coordinate (node_data lat) -> coordinate (node_data lon) ->
  let written := settled node_data in
  let st := node_statement written in
  exists o,
    (forall f, o f = written f)
    /\ upsert_node accepts (node_data, j)
       = (accepts st,
          (o,
           (j ++ List.map Logged (range_warnings written)
              ++ [Executed st]
              ++ List.map Logged (failure_lines written (accepts st)))%list)).
Proof.
  intros Hlat Hlon written st.
  destruct (round_attribute_run lat node_data Hlat) as (o1 & H1 & P1).
  assert (Hlon1 : coordinate (o1 lon)).
  { rewrite P1. destruct (field_eq_dec lon lat); [discriminate | exact Hlon]. }
  destruct (round_attribute_run lon o1 Hlon1) as (o & H2 & P2).
  assert (P : forall f, o f = written f).
  { intro f. rewrite P2, !P1. unfold written, settled.
    destruct (field_eq_dec f lon) as [->|Hn].
    - destruct (field_eq_dec lon lat); [discriminate | reflexivity].
    - reflexivity. }
  exists o. split; [exact P|].
  assert (Hst : node_statement o = st) by (apply node_statement_ext, P).
  assert (Cl : coordinate (o lat)).
  { rewrite P. unfold written, settled. cbn. now apply round7_coordinate. }
  assert (Cn : coordinate (o lon)).
  { rewrite P. unfold written, settled. cbn. now apply round7_coordinate. }
  unfold upsert_node, mbind, lift, update_object, read.
  cbn [fst snd]. rewrite H1. cbn [fst snd]. rewrite H2. cbn [fst snd].
  rewrite (out_of_range_coordinate _ _ Cl), (out_of_range_coordinate _ _ Cn).
  unfold range_warnings, failure_lines.
  rewrite Hst, !P.
  unfold try_except, on_journal, execute, mbind, modify, lift, log,
    ret, raise.
  destruct (beyond (written lat) (-90) 90),
    (beyond (written lon) (-180) 180),
    (accepts st) as [[]|e]; cbn;
    rewrite <- ?app_assoc; cbn [app]; rewrite ?app_nil_r; reflexivity.
Qed.

(** C5, as the specification words it, fails next to a bound: a
    latitude of 90.00000004 and a longitude of -180.00000004 lie
    outside their intervals, and the upsert rounds them onto the bounds
    and writes them without a warning. *)
Lemma upsert_node_near_bound_unwarned :
  outside (9000000004 # 100000000) (-90) 90 = true
  /\ outside (-18000000004 # 100000000) (-180) 180 = true
  /\ let after := upsert_node (fun _ => Ok tt) (near_the_bound, [] : journal) in
     fst after = Ok tt
     /\ logged (snd (snd after)) = []
     /\ fst (snd after) lat = VFloat (900000000 # 10000000)
     /\ fst (snd after) lon = VFloat (-1800000000 # 10000000).
Proof. vm_compute. repeat split; reflexivity. Qed.

(** C5 (amended): a coordinate of a record handed to [upsert_node] that
    is a float is rounded to seven fractional digits before the write
    (an integer and an absent coordinate stay as they are), in the
    caller's record as in the statement; it is the rounded coordinate
    that is checked: one outside [-90, 90] (latitude) or [-180, 180]
    (longitude) is reported by a warning and is written all the same;
    the upsert raises only when the store refuses the statement. *)
Theorem upsert_node_rounds_and_warns
        (node_data : NodeInfo.t) (j : journal) :
  coordinate (node_data lat) ->
  coordinate (node_data lon) ->
  let written := settled node_data in
  let st := node_statement written in
  let after := upsert_node accepts (node_data, j) in
  (forall q,
     ((q - (1 # 2) / pow10 7 <= round_ndigits q 7 <= q + (1 # 2) / pow10 7)%Q
      /\ exists k, (round_ndigits q 7 == inject_Z k / pow10 7)%Q))
  /\ (forall f, fst (snd after) f = written f)
  /\ (inserted_value st "lat" = Some (Param (round7 (node_data lat)))
      /\ updated_value st "lat" = Some (Param (round7 (node_data lat)))
      /\ inserted_value st "lon" = Some (Param (round7 (node_data lon)))
      /\ updated_value st "lon" = Some (Param (round7 (node_data lon))))
  /\ snd (snd after)
     = (j ++ List.map Logged (range_warnings written)
          ++ [Executed st]
          ++ List.map Logged (failure_lines written (accepts st)))%list
  /\ fst after = accepts st.
Proof.
  intros Hlat Hlon written st after.
  split; [intro q; split; [apply round_ndigits_near | apply round_ndigits_grid]|].
  destruct (upsert_node_settled_run node_data j Hlat Hlon) as (o & P & Hrun).
  cbv zeta in Hrun. fold written in Hrun. fold st in Hrun.
  unfold after. rewrite Hrun. cbn [fst snd].
  split; [exact P|]. split; [repeat split|]. split; reflexivity.
Qed.

End UpsertFacts.

Section UpsertExamples.
Import PyVal PyNum Eff NodeInfo World Persistence PersistenceSpec.

Lemma upsert_node_rounds_and_warns_witness :
  let after := upsert_node (fun _ => Ok tt) (off_the_map, [] : journal) in
  fst after = Ok tt
  /\ fst (snd after) lat = VFloat (951234568 # 10000000)
  /\ List.length (logged (snd (snd after))) = 2%nat
  /\ List.length (executed (snd (snd after))) = 1%nat.
Proof.
  cbv zeta.
  assert (Hlat : coordinate (off_the_map lat)).
  { right. right. eexists. reflexivity. }
  assert (Hlon : coordinate (off_the_map lon)).
  { right. right. eexists. reflexivity. }
  pose proof (@upsert_node_rounds_and_warns (fun _ => Ok tt)
                off_the_map [] Hlat Hlon) as H.
  cbv zeta in H. destruct H as (_ & Hobj & _ & Hj & Hres).
  rewrite Hobj, Hj, Hres. vm_compute. auto.
Defined.

End UpsertExamples.


(** ** The topology discoverer *)

Section TopologyFacts.
Import PyVal Eff Topology.
Local Open Scope string_scope.

(** C3, at a first fetch whose node list does not name the seed: the
    seed's address is resolved to [10.1.1.1], and yet the bundle's node
    list is the payload's own list, without the seed, and its link map is
    keyed by [None], the daemon's [localnode_ip], not by the seed's
    address. *)
Theorem fetch_topology_leaves_seed_out :
  let run := _fetch_topology Example.nodes_payload Example.lqm_payload VNone
                             (Daemon.init Example.settings) in
  fst run = Ok (VDict [ (VStr "nodes", VList [ Example.neighbour ]);
                        (VStr "links",
                         VDict [ (VNone, Example.seed_link_map) ]) ])
  /\ Daemon.nodelistNode_ip (snd run) = VStr "10.1.1.1".
Proof. split; vm_compute; reflexivity. Qed.

(** Once the daemon knows a [localnode_ip] that the node list does not
    name, the fetch raises instead of appending. *)
Lemma fetch_topology_raises_on_append :
  fst (_fetch_topology Example.nodes_payload Example.lqm_payload VNone
         (Daemon.with_localnode_ip (VStr "10.1.1.1")
                                   (Daemon.init Example.settings)))
  = Raise AttributeError.
Proof. vm_compute. reflexivity. Qed.

(** Whatever the payloads and the state, a bundle carries the payload's
    node list as it came: nothing is ever appended to it. *)
Lemma fetch_topology_never_appends
      (nodes_payload lqm_payload link_info_payload : pyval)
      (d : Daemon.t) (bundle : items) :
  fst (_fetch_topology nodes_payload lqm_payload link_info_payload d)
  = Ok (VDict bundle) ->
  get bundle "nodes" = payload_list nodes_payload "nodes".
Proof.
  unfold _fetch_topology, mbind, lift, read, modify, ret, raise.
  destruct (resolve_seed_ip nodes_payload); [|discriminate].
  destruct (links_from_lqm lqm_payload); [|discriminate].
  cbn [fst snd].
  match goal with
  | |- context [if ?c then assign _ _ _ else _] =>
      destruct (if c then assign _ _ _ else _); [|discriminate]
  end.
  destruct (truthy (Daemon.localnode_ip _)).
  - destruct (iterate (payload_list nodes_payload "nodes")); [|discriminate].
    destruct (any_has_ip _ _) as [[]|]; try discriminate.
    destruct (truthy (payload_list nodes_payload "nodes"));
      cbn; intros [= <-]; reflexivity.
  - destruct (truthy (payload_list nodes_payload "nodes"));
      cbn; intros [= <-]; reflexivity.
Qed.

End TopologyFacts.


(** ** The artifact emitter: buckets *)

Section EmitterFacts.
Import PyVal Eff Emitter EmitterSpec.
Local Open Scope string_scope.

Variable parse_last_seen : pyval -> option Q.
Variable now : Q.
Variable node_data_t : Type.
Variable node_data_of : items -> string -> result node_data_t.

Lemma placed_functional (node : items) (b b' : bucket) :
  placed node b = true -> placed node b' = true -> b = b'.
Proof.
  unfold placed. destruct (categorize node) as [[b0|]|]; try discriminate.
  destruct (bucket_eq_dec b0 b), (bucket_eq_dec b0 b');
    try discriminate; congruence.
Qed.

Lemma placed_off_origin (node : items) (b : bucket) :
  at_origin node = true -> placed node b = false.
Proof.
  unfold at_origin, placed, categorize, ne_zero. intro H.
  apply andb_prop in H. destruct H as [-> ->]. reflexivity.
Qed.

(** One turn of the loop adds the record of the row to the bucket the
    row is placed in, and to no other. *)
Lemma emit_node_devices (self : Daemon.t) (node : items)
      (acc acc' : accumulator node_data_t) :
  emit_node parse_last_seen now node_data_of self node acc = Ok acc' ->
  exists record : node_data_t,
    forall b, all_devices acc' b
              = (all_devices acc b
                   ++ records_in b [(node, record)])%list.
Proof.
  unfold emit_node, bind.
  destruct (node_data_of node _) as [record|]; [|discriminate].
  destruct (categorize node) as [place|] eqn:Hc; [|discriminate].
  intros [= <-]. exists record. intro b. cbn [all_devices].
  unfold records_in, placed. cbn. rewrite Hc.
  destruct place as [b0|].
  - unfold append_to.
    destruct (bucket_eq_dec b b0) as [->|Hne].
    + destruct (bucket_eq_dec b0 b0); [reflexivity | congruence].
    + destruct (bucket_eq_dec b0 b); [congruence|].
      cbn. now rewrite app_nil_r.
  - cbn. now rewrite app_nil_r.
Qed.

Lemma records_in_app (b : bucket) (l m : list (items * node_data_t)) :
  records_in b (l ++ m) = (records_in b l ++ records_in b m)%list.
Proof. unfold records_in. now rewrite filter_app, map_app. Qed.

Lemma emit_nodes_devices (self : Daemon.t) (all_nodes : list items) :
  forall acc acc' : accumulator node_data_t,
  emit_nodes parse_last_seen now node_data_of self all_nodes acc = Ok acc' ->
  exists records : list (items * node_data_t),
    List.map fst records = all_nodes
    /\ forall b, all_devices acc' b
                 = (all_devices acc b ++ records_in b records)%list.
Proof.
  induction all_nodes as [|node rest IH]; intros acc acc'.
  - simpl. intros [= <-]. exists []. split; [reflexivity|].
    intro b. unfold records_in. cbn. now rewrite app_nil_r.
  - simpl. unfold bind.
    destruct (emit_node parse_last_seen now node_data_of self node acc)
      as [acc1|] eqn:H1; [|discriminate].
    intro H. apply IH in H. destruct H as (records & Hmap & Hdev).
    apply emit_node_devices in H1. destruct H1 as (record & H1).
    exists ((node, record) :: records). split.
    + cbn. now rewrite Hmap.
    + intro b. rewrite Hdev, H1, <- app_assoc.
      change ((node, record) :: records)
        with ([(node, record)] ++ records)%list.
      now rewrite records_in_app.
Qed.

(** A row is counted in one bucket at most. *)
Lemma total_placed_bound (records : list (items * node_data_t)) :
  (total_placed (fun b => records_in b records) <= List.length records)%nat.
Proof.
  unfold total_placed, buckets, List.list_sum.
  cbn [List.map List.fold_right]. cbv beta.
  induction records as [|[node record] rest IH]; [cbn; lia|].
  assert (Hone : forall b,
    List.length (records_in b ((node, record) :: rest))
    = ((if placed node b then 1 else 0)
       + List.length (records_in b rest))%nat).
  { intro b. unfold records_in. cbn. now destruct (placed node b). }
  rewrite !Hone. cbn [List.length].
  assert (Hsum : ((if placed node noRF then 1 else 0)
                  + (if placed node supernode then 1 else 0)
                  + (if placed node band_900 then 1 else 0)
                  + (if placed node band_2ghz then 1 else 0)
                  + (if placed node band_3ghz then 1 else 0)
                  + (if placed node band_5ghz then 1 else 0) <= 1)%nat).
  { unfold placed. destruct (categorize node) as [[[]|]|]; cbn; lia. }
  lia.
Qed.

End EmitterFacts.

Section GenerateFacts.
Import PyVal Eff World Emitter EmitterSpec Coordinator.
Local Open Scope string_scope.

Variable node_data_t : Type.
Variable env : environment node_data_t.

(** The devices of an emitted artifact are those the loop accumulated. *)
Lemma generate_devices (s : state) (art : map_data node_data_t) :
  fst (_generate_data_files env s) = Ok (Some art) ->
  exists acc,
    emit_nodes (parse_last_seen env) (now env) (node_data_of env)
               (self s) (all_nodes env) (start node_data_t) = Ok acc
    /\ allDevices art = all_devices acc.
Proof.
  unfold _generate_data_files, try_except, mbind, lift, read, set_stat,
    on_self, on_events, emit, log, modify, ret.
  destruct (prepare env); cbn [fst snd self events]; [|discriminate].
  destruct (emit_nodes _ _ _ _ _ _) as [acc|]; cbn [fst snd self events];
    [|discriminate].
  destruct (map_info env); cbn [fst snd self events]; [|discriminate].
  destruct (write_text env "map_data.json"); cbn [fst snd self events];
    [|discriminate].
  destruct (write_text env "node_report_data.json");
    cbn [fst snd self events];
    intros [= <-]; exists acc; split; reflexivity.
Qed.

(** C10: in an emitted map artifact every row of the node table
    accounts for at most one record in the six lists of [allDevices]:
    each list holds, in order, the records of the rows placed in it, a
    row is placed in one bucket at most, the lists together hold no more
    records than there are rows, and a row whose latitude and longitude
    are both zero is placed in none. *)
Theorem generate_places_each_row_once
        (s : state) (art : map_data node_data_t) :
  fst (_generate_data_files env s) = Ok (Some art) ->
  (exists records : list (items * node_data_t),
     List.map fst records = all_nodes env
     /\ forall b, allDevices art b = records_in b records)
  /\ (total_placed (allDevices art) <= List.length (all_nodes env))%nat
  /\ (forall node b b',
        placed node b = true -> placed node b' = true -> b = b')
  /\ (forall node b, at_origin node = true -> placed node b = false).
Proof.
  intro H. apply generate_devices in H. destruct H as (acc & Hacc & Hart).
  apply emit_nodes_devices in Hacc. destruct Hacc as (records & Hmap & Hdev).
  assert (Hb : forall b, allDevices art b = records_in b records).
  { intro b. rewrite Hart, Hdev. reflexivity. }
  split; [exists records; auto|].
  split.
  - rewrite <- Hmap, length_map.
    pose proof (total_placed_bound records) as Hle.
    unfold total_placed in *. cbn [List.map buckets] in *.
    now rewrite !Hb.
  - split; [exact placed_functional | exact placed_off_origin].
Qed.

End GenerateFacts.

Section GenerateExamples.
Import PyVal Eff World Emitter EmitterSpec Coordinator.

Lemma generate_places_each_row_once_witness :
  exists art,
    fst (_generate_data_files Scenario.online (boot Example.settings))
    = Ok (Some art)
    /\ (total_placed (allDevices art) <= 3)%nat
    /\ List.length (allDevices art supernode) = 1%nat
    /\ List.length (allDevices art noRF) = 1%nat
    /\ List.length (allDevices art band_5ghz) = 0%nat.
Proof.
  destruct (fst (_generate_data_files Scenario.online
                   (boot Example.settings))) as [[art|]|] eqn:E.
  - exists art. split; [reflexivity|]. split.
    + exact (proj1 (proj2 (generate_places_each_row_once _ _ E))).
    + vm_compute in E. injection E as <-. repeat split.
  - vm_compute in E. discriminate E.
  - vm_compute in E. discriminate E.
Defined.

End GenerateExamples.


(** ** Reasoning about effects *)

Section RespectsFacts.
Import PyVal Eff.

Variable S : Type.
Variable R : S -> S -> Prop.
Hypothesis R_refl : forall s, R s s.
Hypothesis R_trans : forall a b c, R a b -> R b c -> R a c.

Lemma respects_ret (A : Type) (a : A) : respects R (ret a : M S A).
Proof. intro s. apply R_refl. Qed.

Lemma respects_raise (A : Type) (e : exn) : respects R (raise e : M S A).
Proof. intro s. apply R_refl. Qed.

Lemma respects_lift (A : Type) (r : result A) : respects R (lift r : M S A).
Proof. intro s. apply R_refl. Qed.

Lemma respects_read (A : Type) (f : S -> A) : respects R (read f).
Proof. intro s. apply R_refl. Qed.

Lemma respects_modify (f : S -> S) :
  (forall s, R s (f s)) -> respects R (modify f).
Proof. intros H s. apply H. Qed.

Lemma respects_bind (A B : Type) (c : M S A) (k : A -> M S B) :
  respects R c -> (forall a, respects R (k a)) -> respects R (mbind c k).
Proof.
  intros Hc Hk s. unfold mbind.
  specialize (Hc s). destruct (c s) as [[a|e] s1]; cbn in *.
  - eapply R_trans; [exact Hc | apply Hk].
  - exact Hc.
Qed.

Lemma respects_try_except (A : Type) (c : M S A) (h : exn -> M S A) :
  respects R c -> (forall e, respects R (h e)) ->
  respects R (try_except c h).
Proof.
  intros Hc Hh s. unfold try_except.
  specialize (Hc s). destruct (c s) as [[a|e] s1]; cbn in *.
  - exact Hc.
  - eapply R_trans; [exact Hc | apply Hh].
Qed.

Lemma respects_for_each (A : Type) (l : list A) (body : A -> M S unit) :
  (forall a, respects R (body a)) -> respects R (for_each l body).
Proof.
  intro Hb. induction l as [|a rest IH]; cbn.
  - apply respects_ret.
  - apply respects_bind; [apply Hb | intros _; exact IH].
Qed.

End RespectsFacts.

(** Breaks a goal [respects R c] along the shape of [c]; what is left
    are the calls to named functions. *)
Ltac respects_step refl trans :=
  lazymatch goal with
  | |- Eff.respects _ (Eff.mbind _ _) =>
      apply respects_bind; [ exact trans | | intro ]
  | |- Eff.respects _ (Eff.ret _) => apply respects_ret; exact refl
  | |- Eff.respects _ (Eff.raise _) => apply respects_raise; exact refl
  | |- Eff.respects _ (Eff.lift _) => apply respects_lift; exact refl
  | |- Eff.respects _ (Eff.read _) => apply respects_read; exact refl
  | |- Eff.respects _ (Eff.try_except _ _) =>
      apply respects_try_except; [ exact trans | | intro ]
  | |- Eff.respects _ (Eff.for_each _ _) =>
      apply respects_for_each; [ exact refl | exact trans | intro ]
  | |- Eff.respects _ (if ?b then _ else _) => destruct b
  | |- Eff.respects _ (match ?x with _ => _ end) => destruct x
  | |- Eff.respects _ (let (_, _) := ?x in _) => destruct x
  end.


(** ** The coordinator: what a cycle leaves alone *)

Section CalmFacts.
Import PyVal PyNum Eff World Coordinator.

Lemma scheduled_app (a b : journal) :
  scheduled (a ++ b) = (scheduled a ++ scheduled b)%list.
Proof. unfold scheduled. apply flat_map_app. Qed.

Lemma same_config_refl (d : Daemon.t) : same_config d d.
Proof. reflexivity. Qed.

Lemma same_config_trans (a b c : Daemon.t) :
  same_config a b -> same_config b c -> same_config a c.
Proof. unfold same_config. congruence. Qed.

Lemma grew_quietly_refl (j : journal) : grew_quietly j j.
Proof. exists []. split; [now rewrite app_nil_r | reflexivity]. Qed.

Lemma grew_quietly_trans (a b c : journal) :
  grew_quietly a b -> grew_quietly b c -> grew_quietly a c.
Proof.
  intros (m1 & -> & H1) (m2 & -> & H2). exists (m1 ++ m2)%list.
  split; [now rewrite app_assoc|].
  now rewrite scheduled_app, H1, H2.
Qed.

Lemma calm_refl (s : state) : calm s s.
Proof. split; [apply same_config_refl | apply grew_quietly_refl]. Qed.

Lemma calm_trans (a b c : state) : calm a b -> calm b c -> calm a c.
Proof.
  intros [H1 H2] [H3 H4]. split.
  - eapply same_config_trans; eassumption.
  - eapply grew_quietly_trans; eassumption.
Qed.

Lemma journal_grew_refl (p : NodeInfo.t * journal) : journal_grew p p.
Proof. apply grew_quietly_refl. Qed.

Lemma journal_grew_trans (a b c : NodeInfo.t * journal) :
  journal_grew a b -> journal_grew b c -> journal_grew a c.
Proof. apply grew_quietly_trans. Qed.

End CalmFacts.

Ltac journal_steps :=
  repeat respects_step grew_quietly_refl grew_quietly_trans.
Ltac object_steps :=
  repeat respects_step journal_grew_refl journal_grew_trans.
Ltac calm_steps :=
  repeat respects_step calm_refl calm_trans.

Section AdapterIsQuiet.
Import PyVal PyNum Eff World Coordinator.
Local Open Scope string_scope.

Variable accepts : statement -> result unit.

Lemma log_grows (e : log_entry) : respects grew_quietly (Persistence.log e).
Proof. intro j. cbn. exists [Logged e]. auto. Qed.

Lemma execute_grows (st : statement) :
  respects grew_quietly (Persistence.execute accepts st).
Proof.
  intro j. unfold Persistence.execute, mbind, modify, lift. cbn.
  exists [Executed st]. auto.
Qed.

Lemma on_journal_grows (A : Type) (c : M journal A) :
  respects grew_quietly c -> respects journal_grew (Persistence.on_journal c).
Proof.
  intros H p. unfold Persistence.on_journal, journal_grew.
  specialize (H (snd p)). destruct (c (snd p)). exact H.
Qed.

Lemma update_object_grows (f : NodeInfo.t -> result NodeInfo.t) :
  respects journal_grew (Persistence.update_object f).
Proof.
  intro p. unfold Persistence.update_object, journal_grew.
  destruct (f (fst p)); cbn; apply grew_quietly_refl.
Qed.

Lemma upsert_node_grows :
  respects journal_grew (Persistence.upsert_node accepts).
Proof.
  unfold Persistence.upsert_node.
  object_steps;
    first [ apply update_object_grows
          | apply on_journal_grows;
            first [apply log_grows | apply execute_grows] ].
Qed.

End AdapterIsQuiet.

Section DaemonKeepsConfig.
Import PyVal PyNum Eff World Topology Coordinator.
Local Open Scope string_scope.

Lemma modify_keeps_config (f : Daemon.t -> Daemon.t) :
  (forall d, config (f d) = config d) -> respects same_config (modify f).
Proof. intros H d. apply H. Qed.





End DaemonKeepsConfig.

Section CycleIsCalm.
Import PyVal PyNum Eff World Coordinator.
Local Open Scope string_scope.

Variable node_data_t : Type.
Variable env : environment node_data_t.

Lemma on_self_calm (A : Type) (c : M Daemon.t A) :
  respects same_config c -> respects calm (on_self c).
Proof.
  intros H s. unfold on_self. specialize (H (self s)).
  destruct (c (self s)) as [r d]. split; [exact H|].
  apply grew_quietly_refl.
Qed.

Lemma on_events_calm (A : Type) (c : M journal A) :
  respects grew_quietly c -> respects calm (on_events c).
Proof.
  intros H s. unfold on_events. specialize (H (events s)).
  destruct (c (events s)) as [r j]. split; [apply same_config_refl|].
  exact H.
Qed.

Lemma set_stat_calm (k : Stats.key) (v : pyval) : respects calm (set_stat k v).
Proof.
  apply on_self_calm, modify_keeps_config. reflexivity.
Qed.

Lemma log_calm (e : log_entry) : respects calm (log e).
Proof.
  apply on_events_calm. intro j. exists [Logged e]. auto.
Qed.

Lemma wrote_calm (file : string) : respects calm (emit (Wrote file)).
Proof.
  apply on_events_calm. intro j. exists [Wrote file]. auto.
Qed.

Lemma try_upsert_calm (node_data : NodeInfo.t) (report : exn -> log_entry) :
  respects calm (try_upsert env node_data report).
Proof.
  intro s. unfold try_upsert.
  pose proof (upsert_node_grows (accepts env) (node_data, events s)) as H.
  destruct (Persistence.upsert_node (accepts env) (node_data, events s))
    as [[[]|e] after]; unfold journal_grew in H; cbn in H |- *.
  - split; [apply same_config_refl | exact H].
  - split; [apply same_config_refl|].
    eapply grew_quietly_trans; [exact H|].
    exists [Logged (report e)]. auto.
Qed.

Lemma update_topology_info_calm (node_devices : items) :
  respects calm (_update_topology_info env node_devices).
Proof.
  unfold _update_topology_info, update_topology_entry.
  calm_steps. apply try_upsert_calm.
Qed.

Lemma settle_calm (t : task) (results : list NodeInfo.t) :
  respects calm (settle env t results).
Proof.
  unfold settle.
  calm_steps; first [apply try_upsert_calm | apply set_stat_calm].
Qed.

Lemma settle_all_calm (tasks : list task) :
  forall results, respects calm (settle_all env tasks results).
Proof.
  induction tasks as [|t rest IH]; intro results; cbn.
  - calm_steps.
  - calm_steps; [apply settle_calm | apply IH].
Qed.

Lemma calculate_stats_calm (nodes : list NodeInfo.t) (node_devices : items) :
  respects calm (_calculate_stats nodes node_devices).
Proof.
  unfold _calculate_stats.
  calm_steps; apply set_stat_calm.
Qed.

Lemma build_link_topology_calm : respects calm (_build_link_topology env).
Proof.
  unfold _build_link_topology.
  calm_steps;
    first [ apply on_events_calm, execute_grows
          | apply set_stat_calm
          | apply log_calm ].
Qed.

Lemma generate_data_files_calm : respects calm (_generate_data_files env).
Proof.
  unfold _generate_data_files.
  calm_steps;
    first [ apply set_stat_calm | apply wrote_calm | apply log_calm ].
Qed.


End CycleIsCalm.

(** ** The coordinator: the candidates and their tasks *)

Section CandidateFacts.
Import PyVal PyNum Eff World Topology Coordinator.
Local Open Scope string_scope.

Lemma set_item_values (Q : pyval -> Prop) (d : items) (k v : pyval) :
  List.Forall (fun kv => Q (snd kv)) d -> Q v ->
  List.Forall (fun kv => Q (snd kv)) (set_item d k v).
Proof.
  intros Hd Hv. induction d as [|[k' v'] rest IH]; cbn.
  - constructor; [exact Hv | constructor].
  - inversion Hd as [|? ? Hh Ht]; subst.
    destruct (key_eqb k' k); constructor; auto.
Qed.

Lemma add_node_hops (links node : pyval) (acc acc' : items * Z)
      (d d' : Daemon.t) :
  add_node links node acc d = (Ok acc', d') ->
  hops_known (fst acc) -> hops_known (fst acc').
Proof.
  unfold add_node, hops_known.
  destruct node as [| | | | | |n]; try (cbn; intros [= <- _]; auto).
  destruct (truthy (get n "ip")); [|cbn; intros [= <- _]; auto].
  unfold mbind, lift, ret, modify.
  destruct (truthy (get n "is_localnode")); cbn;
    destruct (py_get_key links (get n "ip") (VDict [])); cbn;
    try discriminate;
    intros [= <- _] H; cbn;
    (apply (set_item_values
              (fun v => exists h, py_index v "hopsAway" = Ok h
                                  /\ is_not_none h = true));
     [exact H|]);
    exists (VInt 1); split; reflexivity.
Qed.

Lemma add_nodes_hops (links : pyval) (entries : list pyval) :
  forall (acc acc' : items * Z) (d d' : Daemon.t),
  add_nodes links entries acc d = (Ok acc', d') ->
  hops_known (fst acc) -> hops_known (fst acc').
Proof.
  induction entries as [|node rest IH]; intros acc acc' d d'; cbn.
  - unfold ret. intros [= <- _]. auto.
  - unfold mbind at 1.
    destruct (add_node links node acc d) as [[acc1|e] d1] eqn:H1;
      [|discriminate].
    intros H Hacc. eapply IH; [exact H|].
    eapply add_node_hops; eassumption.
Qed.

(** Every candidate [_build_node_list] returns has a known hop count. *)
Lemma build_node_list_hops (topology : pyval) (d d' : Daemon.t)
      (node_devices : items) :
  _build_node_list topology d = (Ok node_devices, d') ->
  hops_known node_devices.
Proof.
  unfold _build_node_list, mbind, lift, modify, ret.
  destruct (if truthy topology then py_get topology "nodes" (VList [])
            else Ok (VList [])); [|discriminate].
  destruct (if truthy topology then py_get topology "links" (VDict [])
            else Ok (VDict [])); [|discriminate].
  destruct (iterate _); [|discriminate].
  destruct (add_nodes _ _ _ _) as [[acc|e] d1] eqn:H; [|discriminate].
  intros [= <- _].
  eapply add_nodes_hops; [exact H|]. constructor.
Qed.

(** With every hop count known, a task is created for each candidate,
    and the task of index [i] starts [inter_poll_delay * (idx + i)] late
    when the cycle is rate limited. *)
Lemma create_tasks_known (entries : items) :
  forall (idx : Z) (inter_poll_delay : Q) (rate_limited : bool),
  hops_known entries ->
  exists tasks,
    create_tasks entries idx inter_poll_delay rate_limited = Ok tasks
    /\ List.length tasks = List.length entries
    /\ forall i t,
         List.nth_error tasks i = Some t ->
         task_delay t
         = if rate_limited
           then (inter_poll_delay * inject_Z (idx + Z.of_nat i))%Q
           else 0%Q.
Proof.
  induction entries as [|[ip info] rest IH];
    intros idx delay rl Hk.
  - exists []. repeat split. intros [|i] t; discriminate.
  - inversion Hk as [|? ? (h & Hh & Hn) Hrest]; subst. cbn in Hh.
    destruct (IH (idx + 1)%Z delay rl Hrest) as (tasks & Ht & Hlen & Hd).
    eexists. cbn [create_tasks]. unfold bind.
    rewrite Hh, Hn, Ht. split; [reflexivity|]. split.
    + cbn. now rewrite Hlen.
    + intros [|i] t; cbn.
      * intros [= <-]. cbn. now rewrite Z.add_0_r.
      * intro Hnth. rewrite (Hd _ _ Hnth).
        replace (idx + 1 + Z.of_nat i)%Z with (idx + Z.pos (Pos.of_succ_nat i))%Z
          by lia.
        reflexivity.
Qed.

End CandidateFacts.

(** ** The coordinator: the fan-out of a cycle *)

Section FanOutFacts.
Import PyVal PyNum Eff World Topology Coordinator.
Local Open Scope string_scope.

Variable node_data_t : Type.
Variable env : environment node_data_t.











End FanOutFacts.

Section EveryCycle.
Import PyVal PyNum Eff World Topology Coordinator.
Local Open Scope string_scope.

Variable node_data_t : Type.



End EveryCycle.

Section EveryCycleExamples.
Import PyVal PyNum Eff World Topology Coordinator.


(** The first cycle of the same daemon fans out with a budget of 600 and
    no delays. *)
Lemma first_cycle_fan_out :
  List.map (fun f => (fst f, List.map task_delay (snd f)))
           (fan_out Scenario.three_nodes (boot Example.settings))
  = [(600%Z, [0%Q; 0%Q; 0%Q])].
Proof. vm_compute. reflexivity. Qed.

End EveryCycleExamples.

(** ** The coordinator: the statistics row *)

Section SavingFacts.
Import PyVal PyNum Eff World Topology Coordinator.
Local Open Scope string_scope.

Variable node_data_t : Type.
Variable env : environment node_data_t.

Lemma extends_refl (s : state) : extends s s.
Proof. exists []. now rewrite app_nil_r. Qed.

Lemma extends_trans (a b c : state) : extends a b -> extends b c -> extends a c.
Proof.
  intros (m1 & H1) (m2 & H2). exists (m1 ++ m2)%list.
  now rewrite H2, H1, app_assoc.
Qed.

Lemma calm_extends (s s' : state) : calm s s' -> extends s s'.
Proof. intros [_ (more & H & _)]. now exists more. Qed.

Lemma respects_calm_extends (A : Type) (c : M state A) :
  respects calm c -> respects extends c.
Proof. intros H s. apply calm_extends, H. Qed.

Lemma on_self_extends (A : Type) (c : M Daemon.t A) :
  respects extends (on_self c).
Proof.
  intro s. unfold on_self. destruct (c (self s)).
  exists []. cbn. now rewrite app_nil_r.
Qed.

Lemma emit_extends (e : event) : respects extends (emit e).
Proof. intro s. now exists [e]. Qed.

Lemma poll_all_nodes_extends (node_devices : items) :
  respects extends (_poll_all_nodes env node_devices).
Proof.
  unfold _poll_all_nodes.
  repeat respects_step extends_refl extends_trans.
  - apply emit_extends.
  - apply respects_calm_extends, settle_all_calm.
Qed.

Lemma extends_then_saves_last (s s1 s2 : state) :
  extends s s1 -> saves_last s1 s2 -> saves_last s s2.
Proof.
  intros (m1 & H1) (earlier & H2). exists (m1 ++ earlier)%list.
  now rewrite H2, H1, <- !app_assoc.
Qed.

Lemma ends_saving_bind (A : Type) (c : M state A) (k : A -> M state unit) :
  respects extends c -> (forall a, ends_saving (k a)) ->
  ends_saving (mbind c k).
Proof.
  intros Hc Hk s. unfold mbind.
  specialize (Hc s). destruct (c s) as [[a|e] s1]; cbn in *.
  - intro H. eapply extends_then_saves_last; [exact Hc|]. now apply Hk.
  - discriminate.
Qed.

Lemma save_ends_saving :
  ends_saving
    (do d <- read self ;
     on_events (Persistence.save_polling_stats
                  (accepts env) (Daemon.stats d))).
Proof.
  intro s. unfold mbind, read, on_events, Persistence.save_polling_stats,
    Persistence.execute, mbind, modify, lift.
  cbn. intros _. now exists [].
Qed.

Lemma poll_known_topology_ends_saving (topology : pyval) :
  ends_saving (poll_known_topology env topology).
Proof.
  unfold poll_known_topology.
  apply ends_saving_bind; [apply on_self_extends|]. intro node_devices.
  apply ends_saving_bind;
    [apply respects_calm_extends, set_stat_calm|]. intros _.
  apply ends_saving_bind;
    [apply respects_calm_extends, update_topology_info_calm|]. intros _.
  apply ends_saving_bind;
    [apply respects_read, extends_refl|]. intro d.
  apply ends_saving_bind; [apply on_self_extends|]. intros _.
  apply ends_saving_bind; [apply poll_all_nodes_extends|]. intro polled.
  apply ends_saving_bind;
    [apply respects_calm_extends, calculate_stats_calm|]. intros _.
  apply ends_saving_bind;
    [apply respects_calm_extends, build_link_topology_calm|]. intros _.
  apply ends_saving_bind;
    [apply respects_calm_extends, set_stat_calm|]. intros _.
  apply ends_saving_bind;
    [apply respects_calm_extends, generate_data_files_calm|]. intros _.
  apply save_ends_saving.
Qed.

(** The columns of the statistics row, whatever the statistics. *)
Lemma stats_statement_columns (stats : Stats.t) :
  let st := Persistence.stats_statement stats in
  Persistence.inserted_value st "id" = Some (Literal "POLLINFO")
  /\ Persistence.updated_value st "id" = None
  /\ List.Forall
       (fun ck => Persistence.inserted_value st (fst ck)
                  = Some (Param (stats (snd ck)))
                  /\ Persistence.updated_value st (fst ck)
                     = Some (Param (stats (snd ck))))
       persisted_aggregates
  /\ List.Forall
       (fun c => Persistence.inserted_value st c = None
                 /\ Persistence.updated_value st c = None)
       unpersisted_aggregates.
Proof.
  cbv zeta. split; [reflexivity|]. split; [reflexivity|].
  split; repeat constructor.
Qed.

(** C2 (amended): a cycle that retrieves a topology and returns ends by
    handing the store one upsert on the statistics table, after every
    other event of the cycle, the writing of the artifacts included; the
    row is inserted under the literal identifier [POLLINFO] and carries
    nine aggregates as they stand in memory at that moment: the
    configured concurrency, the candidate count, the count failed, the
    highest hop count, the count polled, the count without location, the
    mappable nodes, the mappable links and the duration.  The protocol
    counts and the extreme response times are no columns of the row. *)
Theorem poll_cycle_saves_stats_last (s : state) (topology : pyval) :
  topology_of env s = Ok topology ->
  truthy topology = true ->
  fst (_poll_cycle env s) = Ok tt ->
  let s' := snd (_poll_cycle env s) in
  let st := Persistence.stats_statement (Daemon.stats (self s')) in
  (exists earlier, events s' = (events s ++ earlier ++ [Executed st])%list)
  /\ Persistence.inserted_value st "id" = Some (Literal "POLLINFO")
  /\ List.Forall
       (fun ck => Persistence.inserted_value st (fst ck)
                  = Some (Param (Daemon.stats (self s') (snd ck)))
                  /\ Persistence.updated_value st (fst ck)
                     = Some (Param (Daemon.stats (self s') (snd ck))))
       persisted_aggregates
  /\ List.Forall
       (fun c => Persistence.inserted_value st c = None
                 /\ Persistence.updated_value st c = None)
       unpersisted_aggregates.
Proof.
  intros Htopo Htruthy Hok s' st.
  pose proof (stats_statement_columns (Daemon.stats (self s')))
    as (Hid & _ & Hp & Hu).
  split; [|split; [exact Hid | split; [exact Hp | exact Hu]]].
  unfold topology_of in Htopo.
  set (s0 := {| self := Daemon.with_cycle_count
                          (Daemon.cycle_count (self s) + 1)%Z (self s);
                events := events s |}).
  destruct (_fetch_topology (nodes_payload env) (lqm_payload env)
              (link_info_payload env) (self s0)) as [r d1] eqn:Hf.
  cbn [self s0] in Hf. rewrite Hf in Htopo. cbn in Htopo. subst r.
  set (s1 := {| self := d1; events := events s |}).
  assert (Hrun : _poll_cycle env s = poll_known_topology env topology s1).
  { unfold _poll_cycle. unfold mbind at 1 2 3, read, on_self, modify.
    cbn [fst snd self events]. rewrite Hf. cbn [fst snd self events].
    rewrite Htruthy. reflexivity. }
  unfold st, s'. rewrite Hrun in Hok |- *.
  destruct (@poll_known_topology_ends_saving topology s1 Hok)
    as (earlier & He).
  exists earlier. exact He.
Qed.

End SavingFacts.

Section SavingExamples.
Import PyVal PyNum Eff World Topology Coordinator.
Local Open Scope string_scope.

(** C2, as the specification words it, fails twice.  The row built from
    statistics with seven babel nodes is the row built from statistics
    with none, so the row carries no protocol count (nor a response
    time); and a cycle whose topology fetch fails hands the store
    nothing at all. *)
Lemma stats_row_omits_protocol_counts :
  let none := Stats.initial 60 in
  let seven :=
    Stats.set Stats.babelNodes (VInt 7)
      (Stats.set Stats.maxResponseTimeMs (VFloat 99) none) in
  (seven Stats.babelNodes = VInt 7 /\ none Stats.babelNodes = VInt 0)
  /\ Persistence.stats_statement seven = Persistence.stats_statement none
  /\ executed (events (snd (_poll_cycle Scenario.offline
                                        (boot Example.settings)))) = [].
Proof. cbv zeta. repeat split. Qed.

Lemma poll_cycle_saves_stats_last_witness :
  let s' := snd (_poll_cycle Scenario.online (boot Example.settings)) in
  List.last (events s') (Wrote "")
  = Executed (Persistence.stats_statement (Daemon.stats (self s')))
  /\ Daemon.stats (self s') Stats.babelNodes = VInt 1
  /\ Persistence.inserted_value
       (Persistence.stats_statement (Daemon.stats (self s'))) "id"
     = Some (Literal "POLLINFO").
Proof.
  cbv zeta.
  assert (Htopo : exists topology,
            topology_of Scenario.online (boot Example.settings) = Ok topology
            /\ truthy topology = true).
  { eexists. split; vm_compute; reflexivity. }
  destruct Htopo as (topology & Htopo & Htruthy).
  assert (Hok : fst (_poll_cycle Scenario.online (boot Example.settings))
                = Ok tt) by (vm_compute; reflexivity).
  pose proof (poll_cycle_saves_stats_last Scenario.online
                (boot Example.settings) Htopo Htruthy Hok) as H.
  cbv zeta in H. destruct H as ((earlier & Hev) & Hid & _).
  split; [|split; [vm_compute; reflexivity | exact Hid]].
  rewrite Hev. cbn [events boot app].
  now rewrite last_last.
Defined.

End SavingExamples.

(* ------------------------------------------------------------------ *)
(** * Facts about the real-number primitives of the geodesic helper *)

Section GeoPrimitives.
Import PyVal Geo.
Local Open Scope R_scope.

Lemma int_part_bounds (r : R) : IZR (Int_part r) <= r < IZR (Int_part r) + 1.
Proof.
destruct (base_Int_part r) as [H1 H2]. split; Lra.lra.
Qed.

Lemma int_part_of_Z (n : Z) (r : R) :
  IZR n <= r < IZR n + 1 -> Int_part r = n.
Proof.
intros [H1 H2]. symmetry. apply Int_part_spec. split; Lra.lra.
Qed.

(** Python's floored remainder lands in [[0, m)]. *)
Lemma py_mod_range (x m : R) : 0 < m -> 0 <= py_mod x m < m.
Proof.
intros Hm. unfold py_mod.
destruct (int_part_bounds (x / m)) as [H1 H2].
assert (Hx : x = x / m * m) by (field; Lra.lra).
set (q := x / m) in *. set (f := IZR (Int_part q)) in *.
rewrite Hx. split; Lra.nra.
Qed.

Lemma py_mod_small (x m : R) : 0 <= x < m -> py_mod x m = x.
Proof.
intros [H0 Hm]. unfold py_mod.
assert (Hq : Int_part (x / m) = 0%Z).
{ apply int_part_of_Z. simpl.
  assert (0 < / m) by (apply Rinv_0_lt_compat; Lra.lra).
  assert (x / m < 1).
  { apply (Rmult_lt_reg_r m); [Lra.lra|]. unfold Rdiv.
    rewrite Rmult_assoc, Rinv_l by Lra.lra. Lra.lra. }
  assert (0 <= x / m) by (unfold Rdiv; apply Rmult_le_pos; Lra.lra).
  split; Lra.lra. }
rewrite Hq. simpl. ring.
Qed.

Lemma py_mod_self (m : R) : 0 < m -> py_mod m m = 0.
Proof.
intros Hm. unfold py_mod.
assert (Hq : Int_part (m / m) = 1%Z).
{ apply int_part_of_Z. unfold Rdiv. rewrite Rinv_r by Lra.lra. simpl. split; Lra.lra. }
rewrite Hq. simpl. ring.
Qed.

(** The rounded integer is one of the two neighbours. *)
Lemma round_half_even_cases (r : R) :
  round_half_even r = Int_part r \/ round_half_even r = (Int_part r + 1)%Z.
Proof.
unfold round_half_even.
destruct (Rlt_dec _ _); [now left|].
destruct (Rlt_dec _ _); [now right|].
destruct (Z.even _); [now left | now right].
Qed.

Lemma round_half_even_le (r : R) (n : Z) :
  r <= IZR n -> (round_half_even r <= n)%Z.
Proof.
intros Hr. destruct (int_part_bounds r) as [H1 H2].
assert (Hf : (Int_part r <= n)%Z) by (apply le_IZR; Lra.lra).
unfold round_half_even.
destruct (Rlt_dec _ _) as [Hd | Hd]; [exact Hf|].
assert (Hlt : (Int_part r < n)%Z).
{ apply lt_IZR. Lra.lra. }
destruct (Rlt_dec _ _); [lia|]. destruct (Z.even _); lia.
Qed.

Lemma round_half_even_ge (r : R) (n : Z) :
  IZR n <= r -> (n <= round_half_even r)%Z.
Proof.
intros Hr. destruct (int_part_bounds r) as [H1 H2].
assert (Hf : (n < Int_part r + 1)%Z).
{ apply lt_IZR. rewrite plus_IZR. simpl. Lra.lra. }
destruct (round_half_even_cases r) as [-> | ->]; lia.
Qed.

(** Above the midpoint the rounding goes up. *)
Lemma round_half_even_up (r : R) (n : Z) :
  IZR n - 1 / 2 < r < IZR n -> round_half_even r = n.
Proof.
intros [H1 H2].
assert (Hf : Int_part r = (n - 1)%Z).
{ apply int_part_of_Z. rewrite minus_IZR. simpl. split; Lra.lra. }
unfold round_half_even. rewrite Hf, minus_IZR. simpl.
destruct (Rlt_dec _ _) as [Hd | Hd]; [Lra.lra|].
destruct (Rlt_dec _ _) as [He | He]; [lia | Lra.lra].
Qed.

Lemma ten_pow_pos (n : nat) : 0 < 10 ^ n.
Proof. apply pow_lt. Lra.lra. Qed.

Lemma py_round_nonneg (x : R) (n : nat) : 0 <= x -> 0 <= py_round x n.
Proof.
intros Hx. unfold py_round. pose proof (ten_pow_pos n) as Hp.
apply Rmult_le_pos; [|left; now apply Rinv_0_lt_compat].
apply IZR_le. apply round_half_even_ge. simpl.
apply Rmult_le_pos; Lra.lra.
Qed.

Lemma py_round_le (x : R) (n : nat) (k : Z) :
  x <= IZR k -> py_round x n <= IZR k.
Proof.
intros Hx. unfold py_round. pose proof (ten_pow_pos n) as Hp.
apply (Rmult_le_reg_r (10 ^ n)); [exact Hp|].
unfold Rdiv. rewrite Rmult_assoc, Rinv_l, Rmult_1_r by Lra.lra.
assert (H10 : 10 ^ n = IZR (10 ^ Z.of_nat n)).
{ rewrite <- pow_IZR. reflexivity. }
rewrite H10, <- mult_IZR. apply IZR_le, round_half_even_le.
rewrite mult_IZR, <- H10. apply Rmult_le_compat_r; Lra.lra.
Qed.

Lemma py_round_zero (n : nat) : py_round 0 n = 0.
Proof.
unfold py_round. rewrite Rmult_0_l.
assert (H : round_half_even 0 = 0%Z).
{ apply Z.le_antisymm; [apply round_half_even_le | apply round_half_even_ge];
  simpl; Lra.lra. }
rewrite H. simpl. unfold Rdiv. apply Rmult_0_l.
Qed.

(** [atan2] of a point of the closed first quadrant is not negative. *)
Lemma atan2_nonneg (y x : R) : 0 <= y -> 0 <= x -> 0 <= atan2 y x.
Proof.
intros Hy Hx. unfold atan2.
destruct (Rlt_dec 0 x) as [Hpos | Hnpos].
- destruct Hy as [Hy | <-].
  + left. rewrite <- atan_0. apply atan_increasing.
    unfold Rdiv. apply Rmult_lt_0_compat; [exact Hy|now apply Rinv_0_lt_compat].
  + unfold Rdiv. rewrite Rmult_0_l, atan_0. Lra.lra.
- destruct (Rlt_dec x 0); [Lra.lra|].
  destruct (Rlt_dec 0 y); [pose proof PI2_RGT_0; Lra.lra|].
  destruct (Rlt_dec y 0); Lra.lra.
Qed.

End GeoPrimitives.

(* ------------------------------------------------------------------ *)
(** * The geodesic helper returns, and what it returns *)

Section GeoFacts.
Import PyVal Geo.
Local Open Scope R_scope.

Lemma sin_cos_square (x : R) : sin x ^ 2 + cos x ^ 2 = 1.
Proof.
pose proof (sin2_cos2 x) as H. unfold Rsqr in H. simpl. Lra.lra.
Qed.

Lemma half_angle (x : R) : sin (x / 2) ^ 2 = (1 - cos x) / 2.
Proof.
pose proof (cos_2a_sin (x / 2)) as H.
replace (2 * (x / 2)) with x in H by field. simpl. Lra.lra.
Qed.

(** The haversine term is the haversine of the central angle: it lies in
    [[0, 1]], so neither square root of the source raises. *)
Lemma haversine_range (lat1 lon1 lat2 lon2 : R) :
  0 <= haversine lat1 lon1 lat2 lon2 <= 1.
Proof.
unfold haversine, radians.
replace ((lat2 - lat1) * (PI / 180))
  with (lat2 * (PI / 180) - lat1 * (PI / 180)) by ring.
rewrite half_angle, cos_minus.
set (p1 := lat1 * (PI / 180)). set (p2 := lat2 * (PI / 180)).
set (dl := (lon2 - lon1) * (PI / 180) / 2).
pose proof (sin_cos_square p1) as H1. pose proof (sin_cos_square p2) as H2.
pose proof (sin_cos_square dl) as H3.
pose proof (pow2_ge_0 (cos dl)) as H4. pose proof (pow2_ge_0 (sin dl)) as H5.
set (h := sin dl ^ 2) in *.
assert (Hh : 0 <= h <= 1) by Lra.lra.
clearbody h. clear H3 H4 H5.
set (c1 := cos p1) in *. set (s1 := sin p1) in *.
set (c2 := cos p2) in *. set (s2 := sin p2) in *.
clearbody c1 s1 c2 s2.
pose proof (pow2_ge_0 (s1 - s2)) as A1. pose proof (pow2_ge_0 (s1 + s2)) as A2.
pose proof (pow2_ge_0 (c1 - c2)) as A3. pose proof (pow2_ge_0 (c1 + c2)) as A4.
assert (B1 : 0 <= h * (c1 + c2) ^ 2) by (apply Rmult_le_pos; Lra.lra).
assert (B2 : 0 <= (1 - h) * (c1 - c2) ^ 2) by (apply Rmult_le_pos; Lra.lra).
assert (B3 : 0 <= h * (c1 - c2) ^ 2) by (apply Rmult_le_pos; Lra.lra).
assert (B4 : 0 <= (1 - h) * (c1 + c2) ^ 2) by (apply Rmult_le_pos; Lra.lra).
simpl in *. split; Lra.nra.
Qed.

Lemma py_sqrt_ok (x : R) : 0 <= x -> py_sqrt x = Ok (sqrt x).
Proof.
intros Hx. unfold py_sqrt. destruct (Rlt_dec x 0); [Lra.lra | reflexivity].
Qed.

(** The bearing before the final rounding lies in [[0, 360)]. *)
Lemma raw_bearing_range (lat1 lon1 lat2 lon2 : R) :
  0 <= raw_bearing lat1 lon1 lat2 lon2 < 360.
Proof.
unfold raw_bearing. apply py_mod_range. Lra.lra.
Qed.

(** Over the reals both square roots are defined, and the result has
    non-negative distances and a rounded bearing in [[0, 360]]. *)
Lemma calculate_distance_bearing_run (lat1 lon1 lat2 lon2 : R) :
  exists d, _calculate_distance_bearing lat1 lon1 lat2 lon2 = Ok d
    /\ 0 <= distanceKM d /\ 0 <= distanceMiles d
    /\ 0 <= bearing d <= 360.
Proof.
unfold _calculate_distance_bearing.
destruct (haversine_range lat1 lon1 lat2 lon2) as [Ha0 Ha1].
rewrite (py_sqrt_ok Ha0). cbn [bind].
rewrite py_sqrt_ok by Lra.lra. cbn [bind].
eexists. split; [reflexivity|]. cbn [distanceKM distanceMiles bearing].
set (a := haversine lat1 lon1 lat2 lon2) in *.
assert (Hc : 0 <= 2 * atan2 (sqrt a) (sqrt (1 - a))).
{ pose proof (atan2_nonneg (sqrt_pos a) (sqrt_pos (1 - a))). Lra.lra. }
destruct (raw_bearing_range lat1 lon1 lat2 lon2) as [Hb0 Hb1].
repeat split.
- apply py_round_nonneg. Lra.lra.
- apply py_round_nonneg. Lra.nra.
- now apply py_round_nonneg.
- apply (py_round_le 1 360). Lra.lra.
Qed.

Lemma atan2_origin : atan2 0 0 = 0.
Proof.
unfold atan2. destruct (Rlt_dec 0 0); [Lra.lra|]. reflexivity.
Qed.

Lemma atan2_east : atan2 0 1 = 0.
Proof.
unfold atan2. destruct (Rlt_dec 0 1); [|Lra.lra].
unfold Rdiv. rewrite Rmult_0_l. apply atan_0.
Qed.



(** X2: identical endpoints: distance zero and bearing zero. *)
Theorem calculate_distance_bearing_same_point (lat lon : R) :
  _calculate_distance_bearing lat lon lat lon
  = Ok {| distanceKM := 0; distanceMiles := 0; bearing := 0 |}.
Proof.
assert (Ha : haversine lat lon lat lon = 0).
{ unfold haversine, radians.
  replace ((lat - lat) * (PI / 180) / 2) with 0 by field.
  replace ((lon - lon) * (PI / 180) / 2) with 0 by field.
  rewrite sin_0. simpl. ring. }
assert (Hb : raw_bearing lat lon lat lon = 0).
{ unfold raw_bearing, radians.
  replace ((lon - lon) * (PI / 180)) with 0 by field.
  rewrite sin_0, cos_0.
  replace (0 * cos (lat * (PI / 180))) with 0 by ring.
  replace (cos (lat * (PI / 180)) * sin (lat * (PI / 180))
           - sin (lat * (PI / 180)) * cos (lat * (PI / 180)) * 1) with 0 by ring.
  rewrite atan2_origin. unfold degrees.
  replace (0 * (180 / PI) + 360) with 360 by ring.
  apply py_mod_self. Lra.lra. }
unfold _calculate_distance_bearing. rewrite Ha, Hb.
rewrite py_sqrt_ok by Lra.lra. cbn [bind].
rewrite py_sqrt_ok by Lra.lra. cbn [bind].
replace (1 - 0) with 1 by ring. rewrite sqrt_0, sqrt_1, atan2_east.
replace (6371 * (2 * 0)) with 0 by ring.
replace (0 * (621371 / 1000000)) with 0 by (unfold Rdiv; ring).
now rewrite !py_round_zero.
Qed.

End GeoFacts.

(* ------------------------------------------------------------------ *)
(** * A bearing that rounds up to 360 *)

Section GeoRounding.
Import PyVal Geo.
Local Open Scope R_scope.

Lemma sin_lower (u : R) : 0 <= u <= 1 -> u * (5 / 6) <= sin u.
Proof.
intros [H0 H1]. pose proof PI2_1 as HPI.
assert (HuPI : u <= PI) by Lra.lra.
destruct (sin_bound u 0 H0 HuPI) as [Hlow _].
assert (Happ : sin_approx u (2 * 0 + 1) = u - u * u * u / 6).
{ unfold sin_approx, sin_term. simpl. field. }
rewrite Happ in Hlow.
assert (u * u <= 1) by Lra.nra.
assert (u * u * u <= u) by Lra.nra.
Lra.lra.
Qed.

Lemma tan_lower (u : R) : 0 < u <= 1 -> u * (5 / 6) <= tan u.
Proof.
intros [H0 H1]. pose proof PI2_1 as HPI.
assert (Hs : u * (5 / 6) <= sin u) by (apply sin_lower; Lra.lra).
assert (Hc : 0 < cos u) by (apply cos_gt_0; Lra.lra).
destruct (COS_bound u) as [_ Hc1].
apply Rle_trans with (sin u); [exact Hs|].
unfold tan. apply (Rmult_le_reg_r (cos u)); [exact Hc|].
unfold Rdiv. rewrite Rmult_assoc, Rinv_l, Rmult_1_r by Lra.lra.
Lra.nra.
Qed.

(** The arctangent of the sine of a hundredth of a degree is below a
    twentieth of a degree. *)
Lemma atan_sin_hundredth :
  0 < atan (sin (PI / 18000)) < PI / 3600.
Proof.
pose proof PI_RGT_0 as Hpos. pose proof PI_4 as H4. pose proof PI2_1 as H2.
assert (He : 0 < PI / 18000 <= 1) by (split; Lra.lra).
assert (Hs0 : 0 < sin (PI / 18000)).
{ pose proof (@sin_lower (PI / 18000)) as Hl. Lra.lra. }
assert (Hs1 : sin (PI / 18000) < PI / 18000) by (apply sin_lt_x; Lra.lra).
split.
- rewrite <- atan_0. now apply atan_increasing.
- rewrite <- (atan_tan (PI / 3600)) by (split; Lra.lra).
  apply atan_increasing.
  pose proof (@tan_lower (PI / 3600)) as Ht. Lra.lra.
Qed.

(** In degrees: a positive angle below a twentieth of a degree. *)
Lemma degrees_atan_sin_hundredth :
  0 < degrees (atan (sin (PI / 18000))) < 1 / 20.
Proof.
pose proof PI_RGT_0 as Hpos.
destruct atan_sin_hundredth as [Ht0 Ht1]. unfold degrees.
set (t := atan (sin (PI / 18000))) in *. split.
- apply Rmult_lt_0_compat; [exact Ht0|].
  unfold Rdiv. apply Rmult_lt_0_compat; [Lra.lra | now apply Rinv_0_lt_compat].
- apply (Rmult_lt_reg_r (PI / 180)); [Lra.lra|].
  replace (t * (180 / PI) * (PI / 180)) with t by (field; Lra.lra).
  Lra.lra.
Qed.

(** From the equator at longitude 0 towards latitude 45 a hundredth of a
    degree to the west: the bearing before rounding is 360 less that
    small angle. *)
Lemma raw_bearing_just_west_of_north :
  raw_bearing 0 0 45 (- (1 / 100))
  = 360 - degrees (atan (sin (PI / 18000))).
Proof.
destruct degrees_atan_sin_hundredth as [Hd0 Hd].
unfold raw_bearing, radians.
replace (0 * (PI / 180)) with 0 by ring.
replace (45 * (PI / 180)) with (PI / 4) by field.
replace ((- (1 / 100) - 0) * (PI / 180)) with (- (PI / 18000)) by field.
rewrite sin_0, cos_0, sin_neg, sin_PI4, cos_PI4.
assert (Hr : 0 < 1 / sqrt 2).
{ unfold Rdiv. rewrite Rmult_1_l. apply Rinv_0_lt_compat, sqrt_lt_R0. Lra.lra. }
set (r := 1 / sqrt 2) in *.
replace (1 * r - 0 * r * cos (- (PI / 18000))) with r by ring.
unfold atan2. destruct (Rlt_dec 0 r); [|Lra.lra].
replace (- sin (PI / 18000) * r / r) with (- sin (PI / 18000))
  by (field; Lra.lra).
rewrite atan_opp.
assert (Hneg : degrees (- atan (sin (PI / 18000)))
               = - degrees (atan (sin (PI / 18000)))) by (unfold degrees; ring).
rewrite Hneg. rewrite py_mod_small by Lra.lra. ring.
Qed.

(** Due east along the equator the bearing is 90. *)
Lemma raw_bearing_due_east : raw_bearing 0 0 0 1 = 90.
Proof.
pose proof PI_RGT_0 as Hpos. pose proof PI_4 as H4.
unfold raw_bearing, radians.
replace (0 * (PI / 180)) with 0 by ring.
replace ((1 - 0) * (PI / 180)) with (PI / 180) by field.
rewrite sin_0, cos_0.
assert (Hs : 0 < sin (PI / 180)).
{ pose proof (@sin_lower (PI / 180)) as Hl. Lra.lra. }
replace (1 * 0 - 0 * 1 * cos (PI / 180)) with 0 by ring.
rewrite Rmult_1_r. unfold atan2.
destruct (Rlt_dec 0 0); [Lra.lra|].
destruct (Rlt_dec 0 (sin (PI / 180))); [|Lra.lra].
unfold degrees.
replace (PI / 2 * (180 / PI) + 360) with 450 by (field; Lra.lra).
unfold py_mod.
rewrite (@int_part_of_Z 1) by (simpl; split; Lra.lra).
simpl. ring.
Qed.

(** C8, at the endpoints (0, 0) and (45, -0.01): the helper returns a
    bearing of exactly 360.  The remainder by 360 leaves 359.99 and a
    little, and [round(bearing, 1)], applied after it, rounds that up to
    360.0, outside the half-open range [[0, 360)] the remainder was
    taken for. *)
Theorem calculate_distance_bearing_rounds_to_360 :
  exists d, _calculate_distance_bearing 0 0 45 (- (1 / 100)) = Ok d
    /\ bearing d = 360.
Proof.
unfold _calculate_distance_bearing.
destruct (haversine_range 0 0 45 (- (1 / 100))) as [Ha0 Ha1].
rewrite (py_sqrt_ok Ha0). cbn [bind].
rewrite py_sqrt_ok by Lra.lra. cbn [bind].
eexists. split; [reflexivity|]. cbn [bearing].
rewrite raw_bearing_just_west_of_north.
destruct degrees_atan_sin_hundredth as [Hd0 Hd].
unfold py_round.
rewrite (@round_half_even_up _ 3600) by (simpl; split; Lra.lra).
simpl. field.
Qed.

End GeoRounding.

(* ------------------------------------------------------------------ *)
(** * The band table *)

Section BandFacts.
Import PyVal Band BandSpec.
Local Open Scope string_scope.

(** [str] is one to one. *)
Lemma str_injective (n m : Z) : PyInt.str n = PyInt.str m -> n = m.
Proof.
unfold PyInt.str. intro H.
assert (Hnil : forall z, Z.to_int z <> Decimal.Pos Decimal.Nil
                         /\ Z.to_int z <> Decimal.Neg Decimal.Nil).
{ intros [|p|p]; cbn; split; try discriminate;
    intros [= Hp]; now apply (DecimalPos.Unsigned.to_uint_nonnil p). }
apply DecimalZ.to_int_inj.
assert (Hn : NilZero.int_of_string (NilZero.string_of_int (Z.to_int n))
             = NilZero.int_of_string (NilZero.string_of_int (Z.to_int m)))
  by now rewrite H.
rewrite !NilZero.isi in Hn by apply Hnil.
now injection Hn.
Qed.

Lemma str_eqb (n m : Z) : String.eqb (PyInt.str n) (PyInt.str m) = Z.eqb n m.
Proof.
destruct (Z.eqb_spec n m) as [-> | Hne].
- apply String.eqb_refl.
- apply String.eqb_neq. intro H. apply Hne. now apply str_injective.
Qed.

(** Membership of the text of [n] in a table of number texts. *)
Lemma in_number_table (n : Z) (nums : list Z) :
  in_strs (VStr (PyInt.str n)) (List.map PyInt.str nums)
  = existsb (Z.eqb n) nums.
Proof.
unfold in_strs. induction nums as [|m rest IH]; [reflexivity|].
cbn [List.map existsb eq_str]. now rewrite str_eqb, IH.
Qed.

(** The numbers whose texts the three channel tables hold. *)
Lemma channel_tables :
  BAND_2GHZ_CHANNELS
  = List.map PyInt.str (List.app [-1; -2]%Z (List.map Z.of_nat (List.seq 1 11)))
  /\ BAND_3GHZ_CHANNELS
     = List.map PyInt.str (List.map Z.of_nat (List.seq 76 24))
  /\ BAND_5GHZ_CHANNELS
     = List.map PyInt.str
         (List.filter is_5ghz (List.map Z.of_nat (List.seq 0 185))).
Proof. repeat split; vm_compute; reflexivity. Qed.

Lemma existsb_range (n : Z) (nums : list Z) (lo hi : Z) :
  forallb (fun k => between lo k hi) nums = true ->
  existsb (Z.eqb n) nums = true -> (lo <= n <= hi)%Z.
Proof.
intros Hall Hex. apply existsb_exists in Hex. destruct Hex as (k & Hin & Hk).
apply Z.eqb_eq in Hk. subst k.
rewrite forallb_forall in Hall. specialize (Hall n Hin).
unfold between in Hall. lia.
Qed.

(** [check_band] on the decimal text of a number, by the ranges of
    the number. *)
Lemma check_band_of_number (n : Z) (board_id : pyval) :
  check_band (VStr (PyInt.str n)) board_id
  = if truthy board_id && in_strs board_id BAND_900_BOARD_IDS
    then "900MHz" else band_of_number n.
Proof.
unfold check_band.
destruct (truthy board_id && in_strs board_id BAND_900_BOARD_IDS);
  [reflexivity|].
destruct channel_tables as (H2 & H3 & H5).
rewrite H2, H3, H5, !in_number_table.
set (t2 := (List.app [-1; -2]%Z (List.map Z.of_nat (List.seq 1 11)))).
set (t3 := List.map Z.of_nat (List.seq 76 24)).
set (t5 := List.filter is_5ghz (List.map Z.of_nat (List.seq 0 185))).
destruct (Z_le_gt_dec (-2) n) as [Hlo | Hlo];
  [destruct (Z_le_gt_dec n 184) as [Hhi | Hhi]|].
- (* every number of the range, one by one *)
  assert (Hall : forallb
            (fun k =>
               String.eqb
                 (if existsb (Z.eqb k) t2 then "2GHz"
                  else if existsb (Z.eqb k) t3 then "3GHz"
                  else if existsb (Z.eqb k) t5 then "5GHz" else "Unknown")
                 (band_of_number k))
            (List.map (fun i => Z.of_nat i - 2)%Z (List.seq 0 187)) = true)
    by (vm_compute; reflexivity).
  rewrite forallb_forall in Hall. apply String.eqb_eq, Hall.
  apply in_map_iff. exists (Z.to_nat (n + 2)). split; [lia|].
  apply in_seq. lia.
- assert (Hout : forall t, forallb (fun k => between (-2) k 184) t = true ->
                           existsb (Z.eqb n) t = false).
  { intros t Ht. destruct (existsb (Z.eqb n) t) eqn:E; [|reflexivity].
    pose proof (@existsb_range n t _ _ Ht E). lia. }
  rewrite !Hout by (vm_compute; reflexivity).
  unfold band_of_number, is_5ghz, between.
  repeat match goal with
         | |- context [(?a <=? ?b)%Z] => destruct (Z.leb_spec a b); try lia
         | |- context [(?a =? ?b)%Z] => destruct (Z.eqb_spec a b); try lia
         end; reflexivity.
- assert (Hout : forall t, forallb (fun k => between (-2) k 184) t = true ->
                           existsb (Z.eqb n) t = false).
  { intros t Ht. destruct (existsb (Z.eqb n) t) eqn:E; [|reflexivity].
    pose proof (@existsb_range n t _ _ Ht E). lia. }
  rewrite !Hout by (vm_compute; reflexivity).
  unfold band_of_number, is_5ghz, between.
  repeat match goal with
         | |- context [(?a <=? ?b)%Z] => destruct (Z.leb_spec a b); try lia
         | |- context [(?a =? ?b)%Z] => destruct (Z.eqb_spec a b); try lia
         end; reflexivity.
Qed.

(** X5: on the decimal text of a channel number, [check_band] follows
    the number: 2 GHz for -2, -1 and 1 to 11 (not for 0), 3 GHz for 76 to
    99, 5 GHz for 37, every fourth channel from 40 to 64 and from 100 to
    128, and 132 to 184; anything else is unknown, unless the board is
    one of the three 900 MHz boards, which decides alone. *)
Theorem check_band_by_number (n : Z) (board_id : pyval) :
  check_band (VStr (PyInt.str n)) board_id
  = if truthy board_id && in_strs board_id BAND_900_BOARD_IDS
    then "900MHz" else band_of_number n.
Proof.
exact (check_band_of_number n board_id).
Qed.

End BandFacts.
(* ------------------------------------------------------------------ *)
(** * Numbers as text *)

Section NumberText.
Import PyStr FirmwareSpec.
Local Open Scope string_scope.

Lemma string_of_uint_digits (d : Decimal.uint) :
  all_digits (NilEmpty.string_of_uint d).
Proof.
unfold all_digits. induction d; cbn [NilEmpty.string_of_uint forallb_chars];
  try reflexivity; rewrite IHd; reflexivity.
Qed.

Lemma string_of_uint_acc (d : Decimal.uint) :
  forall acc : positive,
  dec_acc (NilEmpty.string_of_uint d) (Z.pos acc)
  = Z.pos (Pos.of_uint_acc d acc).
Proof.
induction d; intro acc;
  cbn [NilEmpty.string_of_uint dec_acc Pos.of_uint_acc];
  try reflexivity;
  match goal with
  | |- dec_acc _ ?a = Z.pos (Pos.of_uint_acc _ ?b) =>
      replace a with (Z.pos b) by (vm_compute digit_val; lia)
  end; apply IHd.
Qed.

Lemma string_of_uint_value (d : Decimal.uint) :
  dec_value (NilEmpty.string_of_uint d) = Z.of_N (Pos.of_uint d).
Proof.
unfold dec_value.
induction d; cbn [NilEmpty.string_of_uint dec_acc Pos.of_uint];
  try reflexivity;
  try (exact IHd);
  match goal with
  | |- dec_acc _ ?a = _ =>
      let v := eval vm_compute in a in change a with v
  end; apply string_of_uint_acc.
Qed.

(** The text of a number that is not negative is its digits, and reads
    back as the number. *)
Lemma str_nonneg (n : Z) :
  (0 <= n)%Z ->
  all_digits (PyInt.str n) /\ PyInt.str n <> ""
  /\ dec_value (PyInt.str n) = n.
Proof.
intro Hn. unfold PyInt.str. destruct n as [|p|p]; [| |lia].
- repeat split; discriminate.
- cbn [Z.to_int NilZero.string_of_int].
  pose proof (DecimalPos.Unsigned.to_uint_nonnil p) as Hnil.
  assert (E : NilZero.string_of_uint (Pos.to_uint p)
              = NilEmpty.string_of_uint (Pos.to_uint p)).
  { destruct (Pos.to_uint p); [congruence | reflexivity ..]. }
  rewrite E. split; [apply string_of_uint_digits|]. split.
  + destruct (Pos.to_uint p); [congruence | discriminate ..].
  + rewrite string_of_uint_value, DecimalPos.Unsigned.of_to. reflexivity.
Qed.

Lemma str_negative (n : Z) :
  (n < 0)%Z -> exists r, PyInt.str n = String "-"%char r.
Proof.
intro Hn. unfold PyInt.str. destruct n as [|p|p]; try lia.
cbn. eauto.
Qed.

Lemma str_not_none (n : Z) : String.eqb (PyInt.str n) "none" = false.
Proof.
apply String.eqb_neq. intro H.
destruct (Z.lt_ge_cases n 0) as [Hneg|Hpos].
- destruct (str_negative Hneg) as (r & Hr). rewrite Hr in H. discriminate.
- destruct (str_nonneg Hpos) as (Hd & _ & _).
  rewrite H in Hd. discriminate.
Qed.

End NumberText.

(* ------------------------------------------------------------------ *)
(** * The band of a node and its list in the map artifact *)

Section BandAndBucket.
Import PyVal Band Emitter.
Local Open Scope string_scope.

Lemma in_strs_In (v : pyval) (l : list string) :
  in_strs v l = true -> exists s, v = VStr s /\ List.In s l.
Proof.
unfold in_strs. intro H. apply existsb_exists in H.
destruct H as (s & Hin & Heq). destruct v; try discriminate.
apply String.eqb_eq in Heq. subst. eauto.
Qed.

Lemma not_900_board (board_id : pyval) :
  truthy board_id && in_strs board_id BAND_900_BOARD_IDS = false ->
  in_strs board_id BAND_900_BOARD_IDS = false.
Proof.
destruct (in_strs board_id BAND_900_BOARD_IDS) eqn:E; [|reflexivity].
destruct (in_strs_In _ _ E) as (s & -> & Hin).
cbn in Hin. intuition (subst; discriminate).
Qed.

(** The emitter's chain on a located row that is no supernode, has its
    radio on and a channel text other than [none]. *)
Lemma categorize_by_text (node : items) (c : string) :
  (ne_zero (get_default node "lat" (VInt 0))
   || ne_zero (get_default node "lon" (VInt 0))) = true ->
  eq_str (get_default node "mesh_supernode" (VStr "false")) "true" = false ->
  eq_str (get_default node "meshRF" (VStr "on")) "off" = false ->
  get_default node "channel" (VStr "none") = VStr c ->
  String.eqb c "none" = false ->
  categorize node
  = if in_strs (get_default node "board_id" (VStr ""))
               ["0xe009"; "0xe1b9"; "0xe239"]
    then Ok (Some band_900)
    else if PyStr.isdigit c
         then match PyStr.int_of_str c with
              | Some ch => Ok (by_channel ch)
              | None => Raise ValueError
              end
         else Ok None.
Proof.
intros Hloc Hsuper Hrf Hch Hnone. unfold categorize.
rewrite Hloc, Hsuper, Hrf, Hch. cbn [eq_str orb]. rewrite Hnone.
reflexivity.
Qed.

(** The chain of the emitter on a channel number that is not
    negative is the partition by ranges. *)
Lemma by_channel_ranges (n : Z) :
  (0 <= n)%Z -> by_channel n = BandSpec.list_of_number n.
Proof.
intro Hn. unfold by_channel, BandSpec.list_of_number, BandSpec.between.
repeat match goal with
       | |- context [(?a <=? ?b)%Z] => destruct (Z.leb_spec a b); try lia
       end; reflexivity.
Qed.

Lemma list_of_number_negative (n : Z) :
  (n < 0)%Z -> BandSpec.list_of_number n = None.
Proof.
intro Hn. unfold BandSpec.list_of_number, BandSpec.between.
repeat match goal with
       | |- context [(?a <=? ?b)%Z] => destruct (Z.leb_spec a b); try lia
       end; reflexivity.
Qed.

(** Where the list by ranges is the list named after the band by
    ranges. *)
Lemma lists_part (n : Z) :
  BandSpec.list_of_number n
  = BandSpec.list_of_band (BandSpec.band_of_number n)
  <-> BandSpec.odd_channel n = false.
Proof.
unfold BandSpec.list_of_number, BandSpec.band_of_number, BandSpec.is_5ghz,
  BandSpec.odd_channel, BandSpec.between.
pose proof (Z.mod_pos_bound n 4 ltac:(lia)) as Hr.
pose proof (Z.div_mod n 4 ltac:(lia)) as Hq.
set (r := (n mod 4)%Z) in *. set (q := (n / 4)%Z) in *.
clearbody r q.
repeat match goal with
       | |- context [(?a <=? ?b)%Z] => destruct (Z.leb_spec a b); try lia
       | |- context [(?a =? ?b)%Z] => destruct (Z.eqb_spec a b); try lia
       end;
  first [ exfalso; lia
        | cbn; split; intro; first [reflexivity | discriminate] ].
Qed.

Lemma board_900_truthy (board_id : pyval) :
  truthy board_id && in_strs board_id BAND_900_BOARD_IDS
  = in_strs board_id BAND_900_BOARD_IDS.
Proof.
destruct (in_strs board_id BAND_900_BOARD_IDS) eqn:E;
  [|apply andb_false_r].
destruct (in_strs_In _ _ E) as (s & -> & Hin).
cbn in Hin. intuition (subst; reflexivity).
Qed.

(** X6: for a located row that is no supernode, has its radio on and
    carries the decimal text of a channel number, the list of the map
    artifact the row lands in and the band [check_band] gives it are
    both decided by the board and the number: a 900 MHz board gives
    [900] and [900MHz]; otherwise the list is [2ghz] from 0 to 11,
    [5ghz] from 37 to 64, from 100 to 184 and from 3000 on, [3ghz] from
    76 to 99 and none elsewhere.  List and band bear the same name
    except on the channels -2 and -1 (2 GHz, no list), 0 (unknown band,
    list [2ghz]) and the numbers between 37 and 64, between 100 and 132
    and from 3000 on that the 5 GHz table does not hold (unknown band,
    list [5ghz]). *)
Theorem bucket_and_band_by_number (node : items) (n : Z) :
  let board_id := get_default node "board_id" (VStr "") in
  let band := check_band (VStr (PyInt.str n)) board_id in
  (ne_zero (get_default node "lat" (VInt 0))
   || ne_zero (get_default node "lon" (VInt 0))) = true ->
  eq_str (get_default node "mesh_supernode" (VStr "false")) "true" = false ->
  eq_str (get_default node "meshRF" (VStr "on")) "off" = false ->
  get_default node "channel" (VStr "none") = VStr (PyInt.str n) ->
  (String.length (PyInt.str n) <= PyStr.int_max_str_digits)%nat ->
  categorize node
  = Ok (if in_strs board_id BAND_900_BOARD_IDS then Some band_900
        else BandSpec.list_of_number n)
  /\ band = (if in_strs board_id BAND_900_BOARD_IDS then "900MHz"
             else BandSpec.band_of_number n)
  /\ (categorize node = Ok (BandSpec.list_of_band band)
      <-> in_strs board_id BAND_900_BOARD_IDS = true
          \/ BandSpec.odd_channel n = false).
Proof.
intros board_id band Hloc Hsuper Hrf Hch Hlen.
pose proof (@categorize_by_text node (PyInt.str n) Hloc Hsuper Hrf Hch
              (str_not_none n)) as Hcat.
fold board_id in Hcat.
change ["0xe009"; "0xe1b9"; "0xe239"] with BAND_900_BOARD_IDS in Hcat.
assert (Hlist : categorize node
                = Ok (if in_strs board_id BAND_900_BOARD_IDS
                      then Some band_900 else BandSpec.list_of_number n)).
{ rewrite Hcat. destruct (in_strs board_id BAND_900_BOARD_IDS);
    [reflexivity|].
  destruct (Z.lt_ge_cases n 0) as [Hneg|Hpos].
  - destruct (str_negative Hneg) as (r & Hr). rewrite Hr.
    now rewrite (list_of_number_negative Hneg).
  - destruct (str_nonneg Hpos) as (Hd & Hne & Hv).
    assert (Hdigit : PyStr.isdigit (PyInt.str n) = true).
    { unfold PyStr.isdigit. destruct (PyInt.str n); [congruence | exact Hd]. }
    rewrite Hdigit, (@int_of_str_all_digits _ Hd Hne Hlen), Hv.
    now rewrite (by_channel_ranges Hpos). }
assert (Hband : band = (if in_strs board_id BAND_900_BOARD_IDS
                        then "900MHz" else BandSpec.band_of_number n)).
{ unfold band. rewrite check_band_of_number, board_900_truthy.
  reflexivity. }
split; [exact Hlist|]. split; [exact Hband|].
rewrite Hlist, Hband.
destruct (in_strs board_id BAND_900_BOARD_IDS).
- split; [auto | reflexivity].
- rewrite <- lists_part. split.
  + intros [= H]. right. exact H.
  + intros [H|H]; [discriminate | now rewrite H].
Qed.

End BandAndBucket.

Section BandAndBucketExamples.
Import PyVal Band Emitter.
Local Open Scope string_scope.

(** A node on channel 149 is a 5 GHz node and lands in [5ghz]; the same
    node on channel 38 lands there too, with an unknown band. *)
Lemma bucket_and_band_by_number_witness :
  (check_band (VStr "149") (VStr "0x0000") = "5GHz"
   /\ categorize (BandSpec.located_row "149") = Ok (Some band_5ghz))
  /\ (check_band (VStr "38") (VStr "0x0000") = "Unknown"
      /\ categorize (BandSpec.located_row "38") = Ok (Some band_5ghz)).
Proof.
assert (H4300 : forall s : string,
          (String.length s <=? 4)%nat = true ->
          (String.length s <= PyStr.int_max_str_digits)%nat).
{ intros s H. apply Nat.leb_le in H. unfold PyStr.int_max_str_digits. lia. }
split.
- pose proof (@bucket_and_band_by_number (BandSpec.located_row "149") 149
                eq_refl eq_refl eq_refl eq_refl (H4300 (PyInt.str 149) eq_refl)) as H.
  cbv zeta in H. destruct H as (Hl & Hb & _). split; [exact Hb | exact Hl].
- pose proof (@bucket_and_band_by_number (BandSpec.located_row "38") 38
                eq_refl eq_refl eq_refl eq_refl (H4300 (PyInt.str 38) eq_refl)) as H.
  cbv zeta in H. destruct H as (Hl & Hb & _). split; [exact Hb | exact Hl].
Defined.

End BandAndBucketExamples.

(* ------------------------------------------------------------------ *)
(** * The configuration manager *)

Section ConfigFacts.
Import PyStr PyVal Config ConfigSpec FirmwareSpec.
Local Open Scope string_scope.

Lemma reverse_cons (c : ascii) (s : string) :
  reverse (String c s) = reverse s ++ String c "".
Proof. unfold reverse at 1. cbn [rev_onto]. apply rev_onto_append. Qed.

Lemma reverse_quoted (q : ascii) (s : string) :
  reverse (quoted q s) = quoted q (reverse s).
Proof.
unfold quoted. rewrite reverse_cons, reverse_append, reverse_cons.
reflexivity.
Qed.

Lemma lstrip_blank (left t : string) :
  blank left -> lstrip (left ++ t) = lstrip t.
Proof.
unfold blank. induction left as [|c r IH]; [reflexivity|].
cbn [forallb_chars append lstrip]. intro H. apply andb_prop in H.
destruct H as [Hc Hr]. rewrite Hc. now apply IH.
Qed.

Lemma rstrip_blank (t right : string) :
  blank right -> rstrip (t ++ right) = rstrip t.
Proof.
intro H. unfold rstrip. rewrite reverse_append, lstrip_blank; [reflexivity|].
unfold blank. now rewrite forallb_chars_reverse.
Qed.

(** Stripping leaves what starts and ends with a character that is no
    white space. *)
Lemma strip_padded (left right body : string) (c d : ascii) (r t : string) :
  blank left -> blank right ->
  body = String c r -> reverse body = String d t ->
  is_space c = false -> is_space d = false ->
  strip (left ++ body ++ right) = body.
Proof.
intros Hl Hr Hbody Hrev Hc Hd. unfold strip.
rewrite lstrip_blank by exact Hl.
assert (Hls : lstrip (body ++ right) = body ++ right).
{ rewrite Hbody. cbn [append lstrip]. now rewrite Hc. }
rewrite Hls, rstrip_blank by exact Hr.
unfold rstrip. rewrite Hrev. cbn [lstrip]. rewrite Hd.
rewrite <- Hrev. apply reverse_involutive.
Qed.

Lemma quote_not_space (q : ascii) :
  q = double_quote \/ q = single_quote -> is_space q = false.
Proof. intros [-> | ->]; reflexivity. Qed.

Lemma strip_padded_quoted (left right s : string) (q : ascii) :
  blank left -> blank right ->
  q = double_quote \/ q = single_quote ->
  strip (left ++ quoted q s ++ right) = quoted q s.
Proof.
intros Hl Hr Hq. pose proof (quote_not_space Hq) as Hs.
apply (@strip_padded left right (quoted q s) q q (s ++ String q "")
                     (reverse s ++ String q "")); auto.
apply reverse_quoted.
Qed.

Lemma strip_quotes_of_quoted_text (left right s : string) (q : ascii) :
  blank left -> blank right ->
  q = double_quote \/ q = single_quote ->
  _strip_quotes (left ++ quoted q s ++ right) = s.
Proof.
intros Hl Hr Hq. unfold _strip_quotes.
rewrite strip_padded_quoted by assumption.
assert (Hstart : starts_with_char (quoted q s) q = true)
  by (cbn; apply Ascii.eqb_refl).
assert (Hend : ends_with_char (quoted q s) q = true).
{ unfold ends_with_char. rewrite reverse_quoted. cbn. apply Ascii.eqb_refl. }
assert (Hcond : (starts_with_char (quoted q s) double_quote
                 && ends_with_char (quoted q s) double_quote)
                || (starts_with_char (quoted q s) single_quote
                    && ends_with_char (quoted q s) single_quote) = true).
{ destruct Hq as [<- | <-]; rewrite Hstart, Hend; cbn;
    [reflexivity | apply orb_true_r]. }
rewrite Hcond. unfold inner, quoted. cbn [tail].
rewrite reverse_append. cbn [reverse rev_onto append tail].
apply reverse_involutive.
Qed.

Lemma digits_ends (digits : string) :
  all_digits digits -> digits <> "" ->
  exists c r d t,
    digits = String c r /\ reverse digits = String d t
    /\ is_digit c = true /\ is_digit d = true.
Proof.
intros Hall Hne.
assert (Hrev : all_digits (reverse digits)).
{ unfold all_digits in *. now rewrite forallb_chars_reverse. }
destruct digits as [|c r]; [contradiction|].
destruct (reverse (String c r)) as [|d t] eqn:E.
- apply (f_equal reverse) in E. rewrite reverse_involutive in E.
  discriminate E.
- exists c, r, d, t. split; [reflexivity|]. split; [reflexivity|]. split.
  + unfold all_digits in Hall. cbn in Hall. now apply andb_prop in Hall.
  + unfold all_digits in Hrev. cbn in Hrev. now apply andb_prop in Hrev.
Qed.

Lemma digit_is_no_space (c : ascii) : is_digit c = true -> is_space c = false.
Proof.
intro H. apply digit_not_space in H. unfold not_space in H.
now apply negb_true_iff in H.
Qed.

Lemma digit_is_no_quote (c q : ascii) :
  is_digit c = true -> q = double_quote \/ q = single_quote ->
  Ascii.eqb c q = false.
Proof.
intros H [-> | ->]; apply digit_neq; auto.
Qed.

(** X9: [getint] reads a decimal literal whether it stands bare or
    between quotes, with white space around it or not. *)
Theorem getint_reads_decimal
        (config : store) (section key : string) (fallback : Z)
        (left right digits body : string) (q : ascii) :
  blank left -> blank right ->
  all_digits digits -> digits <> "" ->
  (String.length digits <= int_max_str_digits)%nat ->
  q = double_quote \/ q = single_quote ->
  body = digits \/ body = quoted q digits ->
  config section key = Found (left ++ body ++ right) ->
  getint config section key fallback = Returns (dec_value digits).
Proof.
intros Hl Hr Hall Hne Hlen Hq Hbody Hcfg. unfold getint. rewrite Hcfg.
assert (Hstrip : _strip_quotes (left ++ body ++ right) = digits).
{ destruct Hbody as [-> | ->];
    [|now apply strip_quotes_of_quoted_text].
  destruct (digits_ends Hall Hne) as (c & r & d & t & Hd & Hrev & Hc & Hdd).
  unfold _strip_quotes.
  rewrite (@strip_padded left right digits c d r t Hl Hr Hd Hrev
             (digit_is_no_space c Hc) (digit_is_no_space d Hdd)).
  assert (Hs : forall x, x = double_quote \/ x = single_quote ->
                         starts_with_char digits x = false).
  { intros x Hx. rewrite Hd. cbn. now apply digit_is_no_quote. }
  rewrite !Hs by auto. reflexivity. }
rewrite Hstrip, int_of_str_all_digits by assumption. reflexivity.
Qed.

(** X7: a value written between two double quotes or two apostrophes,
    white space around them or not, is read back exactly: the quotes and
    the outer white space go, and what stood between the quotes stays as
    it is, inner white space and quotes included. *)
Theorem strip_quotes_of_quoted (left right s : string) (q : ascii) :
  blank left -> blank right ->
  q = double_quote \/ q = single_quote ->
  _strip_quotes (left ++ quoted q s ++ right) = s.
Proof. exact (@strip_quotes_of_quoted_text left right s q). Qed.

(** X8: [get] on a quoted value: what stands between the quotes is
    returned as it is, unless it reads [true] or [false] in any letter
    case, which [get] turns into a boolean, quotes or not. *)
Theorem get_of_quoted
        (config : store) (section key : string) (fallback : pyval)
        (left right s : string) (q : ascii) :
  blank left -> blank right ->
  q = double_quote \/ q = single_quote ->
  config section key = Found (left ++ quoted q s ++ right) ->
  get config section key fallback
  = Returns (if String.eqb (lower s) "true" then VBool true
             else if String.eqb (lower s) "false" then VBool false
             else VStr s).
Proof.
intros Hl Hr Hq Hcfg. unfold get. rewrite Hcfg.
rewrite strip_quotes_of_quoted_text by assumption.
unfold Topology.in_list. cbn [existsb].
destruct (String.eqb (lower s) "true") eqn:Et; [reflexivity|].
destruct (String.eqb (lower s) "false") eqn:Ef; reflexivity.
Qed.

End ConfigFacts.

Section ConfigExamples.
Import PyStr PyVal Config ConfigSpec FirmwareSpec.
Local Open Scope string_scope.

Lemma strip_quotes_of_quoted_witness : _strip_quotes " 'a b' " = "a b".
Proof.
exact (@strip_quotes_of_quoted " " " " "a b" single_quote
         eq_refl eq_refl (or_intror eq_refl)).
Defined.

Lemma getint_reads_decimal_witness :
  getint (one_option "numParallelThreads" "60")
         "user-settings" "numParallelThreads" 0
  = Returns 60%Z.
Proof.
exact (@getint_reads_decimal
         (one_option "numParallelThreads" "60")
         "user-settings" "numParallelThreads" 0%Z
         " " " " "60" (quoted single_quote "60") single_quote
         eq_refl eq_refl eq_refl ltac:(discriminate)
         ltac:(vm_compute; lia) (or_intror eq_refl) (or_intror eq_refl)
         eq_refl).
Defined.

Lemma get_of_quoted_witness :
  get (one_option "debug" "True") "user-settings" "debug" VNone
  = Returns (VBool true)
  /\ get (one_option "nodelistNode" "localnode.local.mesh")
         "user-settings" "nodelistNode" VNone
     = Returns (VStr "localnode.local.mesh").
Proof.
split.
- exact (@get_of_quoted (one_option "debug" "True")
           "user-settings" "debug" VNone " " " " "True" single_quote
           eq_refl eq_refl (or_intror eq_refl) eq_refl).
- exact (@get_of_quoted (one_option "nodelistNode" "localnode.local.mesh")
           "user-settings" "nodelistNode" VNone " " " "
           "localnode.local.mesh" single_quote
           eq_refl eq_refl (or_intror eq_refl) eq_refl).
Defined.

End ConfigExamples.

(* ------------------------------------------------------------------ *)
(** * The node poller: retries *)

Section FetchFacts.
Import PyVal PyNum Eff Poller PollerSpec.
Local Open Scope string_scope.

Variable json_loads : string -> option pyval.
Variable printable_high : ascii -> bool.

Local Abbreviation fetch_loop :=
  (Poller.fetch_loop json_loads printable_high).
Local Abbreviation fetch_json :=
  (Poller.fetch_json json_loads printable_high).
Local Abbreviation clean := (Poller.clean printable_high).
Local Abbreviation settled :=
  (PollerSpec.settled json_loads printable_high).

Lemma advanced_zero (w : network) : advanced w 0 [] = w.
Proof.
destruct w as [a s t]. unfold advanced. cbn.
now rewrite Nat.add_0_r, app_nil_r.
Qed.

Lemma retried_succ (url : string) (k : nat) :
  (1 <= k)%nat ->
  retried url (S k)
  = Requested url :: Slept Band.NODE_RETRY_DELAY :: retried url k.
Proof. destruct k; [lia | reflexivity]. Qed.

Lemma fetch_loop_run (url : string) (retries : Z) (left : nat) :
  forall (attempt : Z) (w : network),
  (attempt + Z.of_nat left = retries + 1)%Z ->
  (1 <= left)%nat ->
  exists (k : nat) (v : pyval),
    (1 <= k <= left)%nat
    /\ fetch_loop url retries attempt left w
       = (Ok v, advanced w k (retried url k))
    /\ List.Forall (fun r => r = TimedOut)
                   (served_from w (served w) (k - 1))
    /\ settled (answers w (served w + (k - 1))) v
    /\ (answers w (served w + (k - 1)) = TimedOut -> k = left).
Proof.
induction left as [|left' IH]; intros attempt w Hinv Hpos; [lia|].
cbn [Poller.fetch_loop]. unfold mbind at 1, request.
set (w1 := record (Requested url)
             {| answers := answers w; served := S (served w);
                trace := trace w |}).
assert (Hone : w1 = advanced w 1 (retried url 1)).
{ unfold w1, advanced, record. cbn. f_equal. lia. }
assert (Hfirst : forall v,
          settled (answers w (served w)) v ->
          (answers w (served w) = TimedOut -> left' = 0%nat) ->
          exists k v',
            (1 <= k <= S left')%nat
            /\ (Ok v, w1) = (Ok v', advanced w k (retried url k))
            /\ List.Forall (fun r => r = TimedOut)
                           (served_from w (served w) (k - 1))
            /\ settled (answers w (served w + (k - 1))) v'
            /\ (answers w (served w + (k - 1)) = TimedOut -> k = S left')).
{ intros v Hv Hlast. exists 1%nat, v. rewrite Hone. cbn [Nat.sub].
  rewrite Nat.add_0_r. repeat split; try lia; auto; try constructor.
  intro Ht. specialize (Hlast Ht). lia. }
destruct (answers w (served w)) as [| |code text] eqn:Hr.
- (* timed out *)
  destruct (Z.ltb_spec attempt retries) as [Hlt | Hge].
  + unfold mbind at 1, sleep, modify.
    set (w2 := record (Slept Band.NODE_RETRY_DELAY) w1).
    assert (Hleft : (1 <= left')%nat) by lia.
    destruct (IH (attempt + 1)%Z w2 ltac:(lia) Hleft)
      as (k & v & Hk & Hrun & Hall & Hset & Hlast).
    exists (S k), v. rewrite Hrun.
    assert (Hs2 : served w2 = S (served w)) by reflexivity.
    assert (Ha2 : answers w2 = answers w) by reflexivity.
    split; [lia|]. split; [|split; [|split]].
    * f_equal. unfold advanced. rewrite Ha2, Hs2.
      rewrite retried_succ by lia.
      unfold w2, w1, record. cbn [trace].
      rewrite <- !app_assoc. cbn [app]. f_equal. lia.
    * replace (S k - 1)%nat with (S (k - 1)) by lia.
      unfold served_from in *. cbn [List.seq List.map].
      constructor; [exact Hr|]. rewrite Ha2, Hs2 in Hall. exact Hall.
    * rewrite Ha2, Hs2 in Hset.
      replace (served w + (S k - 1))%nat with (S (served w) + (k - 1))%nat
        by lia. exact Hset.
    * rewrite Ha2, Hs2 in Hlast.
      replace (served w + (S k - 1))%nat with (S (served w) + (k - 1))%nat
        by lia. intro Ht. specialize (Hlast Ht). lia.
  + apply Hfirst; [exact I || reflexivity | intros _; lia].
- apply Hfirst; [reflexivity | discriminate].
- destruct (code =? 200)%Z eqn:Hc.
  + destruct (json_loads (clean text)) as [data|] eqn:Hj.
    * apply Hfirst; [|discriminate]. unfold PollerSpec.settled. now rewrite Hc, Hj.
    * apply Hfirst; [|discriminate]. unfold PollerSpec.settled. now rewrite Hc, Hj.
  + apply Hfirst; [|discriminate]. unfold PollerSpec.settled. now rewrite Hc.
Qed.


Lemma fetch_json_retries_run (url : string) (retries : Z) (w : network) :
  exists (k : nat) (v : pyval),
    (k <= Z.to_nat (retries + 1))%nat
    /\ fetch_json url retries w = (Ok v, advanced w k (retried url k)).
Proof.
unfold Poller.fetch_json.
destruct (Z.to_nat (retries + 1)) as [|n] eqn:Hn.
- exists 0%nat, VNone. cbn [Poller.fetch_loop]. unfold ret.
  rewrite advanced_zero. split; [lia | reflexivity].
- destruct (@fetch_loop_run url retries (S n) 0%Z w ltac:(lia) ltac:(lia))
    as (k & v & Hk & Hrun & _).
  exists k, v. split; [lia | exact Hrun].
Qed.

(** X10: [fetch_json] never raises.  It asks for the URL at least once
    when [retries] is not negative and [retries + 1] times at most, sleeps
    the retry delay between two requests and not after the last, and goes
    on only after a timeout: every request but the last timed out.  It
    returns the parsed body when the last reply has status 200 and a body
    that parses, and [None] in every other case. *)
Theorem fetch_json_retries (url : string) (retries : Z) (w : network) :
  exists (k : nat) (v : pyval),
    (k <= Z.to_nat (retries + 1))%nat
    /\ ((0 <= retries)%Z -> (1 <= k)%nat)
    /\ fetch_json url retries w = (Ok v, advanced w k (retried url k))
    /\ List.Forall (fun r => r = TimedOut)
                   (served_from w (served w) (k - 1))
    /\ ((1 <= k)%nat -> settled (answers w (served w + (k - 1))) v)
    /\ (k = 0%nat -> v = VNone).
Proof.
unfold Poller.fetch_json.
destruct (Z.to_nat (retries + 1)) as [|n] eqn:Hn.
- exists 0%nat, VNone. cbn [Poller.fetch_loop]. unfold ret.
  rewrite advanced_zero. repeat split; try lia; constructor.
- destruct (@fetch_loop_run url retries (S n) 0%Z w ltac:(lia) ltac:(lia))
    as (k & v & Hk & Hrun & Hall & Hset & _).
  exists k, v. repeat split; try lia; auto.
Qed.

Lemma requests_app (a b : list action) :
  requests (a ++ b) = (requests a ++ requests b)%list.
Proof. unfold requests. apply flat_map_app. Qed.

Lemma slept_app (a b : list action) :
  slept (a ++ b) = (slept a + slept b)%Z.
Proof.
unfold slept. induction a as [|x a IH]; [reflexivity|].
cbn [app fold_right]. rewrite IH. destruct x; lia.
Qed.

Lemma retried_cost (url : string) (k : nat) :
  requests (retried url k) = List.repeat url k
  /\ slept (retried url k)
     = (Band.NODE_RETRY_DELAY * Z.of_nat (k - 1))%Z.
Proof.
induction k as [|k [IHr IHs]]; [split; reflexivity|].
destruct k as [|k]; [split; reflexivity|].
rewrite retried_succ by lia. split.
- cbn [requests flat_map app]. change (flat_map _ ?l) with (requests l).
  now rewrite IHr.
- cbn [slept fold_right]. change (fold_right _ 0%Z ?l) with (slept l).
  rewrite IHs. unfold Band.NODE_RETRY_DELAY. lia.
Qed.

Lemma within_refl (urls : list string) (w : network) : within 0 0 urls w w.
Proof.
split; [reflexivity|]. exists []. rewrite app_nil_r. cbn.
repeat split; try lia. constructor.
Qed.

Lemma within_trans (n1 n2 : nat) (s1 s2 : Z) (urls : list string)
      (w w' w'' : network) :
  within n1 s1 urls w w' -> within n2 s2 urls w' w'' ->
  within (n1 + n2) (s1 + s2) urls w w''.
Proof.
intros (Ha & new1 & Ht1 & Hs1 & Hn1 & Hz1 & Hu1)
       (Hb & new2 & Ht2 & Hs2 & Hn2 & Hz2 & Hu2).
split; [congruence|]. exists (new1 ++ new2)%list.
rewrite requests_app, slept_app, length_app.
repeat split; try lia.
- rewrite Ht2, Ht1. now rewrite app_assoc.
- apply Forall_app. now split.
Qed.

Lemma within_weaken (n n' : nat) (s s' : Z) (urls urls' : list string)
      (w w' : network) :
  (n <= n')%nat -> (s <= s')%Z -> List.incl urls urls' ->
  within n s urls w w' -> within n' s' urls' w w'.
Proof.
intros Hn Hs Hincl (Ha & new & Ht & Hsv & Hl & Hz & Hu).
split; [exact Ha|]. exists new. repeat split; try lia; auto.
eapply Forall_impl; [|exact Hu]. intros u Hin. now apply Hincl.
Qed.

Lemma within_record_error (urls : list string) (w : network)
      (ip : string) (e : exn) :
  within 0 0 urls w (record (Error_parsing ip e) w).
Proof.
split; [reflexivity|]. exists [Error_parsing ip e]. cbn.
repeat split; try lia. constructor.
Qed.

Lemma fetch_json_within (url : string) (w : network) :
  exists v,
    fetch_json url Band.MAX_RETRIES w
    = (Ok v, snd (fetch_json url Band.MAX_RETRIES w))
    /\ within 2 5 [url] w (snd (fetch_json url Band.MAX_RETRIES w)).
Proof.
destruct (fetch_json_retries_run url Band.MAX_RETRIES w)
  as (k & v & Hk & Hrun).
exists v. rewrite Hrun. cbn [snd]. split; [reflexivity|].
change (Z.to_nat (Band.MAX_RETRIES + 1)) with 2%nat in Hk.
destruct (retried_cost url k) as [Hr Hs].
split; [reflexivity|]. exists (retried url k). cbn [advanced trace served].
rewrite Hr, Hs, repeat_length. unfold Band.NODE_RETRY_DELAY.
repeat split; try lia.
apply Forall_forall. intros u Hu. apply repeat_spec in Hu. now left.
Qed.

End FetchFacts.

(* ------------------------------------------------------------------ *)
(** * The node poller: one poll *)

Section PollFacts.
Import PyVal PyNum Eff Poller PollerSpec.
Local Open Scope string_scope.

Variable json_loads : string -> option pyval.
Variable printable_high : ascii -> bool.
Variable py_float : pyval -> result pyval.
Variable py_str : pyval -> pyval.
Variable pickle_hex : pyval -> pyval.
Variable start_time end_time : Q.

Local Abbreviation fetch_json :=
  (Poller.fetch_json json_loads printable_high).
Local Abbreviation first_answer :=
  (Poller.first_answer json_loads printable_high).
Local Abbreviation parse := (Poller.parse py_float py_str pickle_hex).
Local Abbreviation with_link_info := (Poller.with_link_info pickle_hex).
Local Abbreviation with_services := (Poller.with_services pickle_hex).
Local Abbreviation poll_node :=
  (Poller.poll_node json_loads printable_high py_float py_str pickle_hex
                    start_time end_time).

(** The loop over the candidates never raises and asks each of them
    twice at most. *)
Lemma first_answer_within (urls : list string) :
  forall (data : pyval) (w : network),
  exists v,
    first_answer urls data w = (Ok v, snd (first_answer urls data w))
    /\ within (2 * List.length urls) (5 * Z.of_nat (List.length urls)) urls
              w (snd (first_answer urls data w)).
Proof.
induction urls as [|url rest IH]; intros data w.
- exists data. cbn. split; [reflexivity | apply within_refl].
- cbn [Poller.first_answer]. unfold mbind.
  destruct (fetch_json_within json_loads printable_high url w)
    as (v & Hrun & Hcost).
  rewrite Hrun. cbn [snd] in *.
  set (w1 := snd (fetch_json url Band.MAX_RETRIES w)) in *.
  assert (Hc1 : within 2 5 (url :: rest) w w1).
  { eapply within_weaken; [| | |exact Hcost]; try lia.
    intros u [<- | []]. now left. }
  destruct (truthy v).
  + exists v. cbn. split; [reflexivity|].
    eapply within_weaken; [| | |exact Hc1];
      cbn [List.length]; try lia. apply incl_refl.
  + destruct (IH v w1) as (v' & Hrun' & Hcost').
    exists v'. rewrite Hrun'. cbn [snd]. split; [reflexivity|].
    assert (Hc2 : within (2 * List.length rest)
                         (5 * Z.of_nat (List.length rest)) (url :: rest)
                         w1 (snd (first_answer rest v w1))).
    { eapply within_weaken; [| | |exact Hcost']; try lia.
      intros u Hu. now right. }
    eapply within_weaken; [| | |exact (within_trans Hc1 Hc2)];
      cbn [List.length]; try lia. apply incl_refl.
Qed.

Lemma candidates_within (ip query : string) (data : pyval) (w : network) :
  List.incl (candidates ip query) (all_candidates ip) ->
  exists v,
    first_answer (candidates ip query) data w
    = (Ok v, snd (first_answer (candidates ip query) data w))
    /\ within 8 20 (all_candidates ip) w
               (snd (first_answer (candidates ip query) data w)).
Proof.
intro Hincl.
destruct (first_answer_within (candidates ip query) data w)
  as (v & Hrun & Hcost).
exists v. split; [exact Hrun|].
eapply within_weaken; [| | |exact Hcost]; cbn [candidates List.length];
  try lia. exact Hincl.
Qed.

Lemma poll_node_run (ip : string) (hops : pyval) (w : network) :
  exists r w',
    poll_node ip hops w = (Ok r, w')
    /\ within 24 60 (all_candidates ip) w w'.
Proof.
unfold Poller.poll_node. unfold mbind at 1.
destruct (@candidates_within ip "" VNone w) as (data & Hrun & Hc1).
{ unfold all_candidates. apply incl_appl, incl_refl. }
rewrite Hrun. set (w1 := snd (first_answer (candidates ip "") VNone w)) in *.
destruct (negb (truthy data)).
- exists None, w1. split; [reflexivity|].
  eapply within_weaken; [| | |exact Hc1]; try lia. apply incl_refl.
- unfold try_except. unfold mbind at 1, lift.
  destruct (parse data ip) as [node_info|e].
  + unfold mbind at 1.
    destruct (@candidates_within ip "?link_info=1" VNone w1)
      as (links & Hrun2 & Hc2).
    { unfold all_candidates. apply incl_appr, incl_appl, incl_refl. }
    rewrite Hrun2.
    set (w2 := snd (first_answer (candidates ip "?link_info=1") VNone w1))
      in *.
    unfold mbind at 1.
    destruct (@candidates_within ip "?services_local=1" VNone w2)
      as (services & Hrun3 & Hc3).
    { unfold all_candidates. apply incl_appr, incl_appr, incl_refl. }
    rewrite Hrun3.
    set (w3 := snd (first_answer (candidates ip "?services_local=1")
                                 VNone w2)) in *.
    eexists. exists w3. split; [reflexivity|].
    exact (within_trans (within_trans Hc1 Hc2) Hc3).
  + exists None, (record (Error_parsing ip e) w1).
    split; [reflexivity|].
    eapply within_weaken;
      [| | |exact (within_trans Hc1
                     (within_record_error (all_candidates ip) w1 ip e))];
      try lia. apply incl_refl.
Qed.

(** X11: one poll of a node never raises, whatever the network answers
    and whatever the parser does with it: it makes at most 24 requests,
    all of them for the twelve URLs of the node, and sleeps at most 60
    seconds in retry delays. *)
Theorem poll_node_cost (ip : string) (hops : pyval) (w : network) :
  exists r,
    fst (poll_node ip hops w) = Ok r
    /\ within 24 60 (all_candidates ip) w (snd (poll_node ip hops w)).
Proof.
destruct (poll_node_run ip hops w) as (r & w' & Hrun & Hcost).
exists r. rewrite Hrun. split; [reflexivity | exact Hcost].
Qed.

Lemma with_link_info_other (data : pyval) (ni : NodeInfo.t)
      (f : NodeInfo.field) :
  f <> NodeInfo.link_info -> with_link_info data ni f = ni f.
Proof.
intro Hf. unfold Poller.with_link_info.
destruct data; try reflexivity.
destruct (truthy (VDict l)); [|reflexivity].
destruct (get l "link_info"); try reflexivity.
destruct (truthy (VDict l0)); [|reflexivity].
now apply set_other.
Qed.

Lemma with_services_other (data : pyval) (ni : NodeInfo.t)
      (f : NodeInfo.field) :
  f <> NodeInfo.services -> with_services data ni f = ni f.
Proof.
intro Hf. unfold Poller.with_services.
destruct data; try reflexivity.
destruct (truthy (VDict l)); [|reflexivity]. cbv zeta.
destruct (py_or (get l "services_local") (get l "services"));
  try reflexivity; now apply set_other.
Qed.

(** X12: the record a poll returns is the parsed sysinfo document of
    the first candidate URL that answered with data, with five attributes
    set afterwards: [hopsAway] is the hop count the caller gave, [band]
    is [check_band] of the parsed channel and board, [response_time_ms]
    is the time between the two clock readings in milliseconds rounded to
    two places, and [link_info] and [services] may come from the two
    further fetches.  Every other attribute is as parsed. *)
Theorem poll_node_record (ip : string) (hops : pyval) (w : network)
        (n : NodeInfo.t) :
  fst (poll_node ip hops w) = Ok (Some n) ->
  n NodeInfo.hopsAway = hops
  /\ n NodeInfo.band
     = VStr (Band.check_band (n NodeInfo.channel) (n NodeInfo.board_id))
  /\ n NodeInfo.response_time_ms
     = VFloat (round_ndigits ((end_time - start_time) * 1000) 2)
  /\ exists data parsed,
       fst (first_answer (candidates ip "") VNone w) = Ok data
       /\ truthy data = true
       /\ parse data ip = Ok parsed
       /\ forall f, set_after_parsing f = false -> n f = parsed f.
Proof.
unfold Poller.poll_node. unfold mbind at 1.
destruct (@candidates_within ip "" VNone w) as (data & Hrun & _).
{ unfold all_candidates. apply incl_appl, incl_refl. }
rewrite Hrun. set (w1 := snd (first_answer (candidates ip "") VNone w)) in *.
destruct (truthy data) eqn:Htruthy; cbn [negb]; [|discriminate].
unfold try_except. unfold mbind at 1, lift.
destruct (parse data ip) as [node_info|e] eqn:Hparse;
  [|unfold mbind, modify, ret; discriminate].
unfold mbind at 1.
destruct (@candidates_within ip "?link_info=1" VNone w1)
  as (links & Hrun2 & _).
{ unfold all_candidates. apply incl_appr, incl_appl, incl_refl. }
rewrite Hrun2.
set (w2 := snd (first_answer (candidates ip "?link_info=1") VNone w1)) in *.
unfold mbind at 1.
destruct (@candidates_within ip "?services_local=1" VNone w2)
  as (services & Hrun3 & _).
{ unfold all_candidates. apply incl_appr, incl_appr, incl_refl. }
rewrite Hrun3. unfold ret. cbn [fst]. intros [= <-].
assert (Hkeep : forall f,
          f <> NodeInfo.link_info -> f <> NodeInfo.services ->
          with_services services
            (with_link_info links
               (NodeInfo.set NodeInfo.response_time_ms
                  (VFloat (round_ndigits ((end_time - start_time) * 1000) 2))
                  (NodeInfo.set NodeInfo.band
                     (VStr (Band.check_band (node_info NodeInfo.channel)
                                            (node_info NodeInfo.board_id)))
                     (NodeInfo.set NodeInfo.hopsAway hops node_info)))) f
          = NodeInfo.set NodeInfo.response_time_ms
              (VFloat (round_ndigits ((end_time - start_time) * 1000) 2))
              (NodeInfo.set NodeInfo.band
                 (VStr (Band.check_band (node_info NodeInfo.channel)
                                        (node_info NodeInfo.board_id)))
                 (NodeInfo.set NodeInfo.hopsAway hops node_info)) f).
{ intros f Hl Hs.
  now rewrite with_services_other, with_link_info_other. }
split; [|split; [|split]].
- rewrite Hkeep by discriminate. reflexivity.
- rewrite !Hkeep by discriminate. reflexivity.
- rewrite Hkeep by discriminate. reflexivity.
- exists data, node_info.
  split; [reflexivity|]. split; [exact Htruthy|]. split; [exact Hparse|].
  intros f Hf. rewrite Hkeep by (intros ->; discriminate Hf).
  destruct f; try discriminate Hf; reflexivity.
Qed.

Lemma advanced_advanced (w : network) (a b : nat) (x y : list action) :
  advanced (advanced w a x) b y = advanced w (a + b) (x ++ y).
Proof.
unfold advanced. cbn. f_equal; [lia | now rewrite app_assoc].
Qed.

Lemma fetch_json_down (url : string) (w : network) :
  (forall n, answers w n = TimedOut) ->
  fetch_json url Band.MAX_RETRIES w
  = (Ok VNone, advanced w 2 (retried url 2)).
Proof.
intro Hdown. unfold Poller.fetch_json.
change (Z.to_nat (Band.MAX_RETRIES + 1)) with 2%nat.
cbn [Poller.fetch_loop]. unfold mbind, request, sleep, modify, ret.
cbn [answers served record]. rewrite !Hdown. cbn.
rewrite Hdown. unfold advanced, record. cbn. f_equal. f_equal; [lia|].
now rewrite <- !app_assoc.
Qed.

Lemma first_answer_down (urls : list string) :
  forall (data : pyval) (w : network),
  (forall n, answers w n = TimedOut) ->
  truthy data = false ->
  exists v,
    truthy v = false
    /\ first_answer urls data w
       = (Ok v,
          advanced w (2 * List.length urls)
                   (List.flat_map (fun u => retried u 2) urls)).
Proof.
induction urls as [|url rest IH]; intros data w Hdown Hdata.
- exists data. split; [exact Hdata|]. cbn. unfold ret.
  now rewrite advanced_zero.
- cbn [Poller.first_answer]. unfold mbind.
  rewrite (@fetch_json_down url w Hdown). cbn [truthy].
  destruct (IH VNone (advanced w 2 (retried url 2)) Hdown eq_refl)
    as (v & Hv & Hrun).
  exists v. split; [exact Hv|]. rewrite Hrun, advanced_advanced.
  cbn [List.length flat_map]. f_equal. f_equal. lia.
Qed.

(** X13: a node that lets every request time out costs one poll exactly
    eight requests, two for each of the four sysinfo URLs in their order
    of preference, with one retry delay between the two; the poll returns
    [None], logs no error and asks for nothing else. *)
Theorem poll_node_unreachable (ip : string) (hops : pyval) (w : network) :
  (forall n, answers w n = TimedOut) ->
  poll_node ip hops w
  = (Ok None,
     advanced w 8 (List.flat_map (fun u => retried u 2) (candidates ip ""))).
Proof.
intro Hdown. unfold Poller.poll_node. unfold mbind at 1.
destruct (@first_answer_down (candidates ip "") VNone w Hdown eq_refl)
  as (v & Hv & Hrun).
rewrite Hrun, Hv. reflexivity.
Qed.

End PollFacts.

Section PollExamples.
Import PyVal PyNum Eff Poller PollerSpec.
Local Open Scope string_scope.

(** A node that never answers: eight requests, twenty seconds of retry
    delays, no record. *)
Lemma poll_node_unreachable_witness :
  let run := Poller.poll_node loads (fun _ => true) (fun v => Ok v) str_of
               (fun v => v) 0 1 "10.1.1.7" (VInt 1)
               (fresh (fun _ => TimedOut)) in
  fst run = Ok None
  /\ served (snd run) = 8%nat
  /\ slept (trace (snd run)) = 20%Z
  /\ List.nth_error (requests (trace (snd run))) 2
     = Some "http://10.1.1.7:8080/a/sysinfo".
Proof.
cbv zeta.
rewrite (@poll_node_unreachable loads (fun _ => true) (fun v => Ok v) str_of
           (fun v => v) 0 1 "10.1.1.7" (VInt 1)
           (fresh (fun _ => TimedOut)) (fun n => eq_refl)).
repeat split; vm_compute; reflexivity.
Defined.

(** A node on channel 149 that answers the first request and lets the
    others time out: the record has the band of the channel, the hop
    count of the caller and the name of the document. *)
Lemma poll_node_record_witness :
  match fst (Poller.poll_node loads (fun _ => true) (fun v => Ok v) str_of
               (fun v => v) 0 (1234567 # 1000000) "10.1.1.7" (VInt 2)
               (fresh answers_once)) with
  | Ok (Some n) =>
      n NodeInfo.hopsAway = VInt 2
      /\ n NodeInfo.band = VStr "5GHz"
      /\ n NodeInfo.node = VStr "N0CALL-7"
  | _ => False
  end.
Proof.
assert (Hsome : match fst (Poller.poll_node loads (fun _ => true)
                             (fun v => Ok v) str_of (fun v => v) 0
                             (1234567 # 1000000) "10.1.1.7" (VInt 2)
                             (fresh answers_once)) with
                | Ok (Some _) => true
                | _ => false
                end = true) by (vm_compute; reflexivity).
destruct (fst (Poller.poll_node loads (fun _ => true) (fun v => Ok v) str_of
                 (fun v => v) 0 (1234567 # 1000000) "10.1.1.7" (VInt 2)
                 (fresh answers_once))) as [[n|]|e] eqn:E;
  try discriminate Hsome.
destruct (@poll_node_record loads (fun _ => true) (fun v => Ok v) str_of
            (fun v => v) 0 (1234567 # 1000000) "10.1.1.7" (VInt 2)
            (fresh answers_once) n E)
  as (Hhops & Hband & _ & data & parsed & Hdata & _ & Hparse & Hsame).
assert (Hattr : forall f,
          NodeInfo.attribute f
            (Poller.parse (fun v => Ok v) str_of (fun v => v)
                          data "10.1.1.7")
          = Some (parsed f)) by (intro f; now rewrite Hparse).
vm_compute in Hdata. injection Hdata as <-.
pose proof (Hattr NodeInfo.channel) as Hc.
pose proof (Hattr NodeInfo.board_id) as Hb.
pose proof (Hattr NodeInfo.node) as Hn.
vm_compute in Hc, Hb, Hn.
injection Hc as Hc. injection Hb as Hb. injection Hn as Hn.
split; [exact Hhops|]. split.
- rewrite Hband, (Hsame NodeInfo.channel eq_refl),
    (Hsame NodeInfo.board_id eq_refl), <- Hc, <- Hb. reflexivity.
- rewrite (Hsame NodeInfo.node eq_refl), <- Hn. reflexivity.
Defined.

End PollExamples.

(* ------------------------------------------------------------------ *)
(** * The counters of a cycle add up *)

Section KeepsFacts.
Import PyVal PyNum Eff World Coordinator Accounting.

Lemma keeps_refl (ks : list Stats.key) (s : state) : keeps ks s s.
Proof. intros k _. reflexivity. Qed.

Lemma keeps_trans (ks : list Stats.key) (a b c : state) :
  keeps ks a b -> keeps ks b c -> keeps ks a c.
Proof. intros H1 H2 k Hk. rewrite (H2 k Hk). now apply H1. Qed.

Lemma keeps_incl (ks ks' : list Stats.key) (s s' : state) :
  List.incl ks ks' -> keeps ks' s s' -> keeps ks s s'.
Proof. intros Hi H k Hk. apply H, Hi, Hk. Qed.

Lemma on_events_keeps (ks : list Stats.key) (A : Type) (c : M journal A) :
  respects (keeps ks) (on_events c).
Proof.
intro s. unfold on_events. destruct (c (events s)) as [r j].
intros k _. reflexivity.
Qed.

Lemma set_stat_keeps (ks : list Stats.key) (k : Stats.key) (v : pyval) :
  ~ List.In k ks -> respects (keeps ks) (set_stat k v).
Proof.
intros Hk s k' Hk'. unfold set_stat, on_self, modify, stat. cbn.
unfold Stats.set. destruct (Stats.key_eq_dec k' k); [|reflexivity].
subst. contradiction.
Qed.

Lemma set_stat_sets (k : Stats.key) (v : pyval) (s : state) :
  stat (snd (set_stat k v s)) k = v.
Proof.
unfold set_stat, on_self, modify, stat. cbn. unfold Stats.set.
destruct (Stats.key_eq_dec k k); congruence.
Qed.

Lemma mbind_ok (S A B : Type) (c : M S A) (k : A -> M S B)
      (s s' : S) (b : B) :
  mbind c k s = (Ok b, s') ->
  exists a s1, c s = (Ok a, s1) /\ k a s1 = (Ok b, s').
Proof.
unfold mbind. destruct (c s) as [[a|e] s1]; [|discriminate].
intro H. eauto.
Qed.

End KeepsFacts.

Ltac keeps_steps ks :=
  repeat respects_step (@keeps_refl ks) (@keeps_trans ks).

Section CountersFacts.
Import PyVal PyNum Eff World Topology Coordinator Accounting.
Local Open Scope string_scope.

Variable node_data_t : Type.
Variable env : environment node_data_t.

Lemma try_upsert_keeps (ks : list Stats.key) (node_data : NodeInfo.t)
      (report : exn -> log_entry) :
  respects (keeps ks) (try_upsert env node_data report).
Proof.
intro s. unfold try_upsert.
destruct (Persistence.upsert_node (accepts env) (node_data, events s))
  as [[[]|e] after]; intros k _; reflexivity.
Qed.

Lemma try_upsert_returns (node_data : NodeInfo.t)
      (report : exn -> log_entry) (s : state) :
  exists o, fst (try_upsert env node_data report s) = Ok o.
Proof.
unfold try_upsert.
destruct (Persistence.upsert_node (accepts env) (node_data, events s))
  as [[[]|e] after]; eexists; reflexivity.
Qed.

Lemma update_topology_info_keeps (ks : list Stats.key) (node_devices : items) :
  respects (keeps ks) (_update_topology_info env node_devices).
Proof.
unfold _update_topology_info, update_topology_entry.
keeps_steps ks. apply try_upsert_keeps.
Qed.

Lemma build_link_topology_keeps :
  respects (keeps counters) (_build_link_topology env).
Proof.
unfold _build_link_topology, log, emit.
keeps_steps counters;
  first [ apply on_events_keeps
        | apply set_stat_keeps; cbn; intuition discriminate ].
Qed.

Lemma generate_data_files_keeps :
  respects (keeps counters) (_generate_data_files env).
Proof.
unfold _generate_data_files, log, emit.
keeps_steps counters;
  first [ apply on_events_keeps
        | apply set_stat_keeps; cbn; intuition discriminate ].
Qed.

(** A task that settles leaves a record or counts an error. *)
Lemma settle_accounts (ks : list Stats.key) (t : task)
      (results : list NodeInfo.t) (s : state) :
  ~ List.In Stats.nodesWithErrors ks ->
  exists results',
    fst (settle env t results s) = Ok results'
    /\ keeps ks s (snd (settle env t results s))
    /\ ((List.length results' = S (List.length results)
         /\ stat (snd (settle env t results s)) Stats.nodesWithErrors
            = stat s Stats.nodesWithErrors)
        \/ (results' = results
            /\ stat (snd (settle env t results s)) Stats.nodesWithErrors
               = add_one (stat s Stats.nodesWithErrors))).
Proof.
intro Hks. unfold settle.
destruct (poll_node env (task_ip t) (task_hops t)) as [result|].
- unfold mbind.
  pose proof (@try_upsert_keeps (Stats.nodesWithErrors :: ks) result
                (Error_saving_node (result NodeInfo.wlan_ip)) s) as Hk.
  destruct (@try_upsert_returns result
              (Error_saving_node (result NodeInfo.wlan_ip)) s) as (o & Ho).
  destruct (try_upsert env result
              (Error_saving_node (result NodeInfo.wlan_ip)) s)
    as [r s1]. cbn in Ho, Hk. subst r.
  exists (results ++ [o])%list. cbn. split; [reflexivity|]. split.
  + intros k Hin. apply Hk. now right.
  + left. split; [rewrite length_app; cbn; lia|].
    apply Hk. now left.
- unfold mbind, read, set_stat, on_self, modify, ret.
  cbn [fst snd self events].
  exists results. split; [reflexivity|]. split.
  + intros k Hin. unfold stat. cbn [self Daemon.set_stat Daemon.with_stats
                                   Daemon.stats].
    unfold Stats.set. destruct (Stats.key_eq_dec k Stats.nodesWithErrors);
      [subst; contradiction | reflexivity].
  + right. split; [reflexivity|]. unfold stat.
    cbn [self Daemon.set_stat Daemon.with_stats Daemon.stats].
    unfold Stats.set.
    destruct (Stats.key_eq_dec Stats.nodesWithErrors Stats.nodesWithErrors);
      congruence.
Qed.

Lemma settle_all_accounts (ks : list Stats.key) (tasks : list task) :
  ~ List.In Stats.nodesWithErrors ks ->
  forall (results : list NodeInfo.t) (s : state),
  exists results' missed,
    fst (settle_all env tasks results s) = Ok results'
    /\ keeps ks s (snd (settle_all env tasks results s))
    /\ (List.length results' + missed
        = List.length results + List.length tasks)%nat
    /\ stat (snd (settle_all env tasks results s)) Stats.nodesWithErrors
       = Nat.iter missed add_one (stat s Stats.nodesWithErrors).
Proof.
intro Hks. induction tasks as [|t rest IH]; intros results s.
- exists results, 0%nat. cbn [settle_all]. unfold ret. cbn [fst snd].
  split; [reflexivity|]. split; [apply keeps_refl|].
  split; [cbn; lia | reflexivity].
- cbn [settle_all]. unfold mbind.
  destruct (@settle_accounts ks t results s Hks) as (r1 & Hr & Hk & Hcase).
  destruct (settle env t results s) as [r s1]. cbn in Hr, Hk, Hcase.
  subst r.
  destruct (IH r1 s1) as (r2 & missed & Hr2 & Hk2 & Hlen & Herr).
  destruct Hcase as [[Hl He] | [-> He]].
  + exists r2, missed. split; [exact Hr2|]. split; [|split].
    * eapply keeps_trans; eassumption.
    * cbn [List.length]. lia.
    * now rewrite Herr, He.
  + exists r2, (S missed). split; [exact Hr2|]. split; [|split].
    * eapply keeps_trans; eassumption.
    * cbn [List.length]. lia.
    * rewrite Herr, He. symmetry. apply Nat.iter_succ_r.
Qed.

(** The fan-out: every candidate ends as a polled node or as an error
    counted. *)
Lemma poll_all_nodes_accounts (ks : list Stats.key) (node_devices : items)
      (s s' : state) (polled_nodes : list NodeInfo.t) :
  ~ List.In Stats.nodesWithErrors ks ->
  hops_known node_devices ->
  _poll_all_nodes env node_devices s = (Ok polled_nodes, s') ->
  exists missed,
    (List.length polled_nodes + missed = List.length node_devices)%nat
    /\ keeps ks s s'
    /\ stat s' Stats.nodesWithErrors
       = Nat.iter missed add_one (stat s Stats.nodesWithErrors).
Proof.
intros Hks Hk. unfold _poll_all_nodes.
unfold mbind at 1, read. 
set (total := Z.of_nat (List.length node_devices)).
set (rl := (1 <? Daemon.cycle_count (self s))%Z).
set (delay := if rl && (0 <? total)%Z
              then (inject_Z (Daemon.poller_cycle_seconds (self s))
                    / inject_Z total)%Q
              else 0%Q).
destruct (create_tasks_known 0 delay rl Hk) as (tasks & Ht & Hlen & _).
unfold mbind at 1, lift. rewrite Ht.
unfold mbind at 1, emit, on_events, modify. cbn [fst snd].
set (s1 := {| self := self s;
              events := (events s ++ [Scheduled
                           (Daemon.parallel_threads (self s)) tasks])%list |}).
destruct (@settle_all_accounts ks tasks Hks [] s1)
  as (r & missed & Hr & Hkeep & Hcount & Herr).
intro Hrun. rewrite Hrun in Hr, Hkeep, Herr. cbn in Hr, Hkeep, Herr.
injection Hr as <-. exists missed. cbn [List.length] in Hcount.
split; [lia|]. split; [|exact Herr].
intros k Hin. rewrite (Hkeep k Hin). reflexivity.
Qed.

Lemma count_pollable_known (node_devices : items) :
  hops_known node_devices ->
  count_pollable node_devices = Ok (Z.of_nat (List.length node_devices)).
Proof.
induction node_devices as [|[ip info] rest IH]; intro Hk; [reflexivity|].
inversion Hk as [|? ? (h & Hh & Hn) Hrest]; subst. cbn in Hh.
cbn [count_pollable]. unfold bind. rewrite Hh, (IH Hrest), Hn.
f_equal. cbn [List.length]. lia.
Qed.

End CountersFacts.

Section CycleCounters.
Import PyVal PyNum Eff World Topology Coordinator Accounting.
Local Open Scope string_scope.

Variable node_data_t : Type.
Variable env : environment node_data_t.

Lemma set_stat_run (k : Stats.key) (v : pyval) (s s1 : state) (a : unit) :
  set_stat k v s = (Ok a, s1) ->
  stat s1 k = v /\ forall k', k' <> k -> stat s1 k' = stat s k'.
Proof.
intro H. assert (Hs : s1 = snd (set_stat k v s)) by now rewrite H.
subst s1. split; [apply set_stat_sets|].
intros k' Hne.
apply (@set_stat_keeps [k'] k v); [|now left].
intros [-> | []]. now apply Hne.
Qed.

Lemma respects_run (A : Type) (R : state -> state -> Prop)
      (c : M state A) (s s1 : state) (r : result A) :
  respects R c -> c s = (r, s1) -> R s s1.
Proof. intros H Hrun. specialize (H s). now rewrite Hrun in H. Qed.

(** The response times of the statistics step touch two statistics
    only. *)
Lemma response_times_keep (ks : list Stats.key) (nodes : list NodeInfo.t) :
  ~ List.In Stats.minResponseTimeMs ks ->
  ~ List.In Stats.maxResponseTimeMs ks ->
  respects (keeps ks)
    (match nodes with
     | [] => ret tt
     | _ =>
         do response_times <- lift (positive_response_times nodes) ;
         match response_times with
         | [] => ret tt
         | _ =>
             do lo <- lift (py_round (py_min response_times) 2) ;
             do _ <- set_stat Stats.minResponseTimeMs lo ;
             do hi <- lift (py_round (py_max response_times) 2) ;
             set_stat Stats.maxResponseTimeMs hi
         end
     end).
Proof.
intros Hmin Hmax.
keeps_steps ks; apply set_stat_keeps; assumption.
Qed.

(** What [_calculate_stats] leaves in the statistics. *)
Lemma calculate_stats_sets (nodes : list NodeInfo.t) (node_devices : items)
      (s s' : state) :
  hops_known node_devices ->
  stat s Stats.nodeTotal = VInt (Z.of_nat (List.length node_devices)) ->
  _calculate_stats nodes node_devices s = (Ok tt, s') ->
  let polled := Z.of_nat (List.length nodes) in
  let unlocated :=
    Z.of_nat (List.length (List.filter has_no_location nodes)) in
  stat s' Stats.totalPolled = VInt polled
  /\ stat s' Stats.garbageReturned
     = VInt (Z.of_nat (List.length node_devices) - polled)
  /\ stat s' Stats.noLocation = VInt unlocated
  /\ stat s' Stats.mappableNodes = VInt (polled - unlocated)
  /\ stat s' Stats.nodeTotal = stat s Stats.nodeTotal
  /\ stat s' Stats.nodesWithErrors = stat s Stats.nodesWithErrors.
Proof.
intros Hk Htotal Hrun polled unlocated.
unfold _calculate_stats in Hrun.
apply mbind_ok in Hrun. destruct Hrun as (a1 & s1 & H1 & Hrun).
apply mbind_ok in Hrun. destruct Hrun as (a2 & s2 & H2 & Hrun).
apply mbind_ok in Hrun. destruct Hrun as (a3 & s3 & H3 & Hrun).
apply mbind_ok in Hrun. destruct Hrun as (a4 & s4 & H4 & Hrun).
apply set_stat_run in H1. destruct H1 as [V1 K1].
apply set_stat_run in H3. destruct H3 as [V3 K3].
apply set_stat_run in H4. destruct H4 as [V4 K4].
assert (H2' : stat s2 Stats.garbageReturned
              = VInt (Z.of_nat (List.length node_devices) - polled)
              /\ forall k', k' <> Stats.garbageReturned ->
                            stat s2 k' = stat s1 k').
{ destruct node_devices as [|x l].
  - apply mbind_ok in H2. destruct H2 as (d & s1' & Hr & H2).
    unfold read in Hr. injection Hr as <- <-.
    apply set_stat_run in H2. destruct H2 as [V2 K2].
    split; [|exact K2]. rewrite V2.
    change (Daemon.stats (self s1) Stats.nodeTotal)
      with (stat s1 Stats.nodeTotal).
    rewrite (K1 Stats.nodeTotal) by discriminate. rewrite Htotal.
    reflexivity.
  - apply mbind_ok in H2. destruct H2 as (p & s1' & Hr & H2).
    unfold lift in Hr. rewrite (count_pollable_known Hk) in Hr.
    injection Hr as <- <-.
    apply set_stat_run in H2. destruct H2 as [V2 K2].
    split; [exact V2 | exact K2]. }
destruct H2' as [V2 K2].
assert (KT : forall k, k <> Stats.minResponseTimeMs ->
                       k <> Stats.maxResponseTimeMs ->
                       stat s' k = stat s4 k).
{ intros k Hmin Hmax.
  assert (Hn1 : ~ List.In Stats.minResponseTimeMs [k])
    by (intros [E | []]; congruence).
  assert (Hn2 : ~ List.In Stats.maxResponseTimeMs [k])
    by (intros [E | []]; congruence).
  apply (@respects_run _ (keeps [k]) _ _ _ _
           (@response_times_keep [k] nodes Hn1 Hn2) Hrun).
  now left. }
repeat split.
- rewrite KT, K4, K3, K2 by discriminate. exact V1.
- rewrite KT, K4, K3 by discriminate. exact V2.
- rewrite KT, K4 by discriminate. exact V3.
- rewrite KT by discriminate. exact V4.
- rewrite KT, K4, K3, K2, K1 by discriminate. reflexivity.
- rewrite KT, K4, K3, K2, K1 by discriminate. reflexivity.
Qed.

End CycleCounters.

Section DaemonKeepsStats.
Import PyVal PyNum Eff World Topology Coordinator Accounting.
Local Open Scope string_scope.

Lemma daemon_keeps_refl (ks : list Stats.key) (d : Daemon.t) :
  daemon_keeps ks d d.
Proof. intros k _. reflexivity. Qed.

Lemma daemon_keeps_trans (ks : list Stats.key) (a b c : Daemon.t) :
  daemon_keeps ks a b -> daemon_keeps ks b c -> daemon_keeps ks a c.
Proof. intros H1 H2 k Hk. rewrite (H2 k Hk). now apply H1. Qed.

Lemma on_self_keeps (ks : list Stats.key) (A : Type) (c : M Daemon.t A) :
  respects (daemon_keeps ks) c -> respects (keeps ks) (on_self c).
Proof.
intros H s. unfold on_self. specialize (H (self s)).
destruct (c (self s)) as [r d]. exact H.
Qed.

Lemma modify_keeps_stats (ks : list Stats.key) (f : Daemon.t -> Daemon.t) :
  (forall d, Daemon.stats (f d) = Daemon.stats d) ->
  respects (daemon_keeps ks) (modify f).
Proof. intros H d k _. cbn. now rewrite H. Qed.

End DaemonKeepsStats.

Ltac daemon_keeps_steps ks :=
  repeat respects_step (@daemon_keeps_refl ks) (@daemon_keeps_trans ks).

Section TopologyKeepsStats.
Import PyVal PyNum Eff World Topology Coordinator Accounting.
Local Open Scope string_scope.

Lemma fetch_topology_keeps_stats (ks : list Stats.key)
      (nodes_payload lqm_payload link_info_payload : pyval) :
  respects (daemon_keeps ks)
           (_fetch_topology nodes_payload lqm_payload link_info_payload).
Proof.
unfold _fetch_topology.
daemon_keeps_steps ks; apply modify_keeps_stats; reflexivity.
Qed.

Lemma add_node_keeps_stats (ks : list Stats.key) (links node : pyval)
      (acc : items * Z) :
  respects (daemon_keeps ks) (add_node links node acc).
Proof.
unfold add_node.
daemon_keeps_steps ks; apply modify_keeps_stats; reflexivity.
Qed.

Lemma add_nodes_keeps_stats (ks : list Stats.key) (links : pyval)
      (entries : list pyval) :
  forall acc, respects (daemon_keeps ks) (add_nodes links entries acc).
Proof.
induction entries as [|node rest IH]; intro acc; cbn [add_nodes].
- daemon_keeps_steps ks.
- daemon_keeps_steps ks; [apply add_node_keeps_stats | apply IH].
Qed.

Lemma build_node_list_keeps_stats (ks : list Stats.key) (topology : pyval) :
  ~ List.In Stats.highestHops ks ->
  respects (daemon_keeps ks) (_build_node_list topology).
Proof.
intro Hks. unfold _build_node_list.
daemon_keeps_steps ks;
  first [ apply add_nodes_keeps_stats
        | intros d k Hk; cbn; unfold Stats.set;
          destruct (Stats.key_eq_dec k Stats.highestHops);
          [subst; contradiction | reflexivity] ].
Qed.

End TopologyKeepsStats.

Section CycleAddsUp.
Import PyVal PyNum Eff World Topology Coordinator Accounting.
Local Open Scope string_scope.

Variable node_data_t : Type.
Variable env : environment node_data_t.

(** What follows the statistics step keeps the counters. *)
Lemma after_stats_keeps :
  respects (keeps counters)
    (do _ <- _build_link_topology env ;
     do _ <- set_stat Stats.pollingTimeSec
               (VFloat (round_ndigits (elapsed env) 2)) ;
     do _ <- _generate_data_files env ;
     do d <- read self ;
     on_events (Persistence.save_polling_stats
                  (accepts env) (Daemon.stats d))).
Proof.
keeps_steps counters;
  first [ apply build_link_topology_keeps
        | apply generate_data_files_keeps
        | apply on_events_keeps
        | apply set_stat_keeps; cbn; intuition discriminate ].
Qed.

Lemma poll_known_topology_adds_up (topology : pyval) (s s' : state) :
  poll_known_topology env topology s = (Ok tt, s') ->
  exists total polled unlocated : nat,
    stat s' Stats.nodeTotal = VInt (Z.of_nat total)
    /\ stat s' Stats.totalPolled = VInt (Z.of_nat polled)
    /\ stat s' Stats.garbageReturned
       = VInt (Z.of_nat total - Z.of_nat polled)
    /\ stat s' Stats.noLocation = VInt (Z.of_nat unlocated)
    /\ stat s' Stats.mappableNodes
       = VInt (Z.of_nat polled - Z.of_nat unlocated)
    /\ (unlocated <= polled <= total)%nat
    /\ stat s' Stats.nodesWithErrors
       = Nat.iter (total - polled) add_one (stat s Stats.nodesWithErrors).
Proof.
unfold poll_known_topology. intro Hrun.
apply mbind_ok in Hrun. destruct Hrun as (nd & s2 & H1 & Hrun).
apply mbind_ok in Hrun. destruct Hrun as (a2 & s3 & H2 & Hrun).
apply mbind_ok in Hrun. destruct Hrun as (a3 & s4 & H3 & Hrun).
apply mbind_ok in Hrun. destruct Hrun as (d & s4' & H4 & Hrun).
unfold read in H4. injection H4 as <- <-.
apply mbind_ok in Hrun. destruct Hrun as (a5 & s5 & H5 & Hrun).
apply mbind_ok in Hrun. destruct Hrun as (polled & s6 & H6 & Hrun).
apply mbind_ok in Hrun. destruct Hrun as (a7 & s7 & H7 & Hrun).
destruct a7.
(* the candidates *)
assert (Hk : hops_known nd).
{ unfold on_self in H1.
  destruct (_build_node_list topology (self s)) as [r d] eqn:Hb.
  injection H1 as -> _. eapply build_node_list_hops. exact Hb. }
assert (E1 : stat s2 Stats.nodesWithErrors = stat s Stats.nodesWithErrors).
{ apply (@respects_run _ (keeps [Stats.nodesWithErrors]) _ _ _ _
           (@on_self_keeps [Stats.nodesWithErrors] _ _
              (@build_node_list_keeps_stats [Stats.nodesWithErrors] topology
                 ltac:(intros [E | []]; discriminate E))) H1).
  now left. }
apply set_stat_run in H2. destruct H2 as [V2 K2].
assert (K3 : keeps [Stats.nodeTotal; Stats.nodesWithErrors] s3 s4)
  by exact (@respects_run _ _ _ _ _ _
              (@update_topology_info_keeps _ env _ nd) H3).
assert (K5 : keeps [Stats.nodeTotal; Stats.nodesWithErrors] s4 s5).
{ apply (@respects_run _ _ _ _ _ _
           (@on_self_keeps [Stats.nodeTotal; Stats.nodesWithErrors] _ _
              (@modify_keeps_stats _ (Daemon.with_parallel_threads _)
                 (fun _ => eq_refl))) H5). }
destruct (@poll_all_nodes_accounts _ env [Stats.nodeTotal] nd s5 s6 polled
            ltac:(intros [E | []]; discriminate E) Hk H6)
  as (missed & Hcount & K6 & E6).
assert (T6 : stat s6 Stats.nodeTotal
             = VInt (Z.of_nat (List.length nd))).
{ rewrite (K6 _ (or_introl eq_refl)), (K5 _ (or_introl eq_refl)),
    (K3 _ (or_introl eq_refl)). exact V2. }
destruct (@calculate_stats_sets polled nd s6 s7 Hk T6 H7)
  as (P & G & U & M & T7 & E7).
pose proof (@respects_run _ _ _ _ _ _ after_stats_keeps Hrun) as K8.
exists (List.length nd), (List.length polled),
       (List.length (List.filter has_no_location polled)).
assert (Hin : forall k, List.In k counters -> stat s' k = stat s7 k)
  by exact K8.
split; [|split; [|split; [|split; [|split; [|split]]]]].
- rewrite Hin by (cbn; auto 10). now rewrite T7.
- rewrite Hin by (cbn; auto 10). exact P.
- rewrite Hin by (cbn; auto 10). exact G.
- rewrite Hin by (cbn; auto 10). exact U.
- rewrite Hin by (cbn; auto 10). exact M.
- split; [apply filter_length_le | lia].
- rewrite Hin by (cbn; auto 10). rewrite E7, E6.
  rewrite (K5 _ (or_intror (or_introl eq_refl))),
    (K3 _ (or_intror (or_introl eq_refl))),
    (K2 Stats.nodesWithErrors ltac:(discriminate)), E1.
  f_equal. lia.
Qed.

(** X23: the counters of a cycle that retrieves a topology and returns
    add up.  [nodeTotal] candidates are either polled or not:
    [garbageReturned = nodeTotal - totalPolled], and it is not negative;
    the polled nodes have a location or not: [mappableNodes = totalPolled
    - noLocation]; and [nodesWithErrors], which no cycle resets, has been
    incremented once for each candidate that was not polled. *)
Theorem poll_cycle_counters_add_up (s : state) (topology : pyval) :
  topology_of env s = Ok topology ->
  truthy topology = true ->
  fst (_poll_cycle env s) = Ok tt ->
  let s' := snd (_poll_cycle env s) in
  exists total polled unlocated : nat,
    stat s' Stats.nodeTotal = VInt (Z.of_nat total)
    /\ stat s' Stats.totalPolled = VInt (Z.of_nat polled)
    /\ stat s' Stats.garbageReturned
       = VInt (Z.of_nat total - Z.of_nat polled)
    /\ stat s' Stats.noLocation = VInt (Z.of_nat unlocated)
    /\ stat s' Stats.mappableNodes
       = VInt (Z.of_nat polled - Z.of_nat unlocated)
    /\ (unlocated <= polled <= total)%nat
    /\ stat s' Stats.nodesWithErrors
       = Nat.iter (total - polled) add_one (stat s Stats.nodesWithErrors).
Proof.
intros Htopo Htruthy Hok s'.
unfold topology_of in Htopo.
set (s0 := {| self := Daemon.with_cycle_count
                        (Daemon.cycle_count (self s) + 1)%Z (self s);
              events := events s |}).
pose proof (@fetch_topology_keeps_stats [Stats.nodesWithErrors]
              (nodes_payload env) (lqm_payload env) (link_info_payload env)
              (self s0)) as Hkeep.
destruct (_fetch_topology (nodes_payload env) (lqm_payload env)
            (link_info_payload env) (self s0)) as [r d1] eqn:Hf.
cbn [self s0] in Hf. rewrite Hf in Htopo. cbn in Htopo. subst r.
set (s1 := {| self := d1; events := events s |}).
assert (Hrun : _poll_cycle env s = poll_known_topology env topology s1).
{ unfold _poll_cycle. unfold mbind at 1 2 3, read, on_self, modify.
  cbn [fst snd self events]. rewrite Hf. cbn [fst snd self events].
  rewrite Htruthy. reflexivity. }
unfold s'. rewrite Hrun in Hok |- *.
destruct (poll_known_topology env topology s1) as [r s2] eqn:Hp.
cbn in Hok. subst r. cbn [snd].
destruct (@poll_known_topology_adds_up topology s1 s2 Hp)
  as (total & polled & unlocated & H1 & H2 & H3 & H4 & H5 & H6 & H7).
exists total, polled, unlocated.
repeat (split; [assumption|]).
rewrite H7. f_equal. cbn [snd] in Hkeep.
exact (Hkeep _ (or_introl eq_refl)).
Qed.

End CycleAddsUp.

Section CycleAddsUpExamples.
Import PyVal PyNum Eff World Topology Coordinator Accounting.
Local Open Scope string_scope.

(** The first cycle of a daemon whose seed lists three nodes that all
    answer: three candidates, three polled, none lost. *)
Lemma poll_cycle_counters_add_up_witness :
  let s' := snd (_poll_cycle Scenario.three_nodes (boot Example.settings)) in
  stat s' Stats.nodeTotal = VInt 3
  /\ stat s' Stats.totalPolled = VInt 3
  /\ stat s' Stats.garbageReturned = VInt 0
  /\ stat s' Stats.nodesWithErrors = VInt 0.
Proof.
cbv zeta.
assert (Htopo : exists topology,
          topology_of Scenario.three_nodes (boot Example.settings)
          = Ok topology /\ truthy topology = true).
{ eexists. split; vm_compute; reflexivity. }
destruct Htopo as (topology & Htopo & Htruthy).
assert (Hok : fst (_poll_cycle Scenario.three_nodes (boot Example.settings))
              = Ok tt) by (vm_compute; reflexivity).
destruct (@poll_cycle_counters_add_up _ Scenario.three_nodes
            (boot Example.settings) topology Htopo Htruthy Hok)
  as (total & polled & unlocated & H1 & H2 & H3 & _ & _ & _ & H7).
assert (Ht : stat (snd (_poll_cycle Scenario.three_nodes
                          (boot Example.settings))) Stats.nodeTotal
             = VInt 3) by (vm_compute; reflexivity).
assert (Hp : stat (snd (_poll_cycle Scenario.three_nodes
                          (boot Example.settings))) Stats.totalPolled
             = VInt 3) by (vm_compute; reflexivity).
rewrite Ht in H1. rewrite Hp in H2.
injection H1 as H1. injection H2 as H2.
assert (total = 3%nat) by lia. assert (polled = 3%nat) by lia. subst.
split; [exact Ht|]. split; [exact Hp|]. split; [exact H3|].
rewrite H7. reflexivity.
Defined.

End CycleAddsUpExamples.

(* ------------------------------------------------------------------ *)
(** * The protocol of a node *)

Section ProtocolFacts.
Import PyVal PyNum Emitter ProtocolSpec PyStr Regex Firmware FirmwareSpec.
Local Open Scope string_scope.

Variable parse_last_seen : pyval -> option Q.
Variable now : Q.

Lemma dotted_quad_not_babel (v : string) (n : Z) :
  dotted_quad v n -> startswith v "babel-" = false.
Proof.
intros (a & b & c & d & -> & [Hla Ha] & _).
destruct a as [|x a]; [destruct Hla; discriminate|].
unfold all_digits in Ha. cbn in Ha. apply andb_prop in Ha.
destruct Ha as [Hx _]. unfold startswith.
cbn [append String.prefix].
destruct (ascii_dec "b"%char x) as [<- | Hne];
  [discriminate Hx | reflexivity].
Qed.

Lemma nightly_not_babel (v : string) (n : Z) :
  nightly v n -> startswith v "babel-" = false.
Proof.
intros (d & h & -> & Hld & Hd & _).
destruct d as [|x d]; [discriminate|].
unfold all_digits in Hd. cbn in Hd. apply andb_prop in Hd.
destruct Hd as [Hx _]. unfold startswith.
cbn [append String.prefix].
destruct (ascii_dec "b"%char x) as [<- | Hne];
  [discriminate Hx | reflexivity].
Qed.

(** X16: the protocol of a node seen within the threshold follows its
    firmware text, white space around it aside: a text that starts with
    [babel-] is Babel Only; a dotted quad or a nightly identifier is OLSR
    Only below the cutoff of its kind and Combo from the cutoff on; any
    other text is Unknown. *)
Theorem determine_protocol_of_fresh
        (self : Daemon.t) (version : string) (last_seen : pyval) (ts : Q) :
  parse_last_seen last_seen = Some ts ->
  Qlt_bool ts (now - inject_Z (Daemon.protocol_threshold_seconds self))%Q
  = false ->
  let v := strip version in
  let vc := Daemon.protocol_version_cutoff self in
  let nc := Daemon.protocol_nightly_cutoff self in
  let p := _determine_protocol parse_last_seen now self
             (VStr version) last_seen in
  (startswith v "babel-" = true -> p = "Babel Only")
  /\ (forall n, dotted_quad v n ->
        p = if (n <? vc)%Z then "OLSR Only" else "Combo")
  /\ (forall n, nightly v n ->
        p = if (n <? nc)%Z then "OLSR Only" else "Combo")
  /\ (startswith v "babel-" = false ->
      (forall n, ~ dotted_quad v n) -> (forall n, ~ nightly v n) ->
      p = "Unknown").
Proof.
intros Hparse Hfresh v vc nc p.
assert (Hp : p = if startswith v "babel-" then "Babel Only"
                 else if (if fullmatch quad_re v
                          then below (version_to_int v) vc
                          else if fullmatch nightly_re v
                               then below (nightly_to_int v) nc
                               else false)
                      then "OLSR Only"
                      else if (if fullmatch quad_re v
                               then at_least (version_to_int v) vc
                               else if fullmatch nightly_re v
                                    then at_least (nightly_to_int v) nc
                                    else false)
                           then "Combo" else "Unknown").
{ unfold p, _determine_protocol. rewrite Hparse, Hfresh.
  unfold is_firmware_value. rewrite !is_firmware_stripped. cbv zeta.
  fold v vc nc.
  change (String.eqb "babel" "babel") with true.
  change (String.eqb "olsr" "babel") with false.
  change (String.eqb "olsr" "olsr") with true.
  change (String.eqb "combo" "babel") with false.
  change (String.eqb "combo" "olsr") with false.
  change (String.eqb "combo" "combo") with true. cbv iota.
  destruct (startswith v "babel-"); reflexivity. }
split; [|split; [|split]].
- intro Hb. now rewrite Hp, Hb.
- intros n Hq. rewrite Hp, (dotted_quad_not_babel Hq).
  assert (Hm : fullmatch quad_re v = true)
    by (apply fullmatch_quad_iff; eauto).
  rewrite Hm, (version_to_int_dotted_quad Hq). cbn [below at_least].
  destruct (Z.ltb_spec n vc); [reflexivity|].
  destruct (Z.leb_spec vc n); [reflexivity | lia].
- intros n Hn. rewrite Hp, (nightly_not_babel Hn).
  assert (Hm : fullmatch nightly_re v = true)
    by (apply fullmatch_nightly_iff; eauto).
  assert (Hq : fullmatch quad_re v = false).
  { destruct (fullmatch quad_re v) eqn:E; [|reflexivity].
    apply quad_not_nightly in E. congruence. }
  rewrite Hq, Hm, (nightly_to_int_nightly Hn). cbn [below at_least].
  destruct (Z.ltb_spec n nc); [reflexivity|].
  destruct (Z.leb_spec nc n); [reflexivity | lia].
- intros Hb Hnq Hnn. rewrite Hp, Hb.
  assert (Hq : fullmatch quad_re v = false).
  { destruct (fullmatch quad_re v) eqn:E; [|reflexivity].
    apply fullmatch_quad_iff in E. destruct E as (n & E).
    now destruct (Hnq n). }
  assert (Hn : fullmatch nightly_re v = false).
  { destruct (fullmatch nightly_re v) eqn:E; [|reflexivity].
    apply fullmatch_nightly_iff in E. destruct E as (n & E).
    now destruct (Hnn n). }
  now rewrite Hq, Hn.
Qed.

End ProtocolFacts.

Section ProtocolExamples.
Import PyVal PyNum Emitter ProtocolSpec PyStr Regex Firmware FirmwareSpec.
Local Open Scope string_scope.

(** A node just seen that runs release 3.25.4.0, below the default
    cutoff 3.25.5.0, is OLSR Only. *)
Lemma determine_protocol_of_fresh_witness :
  _determine_protocol (fun _ => Some 1000%Q) 1000%Q
    (Daemon.init Example.settings) (VStr "  3.25.4.0 ") VNone
  = "OLSR Only".
Proof.
assert (Hq : dotted_quad (strip "  3.25.4.0 ") 3250400).
{ exists "3", "25", "4", "0". unfold component, all_digits.
  repeat split; auto. }
pose proof (@determine_protocol_of_fresh (fun _ => Some 1000%Q) 1000%Q
              (Daemon.init Example.settings) "  3.25.4.0 " VNone 1000%Q
              eq_refl eq_refl) as H.
cbv zeta in H. destruct H as (_ & H & _).
exact (H 3250400%Z Hq).
Defined.

End ProtocolExamples.

(* ------------------------------------------------------------------ *)
(** * The node report and the protocol counts *)

Section ReportFacts.
Import PyVal PyNum Eff Emitter ProtocolSpec.
Local Open Scope string_scope.

Variable parse_last_seen : pyval -> option Q.
Variable now : Q.
Variable node_data_t : Type.
Variable node_data_of : items -> string -> result node_data_t.

Local Abbreviation emit_node :=
  (Emitter.emit_node parse_last_seen now node_data_of).
Local Abbreviation emit_nodes :=
  (Emitter.emit_nodes parse_last_seen now node_data_of).
Local Abbreviation protocol_of :=
  (ProtocolSpec.protocol_of parse_last_seen now).
Local Abbreviation count_protocol :=
  (ProtocolSpec.count_protocol parse_last_seen now).

Lemma count_protocol_cons (self : Daemon.t) (name : string)
      (row : items) (rows : list items) :
  count_protocol self name (row :: rows)
  = ((if String.eqb (protocol_of self row) name then 1 else 0)
     + count_protocol self name rows)%Z.
Proof.
unfold ProtocolSpec.count_protocol. cbn [List.filter].
destruct (String.eqb (protocol_of self row) name); cbn [List.length]; lia.
Qed.

(** One turn of the loop reports the row and counts its protocol. *)
Lemma emit_node_counts (self : Daemon.t) (row : items)
      (acc acc' : accumulator node_data_t) :
  emit_node self row acc = Ok acc' ->
  List.length (node_report acc') = S (List.length (node_report acc))
  /\ forall count name,
       List.In (count, name)
               [ (@babel_count node_data_t, "Babel Only");
                 (@olsr_count node_data_t, "OLSR Only");
                 (@combo_count node_data_t, "Combo") ] ->
       count acc'
       = ((if String.eqb (protocol_of self row) name then 1 else 0)
          + count acc)%Z.
Proof.
unfold Emitter.emit_node, bind.
fold (protocol_of self row).
destruct (node_data_of row _) as [record|]; [|discriminate].
destruct (categorize row) as [place|]; [|discriminate].
intros [= <-]. cbn [node_report babel_count olsr_count combo_count].
split; [rewrite length_app; cbn; lia|].
intros count name [[= <- <-] | [[= <- <-] | [[= <- <-] | []]]];
  cbn [babel_count olsr_count combo_count];
  unfold ProtocolSpec.protocol_of;
  match goal with
  | |- context [String.eqb ?p ?n] => destruct (String.eqb p n)
  end; lia.
Qed.

Lemma emit_nodes_counts (self : Daemon.t) (rows : list items) :
  forall acc acc' : accumulator node_data_t,
  emit_nodes self rows acc = Ok acc' ->
  List.length (node_report acc')
  = (List.length (node_report acc) + List.length rows)%nat
  /\ forall count name,
       List.In (count, name)
               [ (@babel_count node_data_t, "Babel Only");
                 (@olsr_count node_data_t, "OLSR Only");
                 (@combo_count node_data_t, "Combo") ] ->
       count acc' = (count acc + count_protocol self name rows)%Z.
Proof.
induction rows as [|row rest IH]; intros acc acc'.
- cbn. intros [= <-]. split; [lia|]. intros count name _.
  unfold ProtocolSpec.count_protocol. cbn. lia.
- cbn [Emitter.emit_nodes]. unfold bind.
  destruct (emit_node self row acc) as [acc1|] eqn:H1; [|discriminate].
  intro H. apply IH in H. destruct H as [Hlen Hcount].
  apply emit_node_counts in H1. destruct H1 as [Hlen1 Hcount1].
  split; [cbn [List.length]; lia|].
  intros count name Hin.
  rewrite (Hcount _ _ Hin), (Hcount1 _ _ Hin), count_protocol_cons. lia.
Qed.

(** A row has one protocol: the three counts together do not exceed the
    rows. *)
Lemma count_protocol_sum (self : Daemon.t) (rows : list items) :
  (0 <= count_protocol self "Babel Only" rows
   /\ 0 <= count_protocol self "OLSR Only" rows
   /\ 0 <= count_protocol self "Combo" rows
   /\ count_protocol self "Babel Only" rows
      + count_protocol self "OLSR Only" rows
      + count_protocol self "Combo" rows
      <= Z.of_nat (List.length rows))%Z.
Proof.
induction rows as [|row rest IH].
- unfold ProtocolSpec.count_protocol. cbn. lia.
- rewrite !count_protocol_cons. cbn [List.length].
  set (p := protocol_of self row).
  assert (Hone : ((if String.eqb p "Babel Only" then 1 else 0)
                  + (if String.eqb p "OLSR Only" then 1 else 0)
                  + (if String.eqb p "Combo" then 1 else 0) <= 1)%Z).
  { destruct (String.eqb_spec p "Babel Only") as [-> | _];
      [cbn; lia|].
    destruct (String.eqb_spec p "OLSR Only") as [-> | _];
      [cbn; lia|].
    destruct (String.eqb p "Combo"); lia. }
  destruct (String.eqb p "Babel Only"), (String.eqb p "OLSR Only"),
    (String.eqb p "Combo"); lia.
Qed.

End ReportFacts.

Section GenerateCounts.
Import PyVal PyNum Eff World Emitter ProtocolSpec Coordinator.
Local Open Scope string_scope.

Variable node_data_t : Type.
Variable env : environment node_data_t.

Local Abbreviation count_protocol :=
  (ProtocolSpec.count_protocol (parse_last_seen env) (now env)).

(** The statistics of an emitted artifact are those of the daemon with
    the three protocol counts of the loop written over them. *)
Lemma generate_polling_info (s : state) (art : map_data node_data_t) :
  fst (_generate_data_files env s) = Ok (Some art) ->
  exists acc,
    emit_nodes (parse_last_seen env) (now env) (node_data_of env)
               (self s) (all_nodes env) (start node_data_t) = Ok acc
    /\ pollingInfo art
       = Stats.set Stats.comboNodes (VInt (combo_count acc))
           (Stats.set Stats.olsrNodes (VInt (olsr_count acc))
              (Stats.set Stats.babelNodes (VInt (babel_count acc))
                 (Daemon.stats (self s))))
    /\ Daemon.stats (self (snd (_generate_data_files env s)))
       = pollingInfo art.
Proof.
unfold _generate_data_files, try_except, mbind, lift, read, set_stat,
  on_self, on_events, emit, log, modify, ret.
destruct (prepare env); cbn [fst snd self events]; [|discriminate].
destruct (emit_nodes _ _ _ _ _ _) as [acc|]; cbn [fst snd self events];
  [|discriminate].
destruct (map_info env); cbn [fst snd self events]; [|discriminate].
destruct (write_text env "map_data.json"); cbn [fst snd self events];
  [|discriminate].
destruct (write_text env "node_report_data.json");
  cbn [fst snd self events];
  intros [= <-]; exists acc; repeat split; reflexivity.
Qed.

(** X17: the statistics written into the map artifact carry the protocol
    counts of this very run: [babelNodes], [olsrNodes] and [comboNodes]
    are the numbers of rows of the node table the emitter found to be
    Babel Only, OLSR Only and Combo; together they do not exceed the
    number of rows, the rest being Unknown; every other statistic stands
    as it stood before, and the daemon keeps the same statistics. *)
Theorem generate_counts_protocols
        (s : state) (art : map_data node_data_t) :
  fst (_generate_data_files env s) = Ok (Some art) ->
  let rows := all_nodes env in
  let babel := count_protocol (self s) "Babel Only" rows in
  let olsr := count_protocol (self s) "OLSR Only" rows in
  let combo := count_protocol (self s) "Combo" rows in
  pollingInfo art Stats.babelNodes = VInt babel
  /\ pollingInfo art Stats.olsrNodes = VInt olsr
  /\ pollingInfo art Stats.comboNodes = VInt combo
  /\ (0 <= babel /\ 0 <= olsr /\ 0 <= combo
      /\ babel + olsr + combo <= Z.of_nat (List.length rows))%Z
  /\ (forall k, k <> Stats.babelNodes -> k <> Stats.olsrNodes ->
                k <> Stats.comboNodes ->
                pollingInfo art k = Daemon.stats (self s) k)
  /\ Daemon.stats (self (snd (_generate_data_files env s)))
     = pollingInfo art.
Proof.
intros H rows babel olsr combo.
destruct (@generate_polling_info s art H) as (acc & Hacc & Hinfo & Hkeep).
destruct (emit_nodes_counts _ _ _ _ _ _ Hacc) as [_ Hcount].
assert (Hb : babel_count acc = babel).
{ rewrite (Hcount (@babel_count node_data_t) "Babel Only")
    by (cbn; auto). reflexivity. }
assert (Ho : olsr_count acc = olsr).
{ rewrite (Hcount (@olsr_count node_data_t) "OLSR Only")
    by (cbn; auto). reflexivity. }
assert (Hc : combo_count acc = combo).
{ rewrite (Hcount (@combo_count node_data_t) "Combo")
    by (cbn; auto). reflexivity. }
rewrite Hinfo, Hb, Ho, Hc.
split; [reflexivity|]. split; [reflexivity|]. split; [reflexivity|].
split; [apply count_protocol_sum|]. split.
- intros k Hk1 Hk2 Hk3. unfold Stats.set.
  destruct (Stats.key_eq_dec k Stats.comboNodes); [contradiction|].
  destruct (Stats.key_eq_dec k Stats.olsrNodes); [contradiction|].
  destruct (Stats.key_eq_dec k Stats.babelNodes); [contradiction|].
  reflexivity.
- rewrite Hkeep, Hinfo, Hb, Ho, Hc. reflexivity.
Qed.

End GenerateCounts.

Section GenerateCountsExamples.
Import PyVal PyNum Eff World Emitter ProtocolSpec Coordinator.
Local Open Scope string_scope.

(** The three sample rows: one babel node seen just now, two rows with
    no firmware. *)
Lemma generate_counts_protocols_witness :
  exists art,
    fst (_generate_data_files Scenario.online (boot Example.settings))
    = Ok (Some art)
    /\ pollingInfo art Stats.babelNodes = VInt 1
    /\ pollingInfo art Stats.olsrNodes = VInt 0
    /\ pollingInfo art Stats.nodeTotal = VInt 0.
Proof.
destruct (fst (_generate_data_files Scenario.online
                 (boot Example.settings))) as [[art|]|] eqn:E;
  try (vm_compute in E; discriminate E).
exists art. split; [reflexivity|].
pose proof (@generate_counts_protocols _ Scenario.online
              (boot Example.settings) art E) as H.
cbv zeta in H. destruct H as (Hb & Ho & _ & _ & Hk & _).
split; [rewrite Hb; vm_compute; reflexivity|].
split; [rewrite Ho; vm_compute; reflexivity|].
rewrite Hk by discriminate. reflexivity.
Defined.

End GenerateCountsExamples.


Section NodeListFacts.
Import PyVal PyNum Eff World Topology TopologySpec.
Local Open Scope string_scope.

Lemma set_item_entries (Q : pyval * pyval -> Prop) (d : items) (k v : pyval) :
  List.Forall Q d ->
  (forall k' v', Q (k', v') -> Q (k', v)) ->
  Q (k, v) ->
  List.Forall Q (set_item d k v).
Proof.
intros Hd Hkeep Hnew. induction d as [|[k' v'] rest IH]; cbn.
- constructor; [exact Hnew | constructor].
- inversion Hd as [|? ? Hh Ht]; subst.
  destruct (key_eqb k' k); constructor; auto.
  exact (Hkeep _ _ Hh).
Qed.

Lemma add_node_table (links node : pyval) (acc acc' : items * Z)
      (d d' : Daemon.t) :
  add_node links node acc d = (Ok acc', d') ->
  table_ok acc ->
  table_ok acc' /\ Daemon.stats d' = Daemon.stats d.
Proof.
unfold add_node, table_ok.
destruct node as [| | | | | |n]; try (cbn; intros [= <- <-]; auto).
destruct (truthy (get n "ip")) eqn:Hip; [|cbn; intros [= <- <-]; auto].
unfold mbind, lift, ret, modify.
destruct (truthy (get n "is_localnode")); cbn;
  destruct (py_get_key links (get n "ip") (VDict [])); cbn;
  try discriminate;
  intros [= <- <-] [H Hmax]; cbn [fst snd]; (split; [split|reflexivity]).
all: try (apply set_item_entries; auto;
          [ intros k' v' [Hk _]; split; [exact Hk|]; cbn [snd];
            repeat eexists
          | split; [exact Hip|]; cbn [snd]; repeat eexists ]).
all: rewrite Hmax; destruct (fst acc) as [|[k0 v0] rest]; cbn;
  [reflexivity | destruct (key_eqb k0 (get n "ip")); reflexivity].
Qed.

Lemma add_nodes_table (links : pyval) (entries : list pyval) :
  forall (acc acc' : items * Z) (d d' : Daemon.t),
  add_nodes links entries acc d = (Ok acc', d') ->
  table_ok acc ->
  table_ok acc' /\ Daemon.stats d' = Daemon.stats d.
Proof.
induction entries as [|node rest IH]; intros acc acc' d d'; cbn.
- unfold ret. intros [= <- <-]. auto.
- unfold mbind at 1.
  destruct (add_node links node acc d) as [[acc1|e] d1] eqn:H1;
    [|discriminate].
  intros H Hacc.
  destruct (@add_node_table _ _ _ _ _ _ H1 Hacc) as [Hacc1 Hs1].
  destruct (IH _ _ _ _ H Hacc1) as [Hacc' Hs]. split; [exact Hacc'|].
  congruence.
Qed.

(** X20: every entry of the table [_build_node_list] returns has a truthy
    address and is recorded one hop away, whatever the topology; the
    [highestHops] statistic is therefore 1 as soon as the table has an
    entry and 0 when it has none, and no other statistic changes. *)
Theorem build_node_list_one_hop (topology : pyval) (d d' : Daemon.t)
        (node_devices : items) :
  _build_node_list topology d = (Ok node_devices, d') ->
  List.Forall one_hop_entry node_devices
  /\ Daemon.stats d' Stats.highestHops = VInt (highest_hops node_devices)
  /\ forall k, k <> Stats.highestHops ->
               Daemon.stats d' k = Daemon.stats d k.
Proof.
unfold _build_node_list, mbind, lift, modify, ret.
destruct (if truthy topology then py_get topology "nodes" (VList [])
          else Ok (VList [])); [|discriminate].
destruct (if truthy topology then py_get topology "links" (VDict [])
          else Ok (VDict [])); [|discriminate].
destruct (iterate _); [|discriminate].
destruct (add_nodes _ _ _ _) as [[acc|e] d1] eqn:H; [|discriminate].
intros [= <- <-].
destruct (@add_nodes_table _ _ _ _ _ _ H) as [[Hall Hmax] Hs].
{ split; [constructor | reflexivity]. }
split; [exact Hall|]. unfold Daemon.set_stat. cbn [Daemon.stats Daemon.with_stats].
unfold Stats.set. split.
- destruct (Stats.key_eq_dec Stats.highestHops Stats.highestHops);
    [rewrite Hmax; reflexivity | contradiction].
- intros k Hk. destruct (Stats.key_eq_dec k Stats.highestHops);
    [contradiction | rewrite Hs; reflexivity].
Qed.

End NodeListFacts.

Section NodeListExamples.
Import PyVal PyNum Eff World Topology TopologySpec.
Local Open Scope string_scope.

(** Four entries, one without an address and one naming an address a
    second time: a table of two, and the flagged address becomes the
    daemon's [localnode_ip]. *)
Lemma build_node_list_one_hop_witness :
  exists node_devices d',
    _build_node_list three_entries (Daemon.init Example.settings)
    = (Ok node_devices, d')
    /\ List.map fst node_devices = [VStr "10.1.1.1"; VStr "10.1.1.2"]
    /\ List.Forall one_hop_entry node_devices
    /\ Daemon.stats d' Stats.highestHops = VInt 1
    /\ Daemon.localnode_ip d' = VStr "10.1.1.2".
Proof.
destruct (_build_node_list three_entries (Daemon.init Example.settings))
  as [[node_devices|e] d'] eqn:E; [|vm_compute in E; discriminate E].
exists node_devices, d'. split; [reflexivity|].
destruct (@build_node_list_one_hop _ _ _ _ E) as (Hall & Hmax & _).
assert (Hk : List.map fst node_devices = [VStr "10.1.1.1"; VStr "10.1.1.2"]
             /\ Daemon.localnode_ip d' = VStr "10.1.1.2").
{ assert (Hc : (fun p : result items * Daemon.t =>
                   (match fst p with
                    | Ok n => List.map fst n
                    | Raise _ => []
                    end, Daemon.localnode_ip (snd p)))
                  (_build_node_list three_entries
                                    (Daemon.init Example.settings))
                = ([VStr "10.1.1.1"; VStr "10.1.1.2"], VStr "10.1.1.2"))
    by (vm_compute; reflexivity).
  rewrite E in Hc. cbn [fst snd] in Hc. injection Hc as E1 E2.
  split; assumption. }
destruct Hk as [Hk Hl]. split; [exact Hk|]. split; [exact Hall|].
split; [|exact Hl]. rewrite Hmax.
destruct node_devices; [discriminate Hk | reflexivity].
Defined.

End NodeListExamples.

Section FetchFacts.
Import PyVal PyNum Eff World Topology.
Local Open Scope string_scope.

(** X18: a bundle [_fetch_topology] returns carries the node list of the
    seed's payload as it came, and that list is not empty; once the
    daemon knows a [localnode_ip], a bundle is returned only when the
    list already names that address.  The fetch never returns a list it
    has appended the local node to. *)
Theorem fetch_topology_returns_payload_list
        (nodes_payload lqm_payload link_info_payload : pyval)
        (d : Daemon.t) (bundle : items) :
  fst (_fetch_topology nodes_payload lqm_payload link_info_payload d)
  = Ok (VDict bundle) ->
  get bundle "nodes" = payload_list nodes_payload "nodes"
  /\ truthy (payload_list nodes_payload "nodes") = true
  /\ (truthy (Daemon.localnode_ip d) = true ->
      exists entries,
        iterate (payload_list nodes_payload "nodes") = Ok entries
        /\ any_has_ip entries (Daemon.localnode_ip d) = Ok true).
Proof.
unfold _fetch_topology, mbind, lift, read, modify, ret, raise.
destruct (resolve_seed_ip nodes_payload); [|discriminate].
destruct (links_from_lqm lqm_payload); [|discriminate].
cbn [fst snd].
match goal with
| |- context [if ?c then assign _ _ _ else _] =>
    destruct (if c then assign _ _ _ else _); [|discriminate]
end.
cbn [Daemon.localnode_ip Daemon.with_nodelistNode_ip].
destruct (truthy (Daemon.localnode_ip d)).
- destruct (iterate (payload_list nodes_payload "nodes")) as [entries|];
    [|discriminate].
  destruct (any_has_ip _ _) as [[]|] eqn:Hany; try discriminate.
  destruct (truthy (payload_list nodes_payload "nodes"));
    cbn; intros [= <-]; repeat split; try reflexivity.
  intros _. exists entries. split; [reflexivity | exact Hany].
- destruct (truthy (payload_list nodes_payload "nodes"));
    cbn; intros [= <-]; repeat split; try reflexivity.
  discriminate.
Qed.

End FetchFacts.

Section FetchExamples.
Import PyVal PyNum Eff World Topology.
Local Open Scope string_scope.

(** A daemon that knows the neighbour as its local node gets the
    payload's list back. *)
Lemma fetch_topology_returns_payload_list_witness :
  exists bundle,
    fst (_fetch_topology Example.nodes_payload Example.lqm_payload VNone
           (Daemon.with_localnode_ip (VStr "10.1.1.2")
                                     (Daemon.init Example.settings)))
    = Ok (VDict bundle)
    /\ get bundle "nodes" = VList [ Example.neighbour ]
    /\ any_has_ip [ Example.neighbour ] (VStr "10.1.1.2") = Ok true.
Proof.
destruct (fst (_fetch_topology Example.nodes_payload Example.lqm_payload
                 VNone
                 (Daemon.with_localnode_ip (VStr "10.1.1.2")
                    (Daemon.init Example.settings))))
  as [[| | | | | |bundle]|e] eqn:E; try (vm_compute in E; discriminate E).
exists bundle. split; [reflexivity|].
destruct (@fetch_topology_returns_payload_list _ _ _ _ _ E)
  as (Hlist & _ & Hnamed).
split; [exact Hlist|].
destruct (Hnamed eq_refl) as (entries & Hiter & Hany).
cbn in Hiter. injection Hiter as <-. exact Hany.
Defined.

End FetchExamples.


Section PrefillFacts.
Import PyVal PyNum Eff NodeInfo World Persistence PersistenceSpec.
Import Coordinator TopologySpec PrefillSpec.
Local Open Scope string_scope.

Variable node_data_t : Type.
Variable env : environment node_data_t.

Lemma executed_app (a b : journal) :
  executed (a ++ b)%list = (executed a ++ executed b)%list.
Proof. unfold executed. apply flat_map_app. Qed.

Lemma executed_logged (l : list log_entry) :
  executed (List.map Logged l) = [].
Proof. induction l as [|e l IH]; [reflexivity | exact IH]. Qed.

(** A record with float coordinates, through [upsert_node]. *)
Lemma upsert_node_run (accepts : statement -> result unit)
      (node_data : NodeInfo.t) (x y : Q) (j : journal) :
  node_data lat = VFloat x ->
  node_data lon = VFloat y ->
  let written := rounded node_data x y in
  let st := node_statement written in
  upsert_node accepts (node_data, j)
  = (accepts st,
     (written,
      (j ++ List.map Logged (coordinate_warnings written)
         ++ [Executed st]
         ++ List.map Logged (failure_lines written (accepts st)))%list)).
Proof.
intros Hx Hy written st.
set (rx := round_ndigits x 7). set (ry := round_ndigits y 7).
assert (Hlat : written lat = VFloat rx) by reflexivity.
assert (Hlon : written lon = VFloat ry) by reflexivity.
unfold upsert_node, mbind, lift, update_object, read, round_attribute.
cbn [fst snd]. rewrite Hx. cbn [is_not_none py_round bind fst snd].
assert (Hy' : NodeInfo.set lat (VFloat (round_ndigits x 7)) node_data lon
              = VFloat y) by (rewrite <- Hy; reflexivity).
rewrite Hy'. cbn [is_not_none py_round bind fst snd].
fold rx ry. change (NodeInfo.set lon (VFloat ry)
                      (NodeInfo.set lat (VFloat rx) node_data))
  with written.
rewrite Hlat, Hlon, !out_of_range_float.
unfold coordinate_warnings. rewrite Hlat, Hlon.
unfold try_except, on_journal, execute, mbind, modify, lift,
  Persistence.log, ret, raise.
fold st.
destruct (outside rx (-90) 90), (outside ry (-180) 180),
  (accepts st) as [[]|e]; cbn;
  rewrite <- ?app_assoc; cbn [app]; rewrite ?app_nil_r; reflexivity.
Qed.

(** One entry of the table, through the loop of
    [_update_topology_info]. *)
Lemma update_topology_entry_run (kv : pyval * pyval) (s : state) :
  one_hop_entry kv ->
  let run := update_topology_entry env kv s in
  fst run = Ok tt
  /\ executed (events (snd run))
     = (executed (events s)
        ++ [node_statement (prefill_record (pickle_hex env) kv)])%list.
Proof.
destruct kv as [ip info].
intros [_ (links & la & lo & name & flag & Hinfo)]. cbn [snd] in Hinfo.
subst info. cbv zeta.
unfold update_topology_entry, mbind, lift, ret, try_upsert.
cbn [py_index lookup key_eqb String.eqb Ascii.eqb Bool.eqb fst snd
     is_not_none].
match goal with
| |- context [upsert_node ?a (?n, ?j)] =>
    rewrite (@upsert_node_run a n 0 0 j eq_refl eq_refl)
end.
cbv zeta.
match goal with
| |- context [accepts env ?st] => destruct (accepts env st) as [[]|e]
end; cbn [fst snd events self]; (split; [reflexivity|]);
  rewrite ?executed_app; cbn [executed flat_map app List.map
                               coordinate_warnings failure_lines];
  rewrite ?app_nil_r; reflexivity.
Qed.

Lemma update_topology_info_run (node_devices : items) :
  forall s : state,
  List.Forall one_hop_entry node_devices ->
  let run := _update_topology_info env node_devices s in
  fst run = Ok tt
  /\ executed (events (snd run))
     = (executed (events s)
        ++ List.map (fun kv => node_statement
                                 (prefill_record (pickle_hex env) kv))
                    node_devices)%list.
Proof.
induction node_devices as [|kv rest IH]; intros s Hall; cbv zeta.
- cbn. split; [reflexivity | now rewrite app_nil_r].
- inversion Hall as [|? ? Hkv Hrest]; subst.
  destruct (@update_topology_entry_run kv s Hkv) as [Hr He].
  unfold _update_topology_info. cbn [for_each]. unfold mbind at 1.
  destruct (update_topology_entry env kv s) as [[[]|e] s1] eqn:E;
    cbn [fst snd] in Hr, He; [|discriminate].
  destruct (IH s1 Hrest) as [Hr' He']. cbv zeta in Hr', He'.
  unfold _update_topology_info in Hr', He'. cbv beta iota.
  split; [exact Hr'|]. unfold mbind. rewrite E. rewrite He', He, <- app_assoc. reflexivity.
Qed.

(** X21: before it polls, the cycle upserts one row for every entry of
    the table [_build_node_list] built, in the table's order, and the
    call returns whatever the store answers.  Such a row carries the
    entry's address, hop count and link map and the defaults of
    [NodeInfo] everywhere else; when the address is already in the
    table, the update therefore sets the name, the coordinates, the
    firmware and every other polled column back to its default and
    refreshes [last_seen], whether or not the node answers later. *)
Theorem update_topology_info_resets_rows (node_devices : items)
        (s : state) :
  List.Forall one_hop_entry node_devices ->
  let run := _update_topology_info env node_devices s in
  let row := fun kv => node_statement (prefill_record (pickle_hex env) kv) in
  fst run = Ok tt
  /\ executed (events (snd run))
     = (executed (events s) ++ List.map row node_devices)%list
  /\ forall kv column value,
       List.In (column, value) reset_columns ->
       updated_value (row kv) column = Some value.
Proof.
intros Hall run row.
destruct (@update_topology_info_run node_devices s Hall) as [Hr He].
split; [exact Hr|]. split; [exact He|].
intros kv column value Hin. unfold row.
cbn in Hin.
repeat (destruct Hin as [[= <- <-] | Hin]; [reflexivity|]).
destruct Hin.
Qed.

End PrefillFacts.

Section PrefillExamples.
Import PyVal PyNum Eff NodeInfo World Persistence PersistenceSpec.
Import Coordinator TopologySpec PrefillSpec.
Local Open Scope string_scope.

Lemma two_entries_one_hop : List.Forall one_hop_entry two_entries.
Proof.
repeat constructor; cbn [snd]; repeat eexists.
Qed.

(** Two entries: two statements, each setting [lat] back to zero. *)
Lemma update_topology_info_resets_rows_witness :
  let run := _update_topology_info Scenario.online two_entries
                                   (boot Example.settings) in
  fst run = Ok tt
  /\ List.length (executed (events (snd run))) = 2%nat
  /\ List.map (fun st => updated_value st "lat")
              (executed (events (snd run)))
     = [ Some (Param (VFloat (0 # 10000000)));
         Some (Param (VFloat (0 # 10000000))) ].
Proof.
cbv zeta.
pose proof (@update_topology_info_resets_rows _ Scenario.online
              two_entries (boot Example.settings) two_entries_one_hop)
  as H.
cbv zeta in H. destruct H as (Hr & He & _).
split; [exact Hr|]. rewrite He. split; vm_compute; reflexivity.
Defined.

End PrefillExamples.

Section UpsertTwice.
Import PyVal PyNum Eff NodeInfo World Persistence PersistenceSpec.
Local Open Scope string_scope.

Variable accepts : statement -> result unit.

Lemma round_half_even_Qeq (q r : Q) :
  (q == r)%Q -> round_half_even q = round_half_even r.
Proof.
intro H. unfold round_half_even.
rewrite (Qfloor_comp q r H).
assert (Hc : Qcompare (q - inject_Z (Qfloor r)) (1 # 2)
             = Qcompare (r - inject_Z (Qfloor r)) (1 # 2)).
{ apply Qcompare_comp; [rewrite H|]; reflexivity. }
rewrite Hc. reflexivity.
Qed.

Lemma round_half_even_integer (k : Z) : round_half_even (inject_Z k) = k.
Proof.
unfold round_half_even. rewrite Qfloor_Z.
assert (Hc : Qcompare (inject_Z k - inject_Z k) (1 # 2) = Lt).
{ rewrite <- Qlt_alt.
  setoid_replace (inject_Z k - inject_Z k)%Q with 0%Q by ring.
  reflexivity. }
rewrite Hc. reflexivity.
Qed.

(** Rounding a rounded number gives the same number. *)
Lemma round_ndigits_idempotent (q : Q) (n : nat) :
  round_ndigits (round_ndigits q n) n = round_ndigits q n.
Proof.
unfold round_ndigits at 1 3.
set (k := round_half_even (q * pow10 n)).
assert (H : (round_ndigits q n * pow10 n == inject_Z k)%Q).
{ unfold round_ndigits. fold k. pose proof (pow10_pos n). field. lra. }
rewrite (round_half_even_Qeq H), round_half_even_integer. reflexivity.
Qed.

Lemma rounded_settled (node_data : NodeInfo.t) (x y : Q) (f : field) :
  rounded (rounded node_data x y) (round_ndigits x 7) (round_ndigits y 7) f
  = rounded node_data x y f.
Proof.
unfold rounded. rewrite !round_ndigits_idempotent. unfold set.
destruct (field_eq_dec f lon); [reflexivity|].
destruct (field_eq_dec f lat); reflexivity.
Qed.

(** X22: [upsert_node] settles the record it is handed: a second call on
    the same record changes no attribute of it, hands the store the very
    statement of the first call and ends as the store answers it. *)
Theorem upsert_node_settles
        (node_data : NodeInfo.t) (x y : Q) (j : journal) :
  node_data lat = VFloat x ->
  node_data lon = VFloat y ->
  let first := upsert_node accepts (node_data, j) in
  let second := upsert_node accepts (snd first) in
  let st := node_statement (rounded node_data x y) in
  fst first = accepts st
  /\ fst second = accepts st
  /\ (forall f, fst (snd second) f = fst (snd first) f)
  /\ executed (snd (snd first)) = (executed j ++ [st])%list
  /\ executed (snd (snd second)) = (executed j ++ [st; st])%list.
Proof.
intros Hx Hy first second st. unfold second, first.
rewrite (@upsert_node_run accepts node_data x y j Hx Hy).
cbv zeta. cbn [fst snd]. fold st.
set (written := rounded node_data x y).
set (j1 := (j ++ _)%list).
pose proof (@upsert_node_run accepts written (round_ndigits x 7)
              (round_ndigits y 7) j1 eq_refl eq_refl) as Hsecond.
cbv zeta in Hsecond. unfold journal in *. rewrite Hsecond.
cbn [fst snd].
assert (Hst : node_statement
                (rounded written (round_ndigits x 7) (round_ndigits y 7))
              = st).
{ apply node_statement_ext. intro f. apply rounded_settled. }
rewrite Hst.
assert (Hj1 : executed j1 = (executed j ++ [st])%list).
{ unfold j1. rewrite !executed_app, !executed_logged.
  cbn. rewrite ?app_nil_r. reflexivity. }
split; [reflexivity|]. split; [reflexivity|].
split; [intro f; apply rounded_settled|].
split; [exact Hj1|].
rewrite !executed_app, !executed_logged, Hj1, <- app_assoc.
cbn. reflexivity.
Qed.

End UpsertTwice.

Section UpsertTwiceExamples.
Import PyVal PyNum Eff NodeInfo World Persistence PersistenceSpec.
Local Open Scope string_scope.

Lemma upsert_node_settles_witness :
  let first := upsert_node (fun _ => Ok tt) (off_the_map, [] : journal) in
  let second := upsert_node (fun _ => Ok tt) (snd first) in
  fst (snd second) lat = VFloat (951234568 # 10000000)
  /\ List.length (executed (snd (snd second))) = 2%nat.
Proof.
cbv zeta.
pose proof (@upsert_node_settles (fun _ => Ok tt) off_the_map
              (95123456789 # 1000000000) (-401 # 2) [] eq_refl eq_refl)
  as H.
cbv zeta in H. destruct H as (_ & _ & Hobj & _ & Hex).
rewrite Hobj, Hex. split; [vm_compute; reflexivity | reflexivity].
Defined.

End UpsertTwiceExamples.


Section SysinfoInvariantFacts.
Import PyVal NodeInfo Sysinfo SysinfoInvariant.
Local Open Scope string_scope.

Variable py_float : pyval -> result pyval.
Variable py_str : pyval -> pyval.
Variable pickle_hex : pyval -> pyval.

Lemma flag_is_flag (v : pyval) : is_flag (flag v).
Proof. unfold flag, is_flag. destruct (boolish v); auto. Qed.

Lemma set_well_flagged (f : field) (v : pyval) (ni : NodeInfo.t) :
  (if field_eq_dec f mesh_gateway then is_flag v else True) ->
  (if field_eq_dec f mesh_supernode then is_flag v else True) ->
  (if in_dec field_eq_dec f unparsed then False else True) ->
  well_flagged ni -> well_flagged (set f v ni).
Proof.
intros Hg Hs Hu (Wg & Ws & Wu). unfold well_flagged, set.
split; [|split].
- destruct (field_eq_dec mesh_gateway f) as [<-|_]; [|exact Wg].
  destruct (field_eq_dec mesh_gateway mesh_gateway); [exact Hg|congruence].
- destruct (field_eq_dec mesh_supernode f) as [<-|_]; [|exact Ws].
  destruct (field_eq_dec mesh_supernode mesh_supernode);
    [exact Hs|congruence].
- intros g Hin. destruct (field_eq_dec g f) as [->|_]; [|exact (Wu g Hin)].
  destruct (in_dec field_eq_dec f unparsed); [contradiction|contradiction].
Qed.

Ltac keeps_flags :=
  repeat first
    [ assumption
    | apply set_well_flagged;
      [ cbn; first [exact I | assumption | apply flag_is_flag]
      | cbn; first [exact I | assumption | apply flag_is_flag]
      | cbn; exact I
      | ] ].

Lemma set_if_present_well_flagged d k f conv (ni : NodeInfo.t) :
  (if field_eq_dec f mesh_gateway then forall v, is_flag (conv v) else True) ->
  (if field_eq_dec f mesh_supernode then forall v, is_flag (conv v)
   else True) ->
  (if in_dec field_eq_dec f unparsed then False else True) ->
  well_flagged ni -> well_flagged (set_if_present d k f conv ni).
Proof.
intros Hg Hs Hu W. unfold set_if_present.
destruct (has_key d k); [|exact W].
apply set_well_flagged; try assumption.
- destruct (field_eq_dec f mesh_gateway); [apply Hg | exact I].
- destruct (field_eq_dec f mesh_supernode); [apply Hs | exact I].
Qed.

Lemma parse_interface_well_flagged (iface : pyval) (ni ni' : NodeInfo.t) :
  parse_interface iface ni = Ok ni' -> well_flagged ni -> well_flagged ni'.
Proof.
unfold parse_interface. intros H W. revert H.
destruct iface; try (intros [= <-]; exact W).
repeat match goal with
       | |- context [if ?b then _ else _] => destruct b
       end;
  try (intros [= <-]; keeps_flags).
all: destruct (startswith _ _) as [[]|]; cbn;
  try discriminate; intros [= <-]; keeps_flags.
Qed.

Lemma parse_interfaces_well_flagged (ifaces : list pyval) :
  forall ni ni' : NodeInfo.t,
  parse_interfaces ifaces ni = Ok ni' -> well_flagged ni -> well_flagged ni'.
Proof.
induction ifaces as [|iface rest IH]; intros ni ni'; cbn.
- intros [= <-]. auto.
- unfold bind. destruct (parse_interface iface ni) as [ni1|] eqn:H1;
    [|discriminate].
  intros H W. apply (IH _ _ H).
  exact (@parse_interface_well_flagged _ _ _ H1 W).
Qed.

Lemma parse_nested_sysinfo_well_flagged d (ni : NodeInfo.t) :
  well_flagged ni ->
  well_flagged (parse_nested_sysinfo py_str pickle_hex d ni).
Proof.
intro W. unfold parse_nested_sysinfo.
assert (Wu : well_flagged (set_if_present d "uptime" uptime py_str ni)).
{ apply set_if_present_well_flagged; cbn; auto. }
destruct (lookup (VStr "loads") d) as [[| | | | |l|]|]; try exact Wu.
keeps_flags.
Qed.

Lemma parse_node_details_well_flagged d (ni : NodeInfo.t) :
  well_flagged ni -> well_flagged (parse_node_details d ni).
Proof.
intro W. unfold parse_node_details.
repeat (apply set_if_present_well_flagged;
        [ cbn; try exact I; intro; apply flag_is_flag
        | cbn; try exact I; intro; apply flag_is_flag
        | cbn; exact I
        | ]).
exact W.
Qed.

Lemma parse_meshrf_well_flagged d (ni ni' : NodeInfo.t) :
  parse_meshrf py_float py_str d ni = Ok ni' ->
  well_flagged ni -> well_flagged ni'.
Proof.
intros H W. revert H. unfold parse_meshrf, bind.
destruct (lookup (VStr "antenna") d) as [[| | | | | |ant]|];
  try (intros [= <-]; keeps_flags).
destruct (py_float (get_default ant "gain" (VInt 0))); [|discriminate].
destruct (py_float (get_default ant "beamwidth" (VInt 0))); [|discriminate].
intros [= <-]. keeps_flags.
Qed.

Lemma parse_tunnels_well_flagged d (ni : NodeInfo.t) :
  well_flagged ni -> well_flagged (parse_tunnels py_str d ni).
Proof. intro W. unfold parse_tunnels. keeps_flags. Qed.

Lemma parse_item_well_flagged key value (ni ni' : NodeInfo.t) :
  parse_item py_float py_str pickle_hex key value ni = Ok ni' ->
  well_flagged ni -> well_flagged ni'.
Proof.
intros H W. revert H. unfold parse_item, float_or_zero, bind.
assert (Hfloat : forall g,
          (if field_eq_dec g mesh_gateway then False else True) ->
          (if field_eq_dec g mesh_supernode then False else True) ->
          (if in_dec field_eq_dec g unparsed then False else True) ->
          match (if truthy value then py_float value else Ok (VFloat 0)) with
          | Ok x => Ok (set g x ni)
          | Raise e => Raise e
          end = Ok ni' -> well_flagged ni').
{ intros g Hg Hs Hu.
  destruct (if truthy value then py_float value else Ok (VFloat 0));
    [|discriminate].
  intros [= <-]. apply set_well_flagged; try assumption.
  - destruct (field_eq_dec g mesh_gateway); [contradiction | exact I].
  - destruct (field_eq_dec g mesh_supernode); [contradiction | exact I]. }
repeat match goal with
       | |- (if eq_str key ?k then _ else _) = _ -> _ =>
           destruct (eq_str key k);
           [ first [ intros [= <-]; solve [keeps_flags]
                   | apply Hfloat; cbn; exact I ] | ]
       end.
pose proof (flag_is_flag value) as Hflag.
set (fv := flag value) in *. clearbody fv.
destruct value as [| | | | |l|d];
  repeat match goal with
         | |- (if eq_str key ?k then _ else _) = _ -> _ =>
             destruct (eq_str key k);
             [ first [ intros [= <-]; solve [keeps_flags]
                     | intros [= <-];
                       now apply parse_nested_sysinfo_well_flagged
                     | intros [= <-];
                       now apply parse_node_details_well_flagged
                     | intro H; exact (@parse_meshrf_well_flagged _ _ _ H W)
                     | intro H;
                       exact (@parse_interfaces_well_flagged _ _ _ H W)
                     | intros [= <-];
                       now apply parse_tunnels_well_flagged ] | ]
         end;
  intros [= <-]; exact W.
Qed.

Lemma parse_items_well_flagged (data : items) :
  forall ni ni' : NodeInfo.t,
  parse_items py_float py_str pickle_hex data ni = Ok ni' ->
  well_flagged ni -> well_flagged ni'.
Proof.
induction data as [|[key value] rest IH]; intros ni ni'; cbn.
- intros [= <-]. auto.
- unfold bind.
  destruct (parse_item py_float py_str pickle_hex key value ni)
    as [ni1|] eqn:H1; [|discriminate].
  intros H W. apply (IH _ _ H).
  exact (@parse_item_well_flagged _ _ _ _ H1 W).
Qed.

(** X14: whatever the document says and however it spells them, the two
    flags of a parsed record are the strings ["true"] or ["false"]; and
    the parser assigns neither [hopsAway] nor [band], [last_seen] or
    [response_time_ms], which hold the defaults of [NodeInfo] in every
    record it returns, even when the document has keys of those names. *)
Theorem parse_sysinfo_flags_and_defaults
        (data : items) (ip : string) (ni : NodeInfo.t) :
  _parse_sysinfo py_float py_str pickle_hex data ip = Ok ni ->
  is_flag (ni mesh_gateway) /\ is_flag (ni mesh_supernode)
  /\ ni hopsAway = VInt 0 /\ ni band = VStr "Unknown"
  /\ ni last_seen = VNone /\ ni response_time_ms = VFloat 0.
Proof.
intro H. unfold _parse_sysinfo in H.
destruct (@parse_items_well_flagged data _ _ H) as (Wg & Ws & Wu).
{ apply set_well_flagged; cbn; try exact I.
  split; [right; reflexivity|]. split; [right; reflexivity|]. reflexivity. }
split; [exact Wg|]. split; [exact Ws|].
repeat split; apply Wu; cbn; auto.
Qed.

End SysinfoInvariantFacts.

Section SysinfoInvariantExamples.
Import PyVal NodeInfo Sysinfo SysinfoInvariant.
Local Open Scope string_scope.

Lemma parse_sysinfo_flags_and_defaults_witness :
  exists ni,
    _parse_sysinfo (fun v => Ok v) (fun v => v) (fun v => v)
                   odd_flags "10.1.1.1" = Ok ni
    /\ ni mesh_gateway = VStr "true"
    /\ ni mesh_supernode = VStr "false"
    /\ ni hopsAway = VInt 0
    /\ ni last_seen = VNone.
Proof.
destruct (_parse_sysinfo (fun v => Ok v) (fun v => v) (fun v => v)
                         odd_flags "10.1.1.1") as [ni|e] eqn:E;
  [|vm_compute in E; discriminate E].
exists ni. split; [reflexivity|].
destruct (@parse_sysinfo_flags_and_defaults _ _ _ _ _ _ E)
  as (_ & _ & Hh & _ & Hl & _).
assert (Hg : NodeInfo.attribute mesh_gateway
               (_parse_sysinfo (fun v => Ok v) (fun v => v) (fun v => v)
                               odd_flags "10.1.1.1")
             = Some (VStr "true")) by (vm_compute; reflexivity).
assert (Hs : NodeInfo.attribute mesh_supernode
               (_parse_sysinfo (fun v => Ok v) (fun v => v) (fun v => v)
                               odd_flags "10.1.1.1")
             = Some (VStr "false")) by (vm_compute; reflexivity).
rewrite E in Hg, Hs. cbn in Hg, Hs.
injection Hg as Hg. injection Hs as Hs. auto.
Defined.

End SysinfoInvariantExamples.


Section GeoSymmetry.
Import PyVal Geo.
Local Open Scope R_scope.

Lemma sin_half_neg_square (x : R) : sin (- x / 2) ^ 2 = sin (x / 2) ^ 2.
Proof.
replace (- x / 2) with (- (x / 2)) by field. rewrite sin_neg. ring.
Qed.

Lemma haversine_symmetric (lat1 lon1 lat2 lon2 : R) :
  haversine lat2 lon2 lat1 lon1 = haversine lat1 lon1 lat2 lon2.
Proof.
unfold haversine, radians.
replace ((lat1 - lat2) * (PI / 180) / 2)
  with (- ((lat2 - lat1) * (PI / 180)) / 2) by field.
replace ((lon1 - lon2) * (PI / 180) / 2)
  with (- ((lon2 - lon1) * (PI / 180)) / 2) by field.
rewrite !sin_half_neg_square. ring.
Qed.

(** X3: the two distances do not depend on the direction: when the
    helper returns from the first point to the second and from the
    second to the first, it returns the same [distanceKM] and the same
    [distanceMiles]. *)
Theorem calculate_distance_bearing_symmetric
        (lat1 lon1 lat2 lon2 : R) (there back : distance_bearing) :
  _calculate_distance_bearing lat1 lon1 lat2 lon2 = Ok there ->
  _calculate_distance_bearing lat2 lon2 lat1 lon1 = Ok back ->
  distanceKM back = distanceKM there
  /\ distanceMiles back = distanceMiles there.
Proof.
unfold _calculate_distance_bearing.
rewrite (haversine_symmetric lat1 lon1 lat2 lon2).
destruct (py_sqrt (haversine lat1 lon1 lat2 lon2)) as [root_a|];
  [|discriminate].
cbn [bind].
destruct (py_sqrt (1 - haversine lat1 lon1 lat2 lon2)) as [root_b|];
  [|discriminate].
cbn [bind]. intros [= <-] [= <-]. split; reflexivity.
Qed.

End GeoSymmetry.

Section GeoExamples.
Import PyVal Geo.
Local Open Scope R_scope.

(** Between the origin and the point one degree to the east. *)
Lemma calculate_distance_bearing_symmetric_witness :
  exists there back,
    _calculate_distance_bearing 0 0 0 1 = Ok there
    /\ _calculate_distance_bearing 0 1 0 0 = Ok back
    /\ distanceKM back = distanceKM there
    /\ distanceMiles back = distanceMiles there.
Proof.
destruct (calculate_distance_bearing_run 0 0 0 1) as (there & Ht & _).
destruct (calculate_distance_bearing_run 0 1 0 0) as (back & Hb & _).
exists there, back. split; [exact Ht|]. split; [exact Hb|].
exact (@calculate_distance_bearing_symmetric 0 0 0 1 there back Ht Hb).
Defined.

End GeoExamples.


Section VersionOrderFacts.
Import PyStr Firmware FirmwareSpec VersionOrder.
Local Open Scope string_scope.

Lemma digit_val_range (c : ascii) :
  is_digit c = true -> (0 <= digit_val c <= 9)%Z.
Proof.
rewrite is_digit_bounds. unfold digit_val. lia.
Qed.

Lemma component_range (s : string) :
  component s -> (0 <= dec_value s <= 99)%Z.
Proof.
intros [Hlen Hd]. unfold all_digits in Hd. unfold dec_value.
destruct s as [|c1 [|c2 [|c3 r]]]; cbn in Hlen; try lia.
- cbn in Hd. rewrite andb_true_r in Hd.
  pose proof (digit_val_range c1 Hd). cbn. lia.
- cbn in Hd. rewrite andb_true_r in Hd. apply andb_prop in Hd.
  destruct Hd as [H1 H2].
  pose proof (digit_val_range c1 H1). pose proof (digit_val_range c2 H2).
  cbn. lia.
Qed.

Lemma version_to_int_quad (a b c d : string) :
  component a -> component b -> component c -> component d ->
  version_to_int (quad a b c d)
  = Some (dec_value a * 1000000 + dec_value b * 10000
          + dec_value c * 100 + dec_value d)%Z.
Proof.
intros Ha Hb Hc Hd. apply version_to_int_dotted_quad.
exists a, b, c, d. repeat split; try assumption; apply Ha || apply Hb
  || apply Hc || apply Hd.
Qed.

(** X15: on release numbers of four components of one or two digits each,
    [version_to_int] is an order embedding: one release gets a smaller
    integer than another exactly when its four numbers come first in the
    order of tuples, and two releases get the same integer only when
    their four numbers agree. *)
Theorem version_to_int_orders_releases (a b c d a' b' c' d' : string) :
  component a -> component b -> component c -> component d ->
  component a' -> component b' -> component c' -> component d' ->
  exists n n',
    version_to_int (quad a b c d) = Some n
    /\ version_to_int (quad a' b' c' d') = Some n'
    /\ ((n < n')%Z <-> lex_lt (numbers a b c d) (numbers a' b' c' d'))
    /\ (n = n' <-> numbers a b c d = numbers a' b' c' d').
Proof.
intros Ha Hb Hc Hd Ha' Hb' Hc' Hd'.
rewrite (version_to_int_quad Ha Hb Hc Hd).
rewrite (version_to_int_quad Ha' Hb' Hc' Hd').
eexists. eexists. split; [reflexivity|]. split; [reflexivity|].
pose proof (component_range Ha). pose proof (component_range Hb).
pose proof (component_range Hc). pose proof (component_range Hd).
pose proof (component_range Ha'). pose proof (component_range Hb').
pose proof (component_range Hc'). pose proof (component_range Hd').
unfold numbers. cbn [lex_lt].
generalize dependent (dec_value a). generalize dependent (dec_value b).
generalize dependent (dec_value c). generalize dependent (dec_value d).
generalize dependent (dec_value a'). generalize dependent (dec_value b').
generalize dependent (dec_value c'). generalize dependent (dec_value d').
intros. split; split.
- lia.
- lia.
- intro. f_equal; [|f_equal; [|f_equal; [|f_equal]]]; lia.
- intros [= -> -> -> ->]. reflexivity.
Qed.

End VersionOrderFacts.

Section VersionOrderExamples.
Import PyStr Firmware FirmwareSpec VersionOrder.
Local Open Scope string_scope.

Lemma one_or_two_digits (s : string) :
  ((String.length s =? 1)%nat || (String.length s =? 2)%nat)
  && forallb_chars is_digit s = true ->
  component s.
Proof.
intro H. apply andb_prop in H. destruct H as [Hl Hd].
split; [|exact Hd]. apply orb_prop in Hl.
destruct Hl as [Hl|Hl]; apply Nat.eqb_eq in Hl; auto.
Qed.

(** 3.9.0.0 comes before 3.25.5.0, though its text sorts after. *)
Lemma version_to_int_orders_releases_witness :
  exists n n',
    version_to_int "3.9.0.0" = Some n
    /\ version_to_int "3.25.5.0" = Some n'
    /\ (n < n')%Z.
Proof.
destruct (@version_to_int_orders_releases "3" "9" "0" "0" "3" "25" "5" "0")
  as (n & n' & Hn & Hn' & Hlt & _);
  try (apply one_or_two_digits; reflexivity).
exists n, n'. split; [exact Hn|]. split; [exact Hn'|].
apply Hlt. cbn. right. split; [reflexivity|]. left. reflexivity.
Defined.

End VersionOrderExamples.


Section LinkTypeFacts.
Import PyStr PyVal Topology LinkTypeSpec.
Local Open Scope string_scope.

Lemma to_lower_to_upper (c : ascii) : to_lower (to_upper c) = to_lower c.
Proof. destruct c as [[] [] [] [] [] [] [] []]; reflexivity. Qed.

Lemma to_lower_to_lower (c : ascii) : to_lower (to_lower c) = to_lower c.
Proof. destruct c as [[] [] [] [] [] [] [] []]; reflexivity. Qed.

Lemma to_upper_to_upper (c : ascii) : to_upper (to_upper c) = to_upper c.
Proof. destruct c as [[] [] [] [] [] [] [] []]; reflexivity. Qed.

Lemma to_upper_to_lower (c : ascii) : to_upper (to_lower c) = to_upper c.
Proof. destruct c as [[] [] [] [] [] [] [] []]; reflexivity. Qed.

Lemma map_chars_twice (f g h : ascii -> ascii) (s : string) :
  (forall c, f (g c) = h c) ->
  map_chars f (map_chars g s) = map_chars h s.
Proof.
intro H. induction s as [|c r IH]; cbn; [reflexivity|].
now rewrite H, IH.
Qed.

Lemma map_chars_truthy (f : ascii -> ascii) (s : string) :
  truthy (VStr (map_chars f s)) = truthy (VStr s).
Proof. destruct s; reflexivity. Qed.

(** The classification reads the lower-case spelling and, failing the
    three families, writes the upper-case one. *)
Lemma normalise_link_type_text (s : string) :
  normalise_link_type (VStr s)
  = Ok (VStr (if in_list (lower s) ["wireguard"; "tunnel"; "tun"] then "TUN"
              else if in_list (lower s) ["dtd"; "dtdlink"] then "DTD"
              else if String.eqb (lower s) "rf" then "RF"
              else if truthy (VStr s) then upper s else "UNKNOWN")).
Proof.
unfold normalise_link_type, py_lower, py_upper, bind.
destruct (in_list (lower s) _); [reflexivity|].
destruct (in_list (lower s) _); [reflexivity|].
destruct (String.eqb (lower s) "rf"); [reflexivity|].
destruct (truthy (VStr s)); reflexivity.
Qed.

(** X19: the link type recorded for a tracker does not depend on how the
    tracker spells its type in upper and lower case, and what is
    recorded is in upper case: the type, its upper-case and its
    lower-case spelling are recorded alike, as [TUN], [DTD], [RF],
    [UNKNOWN] for the empty text, or the text in upper case. *)
Theorem normalise_link_type_ignores_case (s : string) :
  ascii_text s ->
  exists out,
    normalise_link_type (VStr s) = Ok (VStr out)
    /\ normalise_link_type (VStr (upper s)) = Ok (VStr out)
    /\ normalise_link_type (VStr (lower s)) = Ok (VStr out)
    /\ upper out = out.
Proof.
intros _. rewrite !normalise_link_type_text.
assert (Hlu : lower (upper s) = lower s)
  by (apply map_chars_twice, to_lower_to_upper).
assert (Hll : lower (lower s) = lower s)
  by (apply map_chars_twice, to_lower_to_lower).
assert (Huu : upper (upper s) = upper s)
  by (apply map_chars_twice, to_upper_to_upper).
assert (Hul : upper (lower s) = upper s)
  by (apply map_chars_twice, to_upper_to_lower).
assert (Htu : truthy (VStr (upper s)) = truthy (VStr s))
  by apply map_chars_truthy.
assert (Htl : truthy (VStr (lower s)) = truthy (VStr s))
  by apply map_chars_truthy.
rewrite Hlu, Hll, Huu, Hul, Htu, Htl.
eexists. split; [reflexivity|].
split; [reflexivity|]. split; [reflexivity|].
destruct (in_list (lower s) _); [reflexivity|].
destruct (in_list (lower s) _); [reflexivity|].
destruct (String.eqb (lower s) "rf"); [reflexivity|].
destruct (truthy (VStr s)); [exact Huu | reflexivity].
Qed.

End LinkTypeFacts.

Section LinkTypeExamples.
Import PyStr PyVal Topology LinkTypeSpec.
Local Open Scope string_scope.

Lemma normalise_link_type_ignores_case_witness :
  normalise_link_type (VStr "WireGuard") = Ok (VStr "TUN")
  /\ normalise_link_type (VStr "WIREGUARD") = Ok (VStr "TUN")
  /\ normalise_link_type (VStr "wireguard") = Ok (VStr "TUN").
Proof.
destruct (@normalise_link_type_ignores_case "WireGuard" eq_refl)
  as (out & H1 & H2 & H3 & _).
assert (Hout : out = "TUN").
{ assert (H : normalise_link_type (VStr "WireGuard") = Ok (VStr "TUN"))
    by reflexivity.
  rewrite H1 in H. now injection H. }
subst out. repeat split; assumption.
Defined.

End LinkTypeExamples.


Section SilentSeed.
Import PyVal PyNum Eff World Topology Coordinator.
Local Open Scope string_scope.

Variable node_data_t : Type.
Variable env : environment node_data_t.

Lemma payload_list_falsy (payload : pyval) (k : string) :
  truthy (payload_list payload k) = false ->
  payload_list payload k = VList [].
Proof.
unfold payload_list, py_or.
destruct payload; try reflexivity.
destruct (truthy (VDict l)); [|reflexivity].
destruct (truthy (get_default l k (VList []))) eqn:E; [|reflexivity].
intro H. rewrite H in E. discriminate.
Qed.

(** The fetch over a payload without nodes: nothing is returned, and
    the statistics and the cycle counter stand. *)
Lemma fetch_topology_without_nodes
      (nodes_payload lqm_payload link_info_payload : pyval) (d : Daemon.t) :
  truthy (payload_list nodes_payload "nodes") = false ->
  let run := _fetch_topology nodes_payload lqm_payload link_info_payload d in
  (fst run = Ok VNone \/ exists e, fst run = Raise e)
  /\ (truthy (Daemon.localnode_ip d) = true -> exists e, fst run = Raise e)
  /\ Daemon.stats (snd run) = Daemon.stats d
  /\ Daemon.cycle_count (snd run) = Daemon.cycle_count d.
Proof.
intro Hempty. pose proof (payload_list_falsy _ _ Hempty) as Hlist.
cbv zeta. unfold _fetch_topology, mbind, lift, read, modify, ret, raise.
rewrite Hlist.
destruct (resolve_seed_ip nodes_payload);
  [|cbn; repeat split; eauto].
destruct (links_from_lqm lqm_payload);
  [|cbn; repeat split; eauto].
cbn [fst snd].
match goal with
| |- context [if ?c then assign _ _ _ else _] =>
    destruct (if c then assign _ _ _ else _);
    [|cbn; repeat split; eauto]
end.
cbn [Daemon.localnode_ip Daemon.with_nodelistNode_ip].
destruct (truthy (Daemon.localnode_ip d)); cbn.
- repeat split; eauto.
- repeat split; auto. discriminate.
Qed.

(** X24: a cycle whose seed lists no node (the seed did not answer, or
    answered without a node list) hands nothing to the store, creates no
    poll task and leaves every statistic as it was, while the cycle is
    counted all the same.  When it returns, all it did was log that the
    topology could not be retrieved; and once the daemon knows a
    [localnode_ip] such a cycle does not return but raises. *)
Theorem poll_cycle_without_nodes (s : state) :
  truthy (payload_list (nodes_payload env) "nodes") = false ->
  let run := _poll_cycle env s in
  executed (events (snd run)) = executed (events s)
  /\ scheduled (events (snd run)) = scheduled (events s)
  /\ Daemon.stats (self (snd run)) = Daemon.stats (self s)
  /\ Daemon.cycle_count (self (snd run))
     = (Daemon.cycle_count (self s) + 1)%Z
  /\ (fst run = Ok tt ->
      events (snd run) = (events s ++ [Logged Error_no_topology])%list)
  /\ (truthy (Daemon.localnode_ip (self s)) = true ->
      exists e, fst run = Raise e).
Proof.
intro Hempty. cbv zeta.
unfold _poll_cycle, mbind, read, on_self, modify.
cbn [fst snd self events].
set (d1 := Daemon.with_cycle_count (Daemon.cycle_count (self s) + 1)
                                   (self s)).
destruct (@fetch_topology_without_nodes (nodes_payload env)
            (lqm_payload env) (link_info_payload env) d1 Hempty)
  as (Hres & Hloc & Hstats & Hcount).
cbv zeta in Hres, Hloc, Hstats, Hcount.
destruct (_fetch_topology (nodes_payload env) (lqm_payload env)
                          (link_info_payload env) d1)
  as [[topology|e] d2]; cbn [fst snd] in *.
- destruct Hres as [[= ->] | [e He]]; [|discriminate].
  cbn [truthy]. unfold log, emit, on_events, modify.
  cbn [fst snd self events].
  rewrite executed_app, scheduled_app. cbn. rewrite !app_nil_r.
  repeat split; auto.
  intro Ht. destruct (Hloc Ht) as [e He]. discriminate.
- repeat split; auto; try discriminate. intros _. eauto.
Qed.

End SilentSeed.

Section SilentSeedExamples.
Import PyVal PyNum Eff World Topology Coordinator.
Local Open Scope string_scope.

Lemma poll_cycle_without_nodes_witness :
  let run := _poll_cycle Scenario.offline (boot Example.settings) in
  fst run = Ok tt
  /\ events (snd run) = [Logged Error_no_topology]
  /\ Daemon.cycle_count (self (snd run)) = 1%Z.
Proof.
cbv zeta.
pose proof (@poll_cycle_without_nodes _ Scenario.offline
              (boot Example.settings) eq_refl) as H.
cbv zeta in H. destruct H as (_ & _ & _ & Hc & Hlog & _).
assert (Hr : fst (_poll_cycle Scenario.offline (boot Example.settings))
             = Ok tt) by (vm_compute; reflexivity).
split; [exact Hr|]. split; [exact (Hlog Hr) | exact Hc].
Defined.

End SilentSeedExamples.

